(** * Sales warehouse lab: star schema, snowflake schema and their comparison

    A shallow embedding of the four Python programs of the repository

    - [generate_data.py]                 (synthetic flat dataset),
    - [schemas/star_schema.py]           (denormalised store),
    - [schemas/snowflake_schema.py]      (normalised store),
    - [queries/performance_comparison.py] (paired analytical queries),

    followed by the properties of the specification that were checked
    against them.

    Conventions of the embedding.
    - Python [int] is [Z]; Python [float] and SQLite [REAL] are exact
      rationals [Q] (rounding to decimals is modelled exactly, binary
      floating point is not modelled).
    - A pandas [DataFrame] is the list of its rows, a row is a record.
    - A SQLite database file is its catalogue ([sqlite_master]): the list of
      tables (with their rows) and indexes, in creation order.
    - Exceptions are values of [exn]; a computation that may raise returns a
      [result]. *)

From Stdlib Require Import ZArith QArith Qround Qabs Qpower Lqa List String Ascii Lia
  Permutation.
From stdpp Require Import base list strings pretty.

#[local] Open Scope string_scope.
#[local] Open Scope list_scope.
#[local] Open Scope Z_scope.

(* ===================================================================== *)
(** * 1. Exceptions and results *)
(* ===================================================================== *)

(** The exceptions the four programs can meet. [IOFault] stands for any
    error raised by a call into the file system, SQLite or the terminal for
    a reason outside the program (a full disk, a missing permission).
    [OutOfFuel] is not a Python exception: it marks a [while] loop of the
    model that ran out of its iteration bound (shown below never to
    happen). *)
Inductive exn : Type :=
| ValueError (msg : string)
| IndexError
| FileNotFoundError (path : string)
| OperationalError (msg : string)
| ZeroDivisionError
| ProgrammingError (msg : string)
| AttributeError (msg : string)
| IOFault
| OutOfFuel.

Inductive result (A : Type) : Type :=
| Ok (a : A)
| Raise (e : exn).
Arguments Ok {A} a.
Arguments Raise {A} e.

Definition result_bind {A B} (r : result A) (k : A -> result B) : result B :=
  match r with
  | Ok a => k a
  | Raise e => Raise e
  end.

Definition is_ok {A} (r : result A) : bool :=
  match r with Ok _ => true | Raise _ => false end.

(* ===================================================================== *)
(** * 2. The Python runtime pieces the programs use *)
(* ===================================================================== *)

(** ** 2.1 [round(x, ndigits)]: round half to even at [ndigits] decimals *)

Definition round_half_even (x : Q) : Z :=
  let f := Qfloor x in
  match Qcompare (x - inject_Z f) (1 # 2) with
  | Lt => f
  | Gt => f + 1
  | Eq => if Z.even f then f else f + 1
  end.

Definition pow10 (ndigits : nat) : positive := Pos.pow 10 (Pos.of_nat ndigits).

Definition py_round (x : Q) (ndigits : nat) : Q :=
  match ndigits with
  | O => inject_Z (round_half_even x)
  | S _ => Qmake (round_half_even (x * inject_Z (Zpos (pow10 ndigits)))) (pow10 ndigits)
  end.

(** ** 2.2 Python floats

    A [float] is an IEEE 754 binary64 number: a significand of 53 bits, the
    last of them worth [2^e] with [e >= -1074]. The numbers of the model are
    rationals; [fl x] is the double nearest to [x], a tie going to the even
    significand. It is what an arithmetic operation on floats returns when
    its exact result is [x], and what a decimal numeral [x] is read as.
    Numbers beyond the largest double (about 1.8e308), which Python turns
    into [inf], are outside the model. *)

(** [floor(log2(x))] of a positive number. *)
Definition binade (x : Q) : Z :=
  let k := (Z.log2 (Qnum x) - Z.log2 (Zpos (Qden x)))%Z in
  if Qle_bool (2 ^ k) x then k else (k - 1)%Z.

(** The exponent of the last bit of the doubles around [x]. *)
Definition ulp_exponent (x : Q) : Z := Z.max (binade (Qabs x) - 52) (-1074).

Definition fl (x : Q) : Q :=
  if Qeq_bool x 0 then 0%Q
  else (inject_Z (round_half_even (x / 2 ^ ulp_exponent x))
        * 2 ^ ulp_exponent x)%Q.

(** [round(x, decimals)] of a numpy [float64] [x]: numpy multiplies by
    [10^decimals], takes the nearest integer (ties to even) and divides. The
    quotient is the double nearest to [k / 10^decimals], which a CSV file
    shows as that decimal. *)
Definition np_round (x : Q) (decimals : nat) : Q :=
  match decimals with
  | O => inject_Z (round_half_even x)
  | S _ =>
      Qmake (round_half_even (fl (x * inject_Z (Zpos (pow10 decimals)))))
            (pow10 decimals)
  end.

(** ** 2.3 [range], [enumerate], string formatting *)

(** [range(lo, hi)] *)
Definition py_range (lo hi : Z) : list Z :=
  map (fun k => lo + Z.of_nat k) (seq 0 (Z.to_nat (hi - lo))).

(** [enumerate(xs, start)] *)
Fixpoint enumerate {A} (start : Z) (xs : list A) : list (Z * A) :=
  match xs with
  | [] => []
  | x :: rest => (start, x) :: enumerate (start + 1) rest
  end.

(** [len(xs)] *)
Definition len {A} (xs : list A) : Z := Z.of_nat (length xs).

Fixpoint repeat_string (n : nat) (s : string) : string :=
  match n with
  | O => ""
  | S n' => s +:+ repeat_string n' s
  end.

(** [f'{i:05d}'] for a non-negative [i] (the only use in the programs). *)
Definition format_05d (i : Z) : string :=
  let digits := pretty i in
  repeat_string (5 - String.length digits) "0" +:+ digits.

(** ** 2.3 [datetime]: the proleptic Gregorian calendar of CPython *)

Module Date.
Record t : Type := mk { year : Z; month : Z; day : Z }.
End Date.

Definition is_leap (y : Z) : bool :=
  (y mod 4 =? 0) && (negb (y mod 100 =? 0) || (y mod 400 =? 0)).

Definition DAYS_IN_MONTH : list Z :=
  [-1; 31; 28; 31; 30; 31; 30; 31; 31; 30; 31; 30; 31].

Definition DAYS_BEFORE_MONTH : list Z :=
  [-1; 0; 31; 59; 90; 120; 151; 181; 212; 243; 273; 304; 334].

Definition days_before_year (y : Z) : Z :=
  let y' := y - 1 in y' * 365 + y' / 4 - y' / 100 + y' / 400.

Definition days_in_month (y m : Z) : Z :=
  if (m =? 2) && is_leap y then 29 else nth (Z.to_nat m) DAYS_IN_MONTH 0.

Definition days_before_month (y m : Z) : Z :=
  nth (Z.to_nat m) DAYS_BEFORE_MONTH 0 + (if (2 <? m) && is_leap y then 1 else 0).

(** Day number of a date, 0001-01-01 being day 1 (a Monday). *)
Definition ymd2ord (y m d : Z) : Z :=
  days_before_year y + days_before_month y m + d.

Definition DI400Y : Z := 146097.
Definition DI100Y : Z := 36524.
Definition DI4Y : Z := 1461.

Definition ord2ymd (ordinal : Z) : Date.t :=
  let n := ordinal - 1 in
  let n400 := n / DI400Y in
  let n := n mod DI400Y in
  let year := n400 * 400 + 1 in
  let n100 := n / DI100Y in
  let n := n mod DI100Y in
  let n4 := n / DI4Y in
  let n := n mod DI4Y in
  let n1 := n / 365 in
  let n := n mod 365 in
  let year := year + n100 * 100 + n4 * 4 + n1 in
  if (n1 =? 4) || (n100 =? 4) then Date.mk (year - 1) 12 31
  else
    let leapyear := (n1 =? 3) && (negb (n4 =? 24) || (n100 =? 3)) in
    let month := Z.shiftr (n + 50) 5 in
    let preceding :=
      nth (Z.to_nat month) DAYS_BEFORE_MONTH 0
      + (if (2 <? month) && leapyear then 1 else 0) in
    if n <? preceding then
      let month := month - 1 in
      let preceding :=
        preceding
        - (nth (Z.to_nat month) DAYS_IN_MONTH 0
           + (if (month =? 2) && leapyear then 1 else 0)) in
      Date.mk year month (n - preceding + 1)
    else Date.mk year month (n - preceding + 1).

Definition toordinal (d : Date.t) : Z :=
  ymd2ord (Date.year d) (Date.month d) (Date.day d).

Definition fromordinal (n : Z) : Date.t := ord2ymd n.

(** [d + timedelta(days=n)] *)
Definition add_days (d : Date.t) (n : Z) : Date.t :=
  fromordinal (toordinal d + n).

(** [d1 <= d2]: comparison of the (year, month, day) triples. *)
Definition date_leb (d1 d2 : Date.t) : bool :=
  (Date.year d1 <? Date.year d2)
  || ((Date.year d1 =? Date.year d2)
      && ((Date.month d1 <? Date.month d2)
          || ((Date.month d1 =? Date.month d2)
              && (Date.day d1 <=? Date.day d2)))).

(** [d.weekday()]: Monday is 0, Sunday is 6. *)
Definition weekday (d : Date.t) : Z := (toordinal d + 6) mod 7.

Definition MONTH_NAMES : list string :=
  ["January"; "February"; "March"; "April"; "May"; "June"; "July";
   "August"; "September"; "October"; "November"; "December"].

Definition DAY_NAMES : list string :=
  ["Monday"; "Tuesday"; "Wednesday"; "Thursday"; "Friday"; "Saturday";
   "Sunday"].

(** [d.strftime('%B')] and [d.strftime('%A')] in the default (C) locale. *)
Definition strftime_B (d : Date.t) : string :=
  nth (Z.to_nat (Date.month d - 1)) MONTH_NAMES "".

Definition strftime_A (d : Date.t) : string :=
  nth (Z.to_nat (weekday d)) DAY_NAMES "".

(* ===================================================================== *)
(** * 3. Data model: the rows of the flat tables *)
(* ===================================================================== *)

(** One module per table keeps the column names of the source. *)

Module Country.
Record t : Type := mk { country_id : Z; country_name : string }.
End Country.

Module Region.
Record t : Type := mk { region_id : Z; region_name : string; country_id : Z }.
End Region.

Module City.
Record t : Type := mk { city_id : Z; city_name : string; region_id : Z }.
End City.

Module Category.
Record t : Type := mk { category_id : Z; category_name : string }.
End Category.

Module Subcategory.
Record t : Type :=
  mk { subcategory_id : Z; subcategory_name : string; category_id : Z }.
End Subcategory.

Module Product.
Record t : Type :=
  mk { product_id : Z; product_name : string; product_code : string;
       subcategory_id : Z; unit_price : Q }.
End Product.

Module Customer.
Record t : Type :=
  mk { customer_id : Z; customer_name : string; email : string;
       phone : string; city_id : Z; registration_date : Date.t }.
End Customer.

Module Salesperson.
Record t : Type :=
  mk { salesperson_id : Z; salesperson_name : string; hire_date : Date.t;
       region_id : Z }.
End Salesperson.

Module TimeRow.
Record t : Type :=
  mk { time_id : Z; date : Date.t; year : Z; quarter : string; month : Z;
       month_name : string; day : Z; weekday : Z; weekday_name : string }.
End TimeRow.

Module Sale.
Record t : Type :=
  mk { sale_id : Z; time_id : Z; product_id : Z; customer_id : Z;
       salesperson_id : Z; quantity : Z; unit_price : Q; discount : Q;
       total_amount : Q }.
End Sale.

(** The ten CSV files of the [data] directory, as typed frames. Writing a
    frame with [to_csv(index=False)] and reading it back with [read_csv]
    keeps its rows, so one record stands for both. *)
Record Dataset : Type := mkDataset {
  countries : list Country.t;
  regions : list Region.t;
  cities : list City.t;
  categories : list Category.t;
  subcategories : list Subcategory.t;
  products : list Product.t;
  customers : list Customer.t;
  sales_people : list Salesperson.t;
  time_dimension : list TimeRow.t;
  sales_facts : list Sale.t
}.

(* ===================================================================== *)
(** * 4. generate_data.py *)
(* ===================================================================== *)

Definition NUM_REGIONS : Z := 5.
Definition NUM_CITIES : Z := 20.
Definition NUM_COUNTRIES : Z := 3.
Definition NUM_CATEGORIES : Z := 8.
Definition NUM_SUBCATEGORIES : Z := 25.
Definition NUM_PRODUCTS : Z := 500.
Definition NUM_CUSTOMERS : Z := 2000.
Definition NUM_SALES_PEOPLE : Z := 50.
Definition NUM_SALES_RECORDS : Z := 50000.

(** ** 4.1 The sources of pseudo-randomness

    The script draws from three seeded generators: Python's [random],
    numpy's global state (behind [DataFrame.sample]) and Faker. Their state
    is one abstract value of type [St]; the operations are those the script
    calls, with the ranges their documentation promises. Every statement
    below holds for any such source, hence for the seed the script fixes. *)
Class PyRuntime (St : Type) : Type := {
  (** [random.randint(a, b)] *)
  random_randint : Z -> Z -> St -> Z * St;
  (** [random.uniform(a, b)] *)
  random_uniform : Q -> Q -> St -> Q * St;
  (** position drawn by [df.sample(1)] in a frame of [n] rows *)
  np_sample_index : nat -> St -> nat * St;
  fake_word : St -> string * St;
  fake_name : St -> string * St;
  fake_email : St -> string * St;
  fake_phone_number : St -> string * St;
  (** [fake.date_between(start_date=.., end_date=..)] *)
  fake_date_between : string -> string -> St -> Date.t * St;
  (** [str.capitalize] *)
  str_capitalize : string -> string;
  random_randint_range :
    forall a b s, a <= b -> a <= fst (random_randint a b s) <= b;
  random_uniform_range :
    forall a b s, (a <= b)%Q ->
                  (a <= fst (random_uniform a b s) <= b)%Q;
  np_sample_index_lt :
    forall n s, (0 < n)%nat -> (fst (np_sample_index n s) < n)%nat
}.

(** ** 4.2 Computations over the random state that may raise *)

Definition M (St A : Type) : Type := St -> result (A * St).

Definition ret {St A} (a : A) : M St A := fun s => Ok (a, s).

Definition bind {St A B} (m : M St A) (k : A -> M St B) : M St B :=
  fun s =>
    match m s with
    | Ok (a, s') => k a s'
    | Raise e => Raise e
    end.

Definition raise {St A} (e : exn) : M St A := fun _ => Raise e.

(** A call that cannot raise. *)
Definition call {St A} (f : St -> A * St) : M St A := fun s => Ok (f s).

Notation "'let*' x ':=' m 'in' k" := (bind m (fun x => k))
  (at level 10, x binder, k at level 200).

(** The result of a loop of the model that is bounded by fuel. *)
Definition within_fuel {St A} (o : option A) : M St A :=
  match o with
  | Some a => ret a
  | None => raise OutOfFuel
  end.

(** [for x in xs: out.append(body(x))] *)
Fixpoint for_each {St A B} (xs : list A) (body : A -> M St B) : M St (list B) :=
  match xs with
  | [] => ret []
  | x :: rest =>
      let* b := body x in
      let* bs := for_each rest body in
      ret (b :: bs)
  end.

Section Generator.
Context {St : Type} `{PyRuntime St}.

(** [df.sample(1).iloc[0]]: pandas raises [ValueError] on an empty frame. *)
Definition sample_row {A} (df : list A) : M St A :=
  match df with
  | [] => raise (ValueError "a must be greater than 0 unless no samples are taken")
  | _ :: _ =>
      let* i := call (np_sample_index (length df)) in
      match nth_error df i with
      | Some row => ret row
      | None => raise IndexError
      end
  end.

Definition country_names : list string := ["Україна"; "Польща"; "Німеччина"].

Definition ukrainian_regions : list string :=
  ["Київська"; "Львівська"; "Одеська"; "Харківська"; "Дніпропетровська"].

Definition ukrainian_cities : list string :=
  ["Київ"; "Львів"; "Одеса"; "Харків"; "Дніпро"; "Запоріжжя";
   "Вінниця"; "Полтава"; "Чернівці"; "Івано-Франківськ";
   "Тернопіль"; "Житомир"; "Черкаси"; "Суми"; "Рівне";
   "Хмельницький"; "Чернігів"; "Кропивницький"; "Миколаїв"; "Ужгород"].

Definition generate_geography_data
  : M St (list Country.t * list Region.t * list City.t) :=
  let countries :=
    map (fun '(i, name) => Country.mk i name) (enumerate 1 country_names) in
  let regions :=
    map (fun '(i, region) => Region.mk i (region +:+ " область") 1)
        (enumerate 1 ukrainian_regions) in
  let* cities := for_each (enumerate 1 ukrainian_cities)
              (fun '(i, city) =>
                 let* region_id := call (random_randint 1 NUM_REGIONS) in
                 ret (City.mk i city region_id)) in
  ret (countries, regions, cities).

Definition category_names : list string :=
  ["Електроніка"; "Одяг"; "Книги"; "Дім і сад"; "Спорт"; "Авто"; "Краса"; "Їжа"].

Definition subcategory_data : list (Z * list string) :=
  [(1, ["Смартфони"; "Ноутбуки"; "Телевізори"]);
   (2, ["Сорочки"; "Джинси"; "Взуття"]);
   (3, ["Фантастика"; "Детективи"; "Навчальна література"]);
   (4, ["Меблі"; "Інструменти"; "Декор"]);
   (5, ["Фітнес"; "Туризм"; "Командні види спорту"]);
   (6, ["Шини"; "Масла"; "Аксесуари"]);
   (7, ["Косметика"; "Парфуми"; "Догляд"]);
   (8, ["М'ясо"; "Овочі"; "Солодощі"])].

(** The two nested loops that number the subcategories: the state of the
    loops is the list built so far and the running [subcategory_id]. *)
Definition generate_subcategories : list Subcategory.t :=
  fst
    (fold_left
       (fun '(acc, subcategory_id) '(category_id, subcats) =>
          fold_left
            (fun '(acc, subcategory_id) subcat_name =>
               (acc ++ [Subcategory.mk subcategory_id subcat_name category_id],
                subcategory_id + 1))
            subcats (acc, subcategory_id))
       subcategory_data ([], 1)).

Definition generate_product_data
  : M St (list Category.t * list Subcategory.t * list Product.t) :=
  let categories :=
    map (fun '(i, name) => Category.mk i name) (enumerate 1 category_names) in
  let subcategories := generate_subcategories in
  let* products := for_each (py_range 1 (NUM_PRODUCTS + 1))
                (fun i =>
                   let* subcategory_id := call (random_randint 1 (len subcategories)) in
                   let* w1 := call fake_word in
                   let* w2 := call fake_word in
                   let* price := call (random_uniform (10 # 1) (5000 # 1)) in
                   ret (Product.mk i
                          (str_capitalize w1 +:+ " " +:+ str_capitalize w2)
                          ("PRD" +:+ format_05d i)
                          subcategory_id
                          (py_round price 2))) in
  ret (categories, subcategories, products).

Definition generate_customer_data : M St (list Customer.t) :=
  for_each (py_range 1 (NUM_CUSTOMERS + 1))
    (fun i =>
       let* name := call fake_name in
       let* email := call fake_email in
       let* phone := call fake_phone_number in
       let* city_id := call (random_randint 1 NUM_CITIES) in
       let* registered := call (fake_date_between "-3y" "today") in
       ret (Customer.mk i name email phone city_id registered)).

Definition generate_sales_people_data : M St (list Salesperson.t) :=
  for_each (py_range 1 (NUM_SALES_PEOPLE + 1))
    (fun i =>
       let* name := call fake_name in
       let* hired := call (fake_date_between "-5y" "-1y") in
       let* region_id := call (random_randint 1 NUM_REGIONS) in
       ret (Salesperson.mk i name hired region_id)).

Definition start_date : Date.t := Date.mk 2022 1 1.
Definition end_date : Date.t := Date.mk 2024 12 31.

Definition time_row (time_id : Z) (current_date : Date.t) : TimeRow.t :=
  TimeRow.mk time_id
    current_date
    (Date.year current_date)
    ("Q" +:+ pretty ((Date.month current_date - 1) / 3 + 1))
    (Date.month current_date)
    (strftime_B current_date)
    (Date.day current_date)
    (weekday current_date + 1)
    (strftime_A current_date).

(** [while current_date <= end_date: ...]; [fuel] bounds the number of
    iterations, [None] means the bound was reached. *)
Fixpoint generate_time_loop (fuel : nat) (current_date : Date.t) (time_id : Z)
    (time_data : list TimeRow.t) : option (list TimeRow.t) :=
  match fuel with
  | O => None
  | S fuel' =>
      if date_leb current_date end_date
      then generate_time_loop fuel' (add_days current_date 1) (time_id + 1)
             (time_data ++ [time_row time_id current_date])
      else Some time_data
  end.

(** One more than the number of days from [start_date] to [end_date]. *)
Definition time_loop_fuel : nat :=
  Z.to_nat (toordinal end_date - toordinal start_date + 2).

Definition generate_time_data : M St (list TimeRow.t) :=
  within_fuel (generate_time_loop time_loop_fuel start_date 1 []).

Definition generate_sales_data (time_df : list TimeRow.t)
    (products_df : list Product.t) (customers_df : list Customer.t)
    (sales_people_df : list Salesperson.t) : M St (list Sale.t) :=
  for_each (py_range 1 (NUM_SALES_RECORDS + 1))
    (fun i =>
       let* time_record := sample_row time_df in
       let* product_record := sample_row products_df in
       let* customer_record := sample_row customers_df in
       let* salesperson_record := sample_row sales_people_df in
       let* quantity := call (random_randint 1 10) in
       let unit_price := Product.unit_price product_record in
       let* u := call (random_uniform 0 (2 # 10)) in
       let discount := py_round u 3 in
       (* [unit_price] comes out of a row of the frame as a numpy float64,
          so the product is one as well and [round] is numpy's *)
       let total_amount :=
         np_round (fl (fl (inject_Z quantity * fl unit_price)
                       * fl (1 - fl discount))) 2 in
       ret (Sale.mk i
              (TimeRow.time_id time_record)
              (Product.product_id product_record)
              (Customer.customer_id customer_record)
              (Salesperson.salesperson_id salesperson_record)
              quantity unit_price discount total_amount)).

(** The frames [save_data_to_csv] writes to the [data] directory. *)
Definition save_data_to_csv : M St Dataset :=
  let* geo := generate_geography_data in
  let '(countries_df, regions_df, cities_df) := geo in
  let* prod := generate_product_data in
  let '(categories_df, subcategories_df, products_df) := prod in
  let* customers_df := generate_customer_data in
  let* sales_people_df := generate_sales_people_data in
  let* time_df := generate_time_data in
  let* sales_df := generate_sales_data time_df products_df customers_df sales_people_df in
  ret (mkDataset countries_df regions_df cities_df categories_df
         subcategories_df products_df customers_df sales_people_df
         time_df sales_df).

End Generator.

(** ** 4.3 Total correctness of a generator step

    [returns m P]: from every random state, [m] raises nothing and its value
    satisfies [P]. *)
Definition returns {St A} (m : M St A) (P : A -> Prop) : Prop :=
  forall s, exists a s', m s = Ok (a, s') /\ P a.

(** Every value of the column [fk] of [child] is a value of the column [pk]
    of [parent]. *)
Definition resolves {A B} (fk : A -> Z) (pk : B -> Z)
    (child : list A) (parent : list B) : Prop :=
  Forall (fun a => exists b, In b parent /\ pk b = fk a) child.

(** ** 4.4 What the specification says of the generated rows *)

(** ISO weekday number of a Gregorian date by Zeller's congruence (Monday is
    1, Sunday is 7): the reference the [weekday] column is compared with. It
    is not part of the program. *)
Definition zeller_iso_weekday (d : Date.t) : Z :=
  let q := Date.day d in
  let m := if Date.month d <? 3 then Date.month d + 12 else Date.month d in
  let y := if Date.month d <? 3 then Date.year d - 1 else Date.year d in
  let K := y mod 100 in
  let J := y / 100 in
  let h := (q + (13 * (m + 1)) / 5 + K + K / 4 + J / 4 + 5 * J) mod 7 in
  (h + 5) mod 7 + 1.

(** The derived columns of a time row agree with its date. *)
Definition time_row_consistent (r : TimeRow.t) : Prop :=
  TimeRow.year r = Date.year (TimeRow.date r) /\
  TimeRow.month r = Date.month (TimeRow.date r) /\
  TimeRow.day r = Date.day (TimeRow.date r) /\
  (exists k, TimeRow.quarter r = "Q" +:+ pretty k
             /\ 3 * (k - 1) < TimeRow.month r <= 3 * k) /\
  1 <= TimeRow.weekday r <= 7 /\
  TimeRow.weekday r = zeller_iso_weekday (TimeRow.date r) /\
  nth_error DAY_NAMES (Z.to_nat (TimeRow.weekday r - 1))
  = Some (TimeRow.weekday_name r).

(** The same, as a test that can be run on a row. *)
Definition time_row_check (r : TimeRow.t) : bool :=
  let d := TimeRow.date r in
  let k := (TimeRow.month r + 2) / 3 in
  (TimeRow.year r =? Date.year d)
  && (TimeRow.month r =? Date.month d)
  && (TimeRow.day r =? Date.day d)
  && String.eqb (TimeRow.quarter r) ("Q" +:+ pretty k)
  && (3 * (k - 1) <? TimeRow.month r) && (TimeRow.month r <=? 3 * k)
  && (1 <=? TimeRow.weekday r) && (TimeRow.weekday r <=? 7)
  && (TimeRow.weekday r =? zeller_iso_weekday d)
  && match nth_error DAY_NAMES (Z.to_nat (TimeRow.weekday r - 1)) with
     | Some name => String.eqb name (TimeRow.weekday_name r)
     | None => false
     end.


(** The measures of a fact row as the script computes them: the total is
    the product of the three doubles, taken in floats from left to right and
    rounded by numpy; it is within half a cent, and the error of the float
    operations, of the exact product. *)
Definition sale_measures_float (products_df : list Product.t) (f : Sale.t) : Prop :=
  1 <= Sale.quantity f /\
  (exists p, In p products_df
             /\ Product.product_id p = Sale.product_id f
             /\ Product.unit_price p = Sale.unit_price f
             /\ forall p', In p' products_df ->
                           Product.product_id p' = Sale.product_id f -> p' = p) /\
  (0 <= Sale.discount f)%Q /\ (Sale.discount f <= 2 # 10)%Q /\
  Sale.total_amount f
  = np_round (fl (fl (inject_Z (Sale.quantity f) * fl (Sale.unit_price f))
                  * fl (1 - fl (Sale.discount f)))) 2 /\
  (Qabs (Sale.total_amount f
         - inject_Z (Sale.quantity f) * Sale.unit_price f
           * (1 - Sale.discount f))
   <= (1 # 200) + (1 # 1000000000))%Q.

(** The four foreign keys of a fact row resolve in the given dimensions. *)
Definition sale_keys_resolve {T P C SP}
    (time_id : T -> Z) (product_id : P -> Z) (customer_id : C -> Z)
    (salesperson_id : SP -> Z)
    (dim_time : list T) (dim_product : list P) (dim_customer : list C)
    (dim_salesperson : list SP) (f : Sale.t) : Prop :=
  (exists t, In t dim_time /\ time_id t = Sale.time_id f) /\
  (exists p, In p dim_product /\ product_id p = Sale.product_id f) /\
  (exists c, In c dim_customer /\ customer_id c = Sale.customer_id f) /\
  (exists s, In s dim_salesperson /\ salesperson_id s = Sale.salesperson_id f).

(** Foreign keys of the flat dataset. *)
Definition flat_keys_resolve (ds : Dataset) : Prop :=
  Forall (sale_keys_resolve TimeRow.time_id Product.product_id
            Customer.customer_id Salesperson.salesperson_id
            (time_dimension ds) (products ds) (customers ds) (sales_people ds))
         (sales_facts ds).

(* ===================================================================== *)
(** * 5. The relational store (SQLite) and pandas' bridge to it *)
(* ===================================================================== *)

(** ** 5.1 Rows of the denormalised (star) dimensions *)

Module DimProduct.
Record t : Type :=
  mk { product_id : Z; product_name : string; product_code : string;
       unit_price : Q; subcategory_name : string; category_name : string }.
End DimProduct.

Module DimCustomer.
Record t : Type :=
  mk { customer_id : Z; customer_name : string; email : string;
       phone : string; registration_date : Date.t; city_name : string;
       region_name : string; country_name : string }.
End DimCustomer.

Module DimSalesperson.
Record t : Type :=
  mk { salesperson_id : Z; salesperson_name : string; hire_date : Date.t;
       region_name : string; country_name : string }.
End DimSalesperson.

(** ** 5.2 Tables, indexes and the catalogue *)

(** The content of a table: one shape per kind of row. *)
Inductive relation : Type :=
| Countries (rows : list Country.t)
| Regions (rows : list Region.t)
| Cities (rows : list City.t)
| Categories (rows : list Category.t)
| Subcategories (rows : list Subcategory.t)
| Products (rows : list Product.t)
| Customers (rows : list Customer.t)
| Salespeople (rows : list Salesperson.t)
| TimeRows (rows : list TimeRow.t)
| Sales (rows : list Sale.t)
| DimProducts (rows : list DimProduct.t)
| DimCustomers (rows : list DimCustomer.t)
| DimSalespeople (rows : list DimSalesperson.t).

Definition columns (r : relation) : list string :=
  match r with
  | Countries _ => ["country_id"; "country_name"]
  | Regions _ => ["region_id"; "region_name"; "country_id"]
  | Cities _ => ["city_id"; "city_name"; "region_id"]
  | Categories _ => ["category_id"; "category_name"]
  | Subcategories _ => ["subcategory_id"; "subcategory_name"; "category_id"]
  | Products _ =>
      ["product_id"; "product_name"; "product_code"; "subcategory_id"; "unit_price"]
  | Customers _ =>
      ["customer_id"; "customer_name"; "email"; "phone"; "city_id";
       "registration_date"]
  | Salespeople _ => ["salesperson_id"; "salesperson_name"; "hire_date"; "region_id"]
  | TimeRows _ =>
      ["time_id"; "date"; "year"; "quarter"; "month"; "month_name"; "day";
       "weekday"; "weekday_name"]
  | Sales _ =>
      ["sale_id"; "time_id"; "product_id"; "customer_id"; "salesperson_id";
       "quantity"; "unit_price"; "discount"; "total_amount"]
  | DimProducts _ =>
      ["product_id"; "product_name"; "product_code"; "unit_price";
       "subcategory_name"; "category_name"]
  | DimCustomers _ =>
      ["customer_id"; "customer_name"; "email"; "phone"; "registration_date";
       "city_name"; "region_name"; "country_name"]
  | DimSalespeople _ =>
      ["salesperson_id"; "salesperson_name"; "hire_date"; "region_name";
       "country_name"]
  end.

(** A row of [sqlite_master]. *)
Inductive schema_object : Type :=
| Table (name : string) (content : relation)
| Index (name : string) (tbl_name : string) (column : string).

(** A database file: its catalogue, in creation order. A file that does not
    exist yet and a file without any object are the same empty catalogue:
    [sqlite3.connect] creates the file that is missing, and reads an empty
    one as a database without objects. Names are compared letter for
    letter; SQLite takes two names that differ in the case of their letters
    only for one name, so a catalogue is meant to hold no two such names. *)
Definition Database : Type := list schema_object.

Definition object_name (o : schema_object) : string :=
  match o with
  | Table name _ => name
  | Index name _ _ => name
  end.

(** The table an object belongs to: a table to itself, an index to the
    table it is on. *)
Definition owner_table (o : schema_object) : string :=
  match o with
  | Table name _ => name
  | Index _ tbl_name _ => tbl_name
  end.

Definition is_index (o : schema_object) : bool :=
  match o with
  | Table _ _ => false
  | Index _ _ _ => true
  end.

Fixpoint find_table (name : string) (db : Database) : option relation :=
  match db with
  | [] => None
  | Table n content :: rest =>
      if String.eqb n name then Some content else find_table name rest
  | Index _ _ _ :: rest => find_table name rest
  end.

Definition name_taken (name : string) (db : Database) : bool :=
  existsb (fun o => String.eqb (object_name o) name) db.

(** [DROP TABLE]: the table goes, and with it every index on it. *)
Definition drop_table (name : string) (db : Database) : Database :=
  List.filter (fun o => negb (String.eqb (owner_table o) name)) db.

(** The data-definition statements the builders send to [conn.execute];
    [unique] lists the columns a [CREATE TABLE] declares [UNIQUE]. *)
Inductive statement : Type :=
| DropTableIfExists (name : string)
| CreateTable (name : string) (empty : relation) (unique : list string)
| CreateIndex (name : string) (tbl_name : string) (column : string).

(** The indexes SQLite makes by itself for the [UNIQUE] columns of a new
    table: [sqlite_autoindex_<table>_1], [..._2], ... *)
Definition autoindexes (name : string) (unique : list string)
  : list schema_object :=
  map (fun '(i, column) =>
         Index ("sqlite_autoindex_" +:+ name +:+ "_" +:+ pretty i) name column)
      (enumerate 1 unique).

(** What SQLite answers when the name of a new table or index is taken: by
    an object of the same kind, or by one of the other kind. *)
Definition taken_message (index : bool) (name : string) (db : Database)
  : string :=
  match List.find (fun o => String.eqb (object_name o) name) db with
  | Some (Table _ _) =>
      if index then "there is already a table named " +:+ name
      else "table " +:+ name +:+ " already exists"
  | Some (Index _ _ _) =>
      if index then "index " +:+ name +:+ " already exists"
      else "there is already an index named " +:+ name
  | None => ""
  end.

Definition execute (stmt : statement) (db : Database) : result Database :=
  match stmt with
  | DropTableIfExists name => Ok (drop_table name db)
  | CreateTable name empty unique =>
      if name_taken name db
      then Raise (OperationalError (taken_message false name db))
      else Ok (db ++ Table name empty :: autoindexes name unique)
  | CreateIndex name tbl_name column =>
      match find_table tbl_name db with
      | None => Raise (OperationalError ("no such table: main." +:+ tbl_name))
      | Some content =>
          if name_taken name db
          then Raise (OperationalError (taken_message true name db))
          else
            if existsb (String.eqb column) (columns content)
            then Ok (db ++ [Index name tbl_name column])
            else Raise (OperationalError ("no such column: " +:+ column))
      end
  end.

(** [for stmt in stmts: conn.execute(stmt)] *)
Fixpoint execute_all (stmts : list statement) (db : Database) : result Database :=
  match stmts with
  | [] => Ok db
  | stmt :: rest => result_bind (execute stmt db) (execute_all rest)
  end.

(** [frame.to_sql(name, conn, if_exists='replace', index=False)]: pandas
    drops the table when it exists, creates it anew (it declares no column
    [UNIQUE]) and inserts the rows. *)
Definition to_sql (name : string) (frame : relation) (db : Database)
  : result Database :=
  let db := match find_table name db with
            | Some _ => drop_table name db
            | None => db
            end in
  execute (CreateTable name frame []) db.

(** What is left of a database for a reader: the tables (with their rows)
    and the indexes. *)
Definition indexes_of (db : Database) : list schema_object :=
  List.filter is_index db.

Definition tables_of (db : Database) : list schema_object :=
  List.filter (fun o => negb (is_index o)) db.

(** [left.merge(right, on=key)]: pandas' inner join, in the order of the
    left rows. *)
Definition merge {A B} (left : list A) (right : list B)
    (left_on : A -> Z) (right_on : B -> Z) : list (A * B) :=
  flat_map (fun a => map (pair a)
                       (List.filter (fun b => right_on b =? left_on a) right))
           left.

(** [pd.read_csv] of the ten files: the directory either holds the dataset
    or the files are missing. *)
Definition read_csv_files (data_dir : option Dataset) : result Dataset :=
  match data_dir with
  | Some ds => Ok ds
  | None => Raise (FileNotFoundError "data/countries.csv")
  end.

(** ** 5.3 Programs that act on the outside world

    The entry points open connections, print and read the clock. The world
    they act on holds the two database files, the [data] directory, every
    connection made so far (a handle is a position in that list), the
    readings the clock will give, and for each coming call that can fail
    (into the file system, SQLite or the terminal) whether it does. A program
    keeps the state it reached when it raises. *)

Inductive db_file : Type :=
| StarFile       (* data/star_schema.db *)
| SnowflakeFile. (* data/snowflake_schema.db *)

Record Connection : Type := mkConnection {
  conn_file : db_file;
  conn_open : bool
}.

(** [len(s)] of a Python [str]: its number of characters, that is the bytes
    of its UTF-8 form that are not continuation bytes. *)
Fixpoint py_len (s : string) : Z :=
  match s with
  | EmptyString => 0
  | String c rest =>
      (if (128 <=? Z.of_N (N_of_ascii c)) && (Z.of_N (N_of_ascii c) <? 192)
       then 0 else 1) + py_len rest
  end.

(** What the programs print, with the numbers kept as numbers. *)
Inductive output : Type :=
| Text (line : string)
| TextWith (line : string) (arg : string)
| Heading (index : Z) (name : string)
| Rule (symbol : string) (width : Z)
| Millis (label : string) (ms : Q)
| Times (label : string) (ratio : Q)
| Score (label : string) (wins total : Z)
| RowCount (table : string) (count : Z)
| ErrorLine (e : exn)
(* a line of the schema report for the column [name]; the line also shows
   the declared type of the column, which the model does not keep *)
| Column (name : string).

(** [data_dir] stands for the ten CSV files of the [data] directory and
    [chart] for [data/performance_comparison.png]: the picture is kept as
    the numbers it shows, one (query name, star time, snowflake time) per
    entry it was drawn from. *)
Record World : Type := mkWorld {
  star_db : Database;
  snowflake_db : Database;
  data_dir : option Dataset;
  chart : option (list (string * Q * Q));
  connections : list Connection;
  clock : nat -> Q;
  ticks : nat;
  faults : list bool;
  stdout : list output
}.

Definition file_content (f : db_file) (w : World) : Database :=
  match f with
  | StarFile => star_db w
  | SnowflakeFile => snowflake_db w
  end.

Definition set_file_content (f : db_file) (db : Database) (w : World) : World :=
  match f with
  | StarFile =>
      mkWorld db (snowflake_db w) (data_dir w) (chart w) (connections w) (clock w)
        (ticks w) (faults w) (stdout w)
  | SnowflakeFile =>
      mkWorld (star_db w) db (data_dir w) (chart w) (connections w) (clock w)
        (ticks w) (faults w) (stdout w)
  end.

Definition set_connections (cs : list Connection) (w : World) : World :=
  mkWorld (star_db w) (snowflake_db w) (data_dir w) (chart w) cs (clock w)
    (ticks w)
    (faults w) (stdout w).

Definition set_ticks (n : nat) (w : World) : World :=
  mkWorld (star_db w) (snowflake_db w) (data_dir w) (chart w) (connections w)
    (clock w) n
    (faults w) (stdout w).

Definition set_faults (fs : list bool) (w : World) : World :=
  mkWorld (star_db w) (snowflake_db w) (data_dir w) (chart w) (connections w)
    (clock w) (ticks w) fs (stdout w).

Definition set_chart (c : option (list (string * Q * Q))) (w : World) : World :=
  mkWorld (star_db w) (snowflake_db w) (data_dir w) c (connections w)
    (clock w) (ticks w) (faults w) (stdout w).

Definition set_stdout (out : list output) (w : World) : World :=
  mkWorld (star_db w) (snowflake_db w) (data_dir w) (chart w) (connections w)
    (clock w) (ticks w) (faults w) out.

(** The state of a program: the object it runs on ([self]) and the world. *)
Record State (O : Type) : Type := mkState { self : O; world : World }.
Arguments mkState {O} self world.
Arguments self {O} s.
Arguments world {O} s.

Definition Prog (O A : Type) : Type := State O -> result A * State O.

Definition pure {O A} (a : A) : Prog O A := fun st => (Ok a, st).

Definition throw {O A} (e : exn) : Prog O A := fun st => (Raise e, st).

Definition and_then {O A B} (m : Prog O A) (k : A -> Prog O B) : Prog O B :=
  fun st =>
    match m st with
    | (Ok a, st') => k a st'
    | (Raise e, st') => (Raise e, st')
    end.

Notation "'let+' x ':=' m 'in' k" := (and_then m (fun x => k))
  (at level 10, x binder, k at level 200).
Notation "m ';;' k" := (and_then m (fun _ => k))
  (at level 100, k at level 200, right associativity).

(** [try: body  except Exception as e: handler(e)] *)
Definition try_except {O A} (body : Prog O A) (handler : exn -> Prog O A)
  : Prog O A :=
  fun st =>
    match body st with
    | (Ok a, st') => (Ok a, st')
    | (Raise e, st') => handler e st'
    end.

(** [try: body  finally: cleanup]: the cleanup always runs; what it raises
    replaces the outcome of the body. *)
Definition try_finally {O A} (body : Prog O A) (cleanup : Prog O unit)
  : Prog O A :=
  fun st =>
    match body st with
    | (outcome, st') =>
        match cleanup st' with
        | (Ok _, st'') => (outcome, st'')
        | (Raise e, st'') => (Raise e, st'')
        end
    end.

(** [for x in xs: body(x)] *)
Fixpoint for_in {O A} (xs : list A) (body : A -> Prog O unit) : Prog O unit :=
  match xs with
  | [] => pure tt
  | x :: rest => body x ;; for_in rest body
  end.

Definition get_self {O} : Prog O O := fun st => (Ok (self st), st).

Definition set_self {O} (o : O) : Prog O unit :=
  fun st => (Ok tt, mkState o (world st)).

(** A step that acts on the world only. *)
Definition on_world {O A} (f : World -> result A * World) : Prog O A :=
  fun st => let '(r, w) := f (world st) in (r, mkState (self st) w).

(** A call that can fail for reasons outside the program. *)
Definition fallible (w : World) : result unit * World :=
  match faults w with
  | true :: rest => (Raise IOFault, set_faults rest w)
  | false :: rest => (Ok tt, set_faults rest w)
  | [] => (Ok tt, w)
  end.

(** [print(...)] *)
Definition print {O} (o : output) : Prog O unit :=
  on_world (fun w =>
    match fallible w with
    | (Ok _, w') => (Ok tt, set_stdout (stdout w' ++ [o]) w')
    | (Raise e, w') => (Raise e, w')
    end).

(** [time.time()] *)
Definition time_time {O} : Prog O Q :=
  on_world (fun w => (Ok (clock w (ticks w)), set_ticks (S (ticks w)) w)).

(** [sqlite3.connect(path)]: a new open connection; its handle. A database
    file that is missing is created without any object in it, which leaves
    the [Database] as it is, see [Database]. *)
Definition sqlite3_connect {O} (f : db_file) : Prog O nat :=
  on_world (fun w =>
    match fallible w with
    | (Ok _, w') =>
        (Ok (length (connections w')),
         set_connections (connections w' ++ [mkConnection f true]) w')
    | (Raise e, w') => (Raise e, w')
    end).

(** [conn.close()] *)
Definition connection_close {O} (handle : nat) : Prog O unit :=
  on_world (fun w =>
    (Ok tt,
     set_connections
       (alter (fun c => mkConnection (conn_file c) false) handle (connections w))
       w)).

(** One call on an open connection: [action] reads and rewrites the
    database file behind it. *)
Definition connection_call {O A} (handle : nat)
    (action : Database -> result (Database * A)) : Prog O A :=
  on_world (fun w =>
    match fallible w with
    | (Raise e, w') => (Raise e, w')
    | (Ok _, w') =>
        match connections w' !! handle with
        | Some c =>
            if conn_open c
            then match action (file_content (conn_file c) w') with
                 | Ok (db, a) => (Ok a, set_file_content (conn_file c) db w')
                 | Raise e => (Raise e, w')
                 end
            else (Raise (ProgrammingError "Cannot operate on a closed database."), w')
        | None => (Raise (ProgrammingError "no such connection"), w')
        end
    end).

(** [pd.read_csv] of the ten files *)
Definition read_csv_all {O} : Prog O Dataset :=
  on_world (fun w =>
    match fallible w with
    | (Raise e, w') => (Raise e, w')
    | (Ok _, w') => (read_csv_files (data_dir w'), w')
    end).

(** ** 5.4 What the two builder classes share

    [StarSchemaBuilder] and [SnowflakeSchemaBuilder] differ in their
    statements, frames and messages only. *)

Record Builder : Type := mkBuilder {
  db_path : db_file;
  conn : option nat
}.

Definition path_of (f : db_file) : string :=
  match f with
  | StarFile => "data/star_schema.db"
  | SnowflakeFile => "data/snowflake_schema.db"
  end.

(** [self.conn.<method>(...)]: [None] has no such attribute. *)
Definition self_conn : Prog Builder nat :=
  let+ b := get_self in
  match conn b with
  | Some handle => pure handle
  | None => throw (AttributeError "'NoneType' object has no attribute")
  end.

Definition connect : Prog Builder unit :=
  let+ b := get_self in
  (* os.makedirs(os.path.dirname(self.db_path), exist_ok=True) *)
  on_world fallible ;;
  let+ handle := sqlite3_connect (db_path b) in
  set_self (mkBuilder (db_path b) (Some handle)) ;;
  print (TextWith "Підключено до бази даних: " (path_of (db_path b))).

Definition disconnect : Prog Builder unit :=
  let+ b := get_self in
  match conn b with
  | Some handle =>
      connection_close handle ;;
      print (Text "Відключено від бази даних")
  | None => pure tt
  end.

(** [self.conn.execute(stmt)] *)
Definition conn_execute (stmt : statement) : Prog Builder unit :=
  let+ handle := self_conn in
  connection_call handle (fun db => result_bind (execute stmt db) (fun db' => Ok (db', tt))).

(** [self.conn.commit()] *)
Definition conn_commit : Prog Builder unit :=
  let+ handle := self_conn in
  connection_call handle (fun db => Ok (db, tt)).

Definition create_schema (stmts : list statement) (done : string)
  : Prog Builder unit :=
  for_in stmts conn_execute ;;
  conn_commit ;;
  print (Text done).

Definition load_data_into (frames : Dataset -> list (string * relation))
    (stats : Dataset -> list (string * Z)) (loaded : string)
  : Prog Builder (list (string * Z)) :=
  let+ ds := read_csv_all in
  let+ handle := self_conn in
  for_in (frames ds)
    (fun '(name, frame) =>
       connection_call handle
         (fun db => result_bind (to_sql name frame db) (fun db' => Ok (db', tt)))) ;;
  conn_commit ;;
  print (Text loaded) ;;
  for_in (stats ds) (fun '(table, count) => print (RowCount table count)) ;;
  pure (stats ds).

(** The words SQLite (3.40) does not read as a name where
    [PRAGMA table_info(...)] expects one. *)
Definition reserved_words : list string :=
  ["add"; "all"; "alter"; "and"; "as"; "autoincrement"; "between"; "case";
   "check"; "collate"; "commit"; "constraint"; "create"; "deferrable";
   "distinct"; "drop"; "else"; "escape"; "except"; "exists"; "foreign";
   "from"; "group"; "having"; "in"; "index"; "insert"; "intersect"; "into";
   "is"; "isnull"; "join"; "limit"; "not"; "nothing"; "notnull"; "null";
   "or"; "order"; "primary"; "references"; "returning"; "select"; "set";
   "table"; "then"; "to"; "transaction"; "union"; "unique"; "update";
   "using"; "values"; "when"; "where"].

Definition is_letter (n : N) : bool :=
  ((65 <=? n) && (n <=? 90) || (97 <=? n) && (n <=? 122))%N.

Definition is_digit (n : N) : bool := ((48 <=? n) && (n <=? 57))%N.

(** A byte that can start a name: a letter, an underscore, or a byte of a
    character outside ASCII. *)
Definition name_start (c : ascii) : bool :=
  let n := N_of_ascii c in (is_letter n || (n =? 95) || (128 <=? n))%N.

(** A byte that can go on a name: those, a digit and [$]. *)
Definition name_char (c : ascii) : bool :=
  let n := N_of_ascii c in (name_start c || is_digit n || (n =? 36))%N.

Fixpoint all_chars (p : ascii -> bool) (s : string) : bool :=
  match s with
  | EmptyString => true
  | String c rest => p c && all_chars p rest
  end.

Definition to_lower (c : ascii) : ascii :=
  let n := N_of_ascii c in
  if ((65 <=? n) && (n <=? 90))%N then ascii_of_N (n + 32) else c.

Fixpoint lower (s : string) : string :=
  match s with
  | EmptyString => EmptyString
  | String c rest => String (to_lower c) (lower rest)
  end.

(** A table name that SQLite reads as that name when it stands bare in a
    statement: an identifier that is no reserved word. *)
Definition bare_name (name : string) : bool :=
  match name with
  | EmptyString => false
  | String c rest =>
      name_start c && all_chars name_char rest
      && negb (existsb (String.eqb (lower name)) reserved_words)
  end.

(** [cursor.execute(f"PRAGMA table_info({table})")]: the name goes into the
    statement as it is. For a bare name SQLite returns the columns of the
    table. Of the other names it refuses most with a syntax error (a name
    with a space or a sign in it, a reserved word); the model takes all of
    them to be refused, with a text of its own, although SQLite reads a few
    otherwise (a number, a name between quotes or brackets). *)
Definition pragma_table_info (name : string) (content : relation)
  : result (list string) :=
  if bare_name name then Ok (columns content)
  else Raise (OperationalError "syntax error").

Fixpoint table_infos (db : Database) : result (list (string * list string)) :=
  match db with
  | [] => Ok []
  | Table name content :: rest =>
      result_bind (pragma_table_info name content) (fun cols =>
      result_bind (table_infos rest) (fun infos =>
      Ok ((name, cols) :: infos)))
  | Index _ _ _ :: rest => table_infos rest
  end.

(** [get_schema_info]: the tables of [sqlite_master] with their columns. *)
Definition get_schema_info : Prog Builder (list (string * list string)) :=
  let+ handle := self_conn in
  connection_call handle
    (fun db => result_bind (table_infos db) (fun infos => Ok (db, infos))).

Definition print_schema_info (title : string) : Prog Builder unit :=
  let+ schema_info := get_schema_info in
  print (Text title) ;;
  for_in schema_info
    (fun '(table, cols) =>
       print (TextWith "
Таблиця: " table) ;;
       print (Rule "-" (py_len table + 10)) ;;
       for_in cols (fun col => print (Column col))).

(** [main]: [try] the four steps, [except Exception] print the error,
    [finally] disconnect. *)
Definition builder_main (create load_data print_info : Prog Builder unit)
  : Prog Builder unit :=
  try_finally
    (try_except
       (connect ;; create ;; load_data ;; print_info)
       (fun e => print (ErrorLine e)))
    disconnect.

(** Running an entry point in a world: the world it leaves, with the
    exception that escaped, if any. *)
Definition run_main {O} (object : O) (main : Prog O unit) (w : World)
  : result unit * World :=
  let '(r, st) := main (mkState object w) in (r, world st).

(* ===================================================================== *)
(** * 6. schemas/star_schema.py *)
(* ===================================================================== *)

Module StarSchemaBuilder.

Definition tables_to_drop : list string :=
  ["sales_facts"; "dim_product"; "dim_customer"; "dim_salesperson"; "dim_time"].

Definition create_tables : list statement :=
  [CreateTable "dim_product" (DimProducts []) [];
   CreateTable "dim_customer" (DimCustomers []) [];
   CreateTable "dim_salesperson" (DimSalespeople []) [];
   CreateTable "dim_time" (TimeRows []) [];
   CreateTable "sales_facts" (Sales []) []].

Definition indexes : list statement :=
  [CreateIndex "idx_sales_time" "sales_facts" "time_id";
   CreateIndex "idx_sales_product" "sales_facts" "product_id";
   CreateIndex "idx_sales_customer" "sales_facts" "customer_id";
   CreateIndex "idx_sales_salesperson" "sales_facts" "salesperson_id";
   CreateIndex "idx_time_date" "dim_time" "date";
   CreateIndex "idx_time_year" "dim_time" "year";
   CreateIndex "idx_product_category" "dim_product" "category_name";
   CreateIndex "idx_customer_city" "dim_customer" "city_name";
   CreateIndex "idx_customer_region" "dim_customer" "region_name"].

Definition create_star_schema (db : Database) : result Database :=
  execute_all (map DropTableIfExists tables_to_drop ++ create_tables ++ indexes) db.

Definition dim_product_of (ds : Dataset) : list DimProduct.t :=
  map (fun '(p, s, c) =>
         DimProduct.mk (Product.product_id p) (Product.product_name p)
           (Product.product_code p) (Product.unit_price p)
           (Subcategory.subcategory_name s) (Category.category_name c))
      (merge
         (merge (products ds) (subcategories ds)
            Product.subcategory_id Subcategory.subcategory_id)
         (categories ds)
         (fun '(p, s) => Subcategory.category_id s) Category.category_id).

Definition dim_customer_of (ds : Dataset) : list DimCustomer.t :=
  map (fun '(c, ci, r, co) =>
         DimCustomer.mk (Customer.customer_id c) (Customer.customer_name c)
           (Customer.email c) (Customer.phone c) (Customer.registration_date c)
           (City.city_name ci) (Region.region_name r) (Country.country_name co))
      (merge
         (merge
            (merge (customers ds) (cities ds) Customer.city_id City.city_id)
            (regions ds)
            (fun '(c, ci) => City.region_id ci) Region.region_id)
         (countries ds)
         (fun '(c, ci, r) => Region.country_id r) Country.country_id).

Definition dim_salesperson_of (ds : Dataset) : list DimSalesperson.t :=
  map (fun '(sp, r, co) =>
         DimSalesperson.mk (Salesperson.salesperson_id sp)
           (Salesperson.salesperson_name sp) (Salesperson.hire_date sp)
           (Region.region_name r) (Country.country_name co))
      (merge
         (merge (sales_people ds) (regions ds)
            Salesperson.region_id Region.region_id)
         (countries ds)
         (fun '(sp, r) => Region.country_id r) Country.country_id).

(** The frames [load_data] writes, in the order it writes them. *)
Definition frames (ds : Dataset) : list (string * relation) :=
  [("dim_product", DimProducts (dim_product_of ds));
   ("dim_customer", DimCustomers (dim_customer_of ds));
   ("dim_salesperson", DimSalespeople (dim_salesperson_of ds));
   ("dim_time", TimeRows (time_dimension ds));
   ("sales_facts", Sales (sales_facts ds))].

Definition stats (ds : Dataset) : list (string * Z) :=
  [("dim_product", len (dim_product_of ds));
   ("dim_customer", len (dim_customer_of ds));
   ("dim_salesperson", len (dim_salesperson_of ds));
   ("dim_time", len (time_dimension ds));
   ("sales_facts", len (sales_facts ds))].

(** The methods as [main] runs them on the connection. *)
Definition create_star_schema_on_conn : Prog Builder unit :=
  create_schema (map DropTableIfExists tables_to_drop ++ create_tables ++ indexes)
    "Схему 'зірка' створено успішно!".

Definition load_data : Prog Builder unit :=
  load_data_into frames stats "Дані завантажено у схему 'зірка':" ;; pure tt.

Definition main : World -> result unit * World :=
  run_main (mkBuilder StarFile None)
    (builder_main create_star_schema_on_conn load_data
       (print_schema_info "
=== СХЕМА 'ЗІРКА' ===")).

End StarSchemaBuilder.

(** [for name, frame in frames: frame.to_sql(name, ...)] *)
Fixpoint to_sql_all (frames : list (string * relation)) (db : Database)
  : result Database :=
  match frames with
  | [] => Ok db
  | (name, frame) :: rest => result_bind (to_sql name frame db) (to_sql_all rest)
  end.

(** [load_data] of either builder: read the CSV files, write the frames,
    return the row counts. *)
Definition load_frames (frames : Dataset -> list (string * relation))
    (stats : Dataset -> list (string * Z))
    (data_dir : option Dataset) (db : Database)
  : result (Database * list (string * Z)) :=
  result_bind (read_csv_files data_dir) (fun ds =>
  result_bind (to_sql_all (frames ds) db) (fun db' =>
  Ok (db', stats ds))).

(* ===================================================================== *)
(** * 7. schemas/snowflake_schema.py *)
(* ===================================================================== *)

Module SnowflakeSchemaBuilder.

Definition tables_to_drop : list string :=
  ["sales_facts"; "dim_product"; "dim_customer"; "dim_salesperson"; "dim_time";
   "dim_category"; "dim_subcategory"; "dim_city"; "dim_region"; "dim_country"].

Definition table_creation_order : list statement :=
  [CreateTable "dim_country" (Countries []) ["country_name"];
   CreateTable "dim_region" (Regions []) [];
   CreateTable "dim_city" (Cities []) [];
   CreateTable "dim_category" (Categories []) ["category_name"];
   CreateTable "dim_subcategory" (Subcategories []) [];
   CreateTable "dim_product" (Products []) [];
   CreateTable "dim_customer" (Customers []) [];
   CreateTable "dim_salesperson" (Salespeople []) [];
   CreateTable "dim_time" (TimeRows []) [];
   CreateTable "sales_facts" (Sales []) []].

Definition indexes : list statement :=
  [CreateIndex "idx_sf_sales_time" "sales_facts" "time_id";
   CreateIndex "idx_sf_sales_product" "sales_facts" "product_id";
   CreateIndex "idx_sf_sales_customer" "sales_facts" "customer_id";
   CreateIndex "idx_sf_sales_salesperson" "sales_facts" "salesperson_id";
   CreateIndex "idx_sf_time_date" "dim_time" "date";
   CreateIndex "idx_sf_time_year" "dim_time" "year";
   CreateIndex "idx_sf_product_subcategory" "dim_product" "subcategory_id";
   CreateIndex "idx_sf_subcategory_category" "dim_subcategory" "category_id";
   CreateIndex "idx_sf_customer_city" "dim_customer" "city_id";
   CreateIndex "idx_sf_city_region" "dim_city" "region_id";
   CreateIndex "idx_sf_region_country" "dim_region" "country_id";
   CreateIndex "idx_sf_salesperson_region" "dim_salesperson" "region_id"].

Definition create_snowflake_schema (db : Database) : result Database :=
  execute_all
    (map DropTableIfExists tables_to_drop ++ table_creation_order ++ indexes) db.

Definition frames (ds : Dataset) : list (string * relation) :=
  [("dim_country", Countries (countries ds));
   ("dim_region", Regions (regions ds));
   ("dim_city", Cities (cities ds));
   ("dim_category", Categories (categories ds));
   ("dim_subcategory", Subcategories (subcategories ds));
   ("dim_product", Products (products ds));
   ("dim_customer", Customers (customers ds));
   ("dim_salesperson", Salespeople (sales_people ds));
   ("dim_time", TimeRows (time_dimension ds));
   ("sales_facts", Sales (sales_facts ds))].

Definition stats (ds : Dataset) : list (string * Z) :=
  [("dim_country", len (countries ds));
   ("dim_region", len (regions ds));
   ("dim_city", len (cities ds));
   ("dim_category", len (categories ds));
   ("dim_subcategory", len (subcategories ds));
   ("dim_product", len (products ds));
   ("dim_customer", len (customers ds));
   ("dim_salesperson", len (sales_people ds));
   ("dim_time", len (time_dimension ds));
   ("sales_facts", len (sales_facts ds))].

(** The methods as [main] runs them on the connection. *)
Definition create_snowflake_schema_on_conn : Prog Builder unit :=
  create_schema
    (map DropTableIfExists tables_to_drop ++ table_creation_order ++ indexes)
    "Схему 'сніжинка' створено успішно!".

Definition load_data : Prog Builder unit :=
  load_data_into frames stats "Дані завантажено у схему 'сніжинка':" ;; pure tt.

Definition main : World -> result unit * World :=
  run_main (mkBuilder SnowflakeFile None)
    (builder_main create_snowflake_schema_on_conn load_data
       (print_schema_info "
=== СХЕМА 'СНІЖИНКА' ===")).

End SnowflakeSchemaBuilder.

(** ** The build sequence of a builder: schema creation, then data load

    These are the two calls that [main] of each builder makes on the
    connection, in this order. *)
Definition star_build (data_dir : option Dataset) (db : Database)
  : result Database :=
  result_bind (StarSchemaBuilder.create_star_schema db) (fun db1 =>
  result_bind (load_frames StarSchemaBuilder.frames StarSchemaBuilder.stats
                 data_dir db1) (fun '(db2, _) =>
  Ok db2)).

Definition snowflake_build (data_dir : option Dataset) (db : Database)
  : result Database :=
  result_bind (SnowflakeSchemaBuilder.create_snowflake_schema db) (fun db1 =>
  result_bind (load_frames SnowflakeSchemaBuilder.frames
                 SnowflakeSchemaBuilder.stats data_dir db1) (fun '(db2, _) =>
  Ok db2)).

(** ** Vocabulary for statements about a build *)

Definition mem (name : string) (names : list string) : bool :=
  existsb (String.eqb name) names.

(** The object belongs to one of the tables [names]. *)
Definition owned_by (names : list string) (o : schema_object) : bool :=
  mem (owner_table o) names.

(** Everything in the database that belongs to none of the tables [names]. *)
Definition outside (names : list string) (db : Database) : Database :=
  List.filter (fun o => negb (owned_by names o)) db.

(** The catalogue rows of freshly written frames. *)
Definition as_tables (frames : list (string * relation)) : Database :=
  map (fun '(name, frame) => Table name frame) frames.

(** The name a creating statement claims, and the table it works on. *)
Definition claimed_name (stmt : statement) : string :=
  match stmt with
  | DropTableIfExists name => name
  | CreateTable name _ _ => name
  | CreateIndex name _ _ => name
  end.

Definition target_table (stmt : statement) : string :=
  match stmt with
  | DropTableIfExists name => name
  | CreateTable name _ _ => name
  | CreateIndex _ tbl_name _ => tbl_name
  end.

Definition is_create (stmt : statement) : bool :=
  match stmt with
  | DropTableIfExists _ => false
  | _ => true
  end.

(** The index a [CREATE INDEX] statement asks for, as a catalogue row. *)
Definition created_index (stmt : statement) : list schema_object :=
  match stmt with
  | CreateIndex name tbl_name column => [Index name tbl_name column]
  | _ => []
  end.

(** The shape both build sequences share: drop the tables [names], run the
    creating statements, then load the frames. *)
Definition build_sequence (names : list string) (creates : list statement)
    (frames : Dataset -> list (string * relation))
    (stats : Dataset -> list (string * Z))
    (data_dir : option Dataset) (db : Database) : result Database :=
  result_bind (execute_all (map DropTableIfExists names ++ creates) db) (fun db1 =>
  result_bind (load_frames frames stats data_dir db1) (fun '(db2, _) =>
  Ok db2)).

(** ** Reading a table of a store

    [SELECT * FROM name], for a table of the expected shape; no rows when the
    table is missing or has another shape. *)
Definition dim_products_in (db : Database) : list DimProduct.t :=
  match find_table "dim_product" db with Some (DimProducts rows) => rows | _ => [] end.
Definition dim_customers_in (db : Database) : list DimCustomer.t :=
  match find_table "dim_customer" db with Some (DimCustomers rows) => rows | _ => [] end.
Definition dim_salespeople_in (db : Database) : list DimSalesperson.t :=
  match find_table "dim_salesperson" db with
  | Some (DimSalespeople rows) => rows | _ => [] end.
Definition time_rows_in (db : Database) : list TimeRow.t :=
  match find_table "dim_time" db with Some (TimeRows rows) => rows | _ => [] end.
Definition sales_in (db : Database) : list Sale.t :=
  match find_table "sales_facts" db with Some (Sales rows) => rows | _ => [] end.
Definition countries_in (db : Database) : list Country.t :=
  match find_table "dim_country" db with Some (Countries rows) => rows | _ => [] end.
Definition regions_in (db : Database) : list Region.t :=
  match find_table "dim_region" db with Some (Regions rows) => rows | _ => [] end.
Definition cities_in (db : Database) : list City.t :=
  match find_table "dim_city" db with Some (Cities rows) => rows | _ => [] end.
Definition categories_in (db : Database) : list Category.t :=
  match find_table "dim_category" db with Some (Categories rows) => rows | _ => [] end.
Definition subcategories_in (db : Database) : list Subcategory.t :=
  match find_table "dim_subcategory" db with
  | Some (Subcategories rows) => rows | _ => [] end.
Definition products_in (db : Database) : list Product.t :=
  match find_table "dim_product" db with Some (Products rows) => rows | _ => [] end.
Definition customers_in (db : Database) : list Customer.t :=
  match find_table "dim_customer" db with Some (Customers rows) => rows | _ => [] end.
Definition salespeople_in (db : Database) : list Salesperson.t :=
  match find_table "dim_salesperson" db with
  | Some (Salespeople rows) => rows | _ => [] end.

(** ** Denormalisation against the normalised chain *)

(** The names embedded in a star product row are reached in the snowflake
    store [snow] from the same product id, by product -> subcategory ->
    category. *)
Definition product_chain_agrees (snow : Database) (d : DimProduct.t) : Prop :=
  exists p s c,
    In p (products_in snow) /\ In s (subcategories_in snow)
    /\ In c (categories_in snow)
    /\ Product.product_id p = DimProduct.product_id d
    /\ Subcategory.subcategory_id s = Product.subcategory_id p
    /\ Category.category_id c = Subcategory.category_id s
    /\ DimProduct.subcategory_name d = Subcategory.subcategory_name s
    /\ DimProduct.category_name d = Category.category_name c.

(** customer -> city -> region -> country *)
Definition customer_chain_agrees (snow : Database) (d : DimCustomer.t) : Prop :=
  exists c ci r co,
    In c (customers_in snow) /\ In ci (cities_in snow)
    /\ In r (regions_in snow) /\ In co (countries_in snow)
    /\ Customer.customer_id c = DimCustomer.customer_id d
    /\ City.city_id ci = Customer.city_id c
    /\ Region.region_id r = City.region_id ci
    /\ Country.country_id co = Region.country_id r
    /\ DimCustomer.city_name d = City.city_name ci
    /\ DimCustomer.region_name d = Region.region_name r
    /\ DimCustomer.country_name d = Country.country_name co.

(** salesperson -> region -> country *)
Definition salesperson_chain_agrees (snow : Database) (d : DimSalesperson.t)
  : Prop :=
  exists sp r co,
    In sp (salespeople_in snow) /\ In r (regions_in snow)
    /\ In co (countries_in snow)
    /\ Salesperson.salesperson_id sp = DimSalesperson.salesperson_id d
    /\ Region.region_id r = Salesperson.region_id sp
    /\ Country.country_id co = Region.country_id r
    /\ DimSalesperson.region_name d = Region.region_name r
    /\ DimSalesperson.country_name d = Country.country_name co.

(** Foreign keys of the fact rows of a star store and of a snowflake
    store. *)
Definition star_keys_resolve (db : Database) : Prop :=
  Forall (sale_keys_resolve TimeRow.time_id DimProduct.product_id
            DimCustomer.customer_id DimSalesperson.salesperson_id
            (time_rows_in db) (dim_products_in db) (dim_customers_in db)
            (dim_salespeople_in db))
         (sales_in db).

Definition snowflake_keys_resolve (db : Database) : Prop :=
  Forall (sale_keys_resolve TimeRow.time_id Product.product_id
            Customer.customer_id Salesperson.salesperson_id
            (time_rows_in db) (products_in db) (customers_in db)
            (salespeople_in db))
         (sales_in db).

(** A small dataset used to run the definitions: one row per dimension, one
    sale. *)
Definition sample_dataset : Dataset :=
  mkDataset
    [Country.mk 1 "Україна"]
    [Region.mk 1 "Київська область" 1]
    [City.mk 1 "Київ" 1]
    [Category.mk 1 "Книги"]
    [Subcategory.mk 1 "Детективи" 1]
    [Product.mk 1 "Alfa Beta" "PRD00001" 1 (1000 # 100)]
    [Customer.mk 1 "Olena" "olena@example.org" "+380" 1 (Date.mk 2023 5 17)]
    [Salesperson.mk 1 "Taras" (Date.mk 2021 3 1) 1]
    [time_row 1 (Date.mk 2023 6 1)]
    [Sale.mk 1 1 1 1 1 2 (1000 # 100) (1 # 10) (1800 # 100)].

Definition sample_star : Database :=
  as_tables (StarSchemaBuilder.frames sample_dataset).

Definition sample_snowflake : Database :=
  as_tables (SnowflakeSchemaBuilder.frames sample_dataset).

(** Every parent reference of the flat dimension tables resolves. *)
Definition parents_resolve (ds : Dataset) : Prop :=
  resolves Product.subcategory_id Subcategory.subcategory_id
           (products ds) (subcategories ds)
  /\ resolves Subcategory.category_id Category.category_id
              (subcategories ds) (categories ds)
  /\ resolves Customer.city_id City.city_id (customers ds) (cities ds)
  /\ resolves City.region_id Region.region_id (cities ds) (regions ds)
  /\ resolves Region.country_id Country.country_id (regions ds) (countries ds)
  /\ resolves Salesperson.region_id Region.region_id (sales_people ds) (regions ds).

(* ===================================================================== *)
(** * 8. queries/performance_comparison.py *)
(* ===================================================================== *)

(** ** 8.1 The query suite: the SQL text, character for character *)
Definition q1_name : string := "Продажі по регіонах".
Definition q1_star_sql : string := "
                SELECT 
                    dc.region_name,
                    SUM(sf.total_amount) as total_sales,
                    COUNT(*) as transaction_count,
                    AVG(sf.total_amount) as avg_transaction
                FROM sales_facts sf
                JOIN dim_customer dc ON sf.customer_id = dc.customer_id
                GROUP BY dc.region_name
                ORDER BY total_sales DESC
                ".
Definition q1_snowflake_sql : string := "
                SELECT 
                    dr.region_name,
                    SUM(sf.total_amount) as total_sales,
                    COUNT(*) as transaction_count,
                    AVG(sf.total_amount) as avg_transaction
                FROM sales_facts sf
                JOIN dim_customer dc ON sf.customer_id = dc.customer_id
                JOIN dim_city dci ON dc.city_id = dci.city_id
                JOIN dim_region dr ON dci.region_id = dr.region_id
                GROUP BY dr.region_name
                ORDER BY total_sales DESC
                ".
Definition q2_name : string := "Топ-10 продуктів".
Definition q2_star_sql : string := "
                SELECT 
                    dp.product_name,
                    dp.category_name,
                    SUM(sf.total_amount) as total_sales,
                    SUM(sf.quantity) as total_quantity
                FROM sales_facts sf
                JOIN dim_product dp ON sf.product_id = dp.product_id
                GROUP BY dp.product_id, dp.product_name, dp.category_name
                ORDER BY total_sales DESC
                LIMIT 10
                ".
Definition q2_snowflake_sql : string := "
                SELECT 
                    dp.product_name,
                    dcat.category_name,
                    SUM(sf.total_amount) as total_sales,
                    SUM(sf.quantity) as total_quantity
                FROM sales_facts sf
                JOIN dim_product dp ON sf.product_id = dp.product_id
                JOIN dim_subcategory dsub ON dp.subcategory_id = dsub.subcategory_id
                JOIN dim_category dcat ON dsub.category_id = dcat.category_id
                GROUP BY dp.product_id, dp.product_name, dcat.category_name
                ORDER BY total_sales DESC
                LIMIT 10
                ".
Definition q3_name : string := "Тренд продажів по місяцях 2023".
Definition q3_star_sql : string := "
                SELECT 
                    dt.month,
                    dt.month_name,
                    SUM(sf.total_amount) as total_sales,
                    COUNT(*) as transaction_count
                FROM sales_facts sf
                JOIN dim_time dt ON sf.time_id = dt.time_id
                WHERE dt.year = 2023
                GROUP BY dt.month, dt.month_name
                ORDER BY dt.month
                ".
Definition q3_snowflake_sql : string := "
                SELECT 
                    dt.month,
                    dt.month_name,
                    SUM(sf.total_amount) as total_sales,
                    COUNT(*) as transaction_count
                FROM sales_facts sf
                JOIN dim_time dt ON sf.time_id = dt.time_id
                WHERE dt.year = 2023
                GROUP BY dt.month, dt.month_name
                ORDER BY dt.month
                ".
Definition q4_name : string := "Продуктивність продавців".
Definition q4_star_sql : string := "
                SELECT 
                    ds.salesperson_name,
                    ds.region_name,
                    SUM(sf.total_amount) as total_sales,
                    COUNT(*) as deals_count,
                    AVG(sf.total_amount) as avg_deal_size
                FROM sales_facts sf
                JOIN dim_salesperson ds ON sf.salesperson_id = ds.salesperson_id
                GROUP BY ds.salesperson_id, ds.salesperson_name, ds.region_name
                ORDER BY total_sales DESC
                LIMIT 20
                ".
Definition q4_snowflake_sql : string := "
                SELECT 
                    ds.salesperson_name,
                    dr.region_name,
                    SUM(sf.total_amount) as total_sales,
                    COUNT(*) as deals_count,
                    AVG(sf.total_amount) as avg_deal_size
                FROM sales_facts sf
                JOIN dim_salesperson ds ON sf.salesperson_id = ds.salesperson_id
                JOIN dim_region dr ON ds.region_id = dr.region_id
                GROUP BY ds.salesperson_id, ds.salesperson_name, dr.region_name
                ORDER BY total_sales DESC
                LIMIT 20
                ".
Definition q5_name : string := "Комплексний аналіз продажів".
Definition q5_star_sql : string := "
                SELECT 
                    dp.category_name,
                    dc.region_name,
                    dt.quarter,
                    dt.year,
                    SUM(sf.total_amount) as total_sales,
                    SUM(sf.quantity) as total_quantity,
                    AVG(sf.discount) as avg_discount,
                    COUNT(DISTINCT sf.customer_id) as unique_customers
                FROM sales_facts sf
                JOIN dim_product dp ON sf.product_id = dp.product_id
                JOIN dim_customer dc ON sf.customer_id = dc.customer_id
                JOIN dim_time dt ON sf.time_id = dt.time_id
                WHERE dt.year IN (2023, 2024)
                GROUP BY dp.category_name, dc.region_name, dt.quarter, dt.year
                HAVING SUM(sf.total_amount) > 10000
                ORDER BY total_sales DESC
                ".
Definition q5_snowflake_sql : string := "
                SELECT 
                    dcat.category_name,
                    dr.region_name,
                    dt.quarter,
                    dt.year,
                    SUM(sf.total_amount) as total_sales,
                    SUM(sf.quantity) as total_quantity,
                    AVG(sf.discount) as avg_discount,
                    COUNT(DISTINCT sf.customer_id) as unique_customers
                FROM sales_facts sf
                JOIN dim_product dp ON sf.product_id = dp.product_id
                JOIN dim_subcategory dsub ON dp.subcategory_id = dsub.subcategory_id
                JOIN dim_category dcat ON dsub.category_id = dcat.category_id
                JOIN dim_customer dc ON sf.customer_id = dc.customer_id
                JOIN dim_city dci ON dc.city_id = dci.city_id
                JOIN dim_region dr ON dci.region_id = dr.region_id
                JOIN dim_time dt ON sf.time_id = dt.time_id
                WHERE dt.year IN (2023, 2024)
                GROUP BY dcat.category_name, dr.region_name, dt.quarter, dt.year
                HAVING SUM(sf.total_amount) > 10000
                ORDER BY total_sales DESC
                ".

(** An entry of the suite: [(name, star_SQL, snowflake_SQL)]. *)
Record QueryPair : Type := mkQueryPair {
  query_name : string;
  star_query : string;
  snowflake_query : string
}.

Definition get_analytical_queries : list QueryPair :=
  [mkQueryPair q1_name q1_star_sql q1_snowflake_sql;
   mkQueryPair q2_name q2_star_sql q2_snowflake_sql;
   mkQueryPair q3_name q3_star_sql q3_snowflake_sql;
   mkQueryPair q4_name q4_star_sql q4_snowflake_sql;
   mkQueryPair q5_name q5_star_sql q5_snowflake_sql].

(** Number of places of [haystack] where [needle] starts. *)
Fixpoint count_occurrences (needle haystack : string) : nat :=
  match haystack with
  | EmptyString => 0
  | String _ rest =>
      (if String.prefix needle haystack then 1 else 0)
      + count_occurrences needle rest
  end.

(** Join hops of a query: its [JOIN] clauses. *)
Definition join_hops (sql : string) : nat := count_occurrences "JOIN" sql.

(** ** 8.2 What the queries compute

    A result row is a tuple of SQLite values. A query is read as SQLite
    runs it without reordering: nested loops over the tables in [FROM]/[JOIN]
    order, each [JOIN ... ON a = b] keeping the rows of the joined table whose
    key matches, then [WHERE], [GROUP BY] (groups in order of first
    appearance), the aggregates, [HAVING], [ORDER BY] (a stable sort) and
    [LIMIT]. *)

Inductive sql_value : Type :=
| SqlInt (n : Z)
| SqlReal (x : Q)
| SqlText (s : string).

Definition sql_row : Type := list sql_value.

(** [SELECT * FROM name] for a table expected in a given shape. *)
Definition read_table {A} (name : string) (shape : relation -> option (list A))
    (db : Database) : result (list A) :=
  match find_table name db with
  | None => Raise (OperationalError ("no such table: " +:+ name))
  | Some content =>
      match shape content with
      | Some rows => Ok rows
      | None => Raise (OperationalError ("no such column in " +:+ name))
      end
  end.

Definition as_Sales (r : relation) := match r with Sales rows => Some rows | _ => None end.
Definition as_TimeRows (r : relation) := match r with TimeRows rows => Some rows | _ => None end.
Definition as_DimProducts (r : relation) := match r with DimProducts rows => Some rows | _ => None end.
Definition as_DimCustomers (r : relation) := match r with DimCustomers rows => Some rows | _ => None end.
Definition as_DimSalespeople (r : relation) := match r with DimSalespeople rows => Some rows | _ => None end.
Definition as_Products (r : relation) := match r with Products rows => Some rows | _ => None end.
Definition as_Subcategories (r : relation) := match r with Subcategories rows => Some rows | _ => None end.
Definition as_Categories (r : relation) := match r with Categories rows => Some rows | _ => None end.
Definition as_Customers (r : relation) := match r with Customers rows => Some rows | _ => None end.
Definition as_Cities (r : relation) := match r with Cities rows => Some rows | _ => None end.
Definition as_Regions (r : relation) := match r with Regions rows => Some rows | _ => None end.
Definition as_Salespeople (r : relation) := match r with Salespeople rows => Some rows | _ => None end.

(** The rows of [table] whose column [key] equals [k]: one [JOIN ... ON]. *)
Definition matching {A} (key : A -> Z) (k : Z) (table : list A) : list A :=
  List.filter (fun row => key row =? k) table.

(** *** Aggregation *)

Fixpoint group_insert {K R} (eqb : K -> K -> bool) (k : K) (r : R)
    (groups : list (K * list R)) : list (K * list R) :=
  match groups with
  | [] => [(k, [r])]
  | (k', rs) :: rest =>
      if eqb k k' then (k', rs ++ [r]) :: rest
      else (k', rs) :: group_insert eqb k r rest
  end.

Definition group_by {K R} (eqb : K -> K -> bool) (key : R -> K) (rows : list R)
  : list (K * list R) :=
  fold_left (fun groups r => group_insert eqb (key r) r groups) rows [].

Fixpoint insert_sorted {A} (stays_before : A -> A -> bool) (x : A) (l : list A)
  : list A :=
  match l with
  | [] => [x]
  | y :: rest =>
      if stays_before y x then y :: insert_sorted stays_before x rest
      else x :: l
  end.

(** A stable sort: [stays_before y x] tells that [y], met first, stays
    before [x]. *)
Definition order_by {A} (stays_before : A -> A -> bool) (l : list A) : list A :=
  fold_left (fun sorted x => insert_sorted stays_before x sorted) l [].

Definition sum_real (xs : list Q) : Q := fold_left Qplus xs 0%Q.
Definition sum_int (xs : list Z) : Z := fold_left Z.add xs 0.
Definition avg_real (xs : list Q) : Q := (sum_real xs / inject_Z (len xs))%Q.
Definition count_distinct (xs : list Z) : Z := len (nodup Z.eq_dec xs).

(** [ORDER BY total DESC] *)
Definition desc {A} (total : A -> Q) (y x : A) : bool := Qle_bool (total x) (total y).

Definition eqb2 {A B} (ea : A -> A -> bool) (eb : B -> B -> bool)
    (x y : A * B) : bool :=
  ea (fst x) (fst y) && eb (snd x) (snd y).

(** *** Query 1: sales by region *)

(** [GROUP BY region_name], [SUM], [COUNT( * )], [AVG], [ORDER BY total_sales
    DESC], over the joined rows (region_name, total_amount). *)
Definition q1_report (joined : list (string * Q)) : list sql_row :=
  let groups := group_by String.eqb fst joined in
  let rows :=
    map (fun '(region_name, g) =>
           let amounts := map snd g in
           (region_name, sum_real amounts, len g, avg_real amounts)) groups in
  map (fun '(region_name, total_sales, transaction_count, avg_transaction) =>
         [SqlText region_name; SqlReal total_sales; SqlInt transaction_count;
          SqlReal avg_transaction])
      (order_by (desc (fun '(_, total_sales, _, _) => total_sales)) rows).

Definition q1_star_joined (sf : list Sale.t) (dc : list DimCustomer.t)
  : list (string * Q) :=
  flat_map (fun f =>
    map (fun c => (DimCustomer.region_name c, Sale.total_amount f))
        (matching DimCustomer.customer_id (Sale.customer_id f) dc)) sf.

Definition q1_snowflake_joined (sf : list Sale.t) (dc : list Customer.t)
    (dci : list City.t) (dr : list Region.t) : list (string * Q) :=
  flat_map (fun f =>
    flat_map (fun c =>
      flat_map (fun ci =>
        map (fun r => (Region.region_name r, Sale.total_amount f))
            (matching Region.region_id (City.region_id ci) dr))
        (matching City.city_id (Customer.city_id c) dci))
      (matching Customer.customer_id (Sale.customer_id f) dc)) sf.

Definition q1_star (db : Database) : result (list sql_row) :=
  result_bind (read_table "sales_facts" as_Sales db) (fun sf =>
  result_bind (read_table "dim_customer" as_DimCustomers db) (fun dc =>
  Ok (q1_report (q1_star_joined sf dc)))).

Definition q1_snowflake (db : Database) : result (list sql_row) :=
  result_bind (read_table "sales_facts" as_Sales db) (fun sf =>
  result_bind (read_table "dim_customer" as_Customers db) (fun dc =>
  result_bind (read_table "dim_city" as_Cities db) (fun dci =>
  result_bind (read_table "dim_region" as_Regions db) (fun dr =>
  Ok (q1_report (q1_snowflake_joined sf dc dci dr)))))).

(** *** Query 2: top 10 products *)

(** joined rows: (product_id, product_name, category_name, total_amount,
    quantity) *)
Definition q2_joined_row : Type := Z * string * string * Q * Z.

Definition q2_report (joined : list q2_joined_row) : list sql_row :=
  let key := fun '(product_id, product_name, category_name, _, _) =>
               (product_id, (product_name, category_name)) in
  let groups := group_by (eqb2 Z.eqb (eqb2 String.eqb String.eqb)) key joined in
  let rows :=
    map (fun '((_, (product_name, category_name)), g) =>
           (product_name, category_name,
            sum_real (map (fun '(_, _, _, amount, _) => amount) g),
            sum_int (map (fun '(_, _, _, _, quantity) => quantity) g))) groups in
  map (fun '(product_name, category_name, total_sales, total_quantity) =>
         [SqlText product_name; SqlText category_name; SqlReal total_sales;
          SqlInt total_quantity])
      (firstn 10 (order_by (desc (fun '(_, _, total_sales, _) => total_sales)) rows)).

Definition q2_star_joined (sf : list Sale.t) (dp : list DimProduct.t)
  : list q2_joined_row :=
  flat_map (fun f =>
    map (fun p => (DimProduct.product_id p, DimProduct.product_name p,
                   DimProduct.category_name p, Sale.total_amount f,
                   Sale.quantity f))
        (matching DimProduct.product_id (Sale.product_id f) dp)) sf.

Definition q2_snowflake_joined (sf : list Sale.t) (dp : list Product.t)
    (dsub : list Subcategory.t) (dcat : list Category.t) : list q2_joined_row :=
  flat_map (fun f =>
    flat_map (fun p =>
      flat_map (fun s =>
        map (fun c => (Product.product_id p, Product.product_name p,
                       Category.category_name c, Sale.total_amount f,
                       Sale.quantity f))
            (matching Category.category_id (Subcategory.category_id s) dcat))
        (matching Subcategory.subcategory_id (Product.subcategory_id p) dsub))
      (matching Product.product_id (Sale.product_id f) dp)) sf.

Definition q2_star (db : Database) : result (list sql_row) :=
  result_bind (read_table "sales_facts" as_Sales db) (fun sf =>
  result_bind (read_table "dim_product" as_DimProducts db) (fun dp =>
  Ok (q2_report (q2_star_joined sf dp)))).

Definition q2_snowflake (db : Database) : result (list sql_row) :=
  result_bind (read_table "sales_facts" as_Sales db) (fun sf =>
  result_bind (read_table "dim_product" as_Products db) (fun dp =>
  result_bind (read_table "dim_subcategory" as_Subcategories db) (fun dsub =>
  result_bind (read_table "dim_category" as_Categories db) (fun dcat =>
  Ok (q2_report (q2_snowflake_joined sf dp dsub dcat)))))).

(** *** Query 3: sales per month of 2023 (the same text for both stores) *)

Definition q3_report (joined : list (Z * string * Q)) : list sql_row :=
  let groups :=
    group_by (eqb2 Z.eqb String.eqb) (fun '(month, month_name, _) => (month, month_name))
             joined in
  let rows :=
    map (fun '((month, month_name), g) =>
           (month, month_name, sum_real (map (fun '(_, _, amount) => amount) g),
            len g)) groups in
  map (fun '(month, month_name, total_sales, transaction_count) =>
         [SqlInt month; SqlText month_name; SqlReal total_sales;
          SqlInt transaction_count])
      (order_by (fun y x => let '(my, _, _, _) := y in
                            let '(mx, _, _, _) := x in my <=? mx) rows).

Definition q3_joined (sf : list Sale.t) (dt : list TimeRow.t)
  : list (Z * string * Q) :=
  flat_map (fun f =>
    flat_map (fun t =>
      if TimeRow.year t =? 2023
      then [(TimeRow.month t, TimeRow.month_name t, Sale.total_amount f)]
      else [])
      (matching TimeRow.time_id (Sale.time_id f) dt)) sf.

Definition q3 (db : Database) : result (list sql_row) :=
  result_bind (read_table "sales_facts" as_Sales db) (fun sf =>
  result_bind (read_table "dim_time" as_TimeRows db) (fun dt =>
  Ok (q3_report (q3_joined sf dt)))).

(** *** Query 4: salespeople *)

(** joined rows: (salesperson_id, salesperson_name, region_name,
    total_amount) *)
Definition q4_joined_row : Type := Z * string * string * Q.

Definition q4_report (joined : list q4_joined_row) : list sql_row :=
  let key := fun '(salesperson_id, salesperson_name, region_name, _) =>
               (salesperson_id, (salesperson_name, region_name)) in
  let groups := group_by (eqb2 Z.eqb (eqb2 String.eqb String.eqb)) key joined in
  let rows :=
    map (fun '((_, (salesperson_name, region_name)), g) =>
           let amounts := map (fun '(_, _, _, amount) => amount) g in
           (salesperson_name, region_name, sum_real amounts, len g,
            avg_real amounts)) groups in
  map (fun '(salesperson_name, region_name, total_sales, deals_count, avg_deal_size) =>
         [SqlText salesperson_name; SqlText region_name; SqlReal total_sales;
          SqlInt deals_count; SqlReal avg_deal_size])
      (firstn 20
         (order_by (desc (fun '(_, _, total_sales, _, _) => total_sales)) rows)).

Definition q4_star_joined (sf : list Sale.t) (dsp : list DimSalesperson.t)
  : list q4_joined_row :=
  flat_map (fun f =>
    map (fun sp => (DimSalesperson.salesperson_id sp,
                    DimSalesperson.salesperson_name sp,
                    DimSalesperson.region_name sp, Sale.total_amount f))
        (matching DimSalesperson.salesperson_id (Sale.salesperson_id f) dsp)) sf.

Definition q4_snowflake_joined (sf : list Sale.t) (dsp : list Salesperson.t)
    (dr : list Region.t) : list q4_joined_row :=
  flat_map (fun f =>
    flat_map (fun sp =>
      map (fun r => (Salesperson.salesperson_id sp,
                     Salesperson.salesperson_name sp, Region.region_name r,
                     Sale.total_amount f))
          (matching Region.region_id (Salesperson.region_id sp) dr))
      (matching Salesperson.salesperson_id (Sale.salesperson_id f) dsp)) sf.

Definition q4_star (db : Database) : result (list sql_row) :=
  result_bind (read_table "sales_facts" as_Sales db) (fun sf =>
  result_bind (read_table "dim_salesperson" as_DimSalespeople db) (fun dsp =>
  Ok (q4_report (q4_star_joined sf dsp)))).

Definition q4_snowflake (db : Database) : result (list sql_row) :=
  result_bind (read_table "sales_facts" as_Sales db) (fun sf =>
  result_bind (read_table "dim_salesperson" as_Salespeople db) (fun dsp =>
  result_bind (read_table "dim_region" as_Regions db) (fun dr =>
  Ok (q4_report (q4_snowflake_joined sf dsp dr))))).

(** *** Query 5: category x region x quarter x year *)

(** joined rows: (category_name, region_name, quarter, year, total_amount,
    quantity, discount, customer_id) *)
Definition q5_joined_row : Type := string * string * string * Z * Q * Z * Q * Z.

Definition q5_report (joined : list q5_joined_row) : list sql_row :=
  let key := fun '(category_name, region_name, quarter, year, _, _, _, _) =>
               ((category_name, region_name), (quarter, year)) in
  let groups :=
    group_by (eqb2 (eqb2 String.eqb String.eqb) (eqb2 String.eqb Z.eqb)) key joined in
  let rows :=
    map (fun '(((category_name, region_name), (quarter, year)), g) =>
           (category_name, region_name, quarter, year,
            sum_real (map (fun '(_, _, _, _, amount, _, _, _) => amount) g),
            sum_int (map (fun '(_, _, _, _, _, quantity, _, _) => quantity) g),
            avg_real (map (fun '(_, _, _, _, _, _, discount, _) => discount) g),
            count_distinct (map (fun '(_, _, _, _, _, _, _, customer_id) => customer_id) g)))
        groups in
  let having :=
    List.filter (fun '(_, _, _, _, total_sales, _, _, _) =>
                   negb (Qle_bool total_sales (10000 # 1))) rows in
  map (fun '(category_name, region_name, quarter, year, total_sales,
             total_quantity, avg_discount, unique_customers) =>
         [SqlText category_name; SqlText region_name; SqlText quarter;
          SqlInt year; SqlReal total_sales; SqlInt total_quantity;
          SqlReal avg_discount; SqlInt unique_customers])
      (order_by (desc (fun '(_, _, _, _, total_sales, _, _, _) => total_sales)) having).

(** [WHERE dt.year IN (2023, 2024)] *)
Definition q5_where (t : TimeRow.t) : bool :=
  (TimeRow.year t =? 2023) || (TimeRow.year t =? 2024).

Definition q5_star_joined (sf : list Sale.t) (dp : list DimProduct.t)
    (dc : list DimCustomer.t) (dt : list TimeRow.t) : list q5_joined_row :=
  flat_map (fun f =>
    flat_map (fun p =>
      flat_map (fun c =>
        flat_map (fun t =>
          if q5_where t
          then [(DimProduct.category_name p, DimCustomer.region_name c,
                 TimeRow.quarter t, TimeRow.year t, Sale.total_amount f,
                 Sale.quantity f, Sale.discount f, Sale.customer_id f)]
          else [])
          (matching TimeRow.time_id (Sale.time_id f) dt))
        (matching DimCustomer.customer_id (Sale.customer_id f) dc))
      (matching DimProduct.product_id (Sale.product_id f) dp)) sf.

Definition q5_snowflake_joined (sf : list Sale.t) (dp : list Product.t)
    (dsub : list Subcategory.t) (dcat : list Category.t) (dc : list Customer.t)
    (dci : list City.t) (dr : list Region.t) (dt : list TimeRow.t)
  : list q5_joined_row :=
  flat_map (fun f =>
    flat_map (fun p =>
      flat_map (fun s =>
        flat_map (fun cat =>
          flat_map (fun c =>
            flat_map (fun ci =>
              flat_map (fun r =>
                flat_map (fun t =>
                  if q5_where t
                  then [(Category.category_name cat, Region.region_name r,
                         TimeRow.quarter t, TimeRow.year t, Sale.total_amount f,
                         Sale.quantity f, Sale.discount f, Sale.customer_id f)]
                  else [])
                  (matching TimeRow.time_id (Sale.time_id f) dt))
                (matching Region.region_id (City.region_id ci) dr))
              (matching City.city_id (Customer.city_id c) dci))
            (matching Customer.customer_id (Sale.customer_id f) dc))
          (matching Category.category_id (Subcategory.category_id s) dcat))
        (matching Subcategory.subcategory_id (Product.subcategory_id p) dsub))
      (matching Product.product_id (Sale.product_id f) dp)) sf.

Definition q5_star (db : Database) : result (list sql_row) :=
  result_bind (read_table "sales_facts" as_Sales db) (fun sf =>
  result_bind (read_table "dim_product" as_DimProducts db) (fun dp =>
  result_bind (read_table "dim_customer" as_DimCustomers db) (fun dc =>
  result_bind (read_table "dim_time" as_TimeRows db) (fun dt =>
  Ok (q5_report (q5_star_joined sf dp dc dt)))))).

Definition q5_snowflake (db : Database) : result (list sql_row) :=
  result_bind (read_table "sales_facts" as_Sales db) (fun sf =>
  result_bind (read_table "dim_product" as_Products db) (fun dp =>
  result_bind (read_table "dim_subcategory" as_Subcategories db) (fun dsub =>
  result_bind (read_table "dim_category" as_Categories db) (fun dcat =>
  result_bind (read_table "dim_customer" as_Customers db) (fun dc =>
  result_bind (read_table "dim_city" as_Cities db) (fun dci =>
  result_bind (read_table "dim_region" as_Regions db) (fun dr =>
  result_bind (read_table "dim_time" as_TimeRows db) (fun dt =>
  Ok (q5_report (q5_snowflake_joined sf dp dsub dcat dc dci dr dt)))))))))).

(** *** [cursor.execute(query); cursor.fetchall()]

    The engine of the model knows the statements of the suite by their
    text; any other text is refused. *)
Definition known_queries : list (string * (Database -> result (list sql_row))) :=
  [(q1_star_sql, q1_star); (q1_snowflake_sql, q1_snowflake);
   (q2_star_sql, q2_star); (q2_snowflake_sql, q2_snowflake);
   (q3_star_sql, q3);
   (q4_star_sql, q4_star); (q4_snowflake_sql, q4_snowflake);
   (q5_star_sql, q5_star); (q5_snowflake_sql, q5_snowflake)].

Definition fetch_all (query : string) (db : Database) : result (list sql_row) :=
  match List.find (fun entry => String.eqb (fst entry) query) known_queries with
  | Some (_, run) => run db
  | None => Raise (OperationalError "statement outside the model")
  end.

(** ** 8.3 The comparator *)

(** What [execute_query_with_timing] returns. *)
Record Timing : Type := mkTiming {
  timing_query_name : string;
  execution_time_ms : Q;
  result_count : Z;
  timing_results : list sql_row
}.

(** An entry of [self.results]. *)
Record ResultEntry : Type := mkResultEntry {
  entry_query_name : string;
  star_time_ms : Q;
  snowflake_time_ms : Q;
  star_results : list sql_row;
  snowflake_results : list sql_row
}.

Record Comparator : Type := mkComparator {
  star_db_path : db_file;
  snowflake_db_path : db_file;
  results : list ResultEntry
}.

Definition Qlt_b (x y : Q) : bool := negb (Qle_bool y x).

(** [x / y] on floats: division by zero raises. The times of the comparator
    and their quotients are kept as exact rationals: Python rounds each to
    the nearest double, which moves a quotient by less than one part in
    2^52 and never across 1 when both times are doubles. What is stated of
    a quotient is on which side of 1 it lies, not its digits. *)
Definition divide {O} (x y : Q) : Prog O Q :=
  if Qeq_bool y 0 then throw ZeroDivisionError else pure (x / y)%Q.

(** [np.mean] and [np.median] (of a non-empty list). *)
Definition np_mean (xs : list Q) : Q := (sum_real xs / inject_Z (len xs))%Q.

Definition np_median (xs : list Q) : Q :=
  let sorted := order_by Qle_bool xs in
  let n := length sorted in
  if Nat.even n
  then ((nth (n / 2 - 1) sorted 0 + nth (n / 2) sorted 0) / (2 # 1))%Q
  else nth (n / 2) sorted 0%Q.

Module PerformanceComparator.

Definition connect_to_db (path : db_file) : Prog Comparator nat :=
  sqlite3_connect path.

Definition execute_query_with_timing (conn : nat) (query query_name : string)
  : Prog Comparator Timing :=
  let+ start_time := time_time in
  let+ rows := connection_call conn
                 (fun db => result_bind (fetch_all query db)
                              (fun rows => Ok (db, rows))) in
  let+ end_time := time_time in
  let execution_time := ((end_time - start_time) * (1000 # 1))%Q in
  pure (mkTiming query_name execution_time (len rows) (firstn 5 rows)).

(** The ratio lines of the loop of [run_performance_tests]. *)
Definition report_ratio (star_ms snowflake_ms : Q) : Prog Comparator unit :=
  if Qlt_b 0 snowflake_ms
  then
    let+ ratio := divide star_ms snowflake_ms in
    if Qlt_b ratio 1
    then let+ times := divide 1 ratio in print (Times "Зірка швидше в " times)
    else print (Times "Сніжинка швидше в " ratio)
  else pure tt.

Definition run_query_pair (star_conn snowflake_conn : nat) (q : QueryPair)
  : Prog Comparator unit :=
  print (TextWith "\nВиконання запиту: " (query_name q)) ;;
  print (Rule "-" 40) ;;
  let+ star_result :=
    execute_query_with_timing star_conn (star_query q) (query_name q) in
  print (Millis "Зірка: " (execution_time_ms star_result)) ;;
  let+ snowflake_result :=
    execute_query_with_timing snowflake_conn (snowflake_query q) (query_name q) in
  print (Millis "Сніжинка: " (execution_time_ms snowflake_result)) ;;
  report_ratio (execution_time_ms star_result)
               (execution_time_ms snowflake_result) ;;
  let+ c := get_self in
  set_self (mkComparator (star_db_path c) (snowflake_db_path c)
              (results c ++ [mkResultEntry (query_name q)
                               (execution_time_ms star_result)
                               (execution_time_ms snowflake_result)
                               (timing_results star_result)
                               (timing_results snowflake_result)])).

Definition run_performance_tests : Prog Comparator (list ResultEntry) :=
  let queries := get_analytical_queries in
  let+ c := get_self in
  let+ star_conn := connect_to_db (star_db_path c) in
  let+ snowflake_conn := connect_to_db (snowflake_db_path c) in
  print (Text "Запуск тестів продуктивності...") ;;
  print (Rule "=" 60) ;;
  for_in queries (run_query_pair star_conn snowflake_conn) ;;
  connection_close star_conn ;;
  connection_close snowflake_conn ;;
  let+ c := get_self in
  pure (results c).

(** The lines [print_detailed_results] prints for the [i]-th entry. *)
Definition print_detail (i : Z) (r : ResultEntry) : Prog Comparator unit :=
  let star_time := star_time_ms r in
  let snowflake_time := snowflake_time_ms r in
  let+ ratio := if Qlt_b 0 star_time then divide snowflake_time star_time
                else pure 0%Q in
  print (Heading i (entry_query_name r)) ;;
  print (Rule "-" (py_len (entry_query_name r) + 4)) ;;
  print (Millis "Зірка:     " star_time) ;;
  print (Millis "Сніжинка:  " snowflake_time) ;;
  if Qlt_b 1 ratio
  then print (Times "Результат: Зірка швидше в " ratio)
  else let+ times := divide 1 ratio in
       print (Times "Результат: Сніжинка швидше в " times).

Definition print_detailed_results : Prog Comparator unit :=
  let+ c := get_self in
  print (Rule "=" 80) ;;
  print (Text "ДЕТАЛЬНІ РЕЗУЛЬТАТИ ПОРІВНЯННЯ ПРОДУКТИВНОСТІ") ;;
  print (Rule "=" 80) ;;
  for_in (enumerate 1 (results c)) (fun '(i, result) => print_detail i result) ;;
  let star_times := map star_time_ms (results c) in
  let snowflake_times := map snowflake_time_ms (results c) in
  print (Rule "=" 80) ;;
  print (Text "ЗАГАЛЬНА СТАТИСТИКА") ;;
  print (Rule "=" 80) ;;
  print (Millis "Середній час Зірки:     " (np_mean star_times)) ;;
  print (Millis "Середній час Сніжинки:  " (np_mean snowflake_times)) ;;
  print (Millis "Медіанний час Зірки:    " (np_median star_times)) ;;
  print (Millis "Медіанний час Сніжинки: " (np_median snowflake_times)) ;;
  let ratios :=
    map (fun '(s, n) => if Qlt_b 0 n then (s / n)%Q else 0%Q)
        (combine snowflake_times star_times) in
  let star_wins := len (List.filter (Qlt_b 1) ratios) in
  print (Score "Перемог схеми 'Зірка': " star_wins (len (results c))) ;;
  print (Score "Переваг схеми 'Сніжинка': " (len (results c) - star_wins)
               (len (results c))).

(** [plt.savefig(output_path, ...)]: the chart file is written anew. *)
Definition savefig {O} (shown : list (string * Q * Q)) : Prog O unit :=
  on_world (fun w =>
    match fallible w with
    | (Ok _, w') => (Ok tt, set_chart (Some shown) w')
    | (Raise e, w') => (Raise e, w')
    end).

(** The drawing itself is outside the model: it is one call that can fail,
    then the chart is saved, the line printed and the window shown. *)
Definition create_performance_visualization : Prog Comparator unit :=
  let+ c := get_self in
  match results c with
  | [] => print (Text "Немає результатів для візуалізації")
  | _ :: _ =>
      on_world fallible ;;
      savefig (map (fun r => (entry_query_name r, star_time_ms r,
                              snowflake_time_ms r)) (results c)) ;;
      print (TextWith "Графік збережено: " "data/performance_comparison.png") ;;
      (* plt.show() *)
      on_world fallible
  end.

Definition main_program : Prog Comparator (list ResultEntry) :=
  let+ results := run_performance_tests in
  print_detailed_results ;;
  create_performance_visualization ;;
  pure results.

Definition main (w : World) : result (list ResultEntry) * World :=
  let '(r, st) := main_program (mkState (mkComparator StarFile SnowflakeFile []) w) in
  (r, world st).

End PerformanceComparator.

(** A world for running the entry points: the sample dataset in [data], no
    database file yet, a clock that advances by one second per reading, no
    failure from outside. *)
Definition sample_world : World :=
  mkWorld [] [] (Some sample_dataset) None [] (fun n => inject_Z (Z.of_nat n)) 0
    [] [].

(** The same after both builders have run. *)
Definition built_world : World :=
  snd (SnowflakeSchemaBuilder.main (snd (StarSchemaBuilder.main sample_world))).

(** The connections that [w'] has and [w] had not: those made in between. *)
Definition connections_since (w w' : World) : list Connection :=
  skipn (length (connections w)) (connections w').

(** ** Agreement of the two variants of a query *)

(** Both executions succeed and return the same rows up to their order:
    projected to the same columns and sorted identically, the results are
    then identical row for row. *)
Definition same_answer (r1 r2 : result (list sql_row)) : Prop :=
  exists rows1 rows2, r1 = Ok rows1 /\ r2 = Ok rows2 /\ Permutation rows1 rows2.

(** The [country_id] of each region is the key of exactly one country. *)
Definition each_region_has_one_country (ds : Dataset) : Prop :=
  forall r, In r (regions ds) ->
            length (matching Country.country_id (Region.country_id r) (countries ds))
            = 1%nat.

(** The sample dataset with another country table: the country of its only
    region (key 1) is not in it. *)
Definition orphan_dataset : Dataset :=
  mkDataset
    [Country.mk 2 "Польща"]
    (regions sample_dataset) (cities sample_dataset) (categories sample_dataset)
    (subcategories sample_dataset) (products sample_dataset)
    (customers sample_dataset) (sales_people sample_dataset)
    (time_dimension sample_dataset) (sales_facts sample_dataset).

Definition orphan_star : Database :=
  as_tables (StarSchemaBuilder.frames orphan_dataset).

Definition orphan_snowflake : Database :=
  as_tables (SnowflakeSchemaBuilder.frames orphan_dataset).

(** The built sample world with a clock that stands still during the first
    (star) query and advances by one second from the second reading on. *)
Definition coarse_clock_world : World :=
  mkWorld (star_db built_world) (snowflake_db built_world) (data_dir built_world)
    (chart built_world) (connections built_world)
    (fun n => match n with O => 0%Q | S m => inject_Z (Z.of_nat m) end)
    0 [] [].

(* ===================================================================== *)
(** * 9. Vocabulary of the proofs *)
(* ===================================================================== *)

(** ** The parts of the generated dataset that do not depend on chance *)

Definition generated_countries : list Country.t :=
  map (fun '(i, name) => Country.mk i name) (enumerate 1 country_names).

Definition generated_regions : list Region.t :=
  map (fun '(i, region) => Region.mk i (region +:+ " область") 1)
      (enumerate 1 ukrainian_regions).

Definition generated_categories : list Category.t :=
  map (fun '(i, name) => Category.mk i name) (enumerate 1 category_names).

(** What [save_data_to_csv] guarantees of the dataset it writes. *)
Record generated (ds : Dataset) : Prop := {
  gen_countries : countries ds = generated_countries;
  gen_regions : regions ds = generated_regions;
  gen_city_ids : map City.city_id (cities ds) = py_range 1 (NUM_CITIES + 1);
  gen_city_regions :
    Forall (fun c => 1 <= City.region_id c < NUM_REGIONS + 1) (cities ds);
  gen_categories : categories ds = generated_categories;
  gen_subcategories : subcategories ds = generate_subcategories;
  gen_product_ids :
    map Product.product_id (products ds) = py_range 1 (NUM_PRODUCTS + 1);
  gen_product_subcategories :
    Forall (fun p => 1 <= Product.subcategory_id p < 25) (products ds);
  gen_customer_ids :
    map Customer.customer_id (customers ds) = py_range 1 (NUM_CUSTOMERS + 1);
  gen_customer_cities :
    Forall (fun c => 1 <= Customer.city_id c < NUM_CITIES + 1) (customers ds);
  gen_salesperson_ids :
    map Salesperson.salesperson_id (sales_people ds)
    = py_range 1 (NUM_SALES_PEOPLE + 1);
  gen_salesperson_regions :
    Forall (fun p => 1 <= Salesperson.region_id p < NUM_REGIONS + 1)
           (sales_people ds);
  gen_time_rows : Forall time_row_consistent (time_dimension ds);
  gen_time_ids : map TimeRow.time_id (time_dimension ds) = py_range 1 1097;
  gen_sale_keys : flat_keys_resolve ds;
  gen_sale_measures : Forall (sale_measures_float (products ds)) (sales_facts ds)
}.

(** ** The two builders as build sequences *)

Definition star_names : list string := StarSchemaBuilder.tables_to_drop.
Definition star_creates : list statement :=
  StarSchemaBuilder.create_tables ++ StarSchemaBuilder.indexes.
Definition snowflake_names : list string := SnowflakeSchemaBuilder.tables_to_drop.
Definition snowflake_creates : list statement :=
  SnowflakeSchemaBuilder.table_creation_order ++ SnowflakeSchemaBuilder.indexes.

(** What schema creation leaves in an empty database: the empty tables,
    each followed by the indexes SQLite makes for its [UNIQUE] columns, and
    the indexes of the script, in creation order. *)
Definition star_created : Database :=
  [Table "dim_product" (DimProducts []); Table "dim_customer" (DimCustomers []);
   Table "dim_salesperson" (DimSalespeople []); Table "dim_time" (TimeRows []);
   Table "sales_facts" (Sales [])]
  ++ flat_map created_index StarSchemaBuilder.indexes.

Definition snowflake_created : Database :=
  [Table "dim_country" (Countries []);
   Index "sqlite_autoindex_dim_country_1" "dim_country" "country_name";
   Table "dim_region" (Regions []);
   Table "dim_city" (Cities []); Table "dim_category" (Categories []);
   Index "sqlite_autoindex_dim_category_1" "dim_category" "category_name";
   Table "dim_subcategory" (Subcategories []); Table "dim_product" (Products []);
   Table "dim_customer" (Customers []); Table "dim_salesperson" (Salespeople []);
   Table "dim_time" (TimeRows []); Table "sales_facts" (Sales [])]
  ++ flat_map created_index SnowflakeSchemaBuilder.indexes.

(** ** The star dimensions as nested loops over the flat tables *)

Definition product_chain (ds : Dataset) (p : Product.t) : list DimProduct.t :=
  flat_map (fun s =>
    map (fun c =>
           DimProduct.mk (Product.product_id p) (Product.product_name p)
             (Product.product_code p) (Product.unit_price p)
             (Subcategory.subcategory_name s) (Category.category_name c))
        (matching Category.category_id (Subcategory.category_id s) (categories ds)))
    (matching Subcategory.subcategory_id (Product.subcategory_id p)
              (subcategories ds)).

Definition customer_chain (ds : Dataset) (c : Customer.t) : list DimCustomer.t :=
  flat_map (fun ci =>
    flat_map (fun r =>
      map (fun co =>
             DimCustomer.mk (Customer.customer_id c) (Customer.customer_name c)
               (Customer.email c) (Customer.phone c)
               (Customer.registration_date c) (City.city_name ci)
               (Region.region_name r) (Country.country_name co))
          (matching Country.country_id (Region.country_id r) (countries ds)))
      (matching Region.region_id (City.region_id ci) (regions ds)))
    (matching City.city_id (Customer.city_id c) (cities ds)).

Definition salesperson_chain (ds : Dataset) (sp : Salesperson.t)
  : list DimSalesperson.t :=
  flat_map (fun r =>
    map (fun co =>
           DimSalesperson.mk (Salesperson.salesperson_id sp)
             (Salesperson.salesperson_name sp) (Salesperson.hire_date sp)
             (Region.region_name r) (Country.country_name co))
        (matching Country.country_id (Region.country_id r) (countries ds)))
    (matching Region.region_id (Salesperson.region_id sp) (regions ds)).

(** ** Steps that open and close no connection *)

(** [m] leaves the list of connections and the object as they were, whatever
    its outcome. *)
Definition keeps {O A} (m : Prog O A) : Prop :=
  forall st, connections (world (snd (m st))) = connections (world st)
             /\ self (snd (m st)) = self st.

(** ** What a builder holds after [connect]

    Either it holds no connection and none was made, or it holds the one
    connection made since [cs], which is open. *)
Definition holds_its_connection (cs : list Connection) (f : db_file)
    (st : State Builder) : Prop :=
  (conn (self st) = None /\ connections (world st) = cs)
  \/ (conn (self st) = Some (length cs)
      /\ connections (world st) = cs ++ [mkConnection f true]).

(** ** A concrete random source

    A linear congruential generator over [N]: one instance of [PyRuntime],
    used to run the generator statements. *)
Definition lcg_next (s : N) : N := ((s * 1103515245 + 12345) mod 2147483648)%N.

Definition lcg_randint (a b : Z) (s : N) : Z * N :=
  (a + Z.of_N s mod (b - a + 1), lcg_next s).

Definition lcg_uniform (a b : Q) (s : N) : Q * N :=
  ((a + (b - a) * (Z.of_N (s mod 1024) # 1024))%Q, lcg_next s).

Definition lcg_sample_index (n : nat) (s : N) : nat * N :=
  ((N.to_nat s mod n)%nat, lcg_next s).

(** ** A random source that always answers the same

    [randint] gives 4, [uniform] gives 4333.75 or 0.031, whichever lies in
    the range asked for, [sample] gives the first row. *)

Definition fixed_randint (a b : Z) (s : unit) : Z * unit :=
  (if (a <=? 4) && (4 <=? b) then 4 else a, s).

Definition fixed_uniform (a b : Q) (s : unit) : Q * unit :=
  (if Qle_bool a (433375 # 100) && Qle_bool (433375 # 100) b then 433375 # 100
   else if Qle_bool a (31 # 1000) && Qle_bool (31 # 1000) b then 31 # 1000
   else a, s)%Q.

(** ** Partial correctness of a generator step

    [ensures m P]: whenever [m] returns, from whatever random state, its
    value satisfies [P]. *)
Definition ensures {St A} (m : M St A) (P : A -> Prop) : Prop :=
  forall s a s', m s = Ok (a, s') -> P a.

(** ** The shape of the generated dataset *)

(** The ten numbers [save_data_to_csv] prints, in the order it prints
    them. *)
Definition row_counts (ds : Dataset) : list Z :=
  [len (countries ds); len (regions ds); len (cities ds); len (categories ds);
   len (subcategories ds); len (products ds); len (customers ds);
   len (sales_people ds); len (time_dimension ds); len (sales_facts ds)].

(** The key column of a table counts its rows from 1. *)
Definition numbered_from_1 {A} (key : A -> Z) (rows : list A) : Prop :=
  map key rows = py_range 1 (len rows + 1).

(** The number a string of decimal digits spells. *)
Fixpoint digits_value (acc : Z) (s : string) : Z :=
  match s with
  | EmptyString => acc
  | String c rest => digits_value (10 * acc + (Z.of_N (N_of_ascii c) - 48)) rest
  end.

(** The number behind the three-letter prefix of a product code. *)
Definition product_number (code : string) : Z :=
  match code with
  | String _ (String _ (String _ digits)) => digits_value 0 digits
  | _ => 0
  end.

(** A product row as [generate_product_data] writes it. *)
Definition product_well_formed (p : Product.t) : Prop :=
  Product.product_code p = "PRD" +:+ format_05d (Product.product_id p)
  /\ String.length (Product.product_code p) = 8%nat
  /\ product_number (Product.product_code p) = Product.product_id p
  /\ (10 # 1 <= Product.unit_price p)%Q /\ (Product.unit_price p <= 5000 # 1)%Q
  /\ (exists cents : Z, Product.unit_price p = cents # 100)
  /\ 1 <= Product.subcategory_id p <= 24.

(** The test of the code of product number [i]. *)
Definition product_code_check (i : Z) : bool :=
  let code := "PRD" +:+ format_05d i in
  (String.length code =? 8)%nat && (product_number code =? i).

(** A fact row as [generate_sales_data] writes it from the four frames it
    is given: its keys are those of rows of the frames, its unit price is
    that of a product row with its [product_id]. *)
Definition sale_well_formed (time_df : list TimeRow.t)
    (products_df : list Product.t) (customers_df : list Customer.t)
    (sales_people_df : list Salesperson.t) (f : Sale.t) : Prop :=
  (exists t, In t time_df /\ TimeRow.time_id t = Sale.time_id f)
  /\ (exists p, In p products_df /\ Product.product_id p = Sale.product_id f
                /\ Product.unit_price p = Sale.unit_price f)
  /\ (exists c, In c customers_df /\ Customer.customer_id c = Sale.customer_id f)
  /\ (exists sp, In sp sales_people_df
                 /\ Salesperson.salesperson_id sp = Sale.salesperson_id f)
  /\ 1 <= Sale.quantity f <= 10
  /\ (0 <= Sale.discount f)%Q /\ (Sale.discount f <= 2 # 10)%Q
  /\ (exists thousandths : Z, Sale.discount f = thousandths # 1000).

(** Some frame of the four has no row. *)
Definition some_frame_empty {T P C SP} (time_df : list T) (products_df : list P)
    (customers_df : list C) (sales_people_df : list SP) : bool :=
  match time_df, products_df, customers_df, sales_people_df with
  | _ :: _, _ :: _, _ :: _, _ :: _ => false
  | _, _, _, _ => true
  end.

(** A row of the time dimension sits at its place in the calendar: its date
    is a day of the Gregorian calendar, its [time_id] counts the days from
    [start_date], and its month name is the English name of its month. *)
Definition time_row_in_calendar (r : TimeRow.t) : bool :=
  let d := TimeRow.date r in
  (1 <=? Date.month d) && (Date.month d <=? 12)
  && (1 <=? Date.day d) && (Date.day d <=? days_in_month (Date.year d) (Date.month d))
  && (TimeRow.time_id r =? toordinal d - toordinal start_date + 1)
  && match nth_error MONTH_NAMES (Z.to_nat (TimeRow.month r - 1)) with
     | Some name => String.eqb name (TimeRow.month_name r)
     | None => false
     end.

(** ** Parent references that resolve once *)

(** Every row of [child] refers, by [fk], to exactly one row of [parent]. *)
Definition one_parent {A B} (fk : A -> Z) (pk : B -> Z)
    (child : list A) (parent : list B) : Prop :=
  forall a, In a child -> length (matching pk (fk a) parent) = 1%nat.

(** Every link of the three chains that [load_data] of the star builder
    merges resolves once. *)
Definition chains_unique (ds : Dataset) : Prop :=
  one_parent Product.subcategory_id Subcategory.subcategory_id
    (products ds) (subcategories ds)
  /\ one_parent Subcategory.category_id Category.category_id
       (subcategories ds) (categories ds)
  /\ one_parent Customer.city_id City.city_id (customers ds) (cities ds)
  /\ one_parent City.region_id Region.region_id (cities ds) (regions ds)
  /\ one_parent Region.country_id Country.country_id (regions ds) (countries ds)
  /\ one_parent Salesperson.region_id Region.region_id
       (sales_people ds) (regions ds).

(** ** Schema creation on a database that already holds objects *)

(** No object of [base] bears a name that the statements [creates] claim. *)
Definition names_free (creates : list statement) (base : Database) : bool :=
  forallb (fun stmt => negb (name_taken (claimed_name stmt) base)) creates.

(** ** What a builder leaves alone *)

Definition other_file (f : db_file) : db_file :=
  match f with
  | StarFile => SnowflakeFile
  | SnowflakeFile => StarFile
  end.

(** From [w] to [w'], a builder of the tables [names] in the file [f] has
    left alone the [data] directory (the CSV files and the chart), the other
    database file and, in its own file, every table outside [names] with its
    rows and its indexes. *)
Definition left_alone (f : db_file) (names : list string) (w w' : World) : Prop :=
  data_dir w' = data_dir w
  /\ chart w' = chart w
  /\ file_content (other_file f) w' = file_content (other_file f) w
  /\ outside names (file_content f w') = outside names (file_content f w).

(** A step of a builder that keeps what the builder holds (see
    [holds_its_connection]) and leaves alone what is not its own. *)
Definition confined (f : db_file) (names : list string) {A}
    (m : Prog Builder A) : Prop :=
  forall cs st,
    holds_its_connection cs f st ->
    holds_its_connection cs f (snd (m st))
    /\ left_alone f names (world st) (world (snd (m st))).

(** The same for a step that works with the handle the builder holds. *)
Definition confined_with (f : db_file) (names : list string) (handle : nat) {A}
    (m : Prog Builder A) : Prop :=
  forall cs st,
    holds_its_connection cs f st -> conn (self st) = Some handle ->
    holds_its_connection cs f (snd (m st))
    /\ conn (self (snd (m st))) = Some handle
    /\ left_alone f names (world st) (world (snd (m st))).

(** The tables a builder owns and the entry point that builds them, by
    database file. *)
Definition names_of (f : db_file) : list string :=
  match f with
  | StarFile => StarSchemaBuilder.tables_to_drop
  | SnowflakeFile => SnowflakeSchemaBuilder.tables_to_drop
  end.

Definition main_of (f : db_file) : World -> result unit * World :=
  match f with
  | StarFile => StarSchemaBuilder.main
  | SnowflakeFile => SnowflakeSchemaBuilder.main
  end.

(** ** Worlds written out, by the file a builder works on

    [world_of f own other ...] is the world in which the database file [f]
    holds [own] and the other database file holds [other]. *)
Definition world_of (f : db_file) (own other : Database)
    (data_dir : option Dataset) (chart : option (list (string * Q * Q)))
    (connections : list Connection) (clock : nat -> Q) (ticks : nat)
    (faults : list bool) (stdout : list output) : World :=
  match f with
  | StarFile =>
      mkWorld own other data_dir chart connections clock ticks faults stdout
  | SnowflakeFile =>
      mkWorld other own data_dir chart connections clock ticks faults stdout
  end.

(** The database after the statements that ran: all of them, or those before
    the first one that was refused. *)
Fixpoint execute_upto (stmts : list statement) (db : Database) : Database :=
  match stmts with
  | [] => db
  | stmt :: rest =>
      match execute stmt db with
      | Ok db' => execute_upto rest db'
      | Raise _ => db
      end
  end.

(** ** The two builders, by database file *)

Definition statements_of (f : db_file) : list statement :=
  match f with
  | StarFile =>
      map DropTableIfExists StarSchemaBuilder.tables_to_drop
      ++ StarSchemaBuilder.create_tables ++ StarSchemaBuilder.indexes
  | SnowflakeFile =>
      map DropTableIfExists SnowflakeSchemaBuilder.tables_to_drop
      ++ SnowflakeSchemaBuilder.table_creation_order
      ++ SnowflakeSchemaBuilder.indexes
  end.

Definition create_of (f : db_file) : Database -> result Database :=
  match f with
  | StarFile => StarSchemaBuilder.create_star_schema
  | SnowflakeFile => SnowflakeSchemaBuilder.create_snowflake_schema
  end.

Definition build_of (f : db_file) : option Dataset -> Database -> result Database :=
  match f with
  | StarFile => star_build
  | SnowflakeFile => snowflake_build
  end.

Definition frames_of (f : db_file) : Dataset -> list (string * relation) :=
  match f with
  | StarFile => StarSchemaBuilder.frames
  | SnowflakeFile => SnowflakeSchemaBuilder.frames
  end.

Definition stats_of (f : db_file) : Dataset -> list (string * Z) :=
  match f with
  | StarFile => StarSchemaBuilder.stats
  | SnowflakeFile => SnowflakeSchemaBuilder.stats
  end.

(** ** What the schema report needs of the database

    [get_schema_info] puts each table name bare into a [PRAGMA] statement,
    see [pragma_table_info]. *)
Definition bare_table (o : schema_object) : bool :=
  match o with
  | Table name _ => bare_name name
  | Index _ _ _ => true
  end.

Definition bare_tables (db : Database) : bool := forallb bare_table db.

(** What [get_schema_info] returns when every table name is read bare. *)
Definition schema_info (db : Database) : list (string * list string) :=
  flat_map (fun o => match o with
                     | Table name content => [(name, columns content)]
                     | Index _ _ _ => []
                     end) db.

(** ** What [main] of a builder prints *)

Definition connected_line (f : db_file) : output :=
  TextWith "Підключено до бази даних: " (path_of f).

Definition disconnected_line : output := Text "Відключено від бази даних".

Definition created_line (f : db_file) : output :=
  match f with
  | StarFile => Text "Схему 'зірка' створено успішно!"
  | SnowflakeFile => Text "Схему 'сніжинка' створено успішно!"
  end.

Definition loaded_line (f : db_file) : output :=
  match f with
  | StarFile => Text "Дані завантажено у схему 'зірка':"
  | SnowflakeFile => Text "Дані завантажено у схему 'сніжинка':"
  end.

Definition title_of (f : db_file) : string :=
  match f with
  | StarFile => "
=== СХЕМА 'ЗІРКА' ==="
  | SnowflakeFile => "
=== СХЕМА 'СНІЖИНКА' ==="
  end.

(** The lines of [print_schema_info] for one catalogue row. *)
Definition table_report (o : schema_object) : list output :=
  match o with
  | Table name content =>
      TextWith "
Таблиця: " name :: Rule "-" (py_len name + 10)
      :: map Column (columns content)
  | Index _ _ _ => []
  end.

(** The lines of [print_schema_info] for a database. *)
Definition schema_report (title : string) (db : Database) : list output :=
  Text title :: flat_map table_report db.

(** The lines of a run of [main] that loads the dataset [ds] and leaves the
    database [db]. *)
Definition build_transcript (f : db_file) (ds : Dataset) (db : Database)
  : list output :=
  [connected_line f; created_line f; loaded_line f]
  ++ map (fun '(table, count) => RowCount table count) (stats_of f ds)
  ++ schema_report (title_of f) db
  ++ [disconnected_line].

(** A database of another application in which an index bears a name the
    star schema wants. *)
Definition clashing_db : Database :=
  [Table "audit_log" (Sales []); Index "idx_sales_time" "audit_log" "time_id"].

(** The number of rows of a table. *)
Definition row_count (r : relation) : Z :=
  match r with
  | Countries rows => len rows
  | Regions rows => len rows
  | Cities rows => len rows
  | Categories rows => len rows
  | Subcategories rows => len rows
  | Products rows => len rows
  | Customers rows => len rows
  | Salespeople rows => len rows
  | TimeRows rows => len rows
  | Sales rows => len rows
  | DimProducts rows => len rows
  | DimCustomers rows => len rows
  | DimSalespeople rows => len rows
  end.

(** The catalogue row holds no data row: an index, or a table without
    rows. *)
Definition holds_no_row (o : schema_object) : bool :=
  match o with
  | Table _ content => row_count content =? 0
  | Index _ _ _ => true
  end.

(** A statement that brings no data row into the database. *)
Definition brings_no_row (stmt : statement) : bool :=
  match stmt with
  | CreateTable _ content _ => row_count content =? 0
  | _ => true
  end.

(** A world without database files and without the [data] directory. *)
Definition bare_world : World :=
  mkWorld [] [] None None [] (fun n => inject_Z (Z.of_nat n)) 0 [] [].

(** A world in which the star database file is that of another
    application, see [clashing_db]. *)
Definition clashing_world : World :=
  mkWorld clashing_db [] (Some sample_dataset) None []
    (fun n => inject_Z (Z.of_nat n)) 0 [] [].

(** What Python raises for [self.conn.<method>] while [self.conn] is
    [None]. *)
Definition no_connection : exn :=
  AttributeError "'NoneType' object has no attribute".

(** ** What the comparator leaves unchanged *)

(** From [w] to [w'] the two database files and the [data] directory hold
    what they held: the same tables with the same rows, the same indexes,
    the same CSV files. (The chart file is no part of it, and a database
    file that was missing and one that holds nothing are the same
    [Database].) *)
Definition stores_unchanged (w w' : World) : Prop :=
  star_db w' = star_db w /\ snowflake_db w' = snowflake_db w
  /\ data_dir w' = data_dir w.

(** A step that changes neither what a database file holds nor the CSV
    files, whatever its outcome. *)
Definition reads_only {O A} (m : Prog O A) : Prop :=
  forall st, stores_unchanged (world st) (world (snd (m st))).

(** ** How the result list of the comparator grows *)

(** A step that leaves the object it runs on as it was, whatever its
    outcome. *)
Definition keeps_self {O A} (m : Prog O A) : Prop :=
  forall st, self (snd (m st)) = self st.

(** A step of the comparator that, when it returns, has appended one entry
    named [name] to [self.results] and, when it raises, has left the
    comparator as it was. *)
Definition appends_one {A} (name : string) (m : Prog Comparator A) : Prop :=
  forall st,
    match m st with
    | (Ok _, st') =>
        exists entry,
          results (self st') = results (self st) ++ [entry]
          /\ entry_query_name entry = name
    | (Raise _, st') => self st' = self st
    end.

(** ** A completed measurement *)

(** The entry [r] of [self.results] records the query pair [q] run on the
    stores [star] and [snowflake]: it bears the name of the pair, both times
    are positive, and its two result samples are the first five rows the
    star text returns from [star] and the snowflake text from [snowflake]. *)
Definition measured (star snowflake : Database) (q : QueryPair)
    (r : ResultEntry) : Prop :=
  entry_query_name r = query_name q
  /\ (0 < star_time_ms r)%Q /\ (0 < snowflake_time_ms r)%Q
  /\ (exists rows, fetch_all (star_query q) star = Ok rows
                   /\ star_results r = firstn 5 rows)
  /\ (exists rows, fetch_all (snowflake_query q) snowflake = Ok rows
                   /\ snowflake_results r = firstn 5 rows).

(** What the chart shows of the result list: for each entry its name and
    its two times. *)
Definition shown_times (rs : list ResultEntry) : list (string * Q * Q) :=
  map (fun r => (entry_query_name r, star_time_ms r, snowflake_time_ms r)) rs.

(** The line [create_performance_visualization] prints after saving. *)
Definition chart_saved_line : output :=
  TextWith "Графік збережено: " "data/performance_comparison.png".

(** The lines the comparator prints before its first query. *)
Definition first_lines : list output :=
  [Text "Запуск тестів продуктивності..."; Rule "=" 60;
   TextWith "\nВиконання запиту: " q1_name; Rule "-" 40].

(** A world that holds the two stores built from the sample dataset, with
    a clock that advances by one second per reading. *)
Definition ready_world : World :=
  mkWorld sample_star sample_snowflake (Some sample_dataset) None []
    (fun n => inject_Z (Z.of_nat n)) 0 [] [].

(** ** The two reports on one measurement *)

(** The words of the per-query line and of the line of the detailed report
    for a star time and a snowflake time: the star schema wins when its time
    is the smaller, the snowflake schema otherwise (also on a tie). *)
Definition winner_labels (star_ms snowflake_ms : Q) : string * string :=
  if Qlt_b star_ms snowflake_ms
  then ("Зірка швидше в ", "Результат: Зірка швидше в ")
  else ("Сніжинка швидше в ", "Результат: Сніжинка швидше в ").

(* ===================================================================== *)
(** * 12. The shape of the reports of the suite *)
(* ===================================================================== *)

(** Neighbours of a list stand in the relation [le]. *)
Fixpoint ordered {A} (le : A -> A -> Prop) (l : list A) : Prop :=
  match l with
  | [] => True
  | x :: rest =>
      match rest with [] => True | y :: _ => le x y end /\ ordered le rest
  end.

(** The value of a row in a column of numbers. *)
Definition real_at (i : nat) (row : sql_row) : Q :=
  match nth_error row i with
  | Some (SqlReal x) => x
  | Some (SqlInt n) => inject_Z n
  | _ => 0%Q
  end.

(** A column of the rows never grows, or never falls, down the list. *)
Definition non_increasing (i : nat) (rows : list sql_row) : Prop :=
  ordered (fun y x => (real_at i x <= real_at i y)%Q) rows.

Definition non_decreasing (i : nat) (rows : list sql_row) : Prop :=
  ordered (fun y x => (real_at i y <= real_at i x)%Q) rows.

(** What holds of the rows that a statement returns from a database, when
    it returns. *)
Definition on_rows (db : Database) (P : list sql_row -> Prop) (sql : string)
  : Prop :=
  match fetch_all sql db with
  | Ok rows => P rows
  | Raise _ => True
  end.

(* ===================================================================== *)
(** * 10. Properties of the runtime model *)
(* ===================================================================== *)

Lemma in_py_range (lo hi k : Z) : In k (py_range lo hi) <-> lo <= k < hi.
Proof.
  unfold py_range. rewrite in_map_iff. split.
  - intros (n & <- & Hn). apply in_seq in Hn. lia.
  - intros Hk. exists (Z.to_nat (k - lo)). split; [lia|].
    apply in_seq. lia.
Qed.

Lemma NoDup_py_range (lo hi : Z) : List.NoDup (py_range lo hi).
Proof.
  unfold py_range. apply Finite.Injective_map_NoDup.
  - intros a b Hab. lia.
  - apply seq_NoDup.
Qed.

Lemma length_py_range (lo hi : Z) : length (py_range lo hi) = Z.to_nat (hi - lo).
Proof. unfold py_range. now rewrite length_map, length_seq. Qed.

Lemma py_range_nonempty (lo hi : Z) : lo < hi -> py_range lo hi <> [].
Proof.
  intros Hlt Hnil. apply (f_equal (@length Z)) in Hnil.
  rewrite length_py_range in Hnil. simpl in Hnil. lia.
Qed.

Lemma py_range_nil (lo hi : Z) : hi <= lo -> py_range lo hi = [].
Proof.
  intros Hle. unfold py_range.
  replace (Z.to_nat (hi - lo)) with 0%nat by lia. reflexivity.
Qed.

Lemma py_range_cons (lo hi : Z) :
  lo < hi -> py_range lo hi = lo :: py_range (lo + 1) hi.
Proof.
  intros Hlt. unfold py_range.
  replace (Z.to_nat (hi - lo)) with (S (Z.to_nat (hi - (lo + 1)))) by lia.
  cbn [seq map]. f_equal; [lia|].
  rewrite <- seq_shift, map_map. apply map_ext. intros a. lia.
Qed.

Lemma enumerate_fst {A} (xs : list A) (start : Z) :
  map fst (enumerate start xs) = py_range start (start + len xs).
Proof.
  revert start. induction xs as [|x xs IH]; intros start.
  - rewrite py_range_nil; [reflexivity|]. unfold len. simpl. lia.
  - cbn [enumerate map fst]. rewrite IH.
    rewrite (py_range_cons start); [|unfold len; simpl length; lia].
    do 2 f_equal. unfold len. simpl length. lia.
Qed.

(** ** Rounding *)

Lemma round_half_even_bounds (x : Q) :
  Qfloor x <= round_half_even x <= Qfloor x + 1.
Proof.
  unfold round_half_even.
  destruct (Qcompare _ _); [destruct (Z.even _)| |]; lia.
Qed.

Lemma round_half_even_inject_Z (z : Z) : round_half_even (inject_Z z) = z.
Proof.
  unfold round_half_even. rewrite Qfloor_Z.
  assert (Hz : (inject_Z z - inject_Z z == 0)%Q) by ring.
  destruct (Qcompare_spec (inject_Z z - inject_Z z) (1 # 2)) as [He|Hl|Hg].
  - rewrite Hz in He. discriminate.
  - reflexivity.
  - rewrite Hz in Hg. discriminate.
Qed.

(** Rounding keeps a value between two integers between them. *)
Lemma round_half_even_between (x : Q) (lo hi : Z) :
  (inject_Z lo <= x)%Q -> (x <= inject_Z hi)%Q ->
  lo <= round_half_even x <= hi.
Proof.
  intros Hlo Hhi.
  pose proof (round_half_even_bounds x) as [Hb1 Hb2].
  assert (Hfl : lo <= Qfloor x).
  { rewrite <- (Qfloor_Z lo). now apply Qfloor_resp_le. }
  split; [lia|].
  assert (Hfh : Qfloor x <= hi).
  { rewrite <- (Qfloor_Z hi). now apply Qfloor_resp_le. }
  destruct (Z.eq_dec (Qfloor x) hi) as [Heq|Hne]; [|lia].
  (* the floor is already [hi]: then [x] is the integer [hi] itself *)
  assert (Hx : (x == inject_Z hi)%Q).
  { apply Qle_antisym; [exact Hhi|]. rewrite <- Heq. apply Qfloor_le. }
  unfold round_half_even. rewrite Heq.
  destruct (Qcompare_spec (x - inject_Z hi) (1 # 2)) as [He|Hl|Hg]; try lia.
  - rewrite Hx in He. exfalso. revert He. 
    assert (H0 : (inject_Z hi - inject_Z hi == 0)%Q) by ring.
    rewrite H0. discriminate.
  - rewrite Hx in Hg. exfalso.
    assert (H0 : (inject_Z hi - inject_Z hi == 0)%Q) by ring.
    rewrite H0 in Hg. discriminate.
Qed.

(** [round(x, 2)] of a price drawn between 10 and 5000 stays between them and
    has two decimals. *)
Lemma py_round_2_price (u : Q) :
  (10 # 1 <= u)%Q -> (u <= 5000 # 1)%Q ->
  (10 # 1 <= py_round u 2)%Q /\ (py_round u 2 <= 5000 # 1)%Q
  /\ exists cents : Z, py_round u 2 = cents # 100.
Proof.
  intros H0 H1. unfold py_round.
  change (pow10 2) with 100%positive.
  assert (Hb : 1000 <= round_half_even (u * inject_Z 100) <= 500000).
  { apply round_half_even_between.
    - destruct u as [n d]. unfold Qle in *. simpl in *. lia.
    - destruct u as [n d]. unfold Qle in *. simpl in *. lia. }
  split; [|split].
  - unfold Qle. simpl. lia.
  - unfold Qle. simpl. lia.
  - eexists. reflexivity.
Qed.

(** [round(x, 3)] of a value in [0, 0.2] stays in [0, 0.2]. *)
Lemma py_round_3_discount (u : Q) :
  (0 <= u)%Q -> (u <= 2 # 10)%Q ->
  (0 <= py_round u 3)%Q /\ (py_round u 3 <= 2 # 10)%Q.
Proof.
  intros H0 H1. unfold py_round.
  change (pow10 3) with 1000%positive.
  assert (Hb : 0 <= round_half_even (u * inject_Z 1000) <= 200).
  { apply round_half_even_between.
    - destruct u as [n d]. unfold Qle in *. simpl in *. lia.
    - destruct u as [n d]. unfold Qle in *. simpl in *. lia. }
  unfold Qle. simpl. lia.
Qed.

(** ** Floats *)

Lemma round_half_even_error (x : Q) :
  (Qabs (inject_Z (round_half_even x) - x) <= 1 # 2)%Q.
Proof.
  pose proof (Qfloor_le x) as Hlo. pose proof (Qlt_floor x) as Hhi.
  rewrite inject_Z_plus in Hhi. change (inject_Z 1) with 1%Q in Hhi.
  apply Qabs_Qle_condition. unfold round_half_even.
  destruct (Qcompare_spec (x - inject_Z (Qfloor x)) (1 # 2)) as [He|Hl|Hg].
  - destruct (Z.even (Qfloor x)).
    + lra.
    + rewrite inject_Z_plus. change (inject_Z 1) with 1%Q. lra.
  - lra.
  - rewrite inject_Z_plus. change (inject_Z 1) with 1%Q. lra.
Qed.

Lemma two_nonzero : ~ (2 == 0)%Q.
Proof. discriminate. Qed.

Lemma pow2_pos (k : Z) : (0 < 2 ^ k)%Q.
Proof. apply Qpower_0_lt. reflexivity. Qed.

(** A positive rational lies between the powers of two that the lengths of
    its numerator and denominator give. *)
Lemma log2_bounds (n : Z) (d : positive) :
  (0 < n)%Z ->
  (2 ^ (Z.log2 n - Z.log2 (Zpos d) - 1) <= n # d)%Q
  /\ (n # d < 2 ^ (Z.log2 n - Z.log2 (Zpos d) + 1))%Q.
Proof.
  intros Hn.
  pose proof (Z.log2_spec n Hn) as [Ha1 Ha2].
  pose proof (Z.log2_spec (Zpos d) ltac:(lia)) as [Hb1 Hb2].
  pose proof (Z.log2_nonneg n) as Ha0.
  pose proof (Z.log2_nonneg (Zpos d)) as Hb0.
  set (a := Z.log2 n) in *. set (b := Z.log2 (Zpos d)) in *.
  assert (HA : (0 < 2 ^ a)%Z) by (apply Z.pow_pos_nonneg; lia).
  assert (HB : (0 < 2 ^ b)%Z) by (apply Z.pow_pos_nonneg; lia).
  assert (HA' : (2 ^ Z.succ a = 2 * 2 ^ a)%Z) by (apply Z.pow_succ_r; lia).
  assert (HB' : (2 ^ Z.succ b = 2 * 2 ^ b)%Z) by (apply Z.pow_succ_r; lia).
  split.
  - replace (a - b - 1)%Z with (a - (b + 1))%Z by lia.
    rewrite (Qpower_minus 2 a (b + 1) two_nonzero).
    rewrite <- (Zpower_Qpower 2 a) by lia.
    rewrite <- (Zpower_Qpower 2 (b + 1)) by lia.
    apply Qle_shift_div_r.
    + change 0%Q with (inject_Z 0). rewrite <- Zlt_Qlt.
      apply Z.pow_pos_nonneg; lia.
    + unfold Qle, Qmult, inject_Z. cbn [Qnum Qden].
      replace (b + 1)%Z with (Z.succ b) by lia. nia.
  - replace (a - b + 1)%Z with ((a + 1) - b)%Z by lia.
    rewrite (Qpower_minus 2 (a + 1) b two_nonzero).
    rewrite <- (Zpower_Qpower 2 (a + 1)) by lia.
    rewrite <- (Zpower_Qpower 2 b) by lia.
    apply Qlt_shift_div_l.
    + change 0%Q with (inject_Z 0). rewrite <- Zlt_Qlt. exact HB.
    + unfold Qlt, Qmult, inject_Z. cbn [Qnum Qden].
      replace (a + 1)%Z with (Z.succ a) by lia. nia.
Qed.

Lemma binade_spec (x : Q) :
  (0 < x)%Q -> (2 ^ binade x <= x)%Q /\ (x < 2 ^ (binade x + 1))%Q.
Proof.
  intros Hx. destruct x as [n d].
  assert (Hn : (0 < n)%Z) by (unfold Qlt in Hx; cbn in Hx; lia).
  destruct (log2_bounds n d Hn) as [Hlo Hhi].
  unfold binade. cbn [Qnum Qden].
  set (k := (Z.log2 n - Z.log2 (Zpos d))%Z) in *.
  destruct (Qle_bool (2 ^ k) (n # d)) eqn:Hk.
  - apply Qle_bool_iff in Hk. now split.
  - split; [exact Hlo|].
    replace (k - 1 + 1)%Z with k by lia.
    destruct (Qlt_le_dec (n # d) (2 ^ k)) as [Hlt|Hle]; [exact Hlt|].
    apply Qle_bool_iff in Hle. congruence.
Qed.

(** The double nearest to [x] is within half a last bit of [x]. *)
Lemma fl_error_ulp (x : Q) :
  (Qabs (fl x - x) <= 2 ^ ulp_exponent x * (1 # 2))%Q.
Proof.
  unfold fl. destruct (Qeq_bool x 0) eqn:H0.
  - apply Qeq_bool_iff in H0.
    assert (E : (0 - x == 0)%Q) by (rewrite H0; ring).
    rewrite E. cbn [Qabs]. 
    apply Qmult_le_0_compat; [apply Qlt_le_weak, pow2_pos|discriminate].
  - set (p := (2 ^ ulp_exponent x)%Q). 
    assert (Hp : (0 < p)%Q) by apply pow2_pos.
    assert (E : (inject_Z (round_half_even (x / p)) * p - x
                 == (inject_Z (round_half_even (x / p)) - x / p) * p)%Q).
    { field. intros Hz. rewrite Hz in Hp. discriminate. }
    rewrite E, Qabs_Qmult, (Qabs_pos p) by now apply Qlt_le_weak.
    rewrite (Qmult_comm p).
    apply Qmult_le_compat_r; [apply round_half_even_error|].
    now apply Qlt_le_weak.
Qed.

(** Below [2^K] the doubles are at most [2^(K-53)] apart. *)
Lemma fl_near (x : Q) (K : Z) :
  (Qabs x < 2 ^ K)%Q -> (-1021 <= K)%Z ->
  (Qabs (fl x - x) <= 2 ^ (K - 54))%Q.
Proof.
  intros Hx HK.
  destruct (Qeq_dec x 0) as [H0|H0].
  - unfold fl. rewrite (proj2 (Qeq_bool_iff x 0) H0).
    assert (E : (0 - x == 0)%Q) by (rewrite H0; ring).
    rewrite E. cbn [Qabs]. apply Qlt_le_weak, pow2_pos.
  - eapply Qle_trans; [apply fl_error_ulp|].
    assert (Hpos : (0 < Qabs x)%Q).
    { destruct (Qlt_le_dec 0 (Qabs x)) as [Hlt|Hle]; [exact Hlt|].
      exfalso. apply H0. pose proof (Qabs_nonneg x) as Hge.
      assert (Hz : (Qabs x == 0)%Q) by now apply Qle_antisym.
      revert Hz. apply Qabs_case; intros ? Hz; lra. }
    destruct (binade_spec (Qabs x) Hpos) as [Hlo _].
    assert (Hb : (binade (Qabs x) < K)%Z).
    { apply (Qpower_lt_compat_l_inv 2); [|reflexivity].
      eapply Qle_lt_trans; [exact Hlo|exact Hx]. }
    assert (He : (ulp_exponent x <= K - 53)%Z) by (unfold ulp_exponent; lia).
    replace (K - 54)%Z with ((K - 53) + (-1))%Z by lia.
    rewrite (Qpower_plus 2 (K - 53) (-1) two_nonzero).
    change (2 ^ (-1))%Q with (1 # 2)%Q.
    apply Qmult_le_compat_r; [|discriminate].
    apply Qpower_le_compat_l; [exact He|discriminate].
Qed.

Lemma fl_bound (x : Q) (K : Z) (e : Q) :
  (-1021 <= K)%Z -> e = (2 ^ (K - 54))%Q -> (Qabs x < 2 ^ K)%Q ->
  (x - e <= fl x)%Q /\ (fl x <= x + e)%Q.
Proof.
  intros HK -> Hx. pose proof (fl_near x K Hx HK) as Hn.
  apply Qabs_Qle_condition in Hn. lra.
Qed.

Ltac below K v :=
  apply Qabs_Qlt_condition; change (2 ^ K)%Q with v.

Lemma Qmake_100 (k : Z) : (k # 100 == inject_Z k * (1 # 100))%Q.
Proof. unfold Qeq, Qmult, inject_Z. cbn [Qnum Qden]. lia. Qed.

(** A product of two numbers within bounds. *)
Lemma mult_within (x y bx by' : Q) :
  (- bx <= x)%Q -> (x <= bx)%Q -> (- by' <= y)%Q -> (y <= by')%Q ->
  (- (bx * by') <= x * y)%Q /\ (x * y <= bx * by')%Q.
Proof.
  intros Hx1 Hx2 Hy1 Hy2. apply Qabs_Qle_condition.
  rewrite Qabs_Qmult.
  assert (Hax : (Qabs x <= bx)%Q) by (apply Qabs_Qle_condition; now split).
  assert (Hay : (Qabs y <= by')%Q) by (apply Qabs_Qle_condition; now split).
  pose proof (Qabs_nonneg x) as Hx0. pose proof (Qabs_nonneg y) as Hy0.
  apply Qle_trans with (Qabs x * by')%Q.
  - rewrite !(Qmult_comm (Qabs x)). now apply Qmult_le_compat_r.
  - apply Qmult_le_compat_r; [exact Hax|]. now apply Qle_trans with (Qabs y).
Qed.

(** The total of a sale as the script computes it in floats and rounds it
    with numpy lies within half a cent, and the float error, of the exact
    product. *)
Lemma float_total_close (q : Z) (p d : Q) :
  (1 <= q <= 10)%Z -> (10 <= p)%Q -> (p <= 5000)%Q ->
  (0 <= d)%Q -> (d <= 2 # 10)%Q ->
  (Qabs (np_round (fl (fl (inject_Z q * fl p) * fl (1 - fl d))) 2
         - inject_Z q * p * (1 - d))
   <= (1 # 200) + (1 # 1000000000))%Q.
Proof.
  intros [Hq1 Hq2] Hp1 Hp2 Hd1 Hd2.
  assert (HQ1 : (1 <= inject_Z q)%Q)
    by (change 1%Q with (inject_Z 1); now rewrite <- Zle_Qle).
  assert (HQ2 : (inject_Z q <= 10)%Q)
    by (change 10%Q with (inject_Z 10); now rewrite <- Zle_Qle).
  set (Q := inject_Z q) in *. clearbody Q. clear Hq1 Hq2.
  destruct (fl_bound p 13 (1 # 2199023255552) ltac:(lia) eq_refl) as [P1 P2].
  { below 13%Z 8192%Q. lra. }
  set (P := fl p) in *. clearbody P.
  (* Q * P against Q * p *)
  destruct (mult_within Q (P - p) 10 (1 # 2199023255552)) as [M1 M2];
    try lra.
  destruct (mult_within (Q - 5) (p - 2505) 5 2495) as [N1 N2]; try lra.
  pose proof (Qmult_le_0_compat (Q - 1) (p - 10) ltac:(lra) ltac:(lra)) as N0.
  assert (HQp1 : (10 <= Q * p)%Q) by lra.
  assert (HQp2 : (Q * p <= 50000)%Q) by lra.
  assert (EQP : (Q * P == Q * p + Q * (P - p))%Q) by ring.
  destruct (fl_bound (Q * P) 16 (1 # 274877906944) ltac:(lia) eq_refl)
    as [A1 A2].
  { below 16%Z 65536%Q. lra. }
  set (A := fl (Q * P)) in *. clearbody A.
  destruct (fl_bound d (-2) (1 # 72057594037927936) ltac:(lia) eq_refl)
    as [D1 D2].
  { below (-2)%Z (1 # 4)%Q. lra. }
  set (D := fl d) in *. clearbody D.
  destruct (fl_bound (1 - D) 1 (1 # 9007199254740992) ltac:(lia) eq_refl)
    as [S1 S2].
  { below 1%Z 2%Q. lra. }
  set (S := fl (1 - D)) in *. clearbody S.
  (* A * S against the exact product *)
  set (X := (Q * p)%Q) in *. clearbody X.
  destruct (mult_within (A - X) (S - (1 - d)) (1 # 100000000000)
              (1 # 1000000000000000)) as [T1 T2]; try lra.
  destruct (mult_within (A - X) ((1 - d) - (1 # 2)) (1 # 100000000000) (1 # 2))
    as [U1 U2]; try lra.
  destruct (mult_within (X - 25000) (S - (1 - d)) 25000
              (1 # 1000000000000000)) as [V1 V2]; try lra.
  destruct (mult_within (X - 25000) ((1 - d) - (1 # 2)) 25000 (1 # 2))
    as [W1 W2]; try lra.
  assert (EAS : (A * S == X * (1 - d) + (A - X) * (S - (1 - d))
                          + ((A - X) * ((1 - d) - (1 # 2)) + (1 # 2) * (A - X))
                          + ((X - 25000) * (S - (1 - d))
                             + 25000 * (S - (1 - d))))%Q) by ring.
  assert (EX : (X * (1 - d) == (X - 25000) * ((1 - d) - (1 # 2))
                               + (1 # 2) * X + 25000 * (1 - d) - 12500)%Q)
    by ring.
  destruct (fl_bound (A * S) 16 (1 # 274877906944) ltac:(lia) eq_refl)
    as [Y1 Y2].
  { below 16%Z 65536%Q. lra. }
  set (Y := fl (A * S)) in *. clearbody Y.
  destruct (fl_bound (Y * inject_Z (Zpos (pow10 2))) 23 (1 # 2147483648)
              ltac:(lia) eq_refl) as [Z1 Z2].
  { below 23%Z 8388608%Q. change (inject_Z (Zpos (pow10 2))) with 100%Q. lra. }
  unfold np_round. change (pow10 2) with 100%positive in *.
  change (inject_Z (Zpos 100)) with 100%Q in *.
  set (W := fl (Y * 100)) in *. clearbody W.
  pose proof (round_half_even_error W) as Hk.
  apply Qabs_Qle_condition in Hk.
  rewrite Qmake_100. set (k := inject_Z (round_half_even W)) in *. clearbody k.
  apply Qabs_Qle_condition. lra.
Qed.

(* ===================================================================== *)
(** * 11. The generator *)
(* ===================================================================== *)

(** ** Rules for [returns] *)

Section ReturnsRules.
Context {St : Type}.

Lemma returns_ret {A} (a : A) (P : A -> Prop) : P a -> returns (St:=St) (ret a) P.
Proof. intros Ha s. exists a, s. split; [reflexivity|exact Ha]. Qed.

Lemma returns_bind {A B} (m : M St A) (k : A -> M St B)
    (P : A -> Prop) (Q : B -> Prop) :
  returns m P -> (forall a, P a -> returns (k a) Q) -> returns (bind m k) Q.
Proof.
  intros Hm Hk s. destruct (Hm s) as (a & s1 & Hrun & Ha).
  destruct (Hk a Ha s1) as (b & s2 & Hrun2 & Hb).
  exists b, s2. split; [|exact Hb]. unfold bind. now rewrite Hrun.
Qed.

Lemma returns_call {A} (f : St -> A * St) (P : A -> Prop) :
  (forall s, P (fst (f s))) -> returns (call f) P.
Proof.
  intros Hf s. exists (fst (f s)), (snd (f s)). split; [|apply Hf].
  unfold call. now destruct (f s).
Qed.

Lemma returns_weaken {A} (m : M St A) (P Q : A -> Prop) :
  returns m P -> (forall a, P a -> Q a) -> returns m Q.
Proof.
  intros Hm HPQ s. destruct (Hm s) as (a & s' & Hrun & Ha).
  exists a, s'. auto.
Qed.

Lemma returns_for_each {A B} (xs : list A) (body : A -> M St B)
    (P : A -> B -> Prop) :
  (forall x, In x xs -> returns (body x) (P x)) ->
  returns (for_each xs body) (Forall2 P xs).
Proof.
  induction xs as [|x xs IH]; intros Hbody.
  - apply returns_ret. constructor.
  - cbn [for_each]. eapply returns_bind.
    + apply Hbody. now left.
    + intros b Hb. eapply returns_bind.
      * apply IH. intros y Hy. apply Hbody. now right.
      * intros bs Hbs. apply returns_ret. now constructor.
Qed.

Lemma returns_within_fuel {A} (o : option A) (a : A) (P : A -> Prop) :
  o = Some a -> P a -> returns (St:=St) (within_fuel o) P.
Proof. intros -> Ha. now apply returns_ret. Qed.
End ReturnsRules.

(** ** Columns of a frame built by a loop over its identifiers *)

Lemma Forall2_ids {A} (ids : list Z) (rows : list A) (key : A -> Z)
    (P : A -> Prop) :
  Forall2 (fun i r => key r = i /\ P r) ids rows ->
  map key rows = ids /\ Forall P rows.
Proof.
  induction 1 as [|i r ids rows [Hk Hp] _ [IH1 IH2]]; [now split|].
  split; [cbn; congruence | now constructor].
Qed.

Lemma key_lookup {A} (rows : list A) (key : A -> Z) (ids : list Z) (k : Z) :
  map key rows = ids -> In k ids -> exists r, In r rows /\ key r = k.
Proof.
  intros <- Hin. apply in_map_iff in Hin as (r & Hr & Hin). eauto.
Qed.

Lemma key_unique {A} (rows : list A) (key : A -> Z) (r1 r2 : A) :
  List.NoDup (map key rows) -> In r1 rows -> In r2 rows ->
  key r1 = key r2 -> r1 = r2.
Proof.
  induction rows as [|r rows IH]; [easy|].
  cbn [map]. intros Hnd [->|H1] [->|H2] Heq; inversion Hnd as [|? ? Hnotin Hnd']; subst.
  - reflexivity.
  - exfalso. apply Hnotin. rewrite Heq. now apply in_map.
  - exfalso. apply Hnotin. rewrite <- Heq. now apply in_map.
  - now apply IH.
Qed.

Lemma resolves_by_range {A B} (fk : A -> Z) (pk : B -> Z)
    (child : list A) (parent : list B) (lo hi : Z) :
  map pk parent = py_range lo hi ->
  Forall (fun a => lo <= fk a < hi) child ->
  resolves fk pk child parent.
Proof.
  intros Hids Hchild. unfold resolves.
  eapply List.Forall_impl; [|exact Hchild]. cbn. intros a Ha.
  apply (key_lookup parent pk (py_range lo hi)); [exact Hids|].
  now apply in_py_range.
Qed.

Section GeneratorProofs.
Context {St : Type} `{PyRuntime St}.

Lemma returns_randint (a b : Z) :
  a <= b -> returns (call (random_randint a b)) (fun n => a <= n <= b).
Proof. intros Hab. apply returns_call. intros s. now apply random_randint_range. Qed.

Lemma returns_uniform (a b : Q) :
  (a <= b)%Q ->
  returns (call (random_uniform a b)) (fun x => (a <= x)%Q /\ (x <= b)%Q).
Proof. intros Hab. apply returns_call. intros s. now apply random_uniform_range. Qed.

Lemma returns_any {A} (f : St -> A * St) : returns (call f) (fun _ => True).
Proof. now apply returns_call. Qed.

Lemma returns_sample_row {A} (df : list A) :
  df <> [] -> returns (sample_row df) (fun row => In row df).
Proof.
  intros Hne. destruct df as [|r0 df]; [congruence|].
  unfold sample_row. eapply returns_bind.
  - apply returns_call with (P := fun i => (i < length (r0 :: df))%nat).
    intros s. apply np_sample_index_lt. simpl. lia.
  - intros i Hi. destruct (nth_error (r0 :: df) i) as [row|] eqn:Hnth.
    + apply returns_ret. eapply nth_error_In. exact Hnth.
    + apply nth_error_None in Hnth. cbn beta in Hi. lia.
Qed.

(** *** Geography *)


Lemma generate_geography_data_spec :
  returns generate_geography_data
    (fun '(countries_df, regions_df, cities_df) =>
       countries_df = generated_countries /\
       regions_df = generated_regions /\
       map City.city_id cities_df = py_range 1 (NUM_CITIES + 1) /\
       Forall (fun c => 1 <= City.region_id c < NUM_REGIONS + 1) cities_df).
Proof.
  unfold generate_geography_data. eapply returns_bind.
  - apply returns_for_each
      with (P := fun '(i, _) c =>
                   City.city_id c = i /\ 1 <= City.region_id c < NUM_REGIONS + 1).
    intros [i city] _. eapply returns_bind.
    + apply returns_randint. unfold NUM_REGIONS. lia.
    + intros r Hr. apply returns_ret. cbn in *. lia.
  - intros cities_df Hc. apply returns_ret.
    split; [reflexivity|]. split; [reflexivity|].
    assert (Hc' : Forall2 (fun i c => City.city_id c = i
                                      /\ 1 <= City.region_id c < NUM_REGIONS + 1)
                    (map fst (enumerate 1 ukrainian_cities)) cities_df).
    { clear -Hc. induction Hc as [|[i n] c xs cs Hic _ IH]; cbn; constructor; auto. }
    apply Forall2_ids in Hc' as [Hids Hreg]. split; [|exact Hreg].
    rewrite Hids. reflexivity.
Qed.

(** *** Products *)

Lemma generate_product_data_spec :
  returns generate_product_data
    (fun '(categories_df, subcategories_df, products_df) =>
       categories_df = generated_categories /\
       subcategories_df = generate_subcategories /\
       map Product.product_id products_df = py_range 1 (NUM_PRODUCTS + 1) /\
       Forall (fun p => 1 <= Product.subcategory_id p < 25) products_df /\
       Forall (fun p => (10 <= Product.unit_price p)%Q
                        /\ (Product.unit_price p <= 5000)%Q) products_df).
Proof.
  unfold generate_product_data. eapply returns_bind.
  - apply returns_for_each
      with (P := fun i p =>
                   Product.product_id p = i
                   /\ (1 <= Product.subcategory_id p < 25
                       /\ (10 <= Product.unit_price p)%Q
                       /\ (Product.unit_price p <= 5000)%Q)).
    intros i _. eapply returns_bind.
    + apply returns_randint. change (len generate_subcategories) with 24. lia.
    + intros sc Hsc. change (len generate_subcategories) with 24 in Hsc.
      eapply returns_bind; [apply returns_any|]. intros w1 _.
      eapply returns_bind; [apply returns_any|]. intros w2 _.
      eapply returns_bind; [apply returns_uniform; discriminate|].
      intros price [Hp0 Hp1].
      apply returns_ret. cbn [Product.product_id Product.subcategory_id
                               Product.unit_price].
      destruct (py_round_2_price price Hp0 Hp1) as (Hr0 & Hr1 & _).
      cbn beta in Hsc.
      split; [reflexivity|]. split; [lia|]. split; assumption.
  - intros products_df Hp. apply returns_ret.
    apply Forall2_ids in Hp as [Hids Hrest].
    split; [reflexivity|]. split; [reflexivity|]. split; [exact Hids|].
    split.
    + eapply List.Forall_impl; [|exact Hrest]. now intros a [Ha _].
    + eapply List.Forall_impl; [|exact Hrest]. now intros a [_ Ha].
Qed.

(** *** Customers and salespeople *)

Lemma generate_customer_data_spec :
  returns generate_customer_data
    (fun customers_df =>
       map Customer.customer_id customers_df = py_range 1 (NUM_CUSTOMERS + 1) /\
       Forall (fun c => 1 <= Customer.city_id c < NUM_CITIES + 1) customers_df).
Proof.
  unfold generate_customer_data. eapply returns_weaken.
  - apply returns_for_each
      with (P := fun i c =>
                   Customer.customer_id c = i
                   /\ 1 <= Customer.city_id c < NUM_CITIES + 1).
    intros i _.
    eapply returns_bind; [apply returns_any|]. intros name _.
    eapply returns_bind; [apply returns_any|]. intros email _.
    eapply returns_bind; [apply returns_any|]. intros phone _.
    eapply returns_bind; [apply returns_randint; unfold NUM_CITIES; lia|].
    intros city Hcity.
    eapply returns_bind; [apply returns_any|]. intros registered _.
    apply returns_ret. cbn in *. lia.
  - intros customers_df Hc. now apply Forall2_ids in Hc.
Qed.

Lemma generate_sales_people_data_spec :
  returns generate_sales_people_data
    (fun sales_people_df =>
       map Salesperson.salesperson_id sales_people_df
       = py_range 1 (NUM_SALES_PEOPLE + 1) /\
       Forall (fun p => 1 <= Salesperson.region_id p < NUM_REGIONS + 1)
              sales_people_df).
Proof.
  unfold generate_sales_people_data. eapply returns_weaken.
  - apply returns_for_each
      with (P := fun i p =>
                   Salesperson.salesperson_id p = i
                   /\ 1 <= Salesperson.region_id p < NUM_REGIONS + 1).
    intros i _.
    eapply returns_bind; [apply returns_any|]. intros name _.
    eapply returns_bind; [apply returns_any|]. intros hired _.
    eapply returns_bind; [apply returns_randint; unfold NUM_REGIONS; lia|].
    intros region Hregion.
    apply returns_ret. cbn in *. lia.
  - intros sales_people_df Hp. now apply Forall2_ids in Hp.
Qed.

End GeneratorProofs.

(** ** The time dimension *)

Lemma generate_time_loop_more_fuel (fuel extra : nat) (d : Date.t) (i : Z)
    (acc rows : list TimeRow.t) :
  generate_time_loop fuel d i acc = Some rows ->
  generate_time_loop (fuel + extra) d i acc = Some rows.
Proof.
  revert d i acc. induction fuel as [|fuel IH]; intros d i acc; [discriminate|].
  cbn [generate_time_loop Nat.add].
  destruct (date_leb d end_date); [apply IH|trivial].
Qed.

Lemma time_row_check_sound (r : TimeRow.t) :
  time_row_check r = true -> time_row_consistent r.
Proof.
  unfold time_row_check, time_row_consistent. intros Hc.
  repeat (apply andb_prop in Hc as [Hc ?]).
  destruct (nth_error DAY_NAMES _) as [name|] eqn:Hname; [|discriminate].
  repeat match goal with
         | Hb : (_ =? _) = true |- _ => apply Z.eqb_eq in Hb
         | Hb : (_ <? _) = true |- _ => apply Z.ltb_lt in Hb
         | Hb : (_ <=? _) = true |- _ => apply Z.leb_le in Hb
         | Hb : String.eqb _ _ = true |- _ => apply String.eqb_eq in Hb
         end.
  subst name. repeat split; try assumption; try lia.
  eexists. repeat split; [eassumption| |]; lia.
Qed.

(** The loop ends within its bound, yields one row per day of 2022-2024
    (1096 rows, numbered from 1) and every row passes the test. *)
Lemma generate_time_loop_run :
  exists rows,
    generate_time_loop time_loop_fuel start_date 1 [] = Some rows
    /\ forallb time_row_check rows = true
    /\ map TimeRow.time_id rows = py_range 1 1097.
Proof.
  eexists. split; [vm_compute; reflexivity|].
  split; vm_compute; reflexivity.
Qed.

Section GeneratorProofs2.
Context {St : Type} `{PyRuntime St}.

Lemma generate_time_data_spec :
  returns (generate_time_data (St:=St))
    (fun time_df =>
       Forall time_row_consistent time_df
       /\ map TimeRow.time_id time_df = py_range 1 1097).
Proof.
  destruct generate_time_loop_run as (rows & Hrun & Hchk & Hids).
  unfold generate_time_data.
  eapply returns_within_fuel; [exact Hrun|]. split; [|exact Hids].
  apply List.Forall_forall. intros r Hr. apply time_row_check_sound.
  rewrite forallb_forall in Hchk. apply Hchk. exact Hr.
Qed.

(** *** Facts *)

Lemma generate_sales_data_spec (time_df : list TimeRow.t)
    (products_df : list Product.t) (customers_df : list Customer.t)
    (sales_people_df : list Salesperson.t) :
  time_df <> [] -> products_df <> [] -> customers_df <> [] ->
  sales_people_df <> [] ->
  List.NoDup (map Product.product_id products_df) ->
  Forall (fun p => (10 <= Product.unit_price p)%Q
                   /\ (Product.unit_price p <= 5000)%Q) products_df ->
  returns (generate_sales_data time_df products_df customers_df sales_people_df)
    (fun sales_df =>
       Forall (sale_keys_resolve TimeRow.time_id Product.product_id
                 Customer.customer_id Salesperson.salesperson_id
                 time_df products_df customers_df sales_people_df) sales_df
       /\ Forall (sale_measures_float products_df) sales_df).
Proof.
  intros Ht Hp Hc Hs Hnd Hprices. unfold generate_sales_data. eapply returns_weaken.
  - apply returns_for_each
      with (P := fun (_ : Z) f =>
                   sale_keys_resolve TimeRow.time_id Product.product_id
                     Customer.customer_id Salesperson.salesperson_id
                     time_df products_df customers_df sales_people_df f
                   /\ sale_measures_float products_df f).
    intros i _.
    eapply returns_bind; [now apply returns_sample_row|]. intros t Hin_t.
    eapply returns_bind; [now apply returns_sample_row|]. intros p Hin_p.
    eapply returns_bind; [now apply returns_sample_row|]. intros c Hin_c.
    eapply returns_bind; [now apply returns_sample_row|]. intros sp Hin_sp.
    eapply returns_bind; [apply returns_randint; lia|]. intros q Hq.
    eapply returns_bind; [apply returns_uniform; discriminate|]. intros u [Hu0 Hu1].
    apply returns_ret. cbn beta in *.
    destruct (py_round_3_discount u Hu0 Hu1) as [Hd0 Hd1].
    split.
    + unfold sale_keys_resolve. cbn. repeat split; eauto.
    + unfold sale_measures_float.
      cbn [Sale.quantity Sale.product_id Sale.unit_price Sale.discount
           Sale.total_amount].
      split; [lia|]. split.
      { exists p. repeat split; try assumption; try reflexivity.
        intros p' Hin' Hid'.
        now apply (key_unique products_df Product.product_id). }
      split; [exact Hd0|]. split; [exact Hd1|]. split; [reflexivity|].
      rewrite List.Forall_forall in Hprices.
      destruct (Hprices p Hin_p) as [Hp0 Hp1].
      now apply float_total_close.
  - intros sales_df Hall. split.
    + clear -Hall. induction Hall as [|? ? ? ? [? ?]]; constructor; auto.
    + clear -Hall. induction Hall as [|? ? ? ? [? ?]]; constructor; auto.
Qed.

End GeneratorProofs2.

(* ===================================================================== *)
(** * 12. The relational store *)
(* ===================================================================== *)

Lemma result_bind_ok {A B} (r : result A) (k : A -> result B) (b : B) :
  result_bind r k = Ok b -> exists a, r = Ok a /\ k a = Ok b.
Proof. destruct r as [a|e]; [eauto|discriminate]. Qed.

Lemma mem_In (name : string) (names : list string) :
  mem name names = true <-> In name names.
Proof.
  unfold mem. rewrite existsb_exists. split.
  - intros (x & Hx & Heq). apply String.eqb_eq in Heq. now subst.
  - intros Hin. exists name. split; [exact Hin|apply String.eqb_refl].
Qed.

Lemma name_taken_app (name : string) (db1 db2 : Database) :
  name_taken name (db1 ++ db2) = name_taken name db1 || name_taken name db2.
Proof. unfold name_taken. apply existsb_app. Qed.

Lemma find_table_app_None (name : string) (db1 db2 : Database) :
  find_table name db1 = None ->
  find_table name (db1 ++ db2) = find_table name db2.
Proof.
  induction db1 as [|[n c|n t c] db1 IH]; cbn; [trivial| |exact IH].
  destruct (String.eqb n name); [discriminate|exact IH].
Qed.

Lemma drop_table_app (name : string) (db1 db2 : Database) :
  drop_table name (db1 ++ db2) = drop_table name db1 ++ drop_table name db2.
Proof. unfold drop_table. apply List.filter_app. Qed.

Lemma execute_all_app (s1 s2 : list statement) (db : Database) :
  execute_all (s1 ++ s2) db = result_bind (execute_all s1 db) (execute_all s2).
Proof.
  revert db. induction s1 as [|stmt s1 IH]; intros db; [reflexivity|].
  cbn. destruct (execute stmt db) as [db'|e]; [apply IH|reflexivity].
Qed.

(** The drop phase never raises and leaves what belongs to no dropped table. *)
Lemma execute_all_drops (names : list string) (db : Database) :
  execute_all (map DropTableIfExists names) db = Ok (outside names db).
Proof.
  revert db. induction names as [|name names IH]; intros db.
  - cbn. unfold outside. f_equal. symmetry. apply forallb_filter_id.
    now apply forallb_forall.
  - cbn [map execute_all execute result_bind]. rewrite IH. f_equal.
    unfold outside, drop_table, owned_by, mem.
    induction db as [|o db IHdb]; [reflexivity|].
    cbn [List.filter existsb].
    destruct (String.eqb (owner_table o) name) eqn:Heq; cbn [negb orb List.filter].
    + exact IHdb.
    + destruct (existsb (String.eqb (owner_table o)) names);
        cbn [negb]; [exact IHdb|now f_equal].
Qed.

Lemma outside_owned (names : list string) (db : Database) (o : schema_object) :
  In o (outside names db) -> owned_by names o = false.
Proof.
  unfold outside. intros Hin. apply List.filter_In in Hin as [_ Hneg].
  now apply negb_true_iff.
Qed.

Lemma outside_idem (names : list string) (db : Database) :
  outside names (outside names db) = outside names db.
Proof.
  unfold outside. apply forallb_filter_id. apply forallb_forall.
  intros o Hin. now apply List.filter_In in Hin.
Qed.

(** ** A part of the catalogue that a build cannot see

    [base] holds nothing that belongs to the tables [names]. *)
Section Inert.
Variable names : list string.
Variable base : Database.
Hypothesis Hbase : forall o, In o base -> owned_by names o = false.

Lemma inert_find_table (name : string) :
  mem name names = true -> find_table name base = None.
Proof.
  intros Hmem. induction base as [|[n c|n t c] db IH]; cbn; [trivial| |].
  - destruct (String.eqb n name) eqn:Heq.
    + apply String.eqb_eq in Heq. subst n.
      specialize (Hbase (Table name c) (or_introl eq_refl)).
      unfold owned_by in Hbase. cbn in Hbase. congruence.
    + apply IH. intros o Ho. apply Hbase. now right.
  - apply IH. intros o Ho. apply Hbase. now right.
Qed.

Lemma inert_drop_table (name : string) :
  mem name names = true -> drop_table name base = base.
Proof.
  intros Hmem. unfold drop_table. apply forallb_filter_id.
  apply forallb_forall. intros o Ho. apply negb_true_iff.
  destruct (String.eqb (owner_table o) name) eqn:Heq; [|reflexivity].
  apply String.eqb_eq in Heq. specialize (Hbase o Ho).
  unfold owned_by in Hbase. congruence.
Qed.

Lemma inert_outside (db : Database) :
  (forall o, In o db -> owned_by names o = true) ->
  outside names (base ++ db) = base.
Proof.
  intros Hdb. unfold outside. rewrite List.filter_app.
  rewrite forallb_filter_id.
  - replace (List.filter _ db) with (@nil schema_object); [apply app_nil_r|].
    symmetry. induction db as [|o db IH]; [reflexivity|].
    cbn. rewrite (Hdb o (or_introl eq_refl)). cbn. apply IH.
    intros o' Ho'. apply Hdb. now right.
  - apply forallb_forall. intros o Ho. now rewrite (Hbase o Ho).
Qed.

(** A successful run of creating statements found their names free in
    [base]. *)
Lemma creates_found_names_free (stmts : list statement) (db db' : Database) :
  forallb is_create stmts = true ->
  execute_all stmts (base ++ db) = Ok db' ->
  forallb (fun stmt => negb (name_taken (claimed_name stmt) base)) stmts = true.
Proof.
  revert db. induction stmts as [|stmt stmts IH]; intros db Hc Hrun; [reflexivity|].
  cbn in Hc. apply andb_prop in Hc as [Hc1 Hc2].
  cbn in Hrun. apply result_bind_ok in Hrun as (mid & Hstep & Hrest).
  destruct stmt as [n|n e u|n t c]; [discriminate| |];
    cbn [execute] in Hstep; cbn [forallb claimed_name].
  - rewrite name_taken_app in Hstep.
    destruct (name_taken n base); [discriminate|]. cbn [orb] in Hstep.
    destruct (name_taken n db); [discriminate|].
    injection Hstep as <-. rewrite <- app_assoc in Hrest.
    cbn [negb andb]. now apply IH in Hrest.
  - destruct (find_table t (base ++ db)) as [content|]; [|discriminate].
    rewrite name_taken_app in Hstep.
    destruct (name_taken n base); [discriminate|]. cbn [orb] in Hstep.
    destruct (name_taken n db); [discriminate|].
    destruct (existsb _ _); [|discriminate].
    injection Hstep as <-. rewrite <- app_assoc in Hrest.
    cbn [negb andb]. now apply IH in Hrest.
Qed.

(** With their names free in [base], creating statements run on
    [base ++ db] as they run on [db]. *)
Lemma creates_frame (stmts : list statement) (db db' : Database) :
  forallb (fun stmt => is_create stmt && mem (target_table stmt) names) stmts
  = true ->
  forallb (fun stmt => negb (name_taken (claimed_name stmt) base)) stmts = true ->
  execute_all stmts db = Ok db' ->
  execute_all stmts (base ++ db) = Ok (base ++ db').
Proof.
  revert db. induction stmts as [|stmt stmts IH]; intros db Hc Hfree Hrun.
  - cbn in Hrun |- *. injection Hrun as <-. reflexivity.
  - cbn in Hc, Hfree. apply andb_prop in Hc as [Hc1 Hc2].
    apply andb_prop in Hc1 as [Hcreate Htarget].
    apply andb_prop in Hfree as [Hf1 Hf2]. apply negb_true_iff in Hf1.
    cbn in Hrun. apply result_bind_ok in Hrun as (mid & Hstep & Hrest).
    cbn [execute_all].
    destruct stmt as [n|n e u|n t c]; [discriminate| |];
      cbn [execute claimed_name target_table] in Hstep, Hf1, Htarget |- *.
    + rewrite name_taken_app, Hf1. cbn [orb].
      destruct (name_taken n db); [discriminate|]. injection Hstep as <-.
      cbn [result_bind]. rewrite <- app_assoc. now apply IH.
    + rewrite find_table_app_None by now apply inert_find_table.
      destruct (find_table t db) as [content|]; [|discriminate].
      rewrite name_taken_app, Hf1. cbn [orb].
      destruct (name_taken n db); [discriminate|].
      destruct (existsb _ _); [|discriminate]. injection Hstep as <-.
      cbn [result_bind]. rewrite <- app_assoc. now apply IH.
Qed.

(** The same for the frames [load_data] writes. *)
Lemma to_sql_all_frame (frames : list (string * relation)) (db db' : Database) :
  forallb (fun '(name, _) => mem name names && negb (name_taken name base)) frames
  = true ->
  to_sql_all frames db = Ok db' ->
  to_sql_all frames (base ++ db) = Ok (base ++ db').
Proof.
  revert db. induction frames as [|[name frame] frames IH]; intros db Hc Hrun.
  - cbn in Hrun |- *. injection Hrun as <-. reflexivity.
  - cbn in Hc. apply andb_prop in Hc as [Hc1 Hc2].
    apply andb_prop in Hc1 as [Hmem Hfree]. apply negb_true_iff in Hfree.
    cbn [to_sql_all] in Hrun. apply result_bind_ok in Hrun as (mid & Hstep & Hrest).
    cbn [to_sql_all]. unfold to_sql in Hstep |- *.
    rewrite find_table_app_None by now apply inert_find_table.
    assert (Hgo : forall db0 mid0,
               execute (CreateTable name frame []) db0 = Ok mid0 ->
               execute (CreateTable name frame []) (base ++ db0)
               = Ok (base ++ mid0)).
    { intros db0 mid0. cbn [execute]. rewrite name_taken_app, Hfree. cbn [orb].
      destruct (name_taken name db0); [discriminate|].
      intros [= <-]. now rewrite app_assoc. }
    destruct (find_table name db) as [content|].
    + rewrite drop_table_app, inert_drop_table by exact Hmem.
      rewrite (Hgo _ _ Hstep). cbn [result_bind]. now apply IH.
    + rewrite (Hgo _ _ Hstep). cbn [result_bind]. now apply IH.
Qed.
End Inert.

(** ** The outcome of a build sequence *)

Section BuildSequence.
Variable names : list string.
Variable creates : list statement.
Variable frames : Dataset -> list (string * relation).
Variable stats : Dataset -> list (string * Z).
(** what the creating statements leave in an empty database *)
Variable created : Database.

Hypothesis Hcreates :
  forallb (fun stmt => is_create stmt && mem (target_table stmt) names) creates
  = true.
Hypothesis Hcreated : execute_all creates [] = Ok created.
Hypothesis Hframes :
  forall ds, forallb (fun '(name, _) =>
                        mem name names && mem name (map claimed_name creates))
                     (frames ds) = true.
Hypothesis Hloaded :
  forall ds, to_sql_all (frames ds) created = Ok (as_tables (frames ds)).

Let build := build_sequence names creates frames stats.

Lemma build_after_drops (data_dir : option Dataset) (db : Database) :
  build data_dir db
  = result_bind (execute_all creates (outside names db)) (fun db1 =>
    result_bind (load_frames frames stats data_dir db1) (fun '(db2, _) =>
    Ok db2)).
Proof.
  unfold build, build_sequence.
  now rewrite execute_all_app, execute_all_drops.
Qed.

Lemma creates_all_create : forallb is_create creates = true.
Proof.
  apply forallb_forall. intros stmt Hin.
  rewrite forallb_forall in Hcreates. specialize (Hcreates stmt Hin).
  now apply andb_prop in Hcreates.
Qed.

Lemma frames_owned (ds : Dataset) (o : schema_object) :
  In o (as_tables (frames ds)) -> owned_by names o = true /\ is_index o = false.
Proof.
  unfold as_tables. intros Hin. apply in_map_iff in Hin as ([n r] & <- & Hin).
  specialize (Hframes ds). rewrite forallb_forall in Hframes.
  specialize (Hframes _ Hin). cbn in Hframes.
  apply andb_prop in Hframes as [Hm _]. now split.
Qed.

(** Names that were free for the creating statements are free for the
    frames. *)
Lemma frames_free (base : Database) (ds : Dataset) :
  forallb (fun stmt => negb (name_taken (claimed_name stmt) base)) creates = true ->
  forallb (fun '(name, _) => mem name names && negb (name_taken name base))
          (frames ds) = true.
Proof.
  intros Hfree. apply forallb_forall. intros [n r] Hin.
  specialize (Hframes ds). rewrite forallb_forall in Hframes.
  specialize (Hframes _ Hin). cbn in Hframes.
  apply andb_prop in Hframes as [Hm Hc]. rewrite Hm. cbn.
  apply mem_In in Hc. apply in_map_iff in Hc as (stmt & <- & Hstmt).
  rewrite forallb_forall in Hfree. now apply Hfree.
Qed.

(** A build that succeeds leaves what did not belong to its tables,
    followed by the frames it loaded: nothing else. *)
Lemma build_closed_form (ds : Dataset) (db db' : Database) :
  build (Some ds) db = Ok db' ->
  db' = outside names db ++ as_tables (frames ds).
Proof.
  rewrite build_after_drops. intros Hrun.
  apply result_bind_ok in Hrun as (db1 & Hc & Hrun).
  set (base := outside names db) in *.
  assert (Hbase : forall o, In o base -> owned_by names o = false)
    by (intros o; apply outside_owned).
  assert (Hfree : forallb (fun stmt => negb (name_taken (claimed_name stmt) base))
                          creates = true).
  { apply (creates_found_names_free base creates [] db1 creates_all_create).
    now rewrite app_nil_r. }
  pose proof (creates_frame names base Hbase creates [] created
                Hcreates Hfree Hcreated) as Hc'.
  rewrite app_nil_r in Hc'. rewrite Hc' in Hc. injection Hc as <-.
  unfold load_frames in Hrun. cbn [read_csv_files result_bind] in Hrun.
  rewrite (to_sql_all_frame names base Hbase (frames ds) created
             (as_tables (frames ds)) (frames_free base ds Hfree) (Hloaded ds))
    in Hrun.
  cbn in Hrun. now injection Hrun as <-.
Qed.

(** Building again from the same files changes nothing. *)
Lemma build_idempotent (ds : Dataset) (db db' : Database) :
  build (Some ds) db = Ok db' -> build (Some ds) db' = Ok db'.
Proof.
  intros Hrun. pose proof (build_closed_form ds db db' Hrun) as Hdb'.
  rewrite <- Hrun. rewrite !build_after_drops. do 2 f_equal.
  rewrite Hdb'. apply inert_outside.
  - intros o. apply outside_owned.
  - intros o Ho. now apply frames_owned in Ho.
Qed.

(** After a build, a table of the build holds the frame loaded into it. *)
Lemma build_find_table (ds : Dataset) (db db' : Database) (name : string) :
  build (Some ds) db = Ok db' ->
  mem name names = true ->
  find_table name db' = find_table name (as_tables (frames ds)).
Proof.
  intros Hrun Hmem. rewrite (build_closed_form ds db db' Hrun).
  apply find_table_app_None. apply (inert_find_table names); [|exact Hmem].
  intros o. apply outside_owned.
Qed.

(** After a build, no index on a table of the build is left. *)
Lemma build_leaves_no_index (ds : Dataset) (db db' : Database) (o : schema_object) :
  build (Some ds) db = Ok db' ->
  In o db' -> is_index o = true -> owned_by names o = false.
Proof.
  intros Hrun Hin Hidx. rewrite (build_closed_form ds db db' Hrun) in Hin.
  apply in_app_or in Hin as [Hin|Hin].
  - now apply outside_owned in Hin.
  - apply frames_owned in Hin as [_ Hno]. congruence.
Qed.

(** Schema creation alone, when it succeeds, leaves the empty tables and
    the indexes after what did not belong to the tables. *)
Lemma creation_closed_form (db db1 : Database) :
  execute_all (map DropTableIfExists names ++ creates) db = Ok db1 ->
  db1 = outside names db ++ created
  /\ forallb (fun stmt => negb (name_taken (claimed_name stmt) (outside names db)))
             creates = true.
Proof.
  rewrite execute_all_app, execute_all_drops. cbn [result_bind]. intros Hc.
  set (base := outside names db) in *.
  assert (Hbase : forall o, In o base -> owned_by names o = false)
    by (intros o; apply outside_owned).
  assert (Hfree : forallb (fun stmt => negb (name_taken (claimed_name stmt) base))
                          creates = true).
  { apply (creates_found_names_free base creates [] db1 creates_all_create).
    now rewrite app_nil_r. }
  split; [|exact Hfree].
  pose proof (creates_frame names base Hbase creates [] created
                Hcreates Hfree Hcreated) as Hc'.
  rewrite app_nil_r in Hc'. rewrite Hc' in Hc. now injection Hc as <-.
Qed.

(** No object of the store bears the name of a created index once the
    frames are loaded, unless a frame does. *)
Lemma build_index_names_gone (ds : Dataset) (db db' : Database)
    (stmt : statement) :
  build (Some ds) db = Ok db' ->
  In stmt creates ->
  name_taken (claimed_name stmt) db'
  = name_taken (claimed_name stmt) (as_tables (frames ds)).
Proof.
  intros Hrun Hin. rewrite (build_closed_form ds db db' Hrun).
  rewrite name_taken_app.
  rewrite build_after_drops in Hrun.
  apply result_bind_ok in Hrun as (db1 & Hc & _).
  assert (Hfree : forallb (fun stmt => negb (name_taken (claimed_name stmt)
                                               (outside names db)))
                          creates = true).
  { apply (creates_found_names_free (outside names db) creates [] db1
             creates_all_create). now rewrite app_nil_r. }
  rewrite forallb_forall in Hfree. specialize (Hfree stmt Hin).
  apply negb_true_iff in Hfree. now rewrite Hfree.
Qed.

(** On a fresh (empty) database file the build succeeds. *)
Lemma build_fresh (ds : Dataset) :
  build (Some ds) [] = Ok (as_tables (frames ds)).
Proof.
  rewrite build_after_drops. cbn [outside List.filter].
  rewrite Hcreated. cbn [result_bind]. unfold load_frames.
  cbn [read_csv_files result_bind]. now rewrite Hloaded.
Qed.
End BuildSequence.

(** ** The two builders are build sequences *)


Lemma star_build_sequence (data_dir : option Dataset) (db : Database) :
  star_build data_dir db
  = build_sequence star_names star_creates StarSchemaBuilder.frames
      StarSchemaBuilder.stats data_dir db.
Proof. reflexivity. Qed.

Lemma snowflake_build_sequence (data_dir : option Dataset) (db : Database) :
  snowflake_build data_dir db
  = build_sequence snowflake_names snowflake_creates SnowflakeSchemaBuilder.frames
      SnowflakeSchemaBuilder.stats data_dir db.
Proof. reflexivity. Qed.


Lemma star_creates_ok :
  forallb (fun stmt => is_create stmt && mem (target_table stmt) star_names)
          star_creates = true.
Proof. reflexivity. Qed.

Lemma star_created_ok : execute_all star_creates [] = Ok star_created.
Proof. reflexivity. Qed.

Lemma star_frames_ok (ds : Dataset) :
  forallb (fun '(name, _) =>
             mem name star_names && mem name (map claimed_name star_creates))
          (StarSchemaBuilder.frames ds) = true.
Proof. reflexivity. Qed.

Lemma star_loaded_ok (ds : Dataset) :
  to_sql_all (StarSchemaBuilder.frames ds) star_created
  = Ok (as_tables (StarSchemaBuilder.frames ds)).
Proof. reflexivity. Qed.

Lemma snowflake_creates_ok :
  forallb (fun stmt => is_create stmt && mem (target_table stmt) snowflake_names)
          snowflake_creates = true.
Proof. reflexivity. Qed.

Lemma snowflake_created_ok : execute_all snowflake_creates [] = Ok snowflake_created.
Proof. reflexivity. Qed.

Lemma snowflake_frames_ok (ds : Dataset) :
  forallb (fun '(name, _) =>
             mem name snowflake_names
             && mem name (map claimed_name snowflake_creates))
          (SnowflakeSchemaBuilder.frames ds) = true.
Proof. reflexivity. Qed.

Lemma snowflake_loaded_ok (ds : Dataset) :
  to_sql_all (SnowflakeSchemaBuilder.frames ds) snowflake_created
  = Ok (as_tables (SnowflakeSchemaBuilder.frames ds)).
Proof. reflexivity. Qed.

Section StarStore.
Lemma star_closed_form (ds : Dataset) (db db' : Database) :
  star_build (Some ds) db = Ok db' ->
  db' = outside star_names db ++ as_tables (StarSchemaBuilder.frames ds).
Proof.
  rewrite star_build_sequence.
  apply (build_closed_form star_names star_creates StarSchemaBuilder.frames
           StarSchemaBuilder.stats star_created star_creates_ok star_created_ok
           star_frames_ok star_loaded_ok).
Qed.

Lemma star_find_table (ds : Dataset) (db db' : Database) (name : string) :
  star_build (Some ds) db = Ok db' ->
  mem name star_names = true ->
  find_table name db' = find_table name (as_tables (StarSchemaBuilder.frames ds)).
Proof.
  rewrite star_build_sequence.
  apply (build_find_table star_names star_creates StarSchemaBuilder.frames
           StarSchemaBuilder.stats star_created star_creates_ok star_created_ok
           star_frames_ok star_loaded_ok).
Qed.

Lemma star_tables (ds : Dataset) (db db' : Database) :
  star_build (Some ds) db = Ok db' ->
  dim_products_in db' = StarSchemaBuilder.dim_product_of ds
  /\ dim_customers_in db' = StarSchemaBuilder.dim_customer_of ds
  /\ dim_salespeople_in db' = StarSchemaBuilder.dim_salesperson_of ds
  /\ time_rows_in db' = time_dimension ds
  /\ sales_in db' = sales_facts ds.
Proof.
  intros Hrun.
  unfold dim_products_in, dim_customers_in, dim_salespeople_in, time_rows_in,
    sales_in.
  rewrite !(star_find_table ds db db' _ Hrun) by reflexivity.
  repeat split; reflexivity.
Qed.
End StarStore.

Section SnowflakeStore.
Lemma snowflake_closed_form (ds : Dataset) (db db' : Database) :
  snowflake_build (Some ds) db = Ok db' ->
  db' = outside snowflake_names db
        ++ as_tables (SnowflakeSchemaBuilder.frames ds).
Proof.
  rewrite snowflake_build_sequence.
  apply (build_closed_form snowflake_names snowflake_creates
           SnowflakeSchemaBuilder.frames SnowflakeSchemaBuilder.stats
           snowflake_created snowflake_creates_ok snowflake_created_ok
           snowflake_frames_ok snowflake_loaded_ok).
Qed.

Lemma snowflake_find_table (ds : Dataset) (db db' : Database) (name : string) :
  snowflake_build (Some ds) db = Ok db' ->
  mem name snowflake_names = true ->
  find_table name db'
  = find_table name (as_tables (SnowflakeSchemaBuilder.frames ds)).
Proof.
  rewrite snowflake_build_sequence.
  apply (build_find_table snowflake_names snowflake_creates
           SnowflakeSchemaBuilder.frames SnowflakeSchemaBuilder.stats
           snowflake_created snowflake_creates_ok snowflake_created_ok
           snowflake_frames_ok snowflake_loaded_ok).
Qed.

Lemma snowflake_tables (ds : Dataset) (db db' : Database) :
  snowflake_build (Some ds) db = Ok db' ->
  countries_in db' = countries ds /\ regions_in db' = regions ds
  /\ cities_in db' = cities ds /\ categories_in db' = categories ds
  /\ subcategories_in db' = subcategories ds /\ products_in db' = products ds
  /\ customers_in db' = customers ds /\ salespeople_in db' = sales_people ds
  /\ time_rows_in db' = time_dimension ds /\ sales_in db' = sales_facts ds.
Proof.
  intros Hrun.
  unfold countries_in, regions_in, cities_in, categories_in, subcategories_in,
    products_in, customers_in, salespeople_in, time_rows_in, sales_in.
  rewrite !(snowflake_find_table ds db db' _ Hrun) by reflexivity.
  repeat split; reflexivity.
Qed.
End SnowflakeStore.

(** ** Inner joins *)

Lemma in_merge {A B} (left : list A) (right : list B)
    (left_on : A -> Z) (right_on : B -> Z) (a : A) (b : B) :
  In (a, b) (merge left right left_on right_on)
  <-> In a left /\ In b right /\ right_on b = left_on a.
Proof.
  unfold merge. rewrite in_flat_map. split.
  - intros (a' & Ha' & Hin). apply in_map_iff in Hin as (b' & Heq & Hb').
    injection Heq as -> ->. apply List.filter_In in Hb' as [Hb' Hk].
    apply Z.eqb_eq in Hk. auto.
  - intros (Ha & Hb & Hk). exists a. split; [exact Ha|].
    apply in_map. apply List.filter_In. split; [exact Hb|]. now apply Z.eqb_eq.
Qed.

(** A left row whose key resolves survives the join. *)
Lemma merge_keeps {A B} (left : list A) (right : list B)
    (left_on : A -> Z) (right_on : B -> Z) (a : A) :
  In a left -> (exists b, In b right /\ right_on b = left_on a) ->
  exists b, In (a, b) (merge left right left_on right_on).
Proof.
  intros Ha (b & Hb & Hk). exists b. apply in_merge. auto.
Qed.

(** ** Denormalised rows come from the normalised chain *)

Lemma dim_product_of_chain (ds : Dataset) (d : DimProduct.t) :
  In d (StarSchemaBuilder.dim_product_of ds) ->
  exists p s c,
    In p (products ds) /\ In s (subcategories ds) /\ In c (categories ds)
    /\ Subcategory.subcategory_id s = Product.subcategory_id p
    /\ Category.category_id c = Subcategory.category_id s
    /\ d = DimProduct.mk (Product.product_id p) (Product.product_name p)
             (Product.product_code p) (Product.unit_price p)
             (Subcategory.subcategory_name s) (Category.category_name c).
Proof.
  unfold StarSchemaBuilder.dim_product_of. intros Hin.
  apply in_map_iff in Hin as ([[p s] c] & <- & Hin).
  apply in_merge in Hin as (Hps & Hc & Hk2).
  apply in_merge in Hps as (Hp & Hs & Hk1).
  exists p, s, c. repeat split; assumption.
Qed.

Lemma dim_customer_of_chain (ds : Dataset) (d : DimCustomer.t) :
  In d (StarSchemaBuilder.dim_customer_of ds) ->
  exists c ci r co,
    In c (customers ds) /\ In ci (cities ds) /\ In r (regions ds)
    /\ In co (countries ds)
    /\ City.city_id ci = Customer.city_id c
    /\ Region.region_id r = City.region_id ci
    /\ Country.country_id co = Region.country_id r
    /\ d = DimCustomer.mk (Customer.customer_id c) (Customer.customer_name c)
             (Customer.email c) (Customer.phone c) (Customer.registration_date c)
             (City.city_name ci) (Region.region_name r) (Country.country_name co).
Proof.
  unfold StarSchemaBuilder.dim_customer_of. intros Hin.
  apply in_map_iff in Hin as ([[[c ci] r] co] & <- & Hin).
  apply in_merge in Hin as (Hccr & Hco & Hk3).
  apply in_merge in Hccr as (Hcc & Hr & Hk2).
  apply in_merge in Hcc as (Hc & Hci & Hk1).
  exists c, ci, r, co. repeat split; assumption.
Qed.

Lemma dim_salesperson_of_chain (ds : Dataset) (d : DimSalesperson.t) :
  In d (StarSchemaBuilder.dim_salesperson_of ds) ->
  exists sp r co,
    In sp (sales_people ds) /\ In r (regions ds) /\ In co (countries ds)
    /\ Region.region_id r = Salesperson.region_id sp
    /\ Country.country_id co = Region.country_id r
    /\ d = DimSalesperson.mk (Salesperson.salesperson_id sp)
             (Salesperson.salesperson_name sp) (Salesperson.hire_date sp)
             (Region.region_name r) (Country.country_name co).
Proof.
  unfold StarSchemaBuilder.dim_salesperson_of. intros Hin.
  apply in_map_iff in Hin as ([[sp r] co] & <- & Hin).
  apply in_merge in Hin as (Hsr & Hco & Hk2).
  apply in_merge in Hsr as (Hsp & Hr & Hk1).
  exists sp, r, co. repeat split; assumption.
Qed.

(** Under unique keys the chain from a product id is the only one: the names
    it reaches are "the" names of that product. The same holds of the
    customer and salesperson chains. *)
Lemma snowflake_product_chain_unique (ds : Dataset)
    (p p' : Product.t) (s s' : Subcategory.t) (c c' : Category.t) :
  List.NoDup (map Product.product_id (products ds)) ->
  List.NoDup (map Subcategory.subcategory_id (subcategories ds)) ->
  List.NoDup (map Category.category_id (categories ds)) ->
  In p (products ds) -> In p' (products ds) ->
  In s (subcategories ds) -> In s' (subcategories ds) ->
  In c (categories ds) -> In c' (categories ds) ->
  Product.product_id p = Product.product_id p' ->
  Subcategory.subcategory_id s = Product.subcategory_id p ->
  Subcategory.subcategory_id s' = Product.subcategory_id p' ->
  Category.category_id c = Subcategory.category_id s ->
  Category.category_id c' = Subcategory.category_id s' ->
  p = p' /\ s = s' /\ c = c'.
Proof.
  intros Np Ns Nc Hp Hp' Hs Hs' Hc Hc' Epp Es Es' Ec Ec'.
  assert (p = p') by now apply (key_unique (products ds) Product.product_id).
  subst p'.
  assert (s = s').
  { apply (key_unique (subcategories ds) Subcategory.subcategory_id); auto.
    congruence. }
  subst s'.
  assert (c = c').
  { apply (key_unique (categories ds) Category.category_id); auto. congruence. }
  auto.
Qed.

Lemma snowflake_customer_chain_unique (ds : Dataset)
    (c c' : Customer.t) (ci ci' : City.t) (r r' : Region.t) (co co' : Country.t) :
  List.NoDup (map Customer.customer_id (customers ds)) ->
  List.NoDup (map City.city_id (cities ds)) ->
  List.NoDup (map Region.region_id (regions ds)) ->
  List.NoDup (map Country.country_id (countries ds)) ->
  In c (customers ds) -> In c' (customers ds) ->
  In ci (cities ds) -> In ci' (cities ds) ->
  In r (regions ds) -> In r' (regions ds) ->
  In co (countries ds) -> In co' (countries ds) ->
  Customer.customer_id c = Customer.customer_id c' ->
  City.city_id ci = Customer.city_id c -> City.city_id ci' = Customer.city_id c' ->
  Region.region_id r = City.region_id ci -> Region.region_id r' = City.region_id ci' ->
  Country.country_id co = Region.country_id r ->
  Country.country_id co' = Region.country_id r' ->
  c = c' /\ ci = ci' /\ r = r' /\ co = co'.
Proof.
  intros Nc Nci Nr Nco Hc Hc' Hci Hci' Hr Hr' Hco Hco' Ecc Eci Eci' Er Er' Eco Eco'.
  assert (c = c') by now apply (key_unique (customers ds) Customer.customer_id).
  subst c'.
  assert (ci = ci').
  { apply (key_unique (cities ds) City.city_id); auto. congruence. }
  subst ci'.
  assert (r = r').
  { apply (key_unique (regions ds) Region.region_id); auto. congruence. }
  subst r'.
  assert (co = co').
  { apply (key_unique (countries ds) Country.country_id); auto. congruence. }
  auto.
Qed.

Lemma snowflake_salesperson_chain_unique (ds : Dataset)
    (sp sp' : Salesperson.t) (r r' : Region.t) (co co' : Country.t) :
  List.NoDup (map Salesperson.salesperson_id (sales_people ds)) ->
  List.NoDup (map Region.region_id (regions ds)) ->
  List.NoDup (map Country.country_id (countries ds)) ->
  In sp (sales_people ds) -> In sp' (sales_people ds) ->
  In r (regions ds) -> In r' (regions ds) ->
  In co (countries ds) -> In co' (countries ds) ->
  Salesperson.salesperson_id sp = Salesperson.salesperson_id sp' ->
  Region.region_id r = Salesperson.region_id sp ->
  Region.region_id r' = Salesperson.region_id sp' ->
  Country.country_id co = Region.country_id r ->
  Country.country_id co' = Region.country_id r' ->
  sp = sp' /\ r = r' /\ co = co'.
Proof.
  intros Nsp Nr Nco Hsp Hsp' Hr Hr' Hco Hco' Ess Er Er' Eco Eco'.
  assert (sp = sp')
    by now apply (key_unique (sales_people ds) Salesperson.salesperson_id).
  subst sp'.
  assert (r = r').
  { apply (key_unique (regions ds) Region.region_id); auto. congruence. }
  subst r'.
  assert (co = co').
  { apply (key_unique (countries ds) Country.country_id); auto. congruence. }
  auto.
Qed.

(** C2. When the star store and the snowflake store are built from the same
    flat dataset, every row of the star [dim_product] carries the
    subcategory and category names that the snowflake store reaches from the
    same product id through product -> subcategory -> category; every row of
    the star [dim_customer] carries the city, region and country names
    reached through customer -> city -> region -> country; every row of the
    star [dim_salesperson] carries the region and country names reached
    through salesperson -> region -> country. *)
Theorem denormalization_matches_snowflake_chain
    (ds : Dataset) (db0 db1 star snow : Database) :
  star_build (Some ds) db0 = Ok star ->
  snowflake_build (Some ds) db1 = Ok snow ->
  Forall (product_chain_agrees snow) (dim_products_in star)
  /\ Forall (customer_chain_agrees snow) (dim_customers_in star)
  /\ Forall (salesperson_chain_agrees snow) (dim_salespeople_in star).
Proof.
  intros Hstar Hsnow.
  destruct (star_tables ds db0 star Hstar) as (Hp & Hc & Hs & _ & _).
  destruct (snowflake_tables ds db1 snow Hsnow)
    as (Hco & Hr & Hci & Hca & Hsu & Hpr & Hcu & Hsp & _ & _).
  rewrite Hp, Hc, Hs. repeat split; apply List.Forall_forall; intros d Hd.
  - apply dim_product_of_chain in Hd as (p & s & c & ? & ? & ? & ? & ? & ->).
    unfold product_chain_agrees. rewrite Hpr, Hsu, Hca.
    exists p, s, c. cbn. repeat split; assumption.
  - apply dim_customer_of_chain in Hd
      as (c & ci & r & co & ? & ? & ? & ? & ? & ? & ? & ->).
    unfold customer_chain_agrees. rewrite Hcu, Hci, Hr, Hco.
    exists c, ci, r, co. cbn. repeat split; assumption.
  - apply dim_salesperson_of_chain in Hd as (sp & r & co & ? & ? & ? & ? & ? & ->).
    unfold salesperson_chain_agrees. rewrite Hsp, Hr, Hco.
    exists sp, r, co. cbn. repeat split; assumption.
Qed.

(** The statement above run on the sample dataset, each store built in a
    fresh database file. *)
Lemma denormalization_matches_snowflake_chain_witness :
  star_build (Some sample_dataset) [] = Ok sample_star
  /\ snowflake_build (Some sample_dataset) [] = Ok sample_snowflake
  /\ length (dim_products_in sample_star) = 1%nat
  /\ Forall (product_chain_agrees sample_snowflake) (dim_products_in sample_star)
  /\ Forall (customer_chain_agrees sample_snowflake) (dim_customers_in sample_star)
  /\ Forall (salesperson_chain_agrees sample_snowflake)
            (dim_salespeople_in sample_star).
Proof.
  split; [reflexivity|]. split; [reflexivity|]. split; [reflexivity|].
  apply (denormalization_matches_snowflake_chain sample_dataset [] []);
    reflexivity.
Defined.

(** ** Indexes and rebuilds *)

(** Schema creation does create the indexes it lists (nine in the star
    store, twelve in the snowflake store). *)
Lemma schema_creation_creates_indexes (db db1 : Database) :
  (StarSchemaBuilder.create_star_schema db = Ok db1 ->
   incl (flat_map created_index StarSchemaBuilder.indexes) db1)
  /\ (SnowflakeSchemaBuilder.create_snowflake_schema db = Ok db1 ->
      incl (flat_map created_index SnowflakeSchemaBuilder.indexes) db1).
Proof.
  split; intros Hrun.
  - unfold StarSchemaBuilder.create_star_schema in Hrun.
    apply (creation_closed_form star_names star_creates star_created
             star_creates_ok star_created_ok) in Hrun as [-> _].
    intros o Ho. apply in_or_app. right. unfold star_created.
    apply in_or_app. now right.
  - unfold SnowflakeSchemaBuilder.create_snowflake_schema in Hrun.
    apply (creation_closed_form snowflake_names snowflake_creates
             snowflake_created snowflake_creates_ok snowflake_created_ok)
      in Hrun as [-> _].
    intros o Ho. apply in_or_app. right. unfold snowflake_created.
    apply in_or_app. now right.
Qed.

(** C3 (the code departs from the claim). A build that completes leaves none
    of the indexes of its schema-creation step: after [load_data] no object
    of the store bears the name of any of them, in the star store and in the
    snowflake store alike. [to_sql(..., if_exists='replace')] drops each
    table, and the indexes on a table go with it. *)
Theorem build_discards_schema_indexes (ds : Dataset) (db db' : Database) :
  (star_build (Some ds) db = Ok db' ->
   forallb (fun stmt => negb (name_taken (claimed_name stmt) db'))
           StarSchemaBuilder.indexes = true)
  /\ (snowflake_build (Some ds) db = Ok db' ->
      forallb (fun stmt => negb (name_taken (claimed_name stmt) db'))
              SnowflakeSchemaBuilder.indexes = true).
Proof.
  split; intros Hrun; apply forallb_forall; intros stmt Hin.
  - rewrite star_build_sequence in Hrun.
    rewrite (build_index_names_gone star_names star_creates
               StarSchemaBuilder.frames StarSchemaBuilder.stats star_created
               star_creates_ok star_created_ok star_frames_ok star_loaded_ok
               ds db db' stmt Hrun)
      by (apply in_or_app; now right).
    cbn in Hin. repeat (destruct Hin as [<-|Hin]; [reflexivity|]). destruct Hin.
  - rewrite snowflake_build_sequence in Hrun.
    rewrite (build_index_names_gone snowflake_names snowflake_creates
               SnowflakeSchemaBuilder.frames SnowflakeSchemaBuilder.stats
               snowflake_created snowflake_creates_ok snowflake_created_ok
               snowflake_frames_ok snowflake_loaded_ok ds db db' stmt Hrun)
      by (apply in_or_app; now right).
    cbn in Hin. repeat (destruct Hin as [<-|Hin]; [reflexivity|]). destruct Hin.
Qed.

(** The sample build: schema creation makes nine indexes, the finished star
    store has none; fourteen (the twelve of the script and the two SQLite
    makes for the [UNIQUE] columns) and none for the snowflake store. *)
Lemma build_discards_schema_indexes_witness :
  (length (indexes_of star_created) = 9%nat
   /\ star_build (Some sample_dataset) [] = Ok sample_star
   /\ indexes_of sample_star = []
   /\ forallb (fun stmt => negb (name_taken (claimed_name stmt) sample_star))
              StarSchemaBuilder.indexes = true)
  /\ (length (indexes_of snowflake_created) = 14%nat
      /\ snowflake_build (Some sample_dataset) [] = Ok sample_snowflake
      /\ indexes_of sample_snowflake = []
      /\ forallb (fun stmt => negb (name_taken (claimed_name stmt) sample_snowflake))
                 SnowflakeSchemaBuilder.indexes = true).
Proof.
  split.
  - split; [reflexivity|]. split; [reflexivity|]. split; [reflexivity|].
    apply (proj1 (build_discards_schema_indexes sample_dataset [] sample_star)).
    reflexivity.
  - split; [reflexivity|]. split; [reflexivity|]. split; [reflexivity|].
    apply (proj2 (build_discards_schema_indexes sample_dataset [] sample_snowflake)).
    reflexivity.
Defined.

(** C7. A build that completes, run again on the same source files, completes
    again and leaves the store exactly as the first build left it: same
    tables, same rows, for the star builder and for the snowflake builder. *)
Theorem rebuild_is_idempotent (ds : Dataset) (db db' : Database) :
  (star_build (Some ds) db = Ok db' -> star_build (Some ds) db' = Ok db')
  /\ (snowflake_build (Some ds) db = Ok db' ->
      snowflake_build (Some ds) db' = Ok db').
Proof.
  split; intros Hrun.
  - rewrite star_build_sequence in *.
    now apply (build_idempotent star_names star_creates StarSchemaBuilder.frames
                 StarSchemaBuilder.stats star_created star_creates_ok
                 star_created_ok star_frames_ok star_loaded_ok ds db).
  - rewrite snowflake_build_sequence in *.
    now apply (build_idempotent snowflake_names snowflake_creates
                 SnowflakeSchemaBuilder.frames SnowflakeSchemaBuilder.stats
                 snowflake_created snowflake_creates_ok snowflake_created_ok
                 snowflake_frames_ok snowflake_loaded_ok ds db).
Qed.

(** The sample dataset built twice in a fresh file, by each builder. *)
Lemma rebuild_is_idempotent_witness :
  (star_build (Some sample_dataset) [] = Ok sample_star
   /\ star_build (Some sample_dataset) sample_star = Ok sample_star)
  /\ (snowflake_build (Some sample_dataset) [] = Ok sample_snowflake
      /\ snowflake_build (Some sample_dataset) sample_snowflake
         = Ok sample_snowflake).
Proof.
  split.
  - split; [reflexivity|].
    apply (proj1 (rebuild_is_idempotent sample_dataset [] sample_star)).
    reflexivity.
  - split; [reflexivity|].
    apply (proj2 (rebuild_is_idempotent sample_dataset [] sample_snowflake)).
    reflexivity.
Defined.

(** ** The concrete random source meets the ranges *)

Lemma lcg_randint_range (a b : Z) (s : N) :
  a <= b -> a <= fst (lcg_randint a b s) <= b.
Proof.
  intros Hab. unfold lcg_randint. cbn [fst].
  assert (Hpos : 0 < b - a + 1) by lia.
  pose proof (Z.mod_pos_bound (Z.of_N s) (b - a + 1) Hpos). lia.
Qed.

Lemma lcg_uniform_range (a b : Q) (s : N) :
  (a <= b)%Q -> (a <= fst (lcg_uniform a b s) <= b)%Q.
Proof.
  intros Hab. unfold lcg_uniform. cbn [fst].
  set (k := Z.of_N (s mod 1024)).
  assert (Hk : 0 <= k < 1024).
  { unfold k.
    assert (Hlt : (s mod 1024 < 1024)%N) by (apply N.mod_upper_bound; discriminate).
    revert Hlt. generalize (s mod 1024)%N. intros n Hn. lia. }
  assert (Hf0 : (0 <= k # 1024)%Q) by (unfold Qle; cbn; lia).
  assert (Hf1 : (k # 1024 <= 1)%Q) by (unfold Qle; cbn; lia).
  split.
  - apply Qle_minus_iff.
    assert (E : (a + (b - a) * (k # 1024) + - a == (b - a) * (k # 1024))%Q) by ring.
    rewrite E.
    apply Qmult_le_0_compat; [|exact Hf0].
    apply Qle_minus_iff in Hab. exact Hab.
  - apply Qle_minus_iff.
    assert (E : (b + - (a + (b - a) * (k # 1024))
                 == (b - a) * (1 - (k # 1024)))%Q) by ring.
    rewrite E.
    apply Qmult_le_0_compat.
    + apply Qle_minus_iff in Hab. exact Hab.
    + apply Qle_minus_iff in Hf1. exact Hf1.
Qed.

Lemma lcg_sample_index_lt (n : nat) (s : N) :
  (0 < n)%nat -> (fst (lcg_sample_index n s) < n)%nat.
Proof.
  intros Hn. unfold lcg_sample_index. cbn [fst].
  apply Nat.mod_upper_bound. lia.
Qed.

#[export] Instance lcg_runtime : PyRuntime N := {|
  random_randint := lcg_randint;
  random_uniform := lcg_uniform;
  np_sample_index := lcg_sample_index;
  fake_word := fun s => ("слово", lcg_next s);
  fake_name := fun s => ("Ім'я Прізвище", lcg_next s);
  fake_email := fun s => ("name@example.org", lcg_next s);
  fake_phone_number := fun s => ("+380000000000", lcg_next s);
  fake_date_between := fun _ _ s => (Date.mk 2023 1 1, lcg_next s);
  str_capitalize := fun s => s;
  random_randint_range := lcg_randint_range;
  random_uniform_range := lcg_uniform_range;
  np_sample_index_lt := lcg_sample_index_lt
|}.

(* ===================================================================== *)
(** * 13. The generated dataset and the stores built from it *)
(* ===================================================================== *)


Lemma nonempty_by_ids {A} (rows : list A) (key : A -> Z) (lo hi : Z) :
  map key rows = py_range lo hi -> lo < hi -> rows <> [].
Proof.
  intros Hids Hlt ->. cbn in Hids. symmetry in Hids.
  now apply py_range_nonempty in Hids.
Qed.

Section GeneratedDataset.
Context {St : Type} `{PyRuntime St}.

Lemma save_data_to_csv_spec : returns save_data_to_csv generated.
Proof.
  unfold save_data_to_csv.
  eapply returns_bind; [apply generate_geography_data_spec|].
  intros [[countries_df regions_df] cities_df] (Hco & Hre & Hci1 & Hci2).
  eapply returns_bind; [apply generate_product_data_spec|].
  intros [[categories_df subcategories_df] products_df]
    (Hca & Hsu & Hp1 & Hp2 & Hp3).
  eapply returns_bind; [apply generate_customer_data_spec|].
  intros customers_df [Hcu1 Hcu2].
  eapply returns_bind; [apply generate_sales_people_data_spec|].
  intros sales_people_df [Hsp1 Hsp2].
  eapply returns_bind; [apply generate_time_data_spec|].
  intros time_df [Ht1 Ht2].
  eapply returns_bind.
  - apply generate_sales_data_spec.
    + apply (nonempty_by_ids _ _ _ _ Ht2). lia.
    + apply (nonempty_by_ids _ _ _ _ Hp1). unfold NUM_PRODUCTS. lia.
    + apply (nonempty_by_ids _ _ _ _ Hcu1). unfold NUM_CUSTOMERS. lia.
    + apply (nonempty_by_ids _ _ _ _ Hsp1). unfold NUM_SALES_PEOPLE. lia.
    + rewrite Hp1. apply NoDup_py_range.
    + exact Hp3.
  - intros sales_df [Hk Hm]. apply returns_ret.
    constructor; cbn [countries regions cities categories subcategories
                        products customers sales_people time_dimension
                        sales_facts]; assumption.
Qed.

(** *** Where the measures of a fact row come from

    The price is a draw of [uniform(10, 5000)] rounded, the quantity a draw
    of [randint(1, 10)], the discount a draw of [uniform(0, 0.2)] rounded,
    and the total is computed from the three. *)




End GeneratedDataset.

Lemma generated_parents_resolve (ds : Dataset) :
  generated ds -> parents_resolve ds.
Proof.
  intros G. unfold parents_resolve.
  rewrite (gen_countries ds G), (gen_regions ds G), (gen_categories ds G),
    (gen_subcategories ds G).
  repeat split.
  - apply (resolves_by_range _ _ _ _ 1 25); [reflexivity|].
    apply (gen_product_subcategories ds G).
  - apply (resolves_by_range _ _ _ _ 1 9); [reflexivity|].
    repeat constructor; cbn; lia.
  - apply (resolves_by_range _ _ _ _ 1 (NUM_CITIES + 1)).
    + apply (gen_city_ids ds G).
    + apply (gen_customer_cities ds G).
  - apply (resolves_by_range _ _ _ _ 1 (NUM_REGIONS + 1)); [reflexivity|].
    apply (gen_city_regions ds G).
  - apply (resolves_by_range _ _ _ _ 1 4); [reflexivity|].
    repeat constructor; cbn; lia.
  - apply (resolves_by_range _ _ _ _ 1 (NUM_REGIONS + 1)); [reflexivity|].
    apply (gen_salesperson_regions ds G).
Qed.

(** ** Denormalisation loses no row when the parent references resolve *)

Lemma resolves_In {A B} (fk : A -> Z) (pk : B -> Z) (child : list A)
    (parent : list B) (a : A) :
  resolves fk pk child parent -> In a child ->
  exists b, In b parent /\ pk b = fk a.
Proof. unfold resolves. rewrite List.Forall_forall. auto. Qed.

Lemma dim_product_of_total (ds : Dataset) (p : Product.t) :
  parents_resolve ds -> In p (products ds) ->
  exists d, In d (StarSchemaBuilder.dim_product_of ds)
            /\ DimProduct.product_id d = Product.product_id p.
Proof.
  intros (Hps & Hsc & _) Hp.
  destruct (resolves_In _ _ _ _ p Hps Hp) as (s & Hs & Hks).
  destruct (resolves_In _ _ _ _ s Hsc Hs) as (c & Hc & Hkc).
  eexists. split.
  - unfold StarSchemaBuilder.dim_product_of. apply in_map_iff.
    exists (p, s, c). split; [reflexivity|].
    apply in_merge. split; [|split; [exact Hc|exact Hkc]].
    apply in_merge. auto.
  - reflexivity.
Qed.

Lemma dim_customer_of_total (ds : Dataset) (c : Customer.t) :
  parents_resolve ds -> In c (customers ds) ->
  exists d, In d (StarSchemaBuilder.dim_customer_of ds)
            /\ DimCustomer.customer_id d = Customer.customer_id c.
Proof.
  intros (_ & _ & Hcc & Hcr & Hrc & _) Hc.
  destruct (resolves_In _ _ _ _ c Hcc Hc) as (ci & Hci & Hk1).
  destruct (resolves_In _ _ _ _ ci Hcr Hci) as (r & Hr & Hk2).
  destruct (resolves_In _ _ _ _ r Hrc Hr) as (co & Hco & Hk3).
  eexists. split.
  - unfold StarSchemaBuilder.dim_customer_of. apply in_map_iff.
    exists (c, ci, r, co). split; [reflexivity|].
    apply in_merge. split; [|split; [exact Hco|exact Hk3]].
    apply in_merge. split; [|split; [exact Hr|exact Hk2]].
    apply in_merge. auto.
  - reflexivity.
Qed.

Lemma dim_salesperson_of_total (ds : Dataset) (sp : Salesperson.t) :
  parents_resolve ds -> In sp (sales_people ds) ->
  exists d, In d (StarSchemaBuilder.dim_salesperson_of ds)
            /\ DimSalesperson.salesperson_id d = Salesperson.salesperson_id sp.
Proof.
  intros (_ & _ & _ & _ & Hrc & Hsr) Hsp.
  destruct (resolves_In _ _ _ _ sp Hsr Hsp) as (r & Hr & Hk1).
  destruct (resolves_In _ _ _ _ r Hrc Hr) as (co & Hco & Hk2).
  eexists. split.
  - unfold StarSchemaBuilder.dim_salesperson_of. apply in_map_iff.
    exists (sp, r, co). split; [reflexivity|].
    apply in_merge. split; [|split; [exact Hco|exact Hk2]].
    apply in_merge. auto.
  - reflexivity.
Qed.

(** Foreign keys that resolve in the flat tables resolve in both stores. *)
Lemma stores_keep_keys (ds : Dataset) :
  parents_resolve ds -> flat_keys_resolve ds ->
  (forall db star, star_build (Some ds) db = Ok star -> star_keys_resolve star)
  /\ (forall db snow, snowflake_build (Some ds) db = Ok snow ->
                      snowflake_keys_resolve snow).
Proof.
  intros Hparents Hflat. split.
  - intros db star Hrun.
    destruct (star_tables ds db star Hrun) as (Hp & Hc & Hs & Ht & Hf).
    unfold star_keys_resolve. rewrite Hp, Hc, Hs, Ht, Hf.
    eapply List.Forall_impl; [|exact Hflat].
    intros f ((t & Ht1 & Ht2) & (p & Hp1 & Hp2) & (c & Hc1 & Hc2) & (sp & Hs1 & Hs2)).
    repeat split.
    + eauto.
    + destruct (dim_product_of_total ds p Hparents Hp1) as (d & Hd & Hid).
      exists d. split; [exact Hd|congruence].
    + destruct (dim_customer_of_total ds c Hparents Hc1) as (d & Hd & Hid).
      exists d. split; [exact Hd|congruence].
    + destruct (dim_salesperson_of_total ds sp Hparents Hs1) as (d & Hd & Hid).
      exists d. split; [exact Hd|congruence].
  - intros db snow Hrun.
    destruct (snowflake_tables ds db snow Hrun)
      as (_ & _ & _ & _ & _ & Hp & Hc & Hs & Ht & Hf).
    unfold snowflake_keys_resolve. rewrite Hp, Hc, Hs, Ht, Hf. exact Hflat.
Qed.

Lemma star_build_fresh (ds : Dataset) :
  star_build (Some ds) [] = Ok (as_tables (StarSchemaBuilder.frames ds)).
Proof. reflexivity. Qed.

Lemma snowflake_build_fresh (ds : Dataset) :
  snowflake_build (Some ds) [] = Ok (as_tables (SnowflakeSchemaBuilder.frames ds)).
Proof. reflexivity. Qed.

(** C4. From any state of the random sources, the generator completes, and
    in the dataset it writes every fact row's [time_id], [product_id],
    [customer_id] and [salesperson_id] is the key of a row of the time,
    product, customer and salesperson table; both builders complete on a
    fresh database file, and whenever a build of either store from that
    dataset completes, the same holds of the fact rows and dimension tables
    of that store. *)
Theorem generated_foreign_keys_resolve {St : Type} `{PyRuntime St} (s : St) :
  exists ds s',
    save_data_to_csv s = Ok (ds, s')
    /\ flat_keys_resolve ds
    /\ is_ok (star_build (Some ds) []) = true
    /\ is_ok (snowflake_build (Some ds) []) = true
    /\ (forall db star, star_build (Some ds) db = Ok star -> star_keys_resolve star)
    /\ (forall db snow, snowflake_build (Some ds) db = Ok snow ->
                        snowflake_keys_resolve snow).
Proof.
  destruct (save_data_to_csv_spec s) as (ds & s' & Hrun & G).
  exists ds, s'. split; [exact Hrun|].
  split; [apply (gen_sale_keys ds G)|].
  split; [reflexivity|]. split; [reflexivity|].
  apply stores_keep_keys.
  - now apply generated_parents_resolve.
  - apply (gen_sale_keys ds G).
Qed.

(** The statement for the concrete random source started at 42. *)
Lemma generated_foreign_keys_resolve_witness :
  exists ds s',
    save_data_to_csv (St:=N) 42%N = Ok (ds, s')
    /\ flat_keys_resolve ds
    /\ is_ok (star_build (Some ds) []) = true
    /\ is_ok (snowflake_build (Some ds) []) = true
    /\ (forall db star, star_build (Some ds) db = Ok star -> star_keys_resolve star)
    /\ (forall db snow, snowflake_build (Some ds) db = Ok snow ->
                        snowflake_keys_resolve snow).
Proof. exact (generated_foreign_keys_resolve 42%N). Defined.



(** ** The random source that always answers the same *)

Lemma fixed_randint_range (a b : Z) (s : unit) :
  a <= b -> a <= fst (fixed_randint a b s) <= b.
Proof.
  intros Hab. unfold fixed_randint. cbn [fst].
  destruct ((a <=? 4) && (4 <=? b)) eqn:E; [|lia].
  apply andb_prop in E as [E1 E2]. lia.
Qed.

Lemma fixed_uniform_range (a b : Q) (s : unit) :
  (a <= b)%Q -> (a <= fst (fixed_uniform a b s) <= b)%Q.
Proof.
  intros Hab. unfold fixed_uniform. cbn [fst].
  destruct (Qle_bool a (433375 # 100) && Qle_bool (433375 # 100) b) eqn:E1.
  - apply andb_prop in E1 as [E E']. now rewrite !Qle_bool_iff in *.
  - destruct (Qle_bool a (31 # 1000) && Qle_bool (31 # 1000) b) eqn:E2.
    + apply andb_prop in E2 as [E E']. now rewrite !Qle_bool_iff in *.
    + split; [apply Qle_refl|exact Hab].
Qed.

#[export] Instance fixed_runtime : PyRuntime unit := {|
  random_randint := fixed_randint;
  random_uniform := fixed_uniform;
  np_sample_index := fun _ s => (0%nat, s);
  fake_word := fun s => ("слово", s);
  fake_name := fun s => ("Ім'я Прізвище", s);
  fake_email := fun s => ("name@example.org", s);
  fake_phone_number := fun s => ("+380000000000", s);
  fake_date_between := fun _ _ s => (Date.mk 2023 1 1, s);
  str_capitalize := fun s => s;
  random_randint_range := fixed_randint_range;
  random_uniform_range := fixed_uniform_range;
  np_sample_index_lt := fun n s Hn => Hn
|}.


(** C6. The time dimension is generated within the loop bound, one row per
    day from 2022-01-01 to 2024-12-31 (1096 rows), and in every row the
    quarter label is "Q" followed by the ceiling of month/3, the year, month
    and day are those of the row's date, the weekday number (Monday 1 to
    Sunday 7) is the one the Gregorian calendar gives the date, and the
    weekday name is the name of that day. *)
Theorem generated_time_rows_consistent {St : Type} (s : St) :
  exists time_df,
    generate_time_data s = Ok (time_df, s)
    /\ length time_df = 1096%nat
    /\ Forall time_row_consistent time_df.
Proof.
  destruct generate_time_loop_run as (rows & Hrun & Hchk & Hids).
  exists rows. split; [|split].
  - unfold generate_time_data. now rewrite Hrun.
  - rewrite <- (length_map TimeRow.time_id), Hids, length_py_range. reflexivity.
  - apply List.Forall_forall. intros r Hr. apply time_row_check_sound.
    rewrite forallb_forall in Hchk. apply Hchk. exact Hr.
Qed.

(** The statement for the concrete random source started at 42. *)
Lemma generated_time_rows_consistent_witness :
  exists time_df,
    generate_time_data (St:=N) 42%N = Ok (time_df, 42%N)
    /\ length time_df = 1096%nat
    /\ Forall time_row_consistent time_df.
Proof. exact (generated_time_rows_consistent 42%N). Defined.

(* ===================================================================== *)
(** * 14. The queries on the two stores *)
(* ===================================================================== *)

(** ** Nested loops over lists *)

Lemma fm_ext_in {A B} (f g : A -> list B) (l : list A) :
  (forall a, In a l -> f a = g a) -> flat_map f l = flat_map g l.
Proof.
  induction l as [|a l IH]; intros Hfg; [reflexivity|].
  cbn. rewrite (Hfg a (or_introl eq_refl)). f_equal.
  apply IH. intros b Hb. apply Hfg. now right.
Qed.

Lemma fm_map_flat_map {A B C} (f : B -> C) (g : A -> list B) (l : list A) :
  map f (flat_map g l) = flat_map (fun a => map f (g a)) l.
Proof.
  induction l as [|a l IH]; [reflexivity|].
  cbn. now rewrite map_app, IH.
Qed.

Lemma fm_flat_map_flat_map {A B C} (f : B -> list C) (g : A -> list B)
    (l : list A) :
  flat_map f (flat_map g l) = flat_map (fun a => flat_map f (g a)) l.
Proof.
  induction l as [|a l IH]; [reflexivity|].
  cbn. now rewrite flat_map_app, IH.
Qed.

Lemma fm_flat_map_map {A B C} (f : B -> list C) (g : A -> B) (l : list A) :
  flat_map f (map g l) = flat_map (fun a => f (g a)) l.
Proof. induction l as [|a l IH]; [reflexivity|]. cbn. now rewrite IH. Qed.

Lemma fm_single {A B} (f : A -> B) (l : list A) :
  flat_map (fun a => [f a]) l = map f l.
Proof. induction l as [|a l IH]; [reflexivity|]. cbn. now rewrite IH. Qed.

Lemma fm_const_one {A B} (v : list B) (l : list A) :
  length l = 1%nat -> flat_map (fun _ => v) l = v.
Proof.
  destruct l as [|a [|b l]]; try discriminate. intros _. cbn. apply app_nil_r.
Qed.

Lemma map_const_one {A B} (v : B) (l : list A) :
  length l = 1%nat -> map (fun _ => v) l = [v].
Proof. destruct l as [|a [|b l]]; try discriminate. reflexivity. Qed.

Lemma matching_In {A} (key : A -> Z) (k : Z) (table : list A) (a : A) :
  In a (matching key k table) -> In a table /\ key a = k.
Proof.
  unfold matching. intros Hin. apply List.filter_In in Hin as [Hin Hk].
  split; [exact Hin|now apply Z.eqb_eq].
Qed.

Lemma filter_none {A} (p : A -> bool) (l : list A) :
  (forall a, In a l -> p a = false) -> List.filter p l = [].
Proof.
  induction l as [|a l IH]; intros Hp; [reflexivity|].
  cbn. rewrite (Hp a (or_introl eq_refl)). apply IH.
  intros b Hb. apply Hp. now right.
Qed.

(** Looking up a key in rows derived from a table is looking it up in the
    table, when the derived rows keep the key. *)
Lemma matching_flat_map {A B} (key_a : A -> Z) (key_b : B -> Z)
    (g : A -> list B) (k : Z) (l : list A) :
  (forall a b, In b (g a) -> key_b b = key_a a) ->
  matching key_b k (flat_map g l) = flat_map g (matching key_a k l).
Proof.
  intros Hkey. unfold matching. induction l as [|a l IH]; [reflexivity|].
  cbn [flat_map List.filter]. rewrite List.filter_app, IH.
  destruct (key_a a =? k) eqn:Hk; cbn [flat_map].
  - f_equal. apply forallb_filter_id. apply forallb_forall. intros b Hb.
    rewrite (Hkey a b Hb). exact Hk.
  - rewrite filter_none; [reflexivity|]. intros b Hb.
    rewrite (Hkey a b Hb). exact Hk.
Qed.

(** ** The star dimensions as nested loops over the flat tables *)


Lemma dim_product_of_flat (ds : Dataset) :
  StarSchemaBuilder.dim_product_of ds = flat_map (product_chain ds) (products ds).
Proof.
  unfold StarSchemaBuilder.dim_product_of, merge, product_chain, matching.
  rewrite fm_map_flat_map, fm_flat_map_flat_map.
  apply flat_map_ext. intros p. rewrite fm_flat_map_map.
  apply flat_map_ext. intros s. now rewrite map_map.
Qed.

Lemma dim_customer_of_flat (ds : Dataset) :
  StarSchemaBuilder.dim_customer_of ds
  = flat_map (customer_chain ds) (customers ds).
Proof.
  unfold StarSchemaBuilder.dim_customer_of, merge, customer_chain, matching.
  rewrite fm_map_flat_map, !fm_flat_map_flat_map.
  apply flat_map_ext. intros c. rewrite fm_flat_map_map.
  apply flat_map_ext. intros ci. rewrite fm_flat_map_map.
  apply flat_map_ext. intros r. now rewrite map_map.
Qed.

Lemma dim_salesperson_of_flat (ds : Dataset) :
  StarSchemaBuilder.dim_salesperson_of ds
  = flat_map (salesperson_chain ds) (sales_people ds).
Proof.
  unfold StarSchemaBuilder.dim_salesperson_of, merge, salesperson_chain, matching.
  rewrite fm_map_flat_map, fm_flat_map_flat_map.
  apply flat_map_ext. intros sp. rewrite fm_flat_map_map.
  apply flat_map_ext. intros r. now rewrite map_map.
Qed.

(** Joining the fact table with a star dimension on its key goes through
    the flat table with that key. *)
Lemma star_product_lookup (ds : Dataset) (k : Z) :
  matching DimProduct.product_id k (StarSchemaBuilder.dim_product_of ds)
  = flat_map (product_chain ds) (matching Product.product_id k (products ds)).
Proof.
  rewrite dim_product_of_flat. apply matching_flat_map.
  intros p d Hd. unfold product_chain in Hd.
  apply in_flat_map in Hd as (s & _ & Hd).
  apply in_map_iff in Hd as (c & <- & _). reflexivity.
Qed.

Lemma star_customer_lookup (ds : Dataset) (k : Z) :
  matching DimCustomer.customer_id k (StarSchemaBuilder.dim_customer_of ds)
  = flat_map (customer_chain ds) (matching Customer.customer_id k (customers ds)).
Proof.
  rewrite dim_customer_of_flat. apply matching_flat_map.
  intros c d Hd. unfold customer_chain in Hd.
  apply in_flat_map in Hd as (ci & _ & Hd).
  apply in_flat_map in Hd as (r & _ & Hd).
  apply in_map_iff in Hd as (co & <- & _). reflexivity.
Qed.

Lemma star_salesperson_lookup (ds : Dataset) (k : Z) :
  matching DimSalesperson.salesperson_id k (StarSchemaBuilder.dim_salesperson_of ds)
  = flat_map (salesperson_chain ds)
      (matching Salesperson.salesperson_id k (sales_people ds)).
Proof.
  rewrite dim_salesperson_of_flat. apply matching_flat_map.
  intros sp d Hd. unfold salesperson_chain in Hd.
  apply in_flat_map in Hd as (r & _ & Hd).
  apply in_map_iff in Hd as (co & <- & _). reflexivity.
Qed.

(** ** The joined rows of each query pair are the same *)

Lemma q1_joined_agree (ds : Dataset) :
  each_region_has_one_country ds ->
  q1_star_joined (sales_facts ds) (StarSchemaBuilder.dim_customer_of ds)
  = q1_snowflake_joined (sales_facts ds) (customers ds) (cities ds) (regions ds).
Proof.
  intros Hone. unfold q1_star_joined, q1_snowflake_joined.
  apply flat_map_ext. intros f.
  rewrite star_customer_lookup, fm_map_flat_map.
  apply fm_ext_in. intros c _. unfold customer_chain.
  rewrite fm_map_flat_map. apply fm_ext_in. intros ci _.
  rewrite fm_map_flat_map, <- fm_single. apply fm_ext_in. intros r Hr.
  apply matching_In in Hr as [Hr _].
  rewrite map_map. cbn [DimCustomer.region_name].
  apply map_const_one. now apply Hone.
Qed.

Lemma q2_joined_agree (ds : Dataset) :
  q2_star_joined (sales_facts ds) (StarSchemaBuilder.dim_product_of ds)
  = q2_snowflake_joined (sales_facts ds) (products ds) (subcategories ds)
      (categories ds).
Proof.
  unfold q2_star_joined, q2_snowflake_joined.
  apply flat_map_ext. intros f.
  rewrite star_product_lookup, fm_map_flat_map.
  apply fm_ext_in. intros p _. unfold product_chain.
  rewrite fm_map_flat_map. apply fm_ext_in. intros s _.
  now rewrite map_map.
Qed.

Lemma q4_joined_agree (ds : Dataset) :
  each_region_has_one_country ds ->
  q4_star_joined (sales_facts ds) (StarSchemaBuilder.dim_salesperson_of ds)
  = q4_snowflake_joined (sales_facts ds) (sales_people ds) (regions ds).
Proof.
  intros Hone. unfold q4_star_joined, q4_snowflake_joined.
  apply flat_map_ext. intros f.
  rewrite star_salesperson_lookup, fm_map_flat_map.
  apply fm_ext_in. intros sp _. unfold salesperson_chain.
  rewrite fm_map_flat_map, <- fm_single. apply fm_ext_in. intros r Hr.
  apply matching_In in Hr as [Hr _].
  rewrite map_map.
  cbn [DimSalesperson.salesperson_id DimSalesperson.salesperson_name
       DimSalesperson.region_name].
  apply map_const_one. now apply Hone.
Qed.

Lemma q5_joined_agree (ds : Dataset) :
  each_region_has_one_country ds ->
  q5_star_joined (sales_facts ds) (StarSchemaBuilder.dim_product_of ds)
    (StarSchemaBuilder.dim_customer_of ds) (time_dimension ds)
  = q5_snowflake_joined (sales_facts ds) (products ds) (subcategories ds)
      (categories ds) (customers ds) (cities ds) (regions ds) (time_dimension ds).
Proof.
  intros Hone. unfold q5_star_joined, q5_snowflake_joined.
  apply flat_map_ext. intros f.
  rewrite star_product_lookup, fm_flat_map_flat_map.
  apply fm_ext_in. intros p _. unfold product_chain.
  rewrite fm_flat_map_flat_map. apply fm_ext_in. intros s _.
  rewrite fm_flat_map_map. apply fm_ext_in. intros cat _.
  cbn [DimProduct.category_name].
  rewrite star_customer_lookup, fm_flat_map_flat_map.
  apply fm_ext_in. intros c _. unfold customer_chain.
  rewrite fm_flat_map_flat_map. apply fm_ext_in. intros ci _.
  rewrite fm_flat_map_flat_map. apply fm_ext_in. intros r Hr.
  apply matching_In in Hr as [Hr _].
  rewrite fm_flat_map_map. cbn [DimCustomer.region_name].
  apply fm_const_one. now apply Hone.
Qed.

(** ** Reading the tables of a built store *)

Lemma star_reads (ds : Dataset) (db star : Database) :
  star_build (Some ds) db = Ok star ->
  read_table "sales_facts" as_Sales star = Ok (sales_facts ds)
  /\ read_table "dim_time" as_TimeRows star = Ok (time_dimension ds)
  /\ read_table "dim_product" as_DimProducts star
     = Ok (StarSchemaBuilder.dim_product_of ds)
  /\ read_table "dim_customer" as_DimCustomers star
     = Ok (StarSchemaBuilder.dim_customer_of ds)
  /\ read_table "dim_salesperson" as_DimSalespeople star
     = Ok (StarSchemaBuilder.dim_salesperson_of ds).
Proof.
  intros Hrun. unfold read_table.
  rewrite !(star_find_table ds db star _ Hrun) by reflexivity.
  repeat split; reflexivity.
Qed.

Lemma snowflake_reads (ds : Dataset) (db snow : Database) :
  snowflake_build (Some ds) db = Ok snow ->
  read_table "sales_facts" as_Sales snow = Ok (sales_facts ds)
  /\ read_table "dim_time" as_TimeRows snow = Ok (time_dimension ds)
  /\ read_table "dim_product" as_Products snow = Ok (products ds)
  /\ read_table "dim_subcategory" as_Subcategories snow = Ok (subcategories ds)
  /\ read_table "dim_category" as_Categories snow = Ok (categories ds)
  /\ read_table "dim_customer" as_Customers snow = Ok (customers ds)
  /\ read_table "dim_city" as_Cities snow = Ok (cities ds)
  /\ read_table "dim_region" as_Regions snow = Ok (regions ds)
  /\ read_table "dim_salesperson" as_Salespeople snow = Ok (sales_people ds).
Proof.
  intros Hrun. unfold read_table.
  rewrite !(snowflake_find_table ds db snow _ Hrun) by reflexivity.
  repeat split; reflexivity.
Qed.

(** The engine runs each text of the suite as the query it spells. *)
Lemma fetch_all_suite (db : Database) :
  fetch_all q1_star_sql db = q1_star db
  /\ fetch_all q1_snowflake_sql db = q1_snowflake db
  /\ fetch_all q2_star_sql db = q2_star db
  /\ fetch_all q2_snowflake_sql db = q2_snowflake db
  /\ fetch_all q3_star_sql db = q3 db
  /\ fetch_all q3_snowflake_sql db = q3 db
  /\ fetch_all q4_star_sql db = q4_star db
  /\ fetch_all q4_snowflake_sql db = q4_snowflake db
  /\ fetch_all q5_star_sql db = q5_star db
  /\ fetch_all q5_snowflake_sql db = q5_snowflake db.
Proof. repeat split; reflexivity. Qed.

(** Each pair of the suite returns the same rows, in the same order, from
    the two stores built from a dataset in which every region has one
    country. *)
Lemma suite_results_equal (ds : Dataset) (db0 db1 star snow : Database)
    (q : QueryPair) :
  each_region_has_one_country ds ->
  star_build (Some ds) db0 = Ok star ->
  snowflake_build (Some ds) db1 = Ok snow ->
  In q get_analytical_queries ->
  exists rows,
    fetch_all (star_query q) star = Ok rows
    /\ fetch_all (snowflake_query q) snow = Ok rows.
Proof.
  intros Hone Hstar Hsnow Hq.
  destruct (star_reads ds db0 star Hstar) as (Hsf & Hdt & Hdp & Hdc & Hdsp).
  destruct (snowflake_reads ds db1 snow Hsnow)
    as (Nsf & Ndt & Np & Nsub & Ncat & Nc & Nci & Nr & Nsp).
  destruct (fetch_all_suite star) as (S1 & _ & S2 & _ & S3 & _ & S4 & _ & S5 & _).
  destruct (fetch_all_suite snow) as (_ & N1 & _ & N2 & _ & N3 & _ & N4 & _ & N5).
  cbn in Hq. destruct Hq as [<-|[<-|[<-|[<-|[<-|[]]]]]];
    cbn [star_query snowflake_query].
  - rewrite S1, N1. unfold q1_star, q1_snowflake.
    rewrite Hsf, Hdc, Nsf, Nc, Nci, Nr. cbn [result_bind].
    rewrite (q1_joined_agree ds Hone). eauto.
  - rewrite S2, N2. unfold q2_star, q2_snowflake.
    rewrite Hsf, Hdp, Nsf, Np, Nsub, Ncat. cbn [result_bind].
    rewrite (q2_joined_agree ds). eauto.
  - rewrite S3, N3. unfold q3.
    rewrite Hsf, Hdt, Nsf, Ndt. cbn [result_bind]. eauto.
  - rewrite S4, N4. unfold q4_star, q4_snowflake.
    rewrite Hsf, Hdsp, Nsf, Nsp, Nr. cbn [result_bind].
    rewrite (q4_joined_agree ds Hone). eauto.
  - rewrite S5, N5. unfold q5_star, q5_snowflake.
    rewrite Hsf, Hdp, Hdc, Hdt, Nsf, Np, Nsub, Ncat, Nc, Nci, Nr, Ndt.
    cbn [result_bind].
    rewrite (q5_joined_agree ds Hone). eauto.
Qed.

(** C1, as amended. For every query pair of the suite, when the star store
    and the snowflake store were built from the same flat dataset and every
    region row of that dataset has a [country_id] that is the key of exactly
    one country row, the star variant on the star store and the snowflake
    variant on the snowflake store both succeed and return the same rows. *)
Theorem cross_schema_results_agree (ds : Dataset) (db0 db1 star snow : Database)
    (q : QueryPair) :
  each_region_has_one_country ds ->
  star_build (Some ds) db0 = Ok star ->
  snowflake_build (Some ds) db1 = Ok snow ->
  In q get_analytical_queries ->
  same_answer (fetch_all (star_query q) star) (fetch_all (snowflake_query q) snow).
Proof.
  intros Hone Hstar Hsnow Hq.
  destruct (suite_results_equal ds db0 db1 star snow q Hone Hstar Hsnow Hq)
    as (rows & Hs & Hn).
  exists rows, rows. split; [exact Hs|]. split; [exact Hn|apply Permutation_refl].
Qed.

Lemma sample_has_one_country : each_region_has_one_country sample_dataset.
Proof.
  intros r [<-|[]]. reflexivity.
Defined.

(** The amended statement on the sample dataset, for the first pair of the
    suite. *)
Lemma cross_schema_results_agree_witness :
  star_build (Some sample_dataset) [] = Ok sample_star
  /\ snowflake_build (Some sample_dataset) [] = Ok sample_snowflake
  /\ same_answer (fetch_all q1_star_sql sample_star)
                 (fetch_all q1_snowflake_sql sample_snowflake).
Proof.
  split; [reflexivity|]. split; [reflexivity|].
  apply (cross_schema_results_agree sample_dataset [] [] sample_star
           sample_snowflake
           (mkQueryPair q1_name q1_star_sql q1_snowflake_sql)).
  - exact sample_has_one_country.
  - reflexivity.
  - reflexivity.
  - left. reflexivity.
Defined.

(** C1, as stated, fails. Both stores are built from the same flat dataset,
    whose only region names a country that is not in the country table: the
    star store has lost the customer (the inner join with the countries
    drops it), so the first query finds no row there, while the snowflake
    variant, which never joins the countries, returns one row. *)
Lemma cross_schema_results_differ :
  star_build (Some orphan_dataset) [] = Ok orphan_star
  /\ snowflake_build (Some orphan_dataset) [] = Ok orphan_snowflake
  /\ fetch_all q1_star_sql orphan_star = Ok []
  /\ fetch_all q1_snowflake_sql orphan_snowflake
     = Ok [[SqlText "Київська область"; SqlReal (1800 # 100); SqlInt 1;
            SqlReal ((1800 # 100) / 1)]]
  /\ ~ same_answer (fetch_all q1_star_sql orphan_star)
                   (fetch_all q1_snowflake_sql orphan_snowflake).
Proof.
  split; [reflexivity|]. split; [reflexivity|]. split; [reflexivity|].
  split; [reflexivity|].
  intros (rows1 & rows2 & H1 & H2 & Hperm).
  vm_compute in H1, H2. injection H1 as <-. injection H2 as <-.
  apply Permutation_length in Hperm. discriminate.
Qed.

(** C9. The suite has five entries; the star and snowflake texts of the
    third are the same text; in each of the other four the snowflake text
    has strictly more [JOIN] clauses than the star text. *)
Theorem suite_join_hops :
  length get_analytical_queries = 5%nat
  /\ (exists q3, nth_error get_analytical_queries 2 = Some q3
                 /\ star_query q3 = snowflake_query q3)
  /\ (forall i q, nth_error get_analytical_queries i = Some q -> i <> 2%nat ->
                  (join_hops (star_query q) < join_hops (snowflake_query q))%nat)
  /\ map (fun q => (join_hops (star_query q), join_hops (snowflake_query q)))
         get_analytical_queries
     = [(1, 3); (1, 3); (1, 1); (1, 2); (3, 7)]%nat.
Proof.
  split; [reflexivity|]. split.
  - eexists. split; reflexivity.
  - split; [|vm_compute; reflexivity].
    intros i q Hq Hi.
    destruct i as [|[|[|[|[|i]]]]]; cbn in Hq; try congruence;
      try (injection Hq as <-; vm_compute; lia).
    destruct i; discriminate.
Qed.

(* ===================================================================== *)
(** * 15. The comparator's ratio lines *)
(* ===================================================================== *)

Lemma Qlt_b_true (x y : Q) : (x < y)%Q -> Qlt_b x y = true.
Proof.
  intros Hlt. unfold Qlt_b. apply negb_true_iff.
  destruct (Qle_bool y x) eqn:Hle; [|reflexivity].
  apply Qle_bool_iff in Hle. exfalso. now apply (Qlt_not_le x y).
Qed.

Lemma Qlt_b_false (x y : Q) : (y <= x)%Q -> Qlt_b x y = false.
Proof.
  intros Hle. unfold Qlt_b. apply negb_false_iff. now apply Qle_bool_iff.
Qed.

Lemma Qeq_bool_false_of_lt (x : Q) : (0 < x)%Q -> Qeq_bool x 0 = false.
Proof.
  intros Hlt. destruct (Qeq_bool x 0) eqn:Heq; [|reflexivity].
  apply Qeq_bool_iff in Heq. rewrite Heq in Hlt. discriminate.
Qed.

Lemma zero_ratio (x y : Q) : (x == 0)%Q -> (x / y == 0)%Q.
Proof. intros Hx. unfold Qdiv. rewrite Hx. ring. Qed.

Lemma print_without_fault {O} (o : output) (st : State O) :
  faults (world st) = [] ->
  print o st
  = (Ok tt, mkState (self st) (set_stdout (stdout (world st) ++ [o]) (world st))).
Proof.
  intros Hf. unfold print, on_world, fallible. now rewrite Hf.
Qed.

(** C10. With no failure from outside: when the star time is exactly 0 and
    the snowflake time is positive, the ratio lines of the per-query loop
    raise [ZeroDivisionError]; when the snowflake time is exactly 0 and the
    star time is positive, the lines of the detailed report for that entry
    raise [ZeroDivisionError]. *)
Theorem ratio_report_divides_by_zero (star_ms snowflake_ms : Q)
    (i : Z) (r : ResultEntry) (st : State Comparator) :
  faults (world st) = [] ->
  (star_ms == 0)%Q -> (0 < snowflake_ms)%Q ->
  (0 < star_time_ms r)%Q -> (snowflake_time_ms r == 0)%Q ->
  fst (PerformanceComparator.report_ratio star_ms snowflake_ms st)
  = Raise ZeroDivisionError
  /\ fst (PerformanceComparator.print_detail i r st) = Raise ZeroDivisionError.
Proof.
  intros Hf Hstar Hsnow Hrs Hrn. split.
  - unfold PerformanceComparator.report_ratio.
    rewrite (Qlt_b_true _ _ Hsnow).
    unfold and_then, divide at 1. rewrite (Qeq_bool_false_of_lt _ Hsnow).
    unfold pure. rewrite Qlt_b_true.
    + unfold and_then, divide.
      replace (Qeq_bool (star_ms / snowflake_ms) 0) with true; [reflexivity|].
      symmetry. apply Qeq_bool_iff. now apply zero_ratio.
    + rewrite (zero_ratio _ snowflake_ms Hstar). reflexivity.
  - unfold PerformanceComparator.print_detail.
    rewrite (Qlt_b_true _ _ Hrs).
    unfold and_then at 1, divide at 1. rewrite (Qeq_bool_false_of_lt _ Hrs).
    unfold pure.
    unfold and_then at 1. rewrite (print_without_fault _ _ Hf).
    unfold and_then at 1. rewrite print_without_fault by exact Hf.
    unfold and_then at 1. rewrite print_without_fault by exact Hf.
    unfold and_then at 1. rewrite print_without_fault by exact Hf.
    rewrite Qlt_b_false.
    + unfold and_then, divide.
      replace (Qeq_bool (snowflake_time_ms r / star_time_ms r) 0) with true;
        [reflexivity|].
      symmetry. apply Qeq_bool_iff. now apply zero_ratio.
    + rewrite (zero_ratio _ (star_time_ms r) Hrn). discriminate.
Qed.

(** The statement on measured times of 0 ms against 1000 ms, in the built
    sample world. *)
Lemma ratio_report_divides_by_zero_witness :
  fst (PerformanceComparator.report_ratio 0 (1000 # 1)
         (mkState (mkComparator StarFile SnowflakeFile []) built_world))
  = Raise ZeroDivisionError
  /\ fst (PerformanceComparator.print_detail 1
            (mkResultEntry q1_name (1000 # 1) 0 [] [])
            (mkState (mkComparator StarFile SnowflakeFile []) built_world))
     = Raise ZeroDivisionError.
Proof.
  apply (ratio_report_divides_by_zero 0 (1000 # 1) 1
           (mkResultEntry q1_name (1000 # 1) 0 [] [])
           (mkState (mkComparator StarFile SnowflakeFile []) built_world));
    reflexivity.
Defined.

(* ===================================================================== *)
(** * 16. Connections of the entry points *)
(* ===================================================================== *)

(** ** Steps that open and close nothing *)


Lemma keeps_pure {O A} (a : A) : keeps (O:=O) (pure a).
Proof. intros st. now split. Qed.

Lemma keeps_throw {O A} (e : exn) : keeps (O:=O) (A:=A) (throw e).
Proof. intros st. now split. Qed.

Lemma keeps_get_self {O} : keeps (O:=O) get_self.
Proof. intros st. now split. Qed.

Lemma keeps_and_then {O A B} (m : Prog O A) (k : A -> Prog O B) :
  keeps m -> (forall a, keeps (k a)) -> keeps (and_then m k).
Proof.
  intros Hm Hk st. unfold and_then. specialize (Hm st).
  destruct (m st) as [[a|e] st1]; cbn in Hm |- *.
  - destruct (Hk a st1) as [H1 H2]. destruct Hm as [H3 H4]. split; congruence.
  - exact Hm.
Qed.

Lemma keeps_try_except {O A} (body : Prog O A) (handler : exn -> Prog O A) :
  keeps body -> (forall e, keeps (handler e)) -> keeps (try_except body handler).
Proof.
  intros Hb Hh st. unfold try_except. specialize (Hb st).
  destruct (body st) as [[a|e] st1]; cbn in Hb |- *.
  - exact Hb.
  - destruct (Hh e st1) as [H1 H2]. destruct Hb as [H3 H4]. split; congruence.
Qed.

Lemma keeps_for_in {O A} (xs : list A) (body : A -> Prog O unit) :
  (forall x, keeps (body x)) -> keeps (for_in xs body).
Proof.
  intros Hb. induction xs as [|x xs IH]; cbn [for_in].
  - apply keeps_pure.
  - apply keeps_and_then; [apply Hb|intros _; exact IH].
Qed.

Lemma keeps_on_world {O A} (f : World -> result A * World) :
  (forall w, connections (snd (f w)) = connections w) ->
  keeps (O:=O) (on_world f).
Proof.
  intros Hf st. unfold on_world. specialize (Hf (world st)).
  destruct (f (world st)) as [r w']. now split.
Qed.

Lemma fallible_connections (w : World) :
  connections (snd (fallible w)) = connections w.
Proof. unfold fallible. destruct (faults w) as [|[|] fs]; reflexivity. Qed.

Lemma keeps_print {O} (o : output) : keeps (O:=O) (print o).
Proof.
  apply keeps_on_world. intros w. pose proof (fallible_connections w) as Hf.
  destruct (fallible w) as [[u|e] w']; cbn in Hf |- *; exact Hf.
Qed.

Lemma keeps_time_time {O} : keeps (O:=O) time_time.
Proof. now apply keeps_on_world. Qed.

Lemma set_file_content_connections (f : db_file) (db : Database) (w : World) :
  connections (set_file_content f db w) = connections w.
Proof. now destruct f. Qed.

Lemma keeps_connection_call {O A} (handle : nat)
    (action : Database -> result (Database * A)) :
  keeps (O:=O) (connection_call handle action).
Proof.
  apply keeps_on_world. intros w. pose proof (fallible_connections w) as Hf.
  destruct (fallible w) as [[u|e] w']; cbn in Hf |- *; [|exact Hf].
  destruct (connections w' !! handle) as [c|]; [|exact Hf].
  destruct (conn_open c); [|exact Hf].
  destruct (action _) as [[db a]|e]; cbn; [|exact Hf].
  now rewrite set_file_content_connections.
Qed.

Lemma keeps_read_csv_all {O} : keeps (O:=O) read_csv_all.
Proof.
  apply keeps_on_world. intros w. pose proof (fallible_connections w) as Hf.
  destruct (fallible w) as [[u|e] w']; cbn in Hf |- *; exact Hf.
Qed.

Lemma keeps_self_conn : keeps self_conn.
Proof.
  apply keeps_and_then; [apply keeps_get_self|]. intros b.
  destruct (conn b); [apply keeps_pure|apply keeps_throw].
Qed.

Lemma keeps_conn_execute (stmt : statement) : keeps (conn_execute stmt).
Proof.
  apply keeps_and_then; [apply keeps_self_conn|]. intros h.
  apply keeps_connection_call.
Qed.

Lemma keeps_conn_commit : keeps conn_commit.
Proof.
  apply keeps_and_then; [apply keeps_self_conn|]. intros h.
  apply keeps_connection_call.
Qed.

Lemma keeps_create_schema (stmts : list statement) (done : string) :
  keeps (create_schema stmts done).
Proof.
  apply keeps_and_then; [apply keeps_for_in, keeps_conn_execute|]. intros _.
  apply keeps_and_then; [apply keeps_conn_commit|]. intros _. apply keeps_print.
Qed.

Lemma keeps_load_data_into (frames : Dataset -> list (string * relation))
    (stats : Dataset -> list (string * Z)) (loaded : string) :
  keeps (load_data_into frames stats loaded).
Proof.
  apply keeps_and_then; [apply keeps_read_csv_all|]. intros ds.
  apply keeps_and_then; [apply keeps_self_conn|]. intros h.
  apply keeps_and_then.
  { apply keeps_for_in. intros [name frame]. apply keeps_connection_call. }
  intros _. apply keeps_and_then; [apply keeps_conn_commit|]. intros _.
  apply keeps_and_then; [apply keeps_print|]. intros _.
  apply keeps_and_then.
  { apply keeps_for_in. intros [table count]. apply keeps_print. }
  intros _. apply keeps_pure.
Qed.

Lemma keeps_print_schema_info (title : string) : keeps (print_schema_info title).
Proof.
  apply keeps_and_then.
  { apply keeps_and_then; [apply keeps_self_conn|]. intros h.
    apply keeps_connection_call. }
  intros info. apply keeps_and_then; [apply keeps_print|]. intros _.
  apply keeps_for_in. intros [table cols].
  apply keeps_and_then; [apply keeps_print|]. intros _.
  apply keeps_and_then; [apply keeps_print|]. intros _.
  apply keeps_for_in. intros col. apply keeps_print.
Qed.


Lemma connect_outcome (f : db_file) (w : World) :
  holds_its_connection (connections w) f
    (snd (connect (mkState (mkBuilder f None) w))).
Proof.
  unfold holds_its_connection, connect, and_then, get_self, on_world,
    sqlite3_connect, fallible, set_self, print.
  destruct w as [sdb ndb dd ch cs ck tk fs out]. cbn.
  destruct fs as [|[|] [|[|] [|[|] fs]]]; cbn; auto.
Qed.

Lemma keeps_holds {A} (m : Prog Builder A) (cs : list Connection) (f : db_file)
    (st : State Builder) :
  keeps m -> holds_its_connection cs f st ->
  holds_its_connection cs f (snd (m st)).
Proof.
  intros Hm Hst. destruct (Hm st) as [Hc Hs].
  unfold holds_its_connection in *. rewrite Hc, Hs. exact Hst.
Qed.

Lemma alter_last {A} (g : A -> A) (l : list A) (x : A) :
  alter g (length l) (l ++ [x]) = l ++ [g x].
Proof. induction l as [|a l IH]; cbn; [reflexivity|]. now rewrite IH. Qed.

(** [disconnect] closes the connection the builder holds. *)
Lemma disconnect_closes (cs : list Connection) (f : db_file) (st : State Builder) :
  holds_its_connection cs f st ->
  connections (world (snd (disconnect st))) = cs
  \/ connections (world (snd (disconnect st))) = cs ++ [mkConnection f false].
Proof.
  intros [[Hnone Hcs]|[Hsome Hcs]]; unfold disconnect, and_then, get_self;
    cbn [fst snd].
  - rewrite Hnone. cbn. now left.
  - rewrite Hsome. right.
    unfold connection_close, on_world. cbn [fst snd self world].
    match goal with
    | |- context [print ?o ?s] => destruct (keeps_print (O:=Builder) o s) as [Hp _]
    end.
    match goal with
    | |- context [print ?o ?s] => destruct (print o s) as [[u|e] st']
    end; cbn in Hp |- *; rewrite Hp, Hcs, alter_last; reflexivity.
Qed.

(** Whatever happens in [main] of a builder (files missing, a statement
    refused, a failure from outside at any call), the world it leaves has the
    connections it had before, unchanged, followed by at most one new
    connection, which is closed. *)
Lemma builder_main_closes (f : db_file)
    (create load_data print_info : Prog Builder unit) (w : World) :
  keeps create -> keeps load_data -> keeps print_info ->
  exists new,
    connections (snd (run_main (mkBuilder f None)
                        (builder_main create load_data print_info) w))
    = connections w ++ new
    /\ Forall (fun c => conn_open c = false) new
    /\ (length new <= 1)%nat.
Proof.
  intros Hc Hl Hp. unfold run_main, builder_main, try_finally.
  set (st0 := mkState (mkBuilder f None) w).
  assert (Hbody : holds_its_connection (connections w) f
                    (snd (try_except
                            (connect;; create;; load_data;; print_info)
                            (fun e => print (ErrorLine e)) st0))).
  { unfold try_except, and_then at 1.
    pose proof (connect_outcome f w) as Hconn. fold st0 in Hconn.
    destruct (connect st0) as [[u|e] st1]; cbn [snd] in Hconn.
    - assert (Hrest : keeps (create;; load_data;; print_info)).
      { apply keeps_and_then; [exact Hc|]. intros _.
        apply keeps_and_then; [exact Hl|]. intros _. exact Hp. }
      pose proof (keeps_holds _ _ _ st1 Hrest Hconn) as Hst2.
      destruct ((create;; load_data;; print_info) st1) as [[u2|e2] st2];
        cbn [snd] in Hst2 |- *; [exact Hst2|].
      apply keeps_holds; [apply keeps_print|exact Hst2].
    - apply keeps_holds; [apply keeps_print|exact Hconn]. }
  destruct (try_except _ _ st0) as [outcome st']. cbn [snd] in Hbody.
  pose proof (disconnect_closes _ _ st' Hbody) as Hd.
  destruct (disconnect st') as [[u|e] st'']; cbn [snd] in Hd |- *;
    (destruct Hd as [Hd|Hd];
     [exists []; rewrite Hd, app_nil_r; split; [reflexivity|];
        split; [constructor|cbn; lia]
     |exists [mkConnection f false]; rewrite Hd; split; [reflexivity|];
        split; [repeat constructor|cbn; lia]]).
Qed.

(** Both builders' [main] close the connection they open, on every path:
    the connections that were there are unchanged, and at most one has been
    added, which is closed. *)
Lemma builders_close_their_connection (w : World) :
  (exists new, connections (snd (StarSchemaBuilder.main w)) = connections w ++ new
               /\ Forall (fun c => conn_open c = false) new
               /\ (length new <= 1)%nat)
  /\ (exists new,
        connections (snd (SnowflakeSchemaBuilder.main w)) = connections w ++ new
        /\ Forall (fun c => conn_open c = false) new
        /\ (length new <= 1)%nat).
Proof.
  split.
  - apply builder_main_closes.
    + apply keeps_create_schema.
    + apply keeps_and_then; [apply keeps_load_data_into|intros _; apply keeps_pure].
    + apply keeps_print_schema_info.
  - apply builder_main_closes.
    + apply keeps_create_schema.
    + apply keeps_and_then; [apply keeps_load_data_into|intros _; apply keeps_pure].
    + apply keeps_print_schema_info.
Qed.

(** C8 (the code departs from the claim). The comparator's full run does not
    close its connections when an exception is raised. Run before the stores
    are built, its first query raises (no such table) and both connections
    it opened stay open; run on built stores with a clock that does not
    advance during the star query, the ratio line raises
    [ZeroDivisionError] and both connections stay open. On normal completion
    (built stores, advancing clock) both are closed. *)
Theorem comparator_leaves_connections_open :
  (fst (PerformanceComparator.main sample_world)
   = Raise (OperationalError "no such table: sales_facts")
   /\ connections_since sample_world (snd (PerformanceComparator.main sample_world))
      = [mkConnection StarFile true; mkConnection SnowflakeFile true])
  /\ (fst (PerformanceComparator.main coarse_clock_world) = Raise ZeroDivisionError
      /\ connections_since coarse_clock_world
           (snd (PerformanceComparator.main coarse_clock_world))
         = [mkConnection StarFile true; mkConnection SnowflakeFile true])
  /\ (is_ok (fst (PerformanceComparator.main built_world)) = true
      /\ connections_since built_world (snd (PerformanceComparator.main built_world))
         = [mkConnection StarFile false; mkConnection SnowflakeFile false]).
Proof.
  repeat split; vm_compute; reflexivity.
Qed.

(* ===================================================================== *)
(** * 17. More on the generator *)
(* ===================================================================== *)

(** ** Rules for [ensures] *)

Section EnsuresRules.
Context {St : Type}.

Lemma ensures_ret {A} (a : A) (P : A -> Prop) : P a -> ensures (St:=St) (ret a) P.
Proof. intros Ha s a' s' [= <- _]. exact Ha. Qed.

Lemma ensures_bind {A B} (m : M St A) (k : A -> M St B)
    (P : A -> Prop) (Q : B -> Prop) :
  ensures m P -> (forall a, P a -> ensures (k a) Q) -> ensures (bind m k) Q.
Proof.
  intros Hm Hk s b s'. unfold bind.
  destruct (m s) as [[a s1]|e] eqn:Hrun; [|discriminate].
  intros Hrun2. exact (Hk a (Hm _ _ _ Hrun) _ _ _ Hrun2).
Qed.

Lemma ensures_call {A} (f : St -> A * St) (P : A -> Prop) :
  (forall s, P (fst (f s))) -> ensures (call f) P.
Proof.
  intros Hf s a s'. unfold call. intros [= Heq]. specialize (Hf s).
  rewrite Heq in Hf. exact Hf.
Qed.

Lemma ensures_any {A} (m : M St A) : ensures m (fun _ => True).
Proof. intros s a s' _. exact I. Qed.

Lemma ensures_weaken {A} (m : M St A) (P Q : A -> Prop) :
  ensures m P -> (forall a, P a -> Q a) -> ensures m Q.
Proof. intros Hm HPQ s a s' Hrun. apply HPQ. exact (Hm _ _ _ Hrun). Qed.

Lemma ensures_for_each {A B} (xs : list A) (body : A -> M St B)
    (P : A -> B -> Prop) :
  (forall x, In x xs -> ensures (body x) (P x)) ->
  ensures (for_each xs body) (Forall2 P xs).
Proof.
  induction xs as [|x xs IH]; intros Hbody.
  - apply ensures_ret. constructor.
  - cbn [for_each]. eapply ensures_bind.
    + apply Hbody. now left.
    + intros b Hb. eapply ensures_bind.
      * apply IH. intros y Hy. apply Hbody. now right.
      * intros bs Hbs. apply ensures_ret. now constructor.
Qed.

(** What a step that returns is known to ensure holds of what it returns. *)
Lemma returns_ensures {A} (m : M St A) (P Q : A -> Prop) :
  returns m P -> ensures m Q -> returns m (fun a => P a /\ Q a).
Proof.
  intros Hr He s. destruct (Hr s) as (a & s' & Hrun & Ha).
  exists a, s'. split; [exact Hrun|]. split; [exact Ha|exact (He _ _ _ Hrun)].
Qed.
End EnsuresRules.

(** [round(x, 3)] has three decimals. *)
Lemma py_round_3_decimals (u : Q) : exists thousandths : Z, py_round u 3 = thousandths # 1000.
Proof. eexists. reflexivity. Qed.

(** The codes of the products numbered 1 to 500 have eight characters and
    spell their number. *)
Lemma product_codes_checked :
  forallb product_code_check (py_range 1 (NUM_PRODUCTS + 1)) = true.
Proof. vm_compute. reflexivity. Qed.

Lemma Forall2_Forall_r {A B} (P : A -> B -> Prop) (Q : B -> Prop)
    (xs : list A) (ys : list B) :
  Forall2 P xs ys -> (forall x y, In x xs -> P x y -> Q y) -> Forall Q ys.
Proof.
  induction 1 as [|x y xs ys Hxy _ IH]; intros HQ; constructor.
  - apply (HQ x y); [now left|exact Hxy].
  - apply IH. intros x' y' Hx'. apply HQ. now right.
Qed.

Lemma Forall2_map_r {A B C} (P : A -> B -> Prop) (f : B -> C) (g : A -> C)
    (xs : list A) (ys : list B) :
  Forall2 P xs ys -> (forall x y, In x xs -> P x y -> f y = g x) ->
  map f ys = map g xs.
Proof.
  induction 1 as [|x y xs ys Hxy _ IH]; intros Hfg; [reflexivity|].
  cbn. rewrite (Hfg x y (or_introl eq_refl) Hxy). f_equal.
  apply IH. intros x' y' Hx'. apply Hfg. now right.
Qed.

Lemma numbered_by_ids {A} (key : A -> Z) (rows : list A) (n : Z) :
  0 <= n -> map key rows = py_range 1 (n + 1) ->
  len rows = n /\ numbered_from_1 key rows.
Proof.
  intros Hn Hids.
  assert (Hlen : len rows = n).
  { unfold len. rewrite <- (length_map key), Hids, length_py_range. lia. }
  split; [exact Hlen|]. unfold numbered_from_1. now rewrite Hlen.
Qed.

Section GeneratorProofs3.
Context {St : Type} `{PyRuntime St}.

Lemma ensures_randint (a b : Z) :
  a <= b -> ensures (call (random_randint a b)) (fun n => a <= n <= b).
Proof. intros Hab. apply ensures_call. intros s. now apply random_randint_range. Qed.

Lemma ensures_uniform (a b : Q) :
  (a <= b)%Q ->
  ensures (call (random_uniform a b)) (fun x => (a <= x)%Q /\ (x <= b)%Q).
Proof. intros Hab. apply ensures_call. intros s. now apply random_uniform_range. Qed.

Lemma ensures_sample_row {A} (df : list A) :
  ensures (sample_row df) (fun row => In row df).
Proof.
  destruct df as [|r0 df]; [intros s a s'; discriminate|].
  unfold sample_row. eapply ensures_bind; [apply ensures_any|]. intros i _.
  destruct (nth_error (r0 :: df) i) as [row|] eqn:Hnth.
  - apply ensures_ret. eapply nth_error_In. exact Hnth.
  - intros s a s'. discriminate.
Qed.

(** *** The product rows *)

Lemma generate_product_data_rows :
  ensures generate_product_data
    (fun '(_, _, products_df) =>
       Forall product_well_formed products_df
       /\ List.NoDup (map Product.product_code products_df)).
Proof.
  unfold generate_product_data. eapply ensures_bind.
  - apply ensures_for_each
      with (P := fun i p =>
                   Product.product_id p = i
                   /\ Product.product_code p = "PRD" +:+ format_05d i
                   /\ (10 # 1 <= Product.unit_price p)%Q
                   /\ (Product.unit_price p <= 5000 # 1)%Q
                   /\ (exists cents : Z, Product.unit_price p = cents # 100)
                   /\ 1 <= Product.subcategory_id p <= 24).
    intros i _. eapply ensures_bind.
    + apply ensures_randint. change (len generate_subcategories) with 24. lia.
    + intros sc Hsc. change (len generate_subcategories) with 24 in Hsc.
      eapply ensures_bind; [apply ensures_any|]. intros w1 _.
      eapply ensures_bind; [apply ensures_any|]. intros w2 _.
      eapply ensures_bind; [apply ensures_uniform; discriminate|].
      intros price [Hp0 Hp1]. apply ensures_ret.
      destruct (py_round_2_price price Hp0 Hp1) as (Hr0 & Hr1 & Hcents).
      cbn. split; [reflexivity|]. split; [reflexivity|].
      split; [exact Hr0|]. split; [exact Hr1|]. split; [exact Hcents|].
      cbn beta in Hsc. lia.
  - intros products_df Hp. apply ensures_ret.
    pose proof product_codes_checked as Hchk. rewrite forallb_forall in Hchk.
    assert (Hwf : Forall product_well_formed products_df).
    { apply (Forall2_Forall_r _ _ _ _ Hp).
      intros i p Hi (Hid & Hcode & Hlo & Hhi & Hcents & Hsub).
      specialize (Hchk i Hi). unfold product_code_check in Hchk.
      apply andb_prop in Hchk as [Hlen Hnum].
      apply Nat.eqb_eq in Hlen. apply Z.eqb_eq in Hnum.
      unfold product_well_formed. rewrite Hcode, Hid.
      split; [reflexivity|]. split; [exact Hlen|]. split; [exact Hnum|].
      split; [exact Hlo|]. split; [exact Hhi|]. split; [exact Hcents|exact Hsub]. }
    split; [exact Hwf|].
    apply (NoDup_map_inv product_number).
    replace (map product_number (map Product.product_code products_df))
      with (py_range 1 (NUM_PRODUCTS + 1)); [apply NoDup_py_range|].
    rewrite map_map. symmetry.
    rewrite <- (map_id (py_range 1 (NUM_PRODUCTS + 1))).
    apply (Forall2_map_r _ _ _ _ _ Hp).
    intros i p Hi (Hid & Hcode & _). rewrite Hcode.
    specialize (Hchk i Hi). unfold product_code_check in Hchk.
    apply andb_prop in Hchk as [_ Hnum]. now apply Z.eqb_eq in Hnum.
Qed.

(** *** The fact rows *)

Lemma bind_ok {A B} (m : M St A) (k : A -> M St B) (s s1 : St) (a : A) :
  m s = Ok (a, s1) -> bind m k s = k a s1.
Proof. intros Hrun. unfold bind. now rewrite Hrun. Qed.

Lemma bind_raise {A B} (m : M St A) (k : A -> M St B) (s : St) (e : exn) :
  m s = Raise e -> bind m k s = Raise e.
Proof. intros Hrun. unfold bind. now rewrite Hrun. Qed.

Lemma sample_row_empty {A} (s : St) :
  exists msg, sample_row (@nil A) s = Raise (ValueError msg).
Proof. eexists. reflexivity. Qed.

Lemma generate_sales_data_rows (time_df : list TimeRow.t)
    (products_df : list Product.t) (customers_df : list Customer.t)
    (sales_people_df : list Salesperson.t) :
  ensures (generate_sales_data time_df products_df customers_df sales_people_df)
    (fun sales_df =>
       map Sale.sale_id sales_df = py_range 1 (NUM_SALES_RECORDS + 1)
       /\ Forall (sale_well_formed time_df products_df customers_df
                    sales_people_df) sales_df).
Proof.
  unfold generate_sales_data. eapply ensures_weaken.
  - apply ensures_for_each
      with (P := fun i f =>
                   Sale.sale_id f = i
                   /\ sale_well_formed time_df products_df customers_df
                        sales_people_df f).
    intros i _.
    eapply ensures_bind; [apply ensures_sample_row|]. intros t Hin_t.
    eapply ensures_bind; [apply ensures_sample_row|]. intros p Hin_p.
    eapply ensures_bind; [apply ensures_sample_row|]. intros c Hin_c.
    eapply ensures_bind; [apply ensures_sample_row|]. intros sp Hin_sp.
    eapply ensures_bind; [apply ensures_randint; lia|]. intros q Hq.
    eapply ensures_bind; [apply ensures_uniform; discriminate|]. intros u [Hu0 Hu1].
    apply ensures_ret. cbn beta in *.
    destruct (py_round_3_discount u Hu0 Hu1) as [Hd0 Hd1].
    split; [reflexivity|]. unfold sale_well_formed. cbn.
    split; [eauto|]. split; [eauto|]. split; [eauto|]. split; [eauto|].
    split; [lia|]. split; [exact Hd0|]. split; [exact Hd1|].
    apply py_round_3_decimals.
  - intros sales_df Hall. split.
    + rewrite <- (map_id (py_range 1 (NUM_SALES_RECORDS + 1))).
      apply (Forall2_map_r _ _ _ _ _ Hall). now intros i f _ [Hid _].
    + apply (Forall2_Forall_r _ _ _ _ Hall). now intros i f _ [_ Hwf].
Qed.

Lemma generate_sales_data_returns (time_df : list TimeRow.t)
    (products_df : list Product.t) (customers_df : list Customer.t)
    (sales_people_df : list Salesperson.t) :
  some_frame_empty time_df products_df customers_df sales_people_df = false ->
  returns (generate_sales_data time_df products_df customers_df sales_people_df)
    (fun _ => True).
Proof.
  intros Hne.
  assert (Ht : time_df <> []) by (intros ->; discriminate).
  assert (Hp : products_df <> [])
    by (intros ->; destruct time_df; discriminate).
  assert (Hc : customers_df <> [])
    by (intros ->; destruct time_df, products_df; discriminate).
  assert (Hs : sales_people_df <> [])
    by (intros ->; destruct time_df, products_df, customers_df; discriminate).
  unfold generate_sales_data. eapply returns_weaken.
  - apply returns_for_each with (P := fun _ _ => True).
    intros i _.
    eapply returns_bind; [now apply returns_sample_row|]. intros t _.
    eapply returns_bind; [now apply returns_sample_row|]. intros p _.
    eapply returns_bind; [now apply returns_sample_row|]. intros c _.
    eapply returns_bind; [now apply returns_sample_row|]. intros sp _.
    eapply returns_bind; [apply returns_any|]. intros q _.
    eapply returns_bind; [apply returns_any|]. intros u _.
    now apply returns_ret.
  - trivial.
Qed.

(** With a frame that has no row, the first draw from it raises. *)
Lemma generate_sales_data_raises (time_df : list TimeRow.t)
    (products_df : list Product.t) (customers_df : list Customer.t)
    (sales_people_df : list Salesperson.t) (s : St) :
  some_frame_empty time_df products_df customers_df sales_people_df = true ->
  exists msg,
    generate_sales_data time_df products_df customers_df sales_people_df s
    = Raise (ValueError msg).
Proof.
  intros Hempty. unfold generate_sales_data.
  rewrite py_range_cons by (unfold NUM_SALES_RECORDS; lia).
  generalize (py_range (1 + 1) (NUM_SALES_RECORDS + 1)). intros rest.
  cbn [for_each].
  destruct time_df as [|t0 time_df].
  { eexists. apply bind_raise, bind_raise. reflexivity. }
  destruct (returns_sample_row (t0 :: time_df) ltac:(discriminate) s)
    as (t & s1 & Ht & _).
  destruct products_df as [|p0 products_df].
  { eexists. apply bind_raise. rewrite (bind_ok _ _ _ _ _ Ht).
    apply bind_raise. reflexivity. }
  destruct (returns_sample_row (p0 :: products_df) ltac:(discriminate) s1)
    as (p & s2 & Hp & _).
  destruct customers_df as [|c0 customers_df].
  { eexists. apply bind_raise. rewrite (bind_ok _ _ _ _ _ Ht).
    rewrite (bind_ok _ _ _ _ _ Hp). apply bind_raise. reflexivity. }
  destruct (returns_sample_row (c0 :: customers_df) ltac:(discriminate) s2)
    as (c & s3 & Hc & _).
  destruct sales_people_df as [|sp0 sales_people_df]; [|discriminate].
  eexists. apply bind_raise. rewrite (bind_ok _ _ _ _ _ Ht).
  rewrite (bind_ok _ _ _ _ _ Hp). rewrite (bind_ok _ _ _ _ _ Hc).
  apply bind_raise. reflexivity.
Qed.

(** *** The whole dataset *)

Lemma save_data_to_csv_rows :
  ensures save_data_to_csv
    (fun ds =>
       Forall product_well_formed (products ds)
       /\ List.NoDup (map Product.product_code (products ds))
       /\ map Sale.sale_id (sales_facts ds) = py_range 1 (NUM_SALES_RECORDS + 1)
       /\ Forall (sale_well_formed (time_dimension ds) (products ds)
                    (customers ds) (sales_people ds)) (sales_facts ds)).
Proof.
  unfold save_data_to_csv.
  eapply ensures_bind; [apply ensures_any|].
  intros [[countries_df regions_df] cities_df] _.
  eapply ensures_bind; [apply generate_product_data_rows|].
  intros [[categories_df subcategories_df] products_df] [Hwf Hnd].
  eapply ensures_bind; [apply ensures_any|]. intros customers_df _.
  eapply ensures_bind; [apply ensures_any|]. intros sales_people_df _.
  eapply ensures_bind; [apply ensures_any|]. intros time_df _.
  eapply ensures_bind; [apply generate_sales_data_rows|].
  intros sales_df [Hids Hrows]. apply ensures_ret. cbn. auto.
Qed.

End GeneratorProofs3.

(** From any state of the random sources the generator completes and writes
    3 countries, 5 regions, 20 cities, 8 categories, 24 subcategories (one
    fewer than [NUM_SUBCATEGORIES]), 500 products, 2000 customers, 50
    salespeople, 1096 days and 50000 sales: the ten numbers it prints. The
    key column of every table numbers its rows from 1, in row order. *)
Theorem generated_row_counts {St : Type} `{PyRuntime St} (s : St) :
  exists ds s',
    save_data_to_csv s = Ok (ds, s')
    /\ row_counts ds
       = [NUM_COUNTRIES; NUM_REGIONS; NUM_CITIES; NUM_CATEGORIES;
          NUM_SUBCATEGORIES - 1; NUM_PRODUCTS; NUM_CUSTOMERS; NUM_SALES_PEOPLE;
          1096; NUM_SALES_RECORDS]
    /\ numbered_from_1 Country.country_id (countries ds)
    /\ numbered_from_1 Region.region_id (regions ds)
    /\ numbered_from_1 City.city_id (cities ds)
    /\ numbered_from_1 Category.category_id (categories ds)
    /\ numbered_from_1 Subcategory.subcategory_id (subcategories ds)
    /\ numbered_from_1 Product.product_id (products ds)
    /\ numbered_from_1 Customer.customer_id (customers ds)
    /\ numbered_from_1 Salesperson.salesperson_id (sales_people ds)
    /\ numbered_from_1 TimeRow.time_id (time_dimension ds)
    /\ numbered_from_1 Sale.sale_id (sales_facts ds).
Proof.
  destruct (returns_ensures _ _ _ save_data_to_csv_spec save_data_to_csv_rows s)
    as (ds & s' & Hrun & G & _ & _ & Hsales & _).
  exists ds, s'. split; [exact Hrun|].
  destruct (numbered_by_ids City.city_id (cities ds) NUM_CITIES
              ltac:(discriminate) (gen_city_ids ds G)) as [L3 N3].
  destruct (numbered_by_ids Product.product_id (products ds) NUM_PRODUCTS
              ltac:(discriminate) (gen_product_ids ds G)) as [L6 N6].
  destruct (numbered_by_ids Customer.customer_id (customers ds) NUM_CUSTOMERS
              ltac:(discriminate) (gen_customer_ids ds G)) as [L7 N7].
  destruct (numbered_by_ids Salesperson.salesperson_id (sales_people ds)
              NUM_SALES_PEOPLE ltac:(discriminate) (gen_salesperson_ids ds G))
    as [L8 N8].
  destruct (numbered_by_ids TimeRow.time_id (time_dimension ds) 1096
              ltac:(discriminate) (gen_time_ids ds G)) as [L9 N9].
  destruct (numbered_by_ids Sale.sale_id (sales_facts ds) NUM_SALES_RECORDS
              ltac:(discriminate) Hsales) as [L10 N10].
  unfold row_counts. rewrite L3, L6, L7, L8, L9, L10.
  unfold numbered_from_1 at 1 2 4 5.
  rewrite (gen_countries ds G), (gen_regions ds G), (gen_categories ds G),
    (gen_subcategories ds G).
  split; [reflexivity|]. split; [reflexivity|]. split; [reflexivity|].
  split; [exact N3|]. split; [reflexivity|]. split; [reflexivity|].
  split; [exact N6|]. split; [exact N7|]. split; [exact N8|].
  split; [exact N9|exact N10].
Qed.

(** From any state of the random sources, every product the generator
    writes has the code "PRD" followed by its number on five digits (eight
    characters, from which the number is read back), a unit price between
    10 and 5000 with two decimals, and one of the 24 subcategories; no two
    products share a code. *)
Theorem generated_products_well_formed {St : Type} `{PyRuntime St} (s : St) :
  exists ds s',
    save_data_to_csv s = Ok (ds, s')
    /\ Forall product_well_formed (products ds)
    /\ List.NoDup (map Product.product_code (products ds)).
Proof.
  destruct (returns_ensures _ _ _ save_data_to_csv_spec save_data_to_csv_rows s)
    as (ds & s' & Hrun & _ & Hwf & Hnd & _).
  exists ds, s'. auto.
Qed.

(** [generate_sales_data] on any four frames, from any state of the random
    sources: when one of the frames has no row it raises [ValueError] (the
    first draw from that frame fails); otherwise it returns 50000 rows
    numbered from 1, each with the keys of rows of the four frames, the unit
    price of a product row with its [product_id], a quantity from 1 to 10 and
    a discount between 0 and 0.2 with three decimals. *)
Theorem generate_sales_data_contract {St : Type} `{PyRuntime St}
    (time_df : list TimeRow.t) (products_df : list Product.t)
    (customers_df : list Customer.t) (sales_people_df : list Salesperson.t)
    (s : St) :
  match generate_sales_data time_df products_df customers_df sales_people_df s with
  | Ok (sales_df, _) =>
      some_frame_empty time_df products_df customers_df sales_people_df = false
      /\ map Sale.sale_id sales_df = py_range 1 (NUM_SALES_RECORDS + 1)
      /\ Forall (sale_well_formed time_df products_df customers_df
                   sales_people_df) sales_df
  | Raise e =>
      some_frame_empty time_df products_df customers_df sales_people_df = true
      /\ exists msg, e = ValueError msg
  end.
Proof.
  destruct (some_frame_empty time_df products_df customers_df sales_people_df)
    eqn:Hempty.
  - destruct (generate_sales_data_raises _ _ _ _ s Hempty) as (msg & ->).
    split; [reflexivity|]. now exists msg.
  - destruct (generate_sales_data_returns _ _ _ _ Hempty s)
      as (sales_df & s' & Hrun & _).
    rewrite Hrun. split; [reflexivity|].
    exact (generate_sales_data_rows _ _ _ _ _ _ _ Hrun).
Qed.

(** ** The calendar of the time dimension *)

Lemma generate_time_loop_calendar :
  exists rows,
    generate_time_loop time_loop_fuel start_date 1 [] = Some rows
    /\ hd_error (map TimeRow.date rows) = Some start_date
    /\ List.last (map TimeRow.date rows) start_date = end_date
    /\ map (fun r => toordinal (TimeRow.date r)) rows
       = py_range (toordinal start_date) (toordinal end_date + 1)
    /\ forallb time_row_in_calendar rows = true
    /\ nth_error (map TimeRow.date rows) 789 = Some (Date.mk 2024 2 29).
Proof.
  eexists. split; [vm_compute; reflexivity|].
  repeat split; vm_compute; reflexivity.
Qed.

(** The time dimension is the calendar from 2022-01-01 to 2024-12-31 without
    a gap: its first date is the first day, its last date the last day, the
    day numbers of its dates are consecutive, every date is a day of the
    Gregorian calendar (the 790th is 2024-02-29), [time_id] counts the days
    from the first, and [month_name] is the English name of the month. *)
Theorem time_dimension_is_gap_free {St : Type} (s : St) :
  exists time_df,
    generate_time_data s = Ok (time_df, s)
    /\ hd_error (map TimeRow.date time_df) = Some start_date
    /\ List.last (map TimeRow.date time_df) start_date = end_date
    /\ map (fun r => toordinal (TimeRow.date r)) time_df
       = py_range (toordinal start_date) (toordinal end_date + 1)
    /\ forallb time_row_in_calendar time_df = true
    /\ nth_error (map TimeRow.date time_df) 789 = Some (Date.mk 2024 2 29).
Proof.
  destruct generate_time_loop_calendar as (rows & Hrun & Hrest).
  exists rows. split; [unfold generate_time_data; now rewrite Hrun|exact Hrest].
Qed.

(* ===================================================================== *)
(** * 18. Denormalisation row by row *)
(* ===================================================================== *)

Lemma length_one {A} (l : list A) : length l = 1%nat -> exists x, l = [x].
Proof. destruct l as [|x [|y l]]; try discriminate. eauto. Qed.

Lemma one_match {A} (key : A -> Z) (k : Z) (table : list A) :
  length (matching key k table) = 1%nat ->
  exists a, matching key k table = [a] /\ In a table /\ key a = k.
Proof.
  intros Hlen. destruct (length_one _ Hlen) as (a & Ha). exists a.
  split; [exact Ha|]. apply (matching_In key k table a). rewrite Ha. now left.
Qed.

Lemma map_flat_map_single {A B} (key : B -> Z) (k : A -> Z) (g : A -> list B)
    (l : list A) :
  (forall a, In a l -> map key (g a) = [k a]) ->
  map key (flat_map g l) = map k l.
Proof.
  induction l as [|a l IH]; intros Hg; [reflexivity|].
  cbn. rewrite map_app, (Hg a (or_introl eq_refl)). cbn. f_equal.
  apply IH. intros b Hb. apply Hg. now right.
Qed.

(** A key that occurs once in the key column is matched by one row. *)
Lemma matching_unique_key {A} (key : A -> Z) (k : Z) (rows : list A) :
  List.NoDup (map key rows) -> In k (map key rows) ->
  length (matching key k rows) = 1%nat.
Proof.
  unfold matching. induction rows as [|r rows IH]; [easy|].
  cbn [map List.filter]. intros Hnd Hin.
  inversion Hnd as [|? ? Hnotin Hnd']; subst.
  destruct (key r =? k) eqn:Hk.
  - apply Z.eqb_eq in Hk. cbn [length]. f_equal.
    rewrite filter_none; [reflexivity|].
    intros b Hb. apply Z.eqb_neq. intros Heq. apply Hnotin.
    rewrite Hk, <- Heq. now apply in_map.
  - apply Z.eqb_neq in Hk. destruct Hin as [Heq|Hin]; [congruence|].
    now apply IH.
Qed.

Lemma one_parent_by_range {A B} (fk : A -> Z) (pk : B -> Z)
    (child : list A) (parent : list B) (lo hi : Z) :
  map pk parent = py_range lo hi ->
  Forall (fun a => lo <= fk a < hi) child ->
  one_parent fk pk child parent.
Proof.
  intros Hids Hchild a Ha. rewrite List.Forall_forall in Hchild.
  apply matching_unique_key.
  - rewrite Hids. apply NoDup_py_range.
  - rewrite Hids. apply in_py_range. now apply Hchild.
Qed.

(** With every link resolving once, each flat row yields one star row. *)
Lemma dimension_keys_kept (ds : Dataset) :
  chains_unique ds ->
  map DimProduct.product_id (StarSchemaBuilder.dim_product_of ds)
  = map Product.product_id (products ds)
  /\ map DimCustomer.customer_id (StarSchemaBuilder.dim_customer_of ds)
     = map Customer.customer_id (customers ds)
  /\ map DimSalesperson.salesperson_id (StarSchemaBuilder.dim_salesperson_of ds)
     = map Salesperson.salesperson_id (sales_people ds).
Proof.
  intros (Hps & Hsc & Hcc & Hcr & Hrc & Hsr). split; [|split].
  - rewrite dim_product_of_flat. apply map_flat_map_single. intros p Hin.
    unfold product_chain.
    destruct (one_match _ _ _ (Hps p Hin)) as (s & -> & Hs & _).
    cbn [flat_map]. rewrite app_nil_r.
    destruct (one_match _ _ _ (Hsc s Hs)) as (c & -> & _). reflexivity.
  - rewrite dim_customer_of_flat. apply map_flat_map_single. intros c Hin.
    unfold customer_chain.
    destruct (one_match _ _ _ (Hcc c Hin)) as (ci & -> & Hci & _).
    cbn [flat_map]. rewrite app_nil_r.
    destruct (one_match _ _ _ (Hcr ci Hci)) as (r & -> & Hr & _).
    cbn [flat_map]. rewrite app_nil_r.
    destruct (one_match _ _ _ (Hrc r Hr)) as (co & -> & _). reflexivity.
  - rewrite dim_salesperson_of_flat. apply map_flat_map_single. intros sp Hin.
    unfold salesperson_chain.
    destruct (one_match _ _ _ (Hsr sp Hin)) as (r & -> & Hr & _).
    cbn [flat_map]. rewrite app_nil_r.
    destruct (one_match _ _ _ (Hrc r Hr)) as (co & -> & _). reflexivity.
Qed.

Lemma star_stats_of_flat (ds : Dataset) :
  chains_unique ds ->
  StarSchemaBuilder.stats ds
  = [("dim_product", len (products ds)); ("dim_customer", len (customers ds));
     ("dim_salesperson", len (sales_people ds));
     ("dim_time", len (time_dimension ds));
     ("sales_facts", len (sales_facts ds))].
Proof.
  intros Hu. destruct (dimension_keys_kept ds Hu) as (Hp & Hc & Hs).
  unfold StarSchemaBuilder.stats, len.
  rewrite <- (length_map DimProduct.product_id), Hp, length_map.
  rewrite <- (length_map DimCustomer.customer_id), Hc, length_map.
  rewrite <- (length_map DimSalesperson.salesperson_id), Hs, length_map.
  reflexivity.
Qed.

(** When every link of the chains resolves once, [load_data] of the star
    builder writes one row per flat row into each denormalised dimension, in
    the order of the flat rows and with their keys; the row counts it
    reports for the dimensions are those of the flat tables. *)
Theorem denormalization_keeps_one_row_per_key (ds : Dataset) :
  chains_unique ds ->
  map DimProduct.product_id (StarSchemaBuilder.dim_product_of ds)
  = map Product.product_id (products ds)
  /\ map DimCustomer.customer_id (StarSchemaBuilder.dim_customer_of ds)
     = map Customer.customer_id (customers ds)
  /\ map DimSalesperson.salesperson_id (StarSchemaBuilder.dim_salesperson_of ds)
     = map Salesperson.salesperson_id (sales_people ds)
  /\ StarSchemaBuilder.stats ds
     = [("dim_product", len (products ds)); ("dim_customer", len (customers ds));
        ("dim_salesperson", len (sales_people ds));
        ("dim_time", len (time_dimension ds));
        ("sales_facts", len (sales_facts ds))].
Proof.
  intros Hu. destruct (dimension_keys_kept ds Hu) as (Hp & Hc & Hs).
  split; [exact Hp|]. split; [exact Hc|]. split; [exact Hs|].
  now apply star_stats_of_flat.
Qed.

Lemma sample_chains_unique : chains_unique sample_dataset.
Proof.
  repeat split; intros a [<-|[]]; reflexivity.
Defined.

(** The statement on the sample dataset. *)
Lemma denormalization_keeps_one_row_per_key_witness :
  map DimProduct.product_id (StarSchemaBuilder.dim_product_of sample_dataset)
  = map Product.product_id (products sample_dataset)
  /\ map DimCustomer.customer_id (StarSchemaBuilder.dim_customer_of sample_dataset)
     = map Customer.customer_id (customers sample_dataset)
  /\ map DimSalesperson.salesperson_id
       (StarSchemaBuilder.dim_salesperson_of sample_dataset)
     = map Salesperson.salesperson_id (sales_people sample_dataset)
  /\ StarSchemaBuilder.stats sample_dataset
     = [("dim_product", len (products sample_dataset));
        ("dim_customer", len (customers sample_dataset));
        ("dim_salesperson", len (sales_people sample_dataset));
        ("dim_time", len (time_dimension sample_dataset));
        ("sales_facts", len (sales_facts sample_dataset))].
Proof.
  exact (denormalization_keeps_one_row_per_key sample_dataset sample_chains_unique).
Defined.

(** In a generated dataset every link of the chains resolves once. *)
Lemma generated_chains_unique (ds : Dataset) : generated ds -> chains_unique ds.
Proof.
  intros G. unfold chains_unique.
  rewrite (gen_countries ds G), (gen_regions ds G), (gen_categories ds G),
    (gen_subcategories ds G).
  repeat split.
  - apply (one_parent_by_range _ _ _ _ 1 25); [reflexivity|].
    apply (gen_product_subcategories ds G).
  - apply (one_parent_by_range _ _ _ _ 1 9); [reflexivity|].
    repeat constructor; cbn; lia.
  - apply (one_parent_by_range _ _ _ _ 1 (NUM_CITIES + 1)).
    + apply (gen_city_ids ds G).
    + apply (gen_customer_cities ds G).
  - apply (one_parent_by_range _ _ _ _ 1 (NUM_REGIONS + 1)); [reflexivity|].
    apply (gen_city_regions ds G).
  - apply (one_parent_by_range _ _ _ _ 1 4); [reflexivity|].
    repeat constructor; cbn; lia.
  - apply (one_parent_by_range _ _ _ _ 1 (NUM_REGIONS + 1)); [reflexivity|].
    apply (gen_salesperson_regions ds G).
Qed.

(** From any state of the random sources: [load_data] of the star builder
    reports 500 products, 2000 customers, 50 salespeople, 1096 days and 50000
    sales for the generated dataset (no row is lost or doubled by the
    merges), and [load_data] of the snowflake builder reports the ten row
    counts of the flat tables. *)
Theorem generated_load_statistics {St : Type} `{PyRuntime St} (s : St) :
  exists ds s',
    save_data_to_csv s = Ok (ds, s')
    /\ StarSchemaBuilder.stats ds
       = [("dim_product", 500); ("dim_customer", 2000); ("dim_salesperson", 50);
          ("dim_time", 1096); ("sales_facts", 50000)]
    /\ SnowflakeSchemaBuilder.stats ds
       = [("dim_country", 3); ("dim_region", 5); ("dim_city", 20);
          ("dim_category", 8); ("dim_subcategory", 24); ("dim_product", 500);
          ("dim_customer", 2000); ("dim_salesperson", 50); ("dim_time", 1096);
          ("sales_facts", 50000)].
Proof.
  destruct (returns_ensures _ _ _ save_data_to_csv_spec save_data_to_csv_rows s)
    as (ds & s' & Hrun & G & _ & _ & Hsales & _).
  exists ds, s'. split; [exact Hrun|].
  destruct (numbered_by_ids City.city_id (cities ds) NUM_CITIES
              ltac:(discriminate) (gen_city_ids ds G)) as [L3 _].
  destruct (numbered_by_ids Product.product_id (products ds) NUM_PRODUCTS
              ltac:(discriminate) (gen_product_ids ds G)) as [L6 _].
  destruct (numbered_by_ids Customer.customer_id (customers ds) NUM_CUSTOMERS
              ltac:(discriminate) (gen_customer_ids ds G)) as [L7 _].
  destruct (numbered_by_ids Salesperson.salesperson_id (sales_people ds)
              NUM_SALES_PEOPLE ltac:(discriminate) (gen_salesperson_ids ds G))
    as [L8 _].
  destruct (numbered_by_ids TimeRow.time_id (time_dimension ds) 1096
              ltac:(discriminate) (gen_time_ids ds G)) as [L9 _].
  destruct (numbered_by_ids Sale.sale_id (sales_facts ds) NUM_SALES_RECORDS
              ltac:(discriminate) Hsales) as [L10 _].
  split.
  - rewrite (star_stats_of_flat ds (generated_chains_unique ds G)).
    rewrite L6, L7, L8, L9, L10. reflexivity.
  - unfold SnowflakeSchemaBuilder.stats.
    rewrite L3, L6, L7, L8, L9, L10.
    rewrite (gen_countries ds G), (gen_regions ds G), (gen_categories ds G),
      (gen_subcategories ds G). reflexivity.
Qed.

(* ===================================================================== *)
(** * 19. Schema creation on any database *)
(* ===================================================================== *)

Lemma execute_raises_operational (stmt : statement) (db : Database) (e : exn) :
  execute stmt db = Raise e -> exists msg, e = OperationalError msg.
Proof.
  destruct stmt as [n|n c u|n t c]; cbn [execute]; [discriminate| |].
  - destruct (name_taken n db); [|discriminate]. intros [= <-]. eauto.
  - destruct (find_table t db) as [content|]; [|intros [= <-]; eauto].
    destruct (name_taken n db); [intros [= <-]; eauto|].
    destruct (existsb _ _); [discriminate|intros [= <-]; eauto].
Qed.

Lemma execute_all_raises_operational (stmts : list statement) (db : Database)
    (e : exn) :
  execute_all stmts db = Raise e -> exists msg, e = OperationalError msg.
Proof.
  revert db. induction stmts as [|stmt stmts IH]; intros db; [discriminate|].
  cbn. destruct (execute stmt db) as [db'|e'] eqn:Hstep; cbn.
  - apply IH.
  - intros [= <-]. eapply execute_raises_operational. exact Hstep.
Qed.

Section SchemaCreation.
Variable names : list string.
Variable creates : list statement.
Variable created : Database.
Hypothesis Hcreates :
  forallb (fun stmt => is_create stmt && mem (target_table stmt) names) creates
  = true.
Hypothesis Hcreated : execute_all creates [] = Ok created.

Lemma creation_outcome (db : Database) :
  if names_free creates (outside names db)
  then execute_all (map DropTableIfExists names ++ creates) db
       = Ok (outside names db ++ created)
  else exists msg,
         execute_all (map DropTableIfExists names ++ creates) db
         = Raise (OperationalError msg).
Proof.
  destruct (names_free creates (outside names db)) eqn:Hfree.
  - rewrite execute_all_app, execute_all_drops. cbn [result_bind].
    pose proof (creates_frame names (outside names db)
                  (fun o => outside_owned names db o) creates [] created
                  Hcreates Hfree Hcreated) as Hrun.
    now rewrite app_nil_r in Hrun.
  - destruct (execute_all (map DropTableIfExists names ++ creates) db)
      as [db1|e] eqn:Hrun.
    + apply (creation_closed_form names creates created Hcreates Hcreated)
        in Hrun as [_ Hfree'].
      unfold names_free in Hfree. congruence.
    + destruct (execute_all_raises_operational _ _ _ Hrun) as (msg & ->).
      now exists msg.
Qed.
End SchemaCreation.

(** Schema creation of either builder, on any database. When no object
    outside the tables it drops bears the name of a table or an index it
    creates, it succeeds and leaves those outside objects, followed by the
    empty tables (each with the index SQLite makes for a [UNIQUE] column of
    it: one for [dim_country] and one for [dim_category] in the snowflake
    schema) and the indexes in the order of the statements. Otherwise it
    raises [OperationalError]. *)
Theorem schema_creation_outcome (db : Database) :
  (if names_free star_creates (outside star_names db)
   then StarSchemaBuilder.create_star_schema db
        = Ok (outside star_names db ++ star_created)
   else exists msg,
          StarSchemaBuilder.create_star_schema db = Raise (OperationalError msg))
  /\ (if names_free snowflake_creates (outside snowflake_names db)
      then SnowflakeSchemaBuilder.create_snowflake_schema db
           = Ok (outside snowflake_names db ++ snowflake_created)
      else exists msg,
             SnowflakeSchemaBuilder.create_snowflake_schema db
             = Raise (OperationalError msg)).
Proof.
  split.
  - apply (creation_outcome star_names star_creates star_created
             star_creates_ok star_created_ok).
  - apply (creation_outcome snowflake_names snowflake_creates snowflake_created
             snowflake_creates_ok snowflake_created_ok).
Qed.

(* ===================================================================== *)
(** * 20. What the builders leave alone *)
(* ===================================================================== *)

Lemma left_alone_refl (f : db_file) (names : list string) (w : World) :
  left_alone f names w w.
Proof. now repeat split. Qed.

Lemma left_alone_trans (f : db_file) (names : list string) (w1 w2 w3 : World) :
  left_alone f names w1 w2 -> left_alone f names w2 w3 -> left_alone f names w1 w3.
Proof.
  intros (H1 & H2 & H3 & H4) (H5 & H6 & H7 & H8). repeat split; congruence.
Qed.

(** ** Statements on the tables [names] leave the rest of the catalogue *)

Lemma outside_app (names : list string) (db1 db2 : Database) :
  outside names (db1 ++ db2) = outside names db1 ++ outside names db2.
Proof. unfold outside. apply List.filter_app. Qed.

Lemma outside_drop_table (names : list string) (name : string) (db : Database) :
  mem name names = true ->
  outside names (drop_table name db) = outside names db.
Proof.
  intros Hmem. unfold outside, drop_table.
  induction db as [|o db IH]; [reflexivity|]. cbn [List.filter].
  destruct (String.eqb (owner_table o) name) eqn:Heq; cbn [negb List.filter].
  - apply String.eqb_eq in Heq. unfold owned_by at 2. rewrite Heq, Hmem.
    cbn [negb]. exact IH.
  - destruct (negb (owned_by names o)); [now f_equal|exact IH].
Qed.

Lemma execute_outside (names : list string) (stmt : statement)
    (db db' : Database) :
  mem (target_table stmt) names = true ->
  execute stmt db = Ok db' -> outside names db' = outside names db.
Proof.
  intros Hmem.
  destruct stmt as [n|n c u|n t c]; cbn [target_table execute] in Hmem |- *.
  - intros [= <-]. now apply outside_drop_table.
  - destruct (name_taken n db); [discriminate|]. intros [= <-].
    rewrite outside_app.
    replace (outside names (Table n c :: autoindexes n u))
      with (@nil schema_object); [apply app_nil_r|].
    symmetry. unfold outside, owned_by. cbn [List.filter owner_table].
    rewrite Hmem. cbn [negb]. unfold autoindexes.
    induction (enumerate 1 u) as [|[i column] rest IH]; [reflexivity|].
    cbn [map List.filter owner_table]. rewrite Hmem. cbn [negb]. exact IH.
  - destruct (find_table t db) as [content|]; [|discriminate].
    destruct (name_taken n db); [discriminate|].
    destruct (existsb _ _); [|discriminate]. intros [= <-].
    rewrite outside_app. cbn. unfold owned_by. cbn. rewrite Hmem. cbn.
    apply app_nil_r.
Qed.

Lemma to_sql_outside (names : list string) (name : string) (frame : relation)
    (db db' : Database) :
  mem name names = true ->
  to_sql name frame db = Ok db' -> outside names db' = outside names db.
Proof.
  intros Hmem. unfold to_sql. intros Hrun.
  apply (execute_outside names) in Hrun; [|exact Hmem]. rewrite Hrun.
  destruct (find_table name db); [now apply outside_drop_table|reflexivity].
Qed.

(** ** Steps of a program *)

Lemma fallible_left_alone (f : db_file) (names : list string) (w : World) :
  left_alone f names w (snd (fallible w)).
Proof.
  unfold fallible. destruct (faults w) as [|[|] fs]; destruct f; now repeat split.
Qed.

Lemma set_stdout_left_alone (f : db_file) (names : list string) (w : World)
    (out : list output) :
  left_alone f names w (set_stdout out w).
Proof. destruct f; now repeat split. Qed.

Lemma set_connections_left_alone (f : db_file) (names : list string) (w : World)
    (cs : list Connection) :
  left_alone f names w (set_connections cs w).
Proof. destruct f; now repeat split. Qed.

Lemma print_left_alone {O} (f : db_file) (names : list string) (o : output)
    (st : State O) :
  left_alone f names (world st) (world (snd (print o st))).
Proof.
  unfold print, on_world. pose proof (fallible_left_alone f names (world st)) as Hf.
  destruct (fallible (world st)) as [[u|e] w']; cbn [snd world] in Hf |- *.
  - eapply left_alone_trans; [exact Hf|apply set_stdout_left_alone].
  - exact Hf.
Qed.

Lemma read_csv_all_left_alone {O} (f : db_file) (names : list string)
    (st : State O) :
  left_alone f names (world st) (world (snd (read_csv_all st))).
Proof.
  unfold read_csv_all, on_world.
  pose proof (fallible_left_alone f names (world st)) as Hf.
  destruct (fallible (world st)) as [[u|e] w']; cbn [snd world] in Hf |- *;
    exact Hf.
Qed.

Lemma connection_close_left_alone {O} (f : db_file) (names : list string)
    (handle : nat) (st : State O) :
  left_alone f names (world st) (world (snd (connection_close handle st))).
Proof. unfold connection_close, on_world. cbn. apply set_connections_left_alone. Qed.

Lemma set_file_content_left_alone (f : db_file) (names : list string)
    (db : Database) (w : World) :
  outside names db = outside names (file_content f w) ->
  left_alone f names w (set_file_content f db w).
Proof. intros Hout. destruct f; now repeat split. Qed.

(** A call on a connection to the file [f] whose action keeps what is
    outside [names]. *)
Lemma connection_call_left_alone {O A} (f : db_file) (names : list string)
    (handle : nat) (action : Database -> result (Database * A)) (st : State O) :
  (forall db db' a, action db = Ok (db', a) -> outside names db' = outside names db) ->
  (forall c, connections (world st) !! handle = Some c -> conn_file c = f) ->
  left_alone f names (world st) (world (snd (connection_call handle action st))).
Proof.
  intros Hact Hfile. unfold connection_call, on_world.
  pose proof (fallible_left_alone f names (world st)) as Hf.
  pose proof (fallible_connections (world st)) as Hc.
  destruct (fallible (world st)) as [[u|e] w']; cbn [snd world] in Hf, Hc |- *;
    [|exact Hf].
  destruct (connections w' !! handle) as [c|] eqn:Hlook; [|exact Hf].
  rewrite Hc in Hlook. specialize (Hfile c Hlook).
  destruct (conn_open c); [|exact Hf].
  destruct (action _) as [[db a]|e] eqn:Hrun; cbn [snd]; [|exact Hf].
  eapply left_alone_trans; [exact Hf|].
  rewrite Hfile in Hrun |- *. apply set_file_content_left_alone.
  exact (Hact _ _ _ Hrun).
Qed.

(** The connection a builder holds is on its own file. *)
Lemma held_connection_file (cs : list Connection) (f : db_file)
    (st : State Builder) (handle : nat) (c : Connection) :
  holds_its_connection cs f st -> conn (self st) = Some handle ->
  connections (world st) !! handle = Some c -> conn_file c = f.
Proof.
  intros [[Hnone _]|[Hsome Hcs]] Hconn Hlook; [congruence|].
  rewrite Hsome in Hconn. injection Hconn as <-. rewrite Hcs in Hlook.
  rewrite lookup_app_r in Hlook by lia. rewrite Nat.sub_diag in Hlook.
  cbn in Hlook. now injection Hlook as <-.
Qed.

Lemma and_then_ok {O A B} (m : Prog O A) (k : A -> Prog O B) (st st1 : State O)
    (a : A) :
  m st = (Ok a, st1) -> and_then m k st = k a st1.
Proof. intros Hrun. unfold and_then. now rewrite Hrun. Qed.

Lemma and_then_raise {O A B} (m : Prog O A) (k : A -> Prog O B)
    (st st1 : State O) (e : exn) :
  m st = (Raise e, st1) -> and_then m k st = (Raise e, st1).
Proof. intros Hrun. unfold and_then. now rewrite Hrun. Qed.

Lemma self_conn_some {A} (k : nat -> Prog Builder A) (st : State Builder)
    (handle : nat) :
  conn (self st) = Some handle -> (let+ h := self_conn in k h) st = k handle st.
Proof.
  intros Hconn. unfold self_conn, and_then, get_self. now rewrite Hconn.
Qed.

Lemma self_conn_none {A} (k : nat -> Prog Builder A) (st : State Builder) :
  conn (self st) = None ->
  (let+ h := self_conn in k h) st
  = (Raise (AttributeError "'NoneType' object has no attribute"), st).
Proof.
  intros Hconn. unfold self_conn, and_then, get_self. now rewrite Hconn.
Qed.

Section Confined.
Variable f : db_file.
Variable names : list string.

Lemma confined_keeps {A} (m : Prog Builder A) :
  keeps m -> (forall st, left_alone f names (world st) (world (snd (m st)))) ->
  confined f names m.
Proof.
  intros Hk Hl cs st Hst. split; [now apply keeps_holds|apply Hl].
Qed.

Lemma confined_pure {A} (a : A) : confined f names (pure a).
Proof. apply confined_keeps; [apply keeps_pure|intros st; apply left_alone_refl]. Qed.

Lemma confined_print (o : output) : confined f names (A:=unit) (print o).
Proof. apply confined_keeps; [apply keeps_print|intros st; apply print_left_alone]. Qed.

Lemma confined_and_then {A B} (m : Prog Builder A) (k : A -> Prog Builder B) :
  confined f names m -> (forall a, confined f names (k a)) ->
  confined f names (and_then m k).
Proof.
  intros Hm Hk cs st Hst. unfold and_then. destruct (Hm cs st Hst) as [H1 H2].
  destruct (m st) as [[a|e] st1]; cbn [snd] in H1, H2 |- *; [|now split].
  destruct (Hk a cs st1 H1) as [H3 H4]. split; [exact H3|].
  eapply left_alone_trans; eassumption.
Qed.

Lemma confined_for_in {A} (xs : list A) (body : A -> Prog Builder unit) :
  (forall x, In x xs -> confined f names (body x)) ->
  confined f names (for_in xs body).
Proof.
  induction xs as [|x xs IH]; intros Hb; cbn [for_in].
  - apply confined_pure.
  - apply confined_and_then; [apply Hb; now left|].
    intros _. apply IH. intros y Hy. apply Hb. now right.
Qed.

Lemma confined_try_except {A} (body : Prog Builder A)
    (handler : exn -> Prog Builder A) :
  confined f names body -> (forall e, confined f names (handler e)) ->
  confined f names (try_except body handler).
Proof.
  intros Hb Hh cs st Hst. unfold try_except. destruct (Hb cs st Hst) as [H1 H2].
  destruct (body st) as [[a|e] st1]; cbn [snd] in H1, H2 |- *; [now split|].
  destruct (Hh e cs st1 H1) as [H3 H4]. split; [exact H3|].
  eapply left_alone_trans; eassumption.
Qed.

(** A call on the builder's connection. *)
Lemma confined_on_conn {A} (action : Database -> result (Database * A)) :
  (forall db db' a, action db = Ok (db', a) -> outside names db' = outside names db) ->
  confined f names (let+ handle := self_conn in connection_call handle action).
Proof.
  intros Hact cs st Hst. split.
  - apply keeps_holds; [|exact Hst].
    apply keeps_and_then; [apply keeps_self_conn|]. intros h.
    apply keeps_connection_call.
  - destruct (conn (self st)) as [handle|] eqn:Hconn.
    + rewrite (self_conn_some _ st handle Hconn).
      apply connection_call_left_alone; [exact Hact|].
      intros c Hlook. exact (held_connection_file cs f st handle c Hst Hconn Hlook).
    + rewrite (self_conn_none _ st Hconn). apply left_alone_refl.
Qed.

Lemma confined_conn_execute (stmt : statement) :
  mem (target_table stmt) names = true -> confined f names (conn_execute stmt).
Proof.
  intros Hmem. apply confined_on_conn. intros db db' [] Hrun.
  apply result_bind_ok in Hrun as (mid & Hstep & [= <-]).
  exact (execute_outside names stmt db mid Hmem Hstep).
Qed.

Lemma confined_conn_commit : confined f names conn_commit.
Proof. apply confined_on_conn. now intros db db' [] [= <-]. Qed.

Lemma confined_create_schema (stmts : list statement) (done : string) :
  forallb (fun stmt => mem (target_table stmt) names) stmts = true ->
  confined f names (create_schema stmts done).
Proof.
  intros Hall. rewrite forallb_forall in Hall. unfold create_schema.
  apply confined_and_then.
  { apply confined_for_in. intros stmt Hin. apply confined_conn_execute.
    now apply Hall. }
  intros _. apply confined_and_then; [apply confined_conn_commit|].
  intros _. apply confined_print.
Qed.

(** *** Steps that work with a handle taken once *)

Lemma confined_with_keeps {A} (handle : nat) (m : Prog Builder A) :
  keeps m -> (forall st, left_alone f names (world st) (world (snd (m st)))) ->
  confined_with f names handle m.
Proof.
  intros Hk Hl cs st Hst Hconn. split; [now apply keeps_holds|].
  split; [|apply Hl]. destruct (Hk st) as [_ ->]. exact Hconn.
Qed.

Lemma confined_with_and_then {A B} (handle : nat) (m : Prog Builder A)
    (k : A -> Prog Builder B) :
  confined_with f names handle m -> (forall a, confined_with f names handle (k a)) ->
  confined_with f names handle (and_then m k).
Proof.
  intros Hm Hk cs st Hst Hconn. unfold and_then.
  destruct (Hm cs st Hst Hconn) as (H1 & H2 & H3).
  destruct (m st) as [[a|e] st1]; cbn [snd] in H1, H2, H3 |- *; [|auto].
  destruct (Hk a cs st1 H1 H2) as (H4 & H5 & H6).
  split; [exact H4|]. split; [exact H5|].
  eapply left_alone_trans; eassumption.
Qed.

Lemma confined_with_for_in {A} (handle : nat) (xs : list A)
    (body : A -> Prog Builder unit) :
  (forall x, In x xs -> confined_with f names handle (body x)) ->
  confined_with f names handle (for_in xs body).
Proof.
  induction xs as [|x xs IH]; intros Hb; cbn [for_in].
  - apply confined_with_keeps; [apply keeps_pure|intros st; apply left_alone_refl].
  - apply confined_with_and_then; [apply Hb; now left|].
    intros _. apply IH. intros y Hy. apply Hb. now right.
Qed.

Lemma confined_with_call {A} (handle : nat)
    (action : Database -> result (Database * A)) :
  (forall db db' a, action db = Ok (db', a) -> outside names db' = outside names db) ->
  confined_with f names handle (connection_call handle action).
Proof.
  intros Hact cs st Hst Hconn.
  destruct (keeps_connection_call (O:=Builder) handle action st) as [Hc Hs].
  split; [apply keeps_holds; [apply keeps_connection_call|exact Hst]|].
  split; [now rewrite Hs|].
  apply connection_call_left_alone; [exact Hact|].
  intros c Hlook. exact (held_connection_file cs f st handle c Hst Hconn Hlook).
Qed.

Lemma confined_with_confined {A} (handle : nat) (m : Prog Builder A) :
  keeps m -> confined f names m -> confined_with f names handle m.
Proof.
  intros Hk Hm cs st Hst Hconn. destruct (Hm cs st Hst) as [H1 H2].
  split; [exact H1|]. split; [|exact H2]. destruct (Hk st) as [_ ->]. exact Hconn.
Qed.

(** Taking the handle, then working with it. *)
Lemma confined_self_conn {A} (k : nat -> Prog Builder A) :
  (forall handle, confined_with f names handle (k handle)) ->
  confined f names (let+ handle := self_conn in k handle).
Proof.
  intros Hk cs st Hst. destruct (conn (self st)) as [handle|] eqn:Hconn.
  - rewrite (self_conn_some k st handle Hconn).
    destruct (Hk handle cs st Hst Hconn) as (H1 & _ & H3). now split.
  - rewrite (self_conn_none k st Hconn). cbn [snd].
    split; [exact Hst|apply left_alone_refl].
Qed.

Lemma confined_load_data_into (frames : Dataset -> list (string * relation))
    (stats : Dataset -> list (string * Z)) (loaded : string) :
  (forall ds, forallb (fun '(name, _) => mem name names) (frames ds) = true) ->
  confined f names (load_data_into frames stats loaded).
Proof.
  intros Hall. unfold load_data_into.
  apply confined_and_then.
  { apply confined_keeps; [apply keeps_read_csv_all|].
    intros st. apply read_csv_all_left_alone. }
  intros ds. specialize (Hall ds). rewrite forallb_forall in Hall.
  apply confined_self_conn. intros handle.
  apply confined_with_and_then.
  { apply confined_with_for_in. intros [name frame] Hin.
    apply confined_with_call. intros db db' [] Hrun.
    apply result_bind_ok in Hrun as (mid & Hstep & [= <-]).
    exact (to_sql_outside names name frame db mid (Hall _ Hin) Hstep). }
  intros _. apply confined_with_and_then.
  { apply confined_with_confined; [apply keeps_conn_commit|apply confined_conn_commit]. }
  intros _. apply confined_with_and_then.
  { apply confined_with_confined; [apply keeps_print|apply confined_print]. }
  intros _. apply confined_with_and_then.
  { apply confined_with_for_in. intros [table count] _.
    apply confined_with_confined; [apply keeps_print|apply confined_print]. }
  intros _. apply confined_with_confined; [apply keeps_pure|apply confined_pure].
Qed.

Lemma confined_print_schema_info (title : string) :
  confined f names (print_schema_info title).
Proof.
  unfold print_schema_info. apply confined_and_then.
  { unfold get_schema_info. apply confined_on_conn. intros db db' a Hrun.
    apply result_bind_ok in Hrun as (infos & _ & Hrun).
    now injection Hrun as <- _. }
  intros info. apply confined_and_then; [apply confined_print|]. intros _.
  apply confined_for_in. intros [table cols] _.
  apply confined_and_then; [apply confined_print|]. intros _.
  apply confined_and_then; [apply confined_print|]. intros _.
  apply confined_for_in. intros col _. apply confined_print.
Qed.

(** [connect] leaves everything but the connections and the terminal. *)
Lemma connect_left_alone (w : World) :
  left_alone f names w (world (snd (connect (mkState (mkBuilder f None) w)))).
Proof.
  unfold connect, and_then, get_self, on_world, sqlite3_connect, fallible,
    set_self, print.
  destruct w as [sdb ndb dd ch cs ck tk fs out]. cbn.
  destruct fs as [|[|] [|[|] [|[|] fs]]]; cbn; destruct f; now repeat split.
Qed.

Lemma disconnect_left_alone (st : State Builder) :
  left_alone f names (world st) (world (snd (disconnect st))).
Proof.
  unfold disconnect, and_then, get_self. cbn [fst snd].
  destruct (conn (self st)) as [handle|]; cbn; [|apply left_alone_refl].
  eapply left_alone_trans; [|apply print_left_alone].
  apply (connection_close_left_alone (O:=Builder) f names handle st).
Qed.

(** [main] of a builder whose steps are confined. *)
Lemma builder_main_left_alone (create load_data print_info : Prog Builder unit)
    (w : World) :
  confined f names create -> confined f names load_data ->
  confined f names print_info ->
  left_alone f names w
    (snd (run_main (mkBuilder f None)
            (builder_main create load_data print_info) w)).
Proof.
  intros Hc Hl Hp. unfold run_main, builder_main, try_finally.
  set (st0 := mkState (mkBuilder f None) w).
  assert (Hbody :
    holds_its_connection (connections w) f
      (snd (try_except (connect;; create;; load_data;; print_info)
              (fun e => print (ErrorLine e)) st0))
    /\ left_alone f names w
         (world (snd (try_except (connect;; create;; load_data;; print_info)
                        (fun e => print (ErrorLine e)) st0)))).
  { pose proof (connect_outcome f w) as Hconn. fold st0 in Hconn.
    pose proof (connect_left_alone w) as Hca. fold st0 in Hca.
    unfold try_except.
    destruct (connect st0) as [[u|e] st1] eqn:Hrun; cbn [snd] in Hconn, Hca.
    - rewrite (and_then_ok _ _ _ _ _ Hrun).
      assert (Hrest : confined f names (create;; load_data;; print_info)).
      { apply confined_and_then; [exact Hc|]. intros _.
        apply confined_and_then; [exact Hl|]. intros _. exact Hp. }
      destruct (Hrest _ st1 Hconn) as [H1 H2].
      destruct ((create;; load_data;; print_info) st1) as [[u2|e2] st2];
        cbn [snd] in H1, H2 |- *.
      + split; [exact H1|]. eapply left_alone_trans; eassumption.
      + destruct (confined_print (ErrorLine e2) _ st2 H1) as [H3 H4].
        split; [exact H3|].
        eapply left_alone_trans; [exact Hca|].
        eapply left_alone_trans; eassumption.
    - rewrite (and_then_raise _ _ _ _ _ Hrun).
      destruct (confined_print (ErrorLine e) _ st1 Hconn) as [H3 H4].
      split; [exact H3|]. eapply left_alone_trans; eassumption. }
  destruct (try_except _ _ st0) as [outcome st']. cbn [snd] in Hbody.
  destruct Hbody as [_ Hbody].
  pose proof (disconnect_left_alone st') as Hd.
  destruct (disconnect st') as [[u|e] st'']; cbn [snd] in Hd |- *;
    eapply left_alone_trans; eassumption.
Qed.
End Confined.

(** Whatever happens in [main] of a builder (files missing, a statement
    refused, a failure from outside at any call), it leaves alone the [data]
    directory, the database file of the other builder and, in its own file,
    every table it does not drop, with its rows and its indexes. *)
Theorem builder_touches_only_its_tables (f : db_file) (w : World) :
  left_alone f (names_of f) w (snd (main_of f w)).
Proof.
  destruct f; cbn [names_of main_of].
  - apply builder_main_left_alone.
    + now apply confined_create_schema.
    + apply confined_and_then.
      * now apply confined_load_data_into.
      * intros _. apply confined_pure.
    + apply confined_print_schema_info.
  - apply builder_main_left_alone.
    + now apply confined_create_schema.
    + apply confined_and_then.
      * now apply confined_load_data_into.
      * intros _. apply confined_pure.
    + apply confined_print_schema_info.
Qed.

(* ===================================================================== *)
(** * 21. A run of a builder when nothing fails from outside *)
(* ===================================================================== *)

Lemma execute_upto_ok (stmts : list statement) (db db' : Database) :
  execute_all stmts db = Ok db' -> execute_upto stmts db = db'.
Proof.
  revert db. induction stmts as [|stmt stmts IH]; intros db; cbn.
  - now intros [= <-].
  - destruct (execute stmt db) as [mid|e]; cbn; [apply IH|discriminate].
Qed.

Lemma world_of_eta (f : db_file) (w : World) :
  w = world_of f (file_content f w) (file_content (other_file f) w) (data_dir w)
        (chart w) (connections w) (clock w) (ticks w) (faults w) (stdout w).
Proof. destruct w, f; reflexivity. Qed.

Lemma table_infos_spec (db : Database) :
  table_infos db
  = if bare_tables db then Ok (schema_info db)
    else Raise (OperationalError "syntax error").
Proof.
  induction db as [|[name content|n t c] db IH]; [reflexivity| |exact IH].
  cbn [table_infos bare_tables forallb bare_table schema_info flat_map].
  unfold pragma_table_info. destruct (bare_name name); [|reflexivity].
  cbn [result_bind andb]. rewrite IH.
  fold (bare_tables db). now destruct (bare_tables db).
Qed.

Lemma schema_info_report (db : Database) :
  flat_map (fun '(table, cols) =>
              TextWith "
Таблиця: " table
              :: Rule "-" (py_len table + 10) :: map Column cols)
           (schema_info db)
  = flat_map table_report db.
Proof.
  unfold schema_info. rewrite fm_flat_map_flat_map. apply flat_map_ext.
  intros [name content|n t c]; [|reflexivity].
  cbn. now rewrite app_nil_r.
Qed.

Section BuilderRun.
Variable f : db_file.
Variable other : Database.
Variable ch : option (list (string * Q * Q)).
Variable cs : list Connection.
Variable ck : nat -> Q.
Variable tk : nat.

(** The state of a connected builder: it holds the last connection, which is
    open, and nothing fails from outside. *)
Let connected (D : option Dataset) (own : Database) (out : list output)
  : State Builder :=
  mkState (mkBuilder f (Some (length cs)))
    (world_of f own other D ch (cs ++ [mkConnection f true]) ck tk [] out).

Lemma connect_run (D : option Dataset) (own : Database) (out : list output) :
  connect (mkState (mkBuilder f None) (world_of f own other D ch cs ck tk [] out))
  = (Ok tt, connected D own (out ++ [connected_line f])).
Proof. unfold connected. destruct f; reflexivity. Qed.

Lemma print_run (o : output) (D : option Dataset) (own : Database) (out : list output) :
  print o (connected D own out) = (Ok tt, connected D own (out ++ [o])).
Proof. unfold connected. destruct f; reflexivity. Qed.

Lemma connection_call_run {A} (action : Database -> result (Database * A))
    (D : option Dataset) (own : Database) (out : list output) :
  connection_call (length cs) action (connected D own out)
  = match action own with
    | Ok (db, a) => (Ok a, connected D db out)
    | Raise e => (Raise e, connected D own out)
    end.
Proof.
  unfold connected, connection_call, on_world, fallible.
  destruct f; cbn [world_of world faults connections self];
    rewrite list_lookup_middle by reflexivity; cbn;
    destruct (action own) as [[db a]|e]; reflexivity.
Qed.

Lemma on_conn_run {A} (action : Database -> result (Database * A))
    (D : option Dataset) (own : Database) (out : list output) :
  (let+ handle := self_conn in connection_call handle action) (connected D own out)
  = match action own with
    | Ok (db, a) => (Ok a, connected D db out)
    | Raise e => (Raise e, connected D own out)
    end.
Proof.
  rewrite (self_conn_some _ _ (length cs)) by reflexivity.
  apply connection_call_run.
Qed.

Lemma conn_execute_run (stmt : statement) (D : option Dataset) (own : Database) (out : list output) :
  conn_execute stmt (connected D own out)
  = match execute stmt own with
    | Ok db => (Ok tt, connected D db out)
    | Raise e => (Raise e, connected D own out)
    end.
Proof.
  unfold conn_execute. rewrite on_conn_run.
  now destruct (execute stmt own).
Qed.

Lemma conn_commit_run (D : option Dataset) (own : Database) (out : list output) :
  conn_commit (connected D own out) = (Ok tt, connected D own out).
Proof. unfold conn_commit. now rewrite on_conn_run. Qed.

(** The statements run one by one on the connection as [execute_all] runs
    them on the database. *)
Lemma statements_run (stmts : list statement) (D : option Dataset)
    (own : Database) (out : list output) :
  for_in stmts conn_execute (connected D own out)
  = (match execute_all stmts own with
     | Ok _ => Ok tt
     | Raise e => Raise e
     end, connected D (execute_upto stmts own) out).
Proof.
  revert own. induction stmts as [|stmt stmts IH]; intros own; [reflexivity|].
  cbn [for_in execute_all execute_upto]. unfold and_then.
  rewrite conn_execute_run.
  destruct (execute stmt own) as [db|e]; cbn [result_bind]; [apply IH|reflexivity].
Qed.

Lemma create_schema_run (stmts : list statement) (done : string)
    (D : option Dataset) (own : Database) (out : list output) :
  create_schema stmts done (connected D own out)
  = match execute_all stmts own with
    | Ok db => (Ok tt, connected D db (out ++ [Text done]))
    | Raise e => (Raise e, connected D (execute_upto stmts own) out)
    end.
Proof.
  unfold create_schema, and_then. rewrite statements_run.
  destruct (execute_all stmts own) as [db|e] eqn:Hrun; [|reflexivity].
  rewrite (execute_upto_ok _ _ _ Hrun), conn_commit_run. apply print_run.
Qed.

Lemma read_csv_all_run (D : option Dataset) (own : Database) (out : list output) :
  read_csv_all (connected D own out) = (read_csv_files D, connected D own out).
Proof. unfold connected. destruct f; reflexivity. Qed.

(** The frames written one by one on the connection, as [to_sql_all] writes
    them into the database. *)
Lemma frames_run (frames : list (string * relation)) (D : option Dataset)
    (own : Database) (out : list output) :
  exists db,
    for_in frames
      (fun '(name, frame) =>
         connection_call (length cs)
           (fun db => result_bind (to_sql name frame db) (fun db' => Ok (db', tt))))
      (connected D own out)
    = (match to_sql_all frames own with
       | Ok _ => Ok tt
       | Raise e => Raise e
       end, connected D db out)
    /\ forall db', to_sql_all frames own = Ok db' -> db = db'.
Proof.
  revert own. induction frames as [|[name frame] frames IH]; intros own.
  - exists own. split; [reflexivity|]. now intros db' [= <-].
  - cbn [for_in to_sql_all]. unfold and_then. rewrite connection_call_run.
    destruct (to_sql name frame own) as [mid|e]; cbn [result_bind].
    + apply IH.
    + exists own. split; [reflexivity|discriminate].
Qed.

Lemma prints_run {A} (g : A -> output) (xs : list A) (D : option Dataset)
    (own : Database) (out : list output) :
  for_in xs (fun x => print (g x)) (connected D own out)
  = (Ok tt, connected D own (out ++ map g xs)).
Proof.
  revert out. induction xs as [|x xs IH]; intros out; cbn [for_in map].
  - now rewrite app_nil_r.
  - unfold and_then. rewrite print_run, IH, <- app_assoc. reflexivity.
Qed.

Lemma pair_prints_run {A B} (g : A -> B -> output) (xs : list (A * B))
    (D : option Dataset) (own : Database) (out : list output) :
  for_in xs (fun '(a, b) => print (g a b)) (connected D own out)
  = (Ok tt, connected D own (out ++ map (fun '(a, b) => g a b) xs)).
Proof.
  revert out. induction xs as [|[a b] xs IH]; intros out; cbn [for_in map].
  - now rewrite app_nil_r.
  - unfold and_then. rewrite print_run, IH, <- app_assoc. reflexivity.
Qed.

Lemma load_data_into_run (frames : Dataset -> list (string * relation))
    (stats : Dataset -> list (string * Z)) (loaded : string)
    (D : option Dataset) (own : Database) (out : list output) :
  match D with
  | None =>
      load_data_into frames stats loaded (connected D own out)
      = (Raise (FileNotFoundError "data/countries.csv"), connected D own out)
  | Some ds =>
      exists db,
        load_data_into frames stats loaded (connected D own out)
        = match to_sql_all (frames ds) own with
          | Ok _ =>
              (Ok (stats ds),
               connected D db
                 (out ++ [Text loaded]
                      ++ map (fun '(table, count) => RowCount table count) (stats ds)))
          | Raise e => (Raise e, connected D db out)
          end
        /\ forall db', to_sql_all (frames ds) own = Ok db' -> db = db'
  end.
Proof.
  unfold load_data_into. destruct D as [ds|].
  - destruct (frames_run (frames ds) (Some ds) own out) as (db & Hrun & Hdb).
    exists db. split; [|exact Hdb].
    unfold and_then at 1. rewrite read_csv_all_run. cbn [read_csv_files].
    rewrite (self_conn_some _ _ (length cs)) by reflexivity.
    unfold and_then at 1. rewrite Hrun.
    destruct (to_sql_all (frames ds) own) as [db'|e]; [|reflexivity].
    unfold and_then at 1. rewrite conn_commit_run.
    unfold and_then at 1. rewrite print_run.
    unfold and_then at 1.
    rewrite (pair_prints_run RowCount).
    rewrite <- app_assoc. reflexivity.
  - unfold and_then at 1. rewrite read_csv_all_run. reflexivity.
Qed.

Lemma schema_lines_run (info : list (string * list string)) (D : option Dataset)
    (own : Database) (out : list output) :
  for_in info
    (fun '(table, cols) =>
       print (TextWith "
Таблиця: " table) ;;
       print (Rule "-" (py_len table + 10)) ;;
       for_in cols (fun col => print (Column col)))
    (connected D own out)
  = (Ok tt,
     connected D own
       (out ++ flat_map (fun '(table, cols) =>
                           TextWith "
Таблиця: " table
                           :: Rule "-" (py_len table + 10) :: map Column cols)
                        info)).
Proof.
  revert out. induction info as [|[table cols] info IH]; intros out;
    cbn [for_in flat_map].
  - now rewrite app_nil_r.
  - unfold and_then at 1. unfold and_then at 1. rewrite print_run.
    unfold and_then at 1. rewrite print_run, prints_run.
    rewrite IH. rewrite <- !app_assoc. reflexivity.
Qed.

Lemma print_schema_info_run (title : string) (D : option Dataset)
    (own : Database) (out : list output) :
  print_schema_info title (connected D own out)
  = if bare_tables own
    then (Ok tt, connected D own (out ++ schema_report title own))
    else (Raise (OperationalError "syntax error"), connected D own out).
Proof.
  unfold print_schema_info, get_schema_info. unfold and_then at 1.
  rewrite on_conn_run, table_infos_spec.
  destruct (bare_tables own); cbn [result_bind]; [|reflexivity].
  unfold and_then at 1. rewrite print_run.
  rewrite schema_lines_run. rewrite <- app_assoc. do 3 f_equal.
  unfold schema_report. cbn [app]. f_equal. apply schema_info_report.
Qed.

Lemma disconnect_run (D : option Dataset) (own : Database) (out : list output) :
  disconnect (connected D own out)
  = (Ok tt,
     mkState (mkBuilder f (Some (length cs)))
       (world_of f own other D ch (cs ++ [mkConnection f false]) ck tk []
          (out ++ [disconnected_line]))).
Proof.
  unfold connected, disconnect, and_then, get_self, connection_close, on_world,
    print, fallible.
  destruct f; cbn; rewrite alter_last; reflexivity.
Qed.

(** [main] of a builder, step by step. *)
Lemma builder_main_run (stmts : list statement) (done : string)
    (frames : Dataset -> list (string * relation))
    (stats : Dataset -> list (string * Z)) (loaded title : string)
    (D : option Dataset) (own : Database) (out : list output) :
  exists db lines,
    run_main (mkBuilder f None)
      (builder_main (create_schema stmts done)
         (load_data_into frames stats loaded ;; pure tt)
         (print_schema_info title))
      (world_of f own other D ch cs ck tk [] out)
    = (Ok tt,
       world_of f db other D ch (cs ++ [mkConnection f false]) ck tk []
         (out ++ [connected_line f] ++ lines ++ [disconnected_line]))
    /\ match execute_all stmts own with
       | Raise e => db = execute_upto stmts own /\ lines = [ErrorLine e]
       | Ok db1 =>
           match D with
           | None =>
               db = db1
               /\ lines = [Text done;
                           ErrorLine (FileNotFoundError "data/countries.csv")]
           | Some ds =>
               match to_sql_all (frames ds) db1 with
               | Ok db2 =>
                   db = db2
                   /\ lines
                      = [Text done; Text loaded]
                        ++ map (fun '(table, count) => RowCount table count)
                             (stats ds)
                        ++ (if bare_tables db2 then schema_report title db2
                            else [ErrorLine (OperationalError "syntax error")])
               | Raise e => lines = [Text done; ErrorLine e]
               end
           end
       end.
Proof.
  unfold run_main, builder_main, try_finally, try_except.
  rewrite (and_then_ok _ _ _ _ _ (connect_run D own out)).
  unfold and_then at 1. rewrite create_schema_run.
  destruct (execute_all stmts own) as [db1|e] eqn:Hcreate.
  - unfold and_then at 1. unfold and_then at 1.
    pose proof (load_data_into_run frames stats loaded D db1
                  ((out ++ [connected_line f]) ++ [Text done])) as Hload.
    destruct D as [ds|].
    + destruct Hload as (db & Hload & Hdb). rewrite Hload.
      destruct (to_sql_all (frames ds) db1) as [db2|e] eqn:Hsql.
      * specialize (Hdb db2 eq_refl). subst db.
        cbn [pure]. rewrite print_schema_info_run.
        destruct (bare_tables db2).
        -- rewrite disconnect_run.
           exists db2. eexists. split; [|split; reflexivity].
           cbn [fst snd world]. do 2 f_equal.
           rewrite <- !app_assoc. reflexivity.
        -- rewrite print_run, disconnect_run.
           exists db2. eexists. split; [|split; reflexivity].
           cbn [fst snd world]. do 2 f_equal.
           rewrite <- !app_assoc. reflexivity.
      * rewrite print_run, disconnect_run.
        exists db. eexists. split; [|reflexivity].
        cbn [fst snd world]. do 2 f_equal.
        rewrite <- !app_assoc. reflexivity.
    + rewrite Hload. rewrite print_run, disconnect_run.
      exists db1. eexists. split; [|split; reflexivity].
      cbn [fst snd world]. do 2 f_equal.
      rewrite <- !app_assoc. reflexivity.
  - rewrite print_run, disconnect_run.
    exists (execute_upto stmts own). eexists. split; [|split; reflexivity].
    cbn [fst snd world]. do 2 f_equal.
    rewrite <- !app_assoc. reflexivity.
Qed.
End BuilderRun.

(** ** The entry points of the two builders *)

Lemma main_of_run (f : db_file) (own other : Database) (D : option Dataset)
    (ch : option (list (string * Q * Q))) (cs : list Connection) (ck : nat -> Q) (tk : nat) (out : list output) :
  exists db lines,
    main_of f (world_of f own other D ch cs ck tk [] out)
    = (Ok tt,
       world_of f db other D ch (cs ++ [mkConnection f false]) ck tk []
         (out ++ [connected_line f] ++ lines ++ [disconnected_line]))
    /\ match create_of f own with
       | Raise e => db = execute_upto (statements_of f) own /\ lines = [ErrorLine e]
       | Ok db1 =>
           match D with
           | None =>
               db = db1
               /\ lines = [created_line f;
                           ErrorLine (FileNotFoundError "data/countries.csv")]
           | Some ds =>
               match to_sql_all (frames_of f ds) db1 with
               | Ok db2 =>
                   db = db2
                   /\ lines
                      = [created_line f; loaded_line f]
                        ++ map (fun '(table, count) => RowCount table count)
                             (stats_of f ds)
                        ++ (if bare_tables db2
                            then schema_report (title_of f) db2
                            else [ErrorLine (OperationalError "syntax error")])
               | Raise e => lines = [created_line f; ErrorLine e]
               end
           end
       end.
Proof.
  destruct f; apply builder_main_run.
Qed.

Lemma build_of_steps (f : db_file) (ds : Dataset) (db db' : Database) :
  build_of f (Some ds) db = Ok db' ->
  exists db1, create_of f db = Ok db1 /\ to_sql_all (frames_of f ds) db1 = Ok db'.
Proof.
  intros Hrun.
  destruct f; cbn [build_of create_of frames_of] in *;
    unfold star_build, snowflake_build in Hrun;
    apply result_bind_ok in Hrun as (db1 & Hc & Hrun);
    apply result_bind_ok in Hrun as ([db2 st] & Hl & [= <-]);
    unfold load_frames in Hl; cbn [read_csv_files result_bind] in Hl;
    apply result_bind_ok in Hl as (db3 & Hs & [= <- _]); eauto.
Qed.

(** With no failure from outside, the [data] directory in place, a
    build that the database accepts and no table in the database it leaves
    whose name SQLite would not read bare in [PRAGMA table_info], [main] of
    a builder returns normally and leaves its database file as the build
    sequence leaves it; it has made one connection, which is closed; it has
    printed the connection line, the two success lines, the row counts, the
    schema report of the database it leaves (for each table its name, a
    rule and a line for each column, of which the model keeps the name) and
    the disconnection line; nothing else has changed. *)
Theorem builder_main_builds_store (f : db_file) (w : World) (ds : Dataset)
    (db' : Database) :
  faults w = [] -> data_dir w = Some ds ->
  build_of f (Some ds) (file_content f w) = Ok db' ->
  bare_tables db' = true ->
  main_of f w
  = (Ok tt,
     world_of f db' (file_content (other_file f) w) (data_dir w) (chart w)
       (connections w ++ [mkConnection f false]) (clock w) (ticks w) []
       (stdout w ++ build_transcript f ds db')).
Proof.
  intros Hf HD Hbuild Hbare.
  destruct (build_of_steps f ds _ _ Hbuild) as (db1 & Hc & Hl).
  rewrite (world_of_eta f w) at 1. rewrite Hf.
  destruct (main_of_run f (file_content f w) (file_content (other_file f) w)
              (data_dir w) (chart w) (connections w) (clock w) (ticks w)
              (stdout w))
    as (db & lines & Hrun & Hcase).
  rewrite Hrun. rewrite Hc, HD, Hl, Hbare in Hcase. destruct Hcase as [-> ->].
  unfold build_transcript. rewrite <- !app_assoc. reflexivity.
Qed.

(** The statement for the star builder in the sample world. *)
Lemma builder_main_builds_store_witness :
  main_of StarFile sample_world
  = (Ok tt,
     world_of StarFile sample_star [] (Some sample_dataset) None
       [mkConnection StarFile false] (clock sample_world) 0 []
       (build_transcript StarFile sample_dataset sample_star)).
Proof.
  exact (builder_main_builds_store StarFile sample_world sample_dataset
           sample_star eq_refl eq_refl eq_refl eq_refl).
Defined.

(** With no failure from outside and no CSV file in the [data] directory,
    [main] of a builder still returns normally: it has created the schema,
    printed the error of [read_csv] and disconnected, and it leaves in its
    database file what schema creation leaves (the tables it had are
    replaced by empty ones). *)
Theorem builder_main_without_data (f : db_file) (w : World) (db1 : Database) :
  faults w = [] -> data_dir w = None ->
  create_of f (file_content f w) = Ok db1 ->
  main_of f w
  = (Ok tt,
     world_of f db1 (file_content (other_file f) w) None (chart w)
       (connections w ++ [mkConnection f false]) (clock w) (ticks w) []
       (stdout w ++ [connected_line f; created_line f;
                     ErrorLine (FileNotFoundError "data/countries.csv");
                     disconnected_line])).
Proof.
  intros Hf HD Hc.
  rewrite (world_of_eta f w) at 1. rewrite Hf, HD.
  destruct (main_of_run f (file_content f w) (file_content (other_file f) w)
              None (chart w) (connections w) (clock w) (ticks w) (stdout w))
    as (db & lines & Hrun & Hcase).
  rewrite Hrun. rewrite Hc in Hcase. destruct Hcase as [-> ->]. reflexivity.
Qed.

(** The statement for the snowflake builder in a world without files. *)
Lemma builder_main_without_data_witness :
  main_of SnowflakeFile bare_world
  = (Ok tt,
     world_of SnowflakeFile snowflake_created [] None None
       [mkConnection SnowflakeFile false] (clock bare_world) 0 []
       [connected_line SnowflakeFile; created_line SnowflakeFile;
        ErrorLine (FileNotFoundError "data/countries.csv"); disconnected_line]).
Proof.
  exact (builder_main_without_data SnowflakeFile bare_world snowflake_created
           eq_refl eq_refl eq_refl).
Defined.

(** ** A refused schema *)

Lemma execute_upto_app_ok (s1 s2 : list statement) (db mid : Database) :
  execute_all s1 db = Ok mid ->
  execute_upto (s1 ++ s2) db = execute_upto s2 mid.
Proof.
  revert db. induction s1 as [|stmt s1 IH]; intros db; cbn.
  - now intros [= <-].
  - destruct (execute stmt db) as [db'|e]; cbn; [apply IH|discriminate].
Qed.

(** Statements that bring no row leave no row in the tables [names], once
    these tables were dropped. *)
Lemma execute_upto_no_row (names : list string) (stmts : list statement)
    (db : Database) :
  forallb brings_no_row stmts = true ->
  Forall (fun o => owned_by names o = true -> holds_no_row o = true) db ->
  Forall (fun o => owned_by names o = true -> holds_no_row o = true)
         (execute_upto stmts db).
Proof.
  revert db. induction stmts as [|stmt stmts IH]; intros db Hall Hdb; [exact Hdb|].
  cbn in Hall. apply andb_prop in Hall as [Hstmt Hall].
  cbn [execute_upto]. destruct (execute stmt db) as [db'|e] eqn:Hstep; [|exact Hdb].
  apply IH; [exact Hall|].
  destruct stmt as [n|n c u|n t c]; cbn in Hstep.
  - injection Hstep as <-. unfold drop_table.
    apply List.Forall_forall. intros o Ho. apply List.filter_In in Ho as [Ho _].
    rewrite List.Forall_forall in Hdb. now apply Hdb.
  - destruct (name_taken n db); [discriminate|]. injection Hstep as <-.
    apply Forall_app. split; [exact Hdb|]. constructor; [intros _; exact Hstmt|].
    unfold autoindexes. apply Forall_map, List.Forall_forall.
    intros [i col] _. reflexivity.
  - destruct (find_table t db); [|discriminate].
    destruct (name_taken n db); [discriminate|].
    destruct (existsb _ _); [|discriminate]. injection Hstep as <-.
    apply Forall_app. split; [exact Hdb|]. constructor; [|constructor].
    reflexivity.
Qed.

Lemma statements_of_no_row (f : db_file) (db : Database) :
  Forall (fun o => owned_by (names_of f) o = true -> holds_no_row o = true)
         (execute_upto (statements_of f) db).
Proof.
  assert (Hsplit : exists creates,
             statements_of f = map DropTableIfExists (names_of f) ++ creates
             /\ forallb brings_no_row creates = true).
  { destruct f; eexists; split; reflexivity. }
  destruct Hsplit as (creates & -> & Hno).
  rewrite (execute_upto_app_ok _ _ _ _ (execute_all_drops (names_of f) db)).
  apply execute_upto_no_row; [exact Hno|].
  apply List.Forall_forall. intros o Ho Howned.
  apply outside_owned in Ho. congruence.
Qed.

(** With no failure from outside, when the database refuses the schema (a
    name the schema wants is taken by an object outside the tables of the
    builder), [main] returns normally all the same: it has printed the
    connection line, the error and the disconnection line, and the tables of
    the builder hold no row any more (they were dropped before the refusal,
    and those created since are empty). *)
Theorem builder_main_refused_schema (f : db_file) (w : World) (e : exn) :
  faults w = [] ->
  create_of f (file_content f w) = Raise e ->
  exists db,
    main_of f w
    = (Ok tt,
       world_of f db (file_content (other_file f) w) (data_dir w) (chart w)
         (connections w ++ [mkConnection f false]) (clock w) (ticks w) []
         (stdout w ++ [connected_line f; ErrorLine e; disconnected_line]))
    /\ Forall (fun o => owned_by (names_of f) o = true -> holds_no_row o = true) db.
Proof.
  intros Hf Hc.
  destruct (main_of_run f (file_content f w) (file_content (other_file f) w)
              (data_dir w) (chart w) (connections w) (clock w) (ticks w)
              (stdout w))
    as (db & lines & Hrun & Hcase).
  rewrite Hc in Hcase. destruct Hcase as [-> ->].
  eexists. split; [|apply statements_of_no_row].
  cbn [app] in Hrun. rewrite <- Hrun. f_equal. rewrite <- Hf. apply world_of_eta.
Qed.

(** The statement for the star builder on a database file in which another
    application holds an index named [idx_sales_time]. *)
Lemma builder_main_refused_schema_witness :
  exists db,
    main_of StarFile clashing_world
    = (Ok tt,
       world_of StarFile db [] (Some sample_dataset) None
         [mkConnection StarFile false] (clock clashing_world) 0 []
         [connected_line StarFile;
          ErrorLine (OperationalError "index idx_sales_time already exists");
          disconnected_line])
    /\ Forall (fun o => owned_by (names_of StarFile) o = true
                        -> holds_no_row o = true) db.
Proof.
  exact (builder_main_refused_schema StarFile clashing_world
           (OperationalError "index idx_sales_time already exists")
           eq_refl eq_refl).
Defined.

(** With no failure from outside, [main] of a builder never lets an
    exception escape, whatever the database file and the [data] directory
    hold: it returns normally, has made one connection, which is closed, and
    what it has printed starts with the connection line and ends with the
    disconnection line. *)
Theorem builder_main_never_raises (f : db_file) (w : World) :
  faults w = [] ->
  fst (main_of f w) = Ok tt
  /\ connections (snd (main_of f w)) = connections w ++ [mkConnection f false]
  /\ exists lines,
       stdout (snd (main_of f w))
       = stdout w ++ [connected_line f] ++ lines ++ [disconnected_line].
Proof.
  intros Hf.
  destruct (main_of_run f (file_content f w) (file_content (other_file f) w)
              (data_dir w) (chart w) (connections w) (clock w) (ticks w)
              (stdout w))
    as (db & lines & Hrun & _).
  rewrite <- Hf, <- world_of_eta in Hrun.
  rewrite Hrun. cbn [fst snd]. split; [reflexivity|].
  split; [|exists lines]; destruct f; reflexivity.
Qed.

(** The statement for the star builder in the sample world. *)
Lemma builder_main_never_raises_witness :
  fst (main_of StarFile sample_world) = Ok tt
  /\ connections (snd (main_of StarFile sample_world))
     = connections sample_world ++ [mkConnection StarFile false]
  /\ exists lines,
       stdout (snd (main_of StarFile sample_world))
       = stdout sample_world ++ [connected_line StarFile] ++ lines
         ++ [disconnected_line].
Proof. exact (builder_main_never_raises StarFile sample_world eq_refl). Defined.

(** ** The row counts [load_data] reports *)

(** After a build, each row count that [load_data] reported is the number
    of rows of the table of that name in the database. *)
Theorem load_statistics_match_store (f : db_file) (ds : Dataset)
    (db db' : Database) :
  build_of f (Some ds) db = Ok db' ->
  Forall (fun '(table, count) =>
            exists content, find_table table db' = Some content
                            /\ row_count content = count)
         (stats_of f ds).
Proof.
  intros Hrun. destruct f; cbn [build_of stats_of] in *.
  - unfold StarSchemaBuilder.stats.
    repeat constructor;
      (eexists; split;
       [rewrite (star_find_table ds db db' _ Hrun) by reflexivity; reflexivity
       |reflexivity]).
  - unfold SnowflakeSchemaBuilder.stats.
    repeat constructor;
      (eexists; split;
       [rewrite (snowflake_find_table ds db db' _ Hrun) by reflexivity; reflexivity
       |reflexivity]).
Qed.

(** The statement for the star builder on the sample dataset. *)
Lemma load_statistics_match_store_witness :
  Forall (fun '(table, count) =>
            exists content, find_table table sample_star = Some content
                            /\ row_count content = count)
         (stats_of StarFile sample_dataset).
Proof.
  exact (load_statistics_match_store StarFile sample_dataset [] sample_star
           eq_refl).
Defined.

(** ** Methods called before [connect] *)

(** On a builder that has not connected, with no failure from outside:
    schema creation and the schema report raise [AttributeError] at once and
    change nothing; [load_data] reads the CSV files first, so it raises
    [FileNotFoundError] when they are missing and [AttributeError] when they
    are there, and changes nothing either; [disconnect] does nothing. *)
Theorem builder_methods_need_connection (f : db_file) (w : World) :
  faults w = [] ->
  let st := mkState (mkBuilder f None) w in
  StarSchemaBuilder.create_star_schema_on_conn st = (Raise no_connection, st)
  /\ SnowflakeSchemaBuilder.create_snowflake_schema_on_conn st
     = (Raise no_connection, st)
  /\ get_schema_info st = (Raise no_connection, st)
  /\ print_schema_info (title_of f) st = (Raise no_connection, st)
  /\ StarSchemaBuilder.load_data st
     = (match data_dir w with
        | Some _ => Raise no_connection
        | None => Raise (FileNotFoundError "data/countries.csv")
        end, st)
  /\ SnowflakeSchemaBuilder.load_data st
     = (match data_dir w with
        | Some _ => Raise no_connection
        | None => Raise (FileNotFoundError "data/countries.csv")
        end, st)
  /\ disconnect st = (Ok tt, st).
Proof.
  intros Hf st. subst st. destruct w as [sdb ndb dd ch cs ck tk fs out].
  cbn in Hf. subst fs.
  repeat split; try reflexivity; destruct dd; reflexivity.
Qed.

(** The statement for a star builder in the sample world. *)
Lemma builder_methods_need_connection_witness :
  let st := mkState (mkBuilder StarFile None) sample_world in
  StarSchemaBuilder.create_star_schema_on_conn st = (Raise no_connection, st)
  /\ SnowflakeSchemaBuilder.create_snowflake_schema_on_conn st
     = (Raise no_connection, st)
  /\ get_schema_info st = (Raise no_connection, st)
  /\ print_schema_info (title_of StarFile) st = (Raise no_connection, st)
  /\ StarSchemaBuilder.load_data st
     = (match data_dir sample_world with
        | Some _ => Raise no_connection
        | None => Raise (FileNotFoundError "data/countries.csv")
        end, st)
  /\ SnowflakeSchemaBuilder.load_data st
     = (match data_dir sample_world with
        | Some _ => Raise no_connection
        | None => Raise (FileNotFoundError "data/countries.csv")
        end, st)
  /\ disconnect st = (Ok tt, st).
Proof. exact (builder_methods_need_connection StarFile sample_world eq_refl). Defined.

(* ===================================================================== *)
(** * 22. What the comparator leaves as it was *)
(* ===================================================================== *)

Lemma stores_unchanged_refl (w : World) : stores_unchanged w w.
Proof. now repeat split. Qed.

Lemma stores_unchanged_trans (w1 w2 w3 : World) :
  stores_unchanged w1 w2 -> stores_unchanged w2 w3 -> stores_unchanged w1 w3.
Proof. intros (H1 & H2 & H3) (H4 & H5 & H6). repeat split; congruence. Qed.

Lemma reads_only_pure {O A} (a : A) : reads_only (O:=O) (pure a).
Proof. intros st. apply stores_unchanged_refl. Qed.

Lemma reads_only_throw {O A} (e : exn) : reads_only (O:=O) (A:=A) (throw e).
Proof. intros st. apply stores_unchanged_refl. Qed.

Lemma reads_only_get_self {O} : reads_only (O:=O) get_self.
Proof. intros st. apply stores_unchanged_refl. Qed.

Lemma reads_only_set_self {O} (o : O) : reads_only (set_self o).
Proof. intros st. apply stores_unchanged_refl. Qed.

Lemma reads_only_and_then {O A B} (m : Prog O A) (k : A -> Prog O B) :
  reads_only m -> (forall a, reads_only (k a)) -> reads_only (and_then m k).
Proof.
  intros Hm Hk st. unfold and_then. specialize (Hm st).
  destruct (m st) as [[a|e] st1]; cbn [snd] in Hm |- *; [|exact Hm].
  eapply stores_unchanged_trans; [exact Hm|apply Hk].
Qed.

Lemma reads_only_for_in {O A} (xs : list A) (body : A -> Prog O unit) :
  (forall x, reads_only (body x)) -> reads_only (for_in xs body).
Proof.
  intros Hb. induction xs as [|x xs IH]; cbn [for_in].
  - apply reads_only_pure.
  - apply reads_only_and_then; [apply Hb|intros _; exact IH].
Qed.

Lemma reads_only_on_world {O A} (f : World -> result A * World) :
  (forall w, stores_unchanged w (snd (f w))) -> reads_only (O:=O) (on_world f).
Proof.
  intros Hf st. unfold on_world. specialize (Hf (world st)).
  now destruct (f (world st)) as [r w'].
Qed.

Lemma fallible_unchanged (w : World) : stores_unchanged w (snd (fallible w)).
Proof. unfold fallible. destruct (faults w) as [|[|] fs]; now repeat split. Qed.

Lemma reads_only_print {O} (o : output) : reads_only (O:=O) (print o).
Proof.
  apply reads_only_on_world. intros w. pose proof (fallible_unchanged w) as Hf.
  destruct (fallible w) as [[u|e] w']; cbn [snd] in Hf |- *; exact Hf.
Qed.

Lemma reads_only_time_time {O} : reads_only (O:=O) time_time.
Proof. apply reads_only_on_world. intros w. now repeat split. Qed.

Lemma reads_only_connect {O} (f : db_file) : reads_only (O:=O) (sqlite3_connect f).
Proof.
  apply reads_only_on_world. intros w. pose proof (fallible_unchanged w) as Hf.
  destruct (fallible w) as [[u|e] w']; cbn [snd] in Hf |- *; exact Hf.
Qed.

Lemma reads_only_close {O} (handle : nat) :
  reads_only (O:=O) (connection_close handle).
Proof. apply reads_only_on_world. intros w. now repeat split. Qed.

(** A call whose action returns the database it was given. *)
Lemma reads_only_call {O A} (handle : nat)
    (action : Database -> result (Database * A)) :
  (forall db db' a, action db = Ok (db', a) -> db' = db) ->
  reads_only (O:=O) (connection_call handle action).
Proof.
  intros Hact. apply reads_only_on_world. intros w.
  pose proof (fallible_unchanged w) as Hf.
  destruct (fallible w) as [[u|e] w']; cbn [snd] in Hf |- *; [|exact Hf].
  destruct (connections w' !! handle) as [c|]; [|exact Hf].
  destruct (conn_open c); [|exact Hf].
  destruct (action _) as [[db a]|e] eqn:Hrun; cbn [snd]; [|exact Hf].
  apply Hact in Hrun. subst db.
  eapply stores_unchanged_trans; [exact Hf|].
  destruct w', (conn_file c); now repeat split.
Qed.

Lemma reads_only_divide {O} (x y : Q) : reads_only (O:=O) (divide x y).
Proof.
  unfold divide. destruct (Qeq_bool y 0); [apply reads_only_throw|apply reads_only_pure].
Qed.

Lemma reads_only_timing (handle : nat) (query query_name : string) :
  reads_only (PerformanceComparator.execute_query_with_timing handle query query_name).
Proof.
  unfold PerformanceComparator.execute_query_with_timing.
  apply reads_only_and_then; [apply reads_only_time_time|]. intros t0.
  apply reads_only_and_then.
  { apply reads_only_call. intros db db' rows Hrun.
    apply result_bind_ok in Hrun as (rows' & _ & [= <- _]). reflexivity. }
  intros rows. apply reads_only_and_then; [apply reads_only_time_time|].
  intros t1. apply reads_only_pure.
Qed.

Lemma reads_only_report_ratio (star_ms snowflake_ms : Q) :
  reads_only (PerformanceComparator.report_ratio star_ms snowflake_ms).
Proof.
  unfold PerformanceComparator.report_ratio.
  destruct (Qlt_b 0 snowflake_ms); [|apply reads_only_pure].
  apply reads_only_and_then; [apply reads_only_divide|]. intros ratio.
  destruct (Qlt_b ratio 1); [|apply reads_only_print].
  apply reads_only_and_then; [apply reads_only_divide|]. intros times.
  apply reads_only_print.
Qed.

Lemma reads_only_run_query_pair (star_conn snowflake_conn : nat) (q : QueryPair) :
  reads_only (PerformanceComparator.run_query_pair star_conn snowflake_conn q).
Proof.
  unfold PerformanceComparator.run_query_pair.
  apply reads_only_and_then; [apply reads_only_print|]. intros _.
  apply reads_only_and_then; [apply reads_only_print|]. intros _.
  apply reads_only_and_then; [apply reads_only_timing|]. intros star_result.
  apply reads_only_and_then; [apply reads_only_print|]. intros _.
  apply reads_only_and_then; [apply reads_only_timing|]. intros snowflake_result.
  apply reads_only_and_then; [apply reads_only_print|]. intros _.
  apply reads_only_and_then; [apply reads_only_report_ratio|]. intros _.
  apply reads_only_and_then; [apply reads_only_get_self|]. intros c.
  apply reads_only_set_self.
Qed.

Lemma reads_only_run_performance_tests :
  reads_only PerformanceComparator.run_performance_tests.
Proof.
  unfold PerformanceComparator.run_performance_tests,
    PerformanceComparator.connect_to_db.
  apply reads_only_and_then; [apply reads_only_get_self|]. intros c.
  apply reads_only_and_then; [apply reads_only_connect|]. intros star_conn.
  apply reads_only_and_then; [apply reads_only_connect|]. intros snowflake_conn.
  apply reads_only_and_then; [apply reads_only_print|]. intros _.
  apply reads_only_and_then; [apply reads_only_print|]. intros _.
  apply reads_only_and_then.
  { apply reads_only_for_in. intros q. apply reads_only_run_query_pair. }
  intros _. apply reads_only_and_then; [apply reads_only_close|]. intros _.
  apply reads_only_and_then; [apply reads_only_close|]. intros _.
  apply reads_only_and_then; [apply reads_only_get_self|]. intros c'.
  apply reads_only_pure.
Qed.

Lemma reads_only_print_detail (i : Z) (r : ResultEntry) :
  reads_only (PerformanceComparator.print_detail i r).
Proof.
  unfold PerformanceComparator.print_detail.
  apply reads_only_and_then.
  { destruct (Qlt_b 0 (star_time_ms r));
      [apply reads_only_divide|apply reads_only_pure]. }
  intros ratio.
  apply reads_only_and_then; [apply reads_only_print|]. intros _.
  apply reads_only_and_then; [apply reads_only_print|]. intros _.
  apply reads_only_and_then; [apply reads_only_print|]. intros _.
  apply reads_only_and_then; [apply reads_only_print|]. intros _.
  destruct (Qlt_b 1 ratio); [apply reads_only_print|].
  apply reads_only_and_then; [apply reads_only_divide|]. intros times.
  apply reads_only_print.
Qed.

Lemma reads_only_print_detailed_results :
  reads_only PerformanceComparator.print_detailed_results.
Proof.
  unfold PerformanceComparator.print_detailed_results.
  apply reads_only_and_then; [apply reads_only_get_self|]. intros c.
  repeat (apply reads_only_and_then; [apply reads_only_print|]; intros _).
  apply reads_only_and_then.
  { apply reads_only_for_in. intros [i r]. apply reads_only_print_detail. }
  intros _.
  repeat (apply reads_only_and_then; [apply reads_only_print|]; intros _).
  apply reads_only_print.
Qed.

Lemma reads_only_savefig {O} (shown : list (string * Q * Q)) :
  reads_only (O:=O) (PerformanceComparator.savefig shown).
Proof.
  apply reads_only_on_world. intros w. pose proof (fallible_unchanged w) as Hf.
  destruct (fallible w) as [[u|e] w']; cbn [snd] in Hf |- *; [|exact Hf].
  destruct w'. exact Hf.
Qed.

Lemma reads_only_visualization :
  reads_only PerformanceComparator.create_performance_visualization.
Proof.
  unfold PerformanceComparator.create_performance_visualization.
  apply reads_only_and_then; [apply reads_only_get_self|]. intros c.
  destruct (results c); [apply reads_only_print|].
  apply reads_only_and_then;
    [apply reads_only_on_world, fallible_unchanged|intros _].
  apply reads_only_and_then; [apply reads_only_savefig|intros _].
  apply reads_only_and_then; [apply reads_only_print|intros _].
  apply reads_only_on_world, fallible_unchanged.
Qed.

(** Whatever happens in a run of the comparator (stores not built, a clock
    that stands still, a failure from outside at any call), what the two
    database files hold (tables, rows, indexes) and the CSV files of the
    [data] directory are left as they were. The run writes one file of its
    own, the chart, which is no part of this statement. *)
Theorem comparator_never_writes (w : World) :
  stores_unchanged w (snd (PerformanceComparator.main w)).
Proof.
  unfold PerformanceComparator.main.
  pose proof (reads_only_and_then _
                (fun results =>
                   PerformanceComparator.print_detailed_results ;;
                   PerformanceComparator.create_performance_visualization ;;
                   pure results)
                reads_only_run_performance_tests) as Hmain.
  specialize (Hmain (fun results =>
    reads_only_and_then _ _ reads_only_print_detailed_results
      (fun _ => reads_only_and_then _ _ reads_only_visualization
                  (fun _ => reads_only_pure results)))).
  specialize (Hmain (mkState (mkComparator StarFile SnowflakeFile []) w)).
  unfold PerformanceComparator.main_program.
  destruct (and_then _ _ _) as [r st]. exact Hmain.
Qed.

(* ===================================================================== *)
(** * 23. The result list of the comparator *)
(* ===================================================================== *)

Lemma keeps_keeps_self {O A} (m : Prog O A) : keeps m -> keeps_self m.
Proof. intros Hk st. now destruct (Hk st). Qed.

Lemma keeps_self_on_world {O A} (f : World -> result A * World) :
  keeps_self (O:=O) (on_world f).
Proof. intros st. unfold on_world. now destruct (f (world st)). Qed.

Lemma keeps_self_print {O} (o : output) : keeps_self (O:=O) (print o).
Proof. apply keeps_self_on_world. Qed.

Lemma keeps_self_connect {O} (f : db_file) : keeps_self (O:=O) (sqlite3_connect f).
Proof. apply keeps_self_on_world. Qed.

Lemma keeps_self_close {O} (handle : nat) :
  keeps_self (O:=O) (connection_close handle).
Proof. apply keeps_self_on_world. Qed.

Lemma keeps_self_and_then {O A B} (m : Prog O A) (k : A -> Prog O B) :
  keeps_self m -> (forall a, keeps_self (k a)) -> keeps_self (and_then m k).
Proof.
  intros Hm Hk st. unfold and_then. specialize (Hm st).
  destruct (m st) as [[a|e] st1]; cbn [snd] in Hm |- *; [|exact Hm].
  now rewrite Hk.
Qed.

Lemma keeps_self_divide {O} (x y : Q) : keeps_self (O:=O) (divide x y).
Proof. intros st. unfold divide. now destruct (Qeq_bool y 0). Qed.

Lemma keeps_self_timing (handle : nat) (query query_name : string) :
  keeps_self (PerformanceComparator.execute_query_with_timing handle query query_name).
Proof.
  unfold PerformanceComparator.execute_query_with_timing.
  apply keeps_self_and_then; [apply keeps_self_on_world|]. intros t0.
  apply keeps_self_and_then; [apply keeps_self_on_world|]. intros rows.
  apply keeps_self_and_then; [apply keeps_self_on_world|]. intros t1.
  now intros st.
Qed.

Lemma keeps_self_report_ratio (star_ms snowflake_ms : Q) :
  keeps_self (PerformanceComparator.report_ratio star_ms snowflake_ms).
Proof.
  unfold PerformanceComparator.report_ratio.
  destruct (Qlt_b 0 snowflake_ms); [|now intros st].
  apply keeps_self_and_then; [apply keeps_self_divide|]. intros ratio.
  destruct (Qlt_b ratio 1); [|apply keeps_self_on_world].
  apply keeps_self_and_then; [apply keeps_self_divide|]. intros times.
  apply keeps_self_on_world.
Qed.

Lemma appends_one_after {A B} (name : string) (m : Prog Comparator A)
    (k : A -> Prog Comparator B) :
  keeps_self m -> (forall a, appends_one name (k a)) ->
  appends_one name (and_then m k).
Proof.
  intros Hm Hk st. unfold and_then. specialize (Hm st).
  destruct (m st) as [[a|e] st1]; cbn [snd] in Hm; [|exact Hm].
  specialize (Hk a st1). rewrite Hm in Hk. exact Hk.
Qed.

Lemma run_query_pair_appends (star_conn snowflake_conn : nat) (q : QueryPair) :
  appends_one (query_name q)
    (PerformanceComparator.run_query_pair star_conn snowflake_conn q).
Proof.
  unfold PerformanceComparator.run_query_pair.
  apply appends_one_after; [apply keeps_self_on_world|]. intros _.
  apply appends_one_after; [apply keeps_self_on_world|]. intros _.
  apply appends_one_after; [apply keeps_self_timing|]. intros star_result.
  apply appends_one_after; [apply keeps_self_on_world|]. intros _.
  apply appends_one_after; [apply keeps_self_timing|]. intros snowflake_result.
  apply appends_one_after; [apply keeps_self_on_world|]. intros _.
  apply appends_one_after; [apply keeps_self_report_ratio|]. intros _.
  intros st. cbn. eexists. split; reflexivity.
Qed.

(** The loop over the suite: the entries of the pairs that completed, in
    the order of the suite. *)
Lemma suite_loop_records (star_conn snowflake_conn : nat) (qs : list QueryPair)
    (st : State Comparator) :
  exists new,
    results (self (snd (for_in qs
                          (PerformanceComparator.run_query_pair star_conn
                             snowflake_conn) st)))
    = results (self st) ++ new
    /\ map entry_query_name new = firstn (length new) (map query_name qs)
    /\ match fst (for_in qs
                    (PerformanceComparator.run_query_pair star_conn
                       snowflake_conn) st) with
       | Ok _ => length new = length qs
       | Raise _ => (length new < length qs)%nat
       end.
Proof.
  revert st. induction qs as [|q qs IH]; intros st.
  - exists []. cbn. now rewrite app_nil_r.
  - cbn [for_in]. unfold and_then.
    pose proof (run_query_pair_appends star_conn snowflake_conn q st) as Hq.
    destruct (PerformanceComparator.run_query_pair _ _ q st) as [[u|e] st1].
    + destruct Hq as (entry & Hres & Hname).
      destruct (IH st1) as (new & Hnew & Hnames & Hlen).
      exists (entry :: new). split; [|split].
      * rewrite Hnew, Hres, <- app_assoc. reflexivity.
      * cbn. now rewrite Hname, Hnames.
      * destruct (fst _); cbn [length]; lia.
    + exists []. cbn [fst snd]. rewrite Hq, app_nil_r.
      split; [reflexivity|]. split; [reflexivity|]. cbn. lia.
Qed.

Lemma and_then_inv {O A B} (m : Prog O A) (k : A -> Prog O B) (st st' : State O)
    (r : result B) :
  and_then m k st = (r, st') ->
  (exists a st1, m st = (Ok a, st1) /\ k a st1 = (r, st'))
  \/ (exists e, m st = (Raise e, st') /\ r = Raise e).
Proof.
  unfold and_then. destruct (m st) as [[a|e] st1]; [eauto|].
  intros [= <- <-]. eauto.
Qed.

Lemma keeps_self_run {O A} (m : Prog O A) (st st' : State O) (r : result A) :
  keeps_self m -> m st = (r, st') -> self st' = self st.
Proof. intros Hk Hrun. specialize (Hk st). now rewrite Hrun in Hk. Qed.

Lemma run_performance_tests_records (st st' : State Comparator)
    (r : result (list ResultEntry)) :
  PerformanceComparator.run_performance_tests st = (r, st') ->
  exists new,
    results (self st') = results (self st) ++ new
    /\ map entry_query_name new
       = firstn (length new) (map query_name get_analytical_queries)
    /\ match r with
       | Ok rs => rs = results (self st) ++ new /\ length new = 5%nat
       | Raise _ => (length new < 5)%nat
       end.
Proof.
  assert (Hstop : forall (e : exn) (st1 : State Comparator),
             self st1 = self st ->
             exists new,
               results (self st1) = results (self st) ++ new
               /\ map entry_query_name new
                  = firstn (length new) (map query_name get_analytical_queries)
               /\ (length new < 5)%nat).
  { intros e st1 Hself. exists []. cbn. rewrite Hself, app_nil_r.
    split; [reflexivity|]. split; [reflexivity|lia]. }
  unfold PerformanceComparator.run_performance_tests,
    PerformanceComparator.connect_to_db.
  intros Hrun.
  apply and_then_inv in Hrun as [(c & st0 & [= <- <-] & Hrun)|(e & [=] & _)].
  apply and_then_inv in Hrun as [(h1 & st1 & H1 & Hrun)|(e & H1 & ->)];
    apply (keeps_self_run _ _ _ _ (keeps_self_connect _)) in H1;
    [|now apply (Hstop e)].
  apply and_then_inv in Hrun as [(h2 & st2 & H2 & Hrun)|(e & H2 & ->)];
    apply (keeps_self_run _ _ _ _ (keeps_self_connect _)) in H2;
    [|apply (Hstop e); congruence].
  apply and_then_inv in Hrun as [([] & st3 & H3 & Hrun)|(e & H3 & ->)];
    apply (keeps_self_run _ _ _ _ (keeps_self_print _)) in H3;
    [|apply (Hstop e); congruence].
  apply and_then_inv in Hrun as [([] & st4 & H4 & Hrun)|(e & H4 & ->)];
    apply (keeps_self_run _ _ _ _ (keeps_self_print _)) in H4;
    [|apply (Hstop e); congruence].
  destruct (suite_loop_records h1 h2 get_analytical_queries st4)
    as (new & Hnew & Hnames & Hlen).
  assert (Hst4 : results (self st4) = results (self st)) by congruence.
  rewrite Hst4 in Hnew.
  apply and_then_inv in Hrun as [([] & st5 & H5 & Hrun)|(e & H5 & ->)];
    rewrite H5 in Hnew, Hlen; cbn [fst snd] in Hnew, Hlen.
  - apply and_then_inv in Hrun as [([] & st6 & H6 & Hrun)|(e & H6 & ->)].
    + apply (keeps_self_run _ _ _ _ (keeps_self_close _)) in H6.
      apply and_then_inv in Hrun as [([] & st7 & H7 & Hrun)|(e & H7 & ->)].
      * apply (keeps_self_run _ _ _ _ (keeps_self_close _)) in H7.
        cbn in Hrun. injection Hrun as <- <-.
        exists new. rewrite H7, H6. auto.
      * exfalso. clear -H7. discriminate.
    + exfalso. clear -H6. discriminate.
  - exists new. auto.
Qed.

(** [run_performance_tests] never resets [self.results]: the entries of a
    run are appended to those the comparator already holds. Whatever
    happens, the list it leaves is the list it found followed by the entries
    of the query pairs that completed, in the order of the suite; when the
    run returns there are five of them and the returned list is that whole
    list, when it raises there are fewer than five. *)
Theorem run_performance_tests_accumulates (st : State Comparator) :
  exists new,
    results (self (snd (PerformanceComparator.run_performance_tests st)))
    = results (self st) ++ new
    /\ map entry_query_name new
       = firstn (length new) (map query_name get_analytical_queries)
    /\ match fst (PerformanceComparator.run_performance_tests st) with
       | Ok rs => rs = results (self st) ++ new /\ length new = 5%nat
       | Raise _ => (length new < 5)%nat
       end.
Proof.
  destruct (PerformanceComparator.run_performance_tests st) as [r st'] eqn:Hrun.
  exact (run_performance_tests_records st st' r Hrun).
Qed.

(* ===================================================================== *)
(** * 24. A run of the comparator when nothing fails from outside *)
(* ===================================================================== *)

Lemma lookup_second_last {A} (l : list A) (a b : A) :
  (l ++ [a; b]) !! S (length l) = Some b.
Proof.
  replace (l ++ [a; b]) with ((l ++ [a]) ++ [b]) by now rewrite <- app_assoc.
  replace (S (length l)) with (length (l ++ [a]))
    by (rewrite length_app; cbn; lia).
  now apply list_lookup_middle.
Qed.

Lemma alter_first_of_two {A} (g : A -> A) (l : list A) (a b : A) :
  alter g (length l) (l ++ [a; b]) = l ++ [g a; b].
Proof. induction l as [|x l IH]; cbn; [reflexivity|]. now rewrite IH. Qed.

Lemma alter_second_of_two {A} (g : A -> A) (l : list A) (a b : A) :
  alter g (S (length l)) (l ++ [a; b]) = l ++ [a; g b].
Proof. induction l as [|x l IH]; cbn; [reflexivity|]. now rewrite IH. Qed.

Lemma Qdiv_pos (a b : Q) : (0 < a)%Q -> (0 < b)%Q -> (0 < a / b)%Q.
Proof.
  intros Ha Hb. unfold Qdiv. apply Qmult_lt_0_compat; [exact Ha|].
  now apply Qinv_lt_0_compat.
Qed.

Lemma divide_ok {O} (x y : Q) (st : State O) :
  (0 < y)%Q -> divide x y st = (Ok (x / y)%Q, st).
Proof. intros Hy. unfold divide. now rewrite (Qeq_bool_false_of_lt y Hy). Qed.

Lemma elapsed_pos (t0 t1 : Q) : (t0 < t1)%Q -> (0 < (t1 - t0) * (1000 # 1))%Q.
Proof.
  intros Hlt. apply Qmult_lt_0_compat; [|reflexivity].
  unfold Qminus. rewrite <- (Qplus_opp_r t0).
  apply Qplus_lt_l. exact Hlt.
Qed.

Section ComparatorRun.
Variable star snowflake : Database.
Variable D : option Dataset.
Variable ch : option (list (string * Q * Q)).
Variable cs : list Connection.
Variable ck : nat -> Q.

(** A state of the comparator in which nothing fails from outside. *)
Let state_of (c : Comparator) (conns : list Connection) (tk : nat)
    (out : list output) : State Comparator :=
  mkState c (mkWorld star snowflake D ch conns ck tk [] out).

(** Its state between its two connections and their closing: both
    connections are open. *)
Let running (c : Comparator) (tk : nat) (out : list output) : State Comparator :=
  state_of c
    (cs ++ [mkConnection StarFile true; mkConnection SnowflakeFile true]) tk out.

Lemma state_print (o : output) (c : Comparator) (conns : list Connection)
    (tk : nat) (out : list output) :
  print o (state_of c conns tk out) = (Ok tt, state_of c conns tk (out ++ [o])).
Proof. reflexivity. Qed.

Lemma running_print (o : output) (c : Comparator) (tk : nat) (out : list output) :
  print o (running c tk out) = (Ok tt, running c tk (out ++ [o])).
Proof. reflexivity. Qed.

Lemma timing_star_run (query name : string) (c : Comparator) (tk : nat)
    (out : list output) :
  PerformanceComparator.execute_query_with_timing (length cs) query name
    (running c tk out)
  = match fetch_all query star with
    | Ok rows =>
        (Ok (mkTiming name ((ck (S tk) - ck tk) * (1000 # 1)) (len rows)
               (firstn 5 rows)),
         running c (S (S tk)) out)
    | Raise e => (Raise e, running c (S tk) out)
    end.
Proof.
  unfold PerformanceComparator.execute_query_with_timing, running, and_then,
    state_of, time_time, connection_call, on_world, fallible.
  cbn [world faults connections clock ticks self set_ticks star_db snowflake_db
       data_dir stdout fst snd].
  rewrite list_lookup_middle by reflexivity.
  cbn [conn_open conn_file file_content world faults connections clock ticks
       self set_ticks star_db snowflake_db data_dir stdout fst snd].
  destruct (fetch_all query star) as [rows|e]; reflexivity.
Qed.

Lemma timing_snowflake_run (query name : string) (c : Comparator) (tk : nat)
    (out : list output) :
  PerformanceComparator.execute_query_with_timing (S (length cs)) query name
    (running c tk out)
  = match fetch_all query snowflake with
    | Ok rows =>
        (Ok (mkTiming name ((ck (S tk) - ck tk) * (1000 # 1)) (len rows)
               (firstn 5 rows)),
         running c (S (S tk)) out)
    | Raise e => (Raise e, running c (S tk) out)
    end.
Proof.
  unfold PerformanceComparator.execute_query_with_timing, running, and_then,
    state_of, time_time, connection_call, on_world, fallible.
  cbn [world faults connections clock ticks self set_ticks star_db snowflake_db
       data_dir stdout fst snd].
  rewrite lookup_second_last.
  cbn [conn_open conn_file file_content world faults connections clock ticks
       self set_ticks star_db snowflake_db data_dir stdout fst snd].
  destruct (fetch_all query snowflake) as [rows|e]; reflexivity.
Qed.

Lemma report_ratio_run (star_ms snowflake_ms : Q) (c : Comparator) (tk : nat)
    (out : list output) :
  (0 < star_ms)%Q -> (0 < snowflake_ms)%Q ->
  exists line,
    PerformanceComparator.report_ratio star_ms snowflake_ms (running c tk out)
    = (Ok tt, running c tk (out ++ [line])).
Proof.
  intros Ha Hb. unfold PerformanceComparator.report_ratio.
  rewrite (Qlt_b_true _ _ Hb). unfold and_then at 1.
  rewrite (divide_ok _ _ _ Hb).
  destruct (Qlt_b (star_ms / snowflake_ms) 1).
  - unfold and_then. rewrite (divide_ok _ _ _ (Qdiv_pos _ _ Ha Hb)).
    eexists. apply running_print.
  - eexists. apply running_print.
Qed.

Lemma run_query_pair_run (q : QueryPair) (rows1 rows2 : list sql_row)
    (c : Comparator) (tk : nat) (out : list output) :
  fetch_all (star_query q) star = Ok rows1 ->
  fetch_all (snowflake_query q) snowflake = Ok rows2 ->
  (ck tk < ck (S tk))%Q -> (ck (S (S tk)) < ck (S (S (S tk))))%Q ->
  exists lines,
    PerformanceComparator.run_query_pair (length cs) (S (length cs)) q
      (running c tk out)
    = (Ok tt,
       running
         (mkComparator (star_db_path c) (snowflake_db_path c)
            (results c
             ++ [mkResultEntry (query_name q)
                   ((ck (S tk) - ck tk) * (1000 # 1))
                   ((ck (S (S (S tk))) - ck (S (S tk))) * (1000 # 1))
                   (firstn 5 rows1) (firstn 5 rows2)]))
         (4 + tk) (out ++ lines)).
Proof.
  intros H1 H2 Ht1 Ht2. unfold PerformanceComparator.run_query_pair.
  unfold and_then at 1. rewrite running_print.
  unfold and_then at 1. rewrite running_print.
  unfold and_then at 1. rewrite timing_star_run, H1.
  unfold and_then at 1. cbn [execution_time_ms]. rewrite running_print.
  unfold and_then at 1. rewrite timing_snowflake_run, H2.
  unfold and_then at 1. cbn [execution_time_ms]. rewrite running_print.
  unfold and_then at 1.
  match goal with
  | |- context [PerformanceComparator.report_ratio ?a ?b (running c ?t ?o)] =>
      destruct (report_ratio_run a b c t o (elapsed_pos _ _ Ht1)
                  (elapsed_pos _ _ Ht2)) as (line & ->)
  end.
  eexists. unfold and_then, get_self, set_self, running, state_of.
  cbn [self world timing_results]. rewrite <- !app_assoc. reflexivity.
Qed.

Lemma suite_loop_run (qs : list QueryPair) (c : Comparator) (tk : nat)
    (out : list output) :
  Forall (fun q => exists rows1 rows2,
                     fetch_all (star_query q) star = Ok rows1
                     /\ fetch_all (snowflake_query q) snowflake = Ok rows2) qs ->
  (forall n, (tk <= n)%nat -> (ck n < ck (S n))%Q) ->
  exists new lines,
    for_in qs (PerformanceComparator.run_query_pair (length cs) (S (length cs)))
      (running c tk out)
    = (Ok tt,
       running (mkComparator (star_db_path c) (snowflake_db_path c)
                  (results c ++ new))
         (4 * length qs + tk) (out ++ lines))
    /\ Forall2 (measured star snowflake) qs new.
Proof.
  intros Hqs. revert c tk out.
  induction Hqs as [|q qs (rows1 & rows2 & H1 & H2) _ IH]; intros c tk out Hck.
  - exists [], []. split; [|constructor]. cbn [for_in length Nat.mul Nat.add].
    rewrite !app_nil_r. now destruct c.
  - cbn [for_in]. unfold and_then.
    destruct (run_query_pair_run q rows1 rows2 c tk out H1 H2
                (Hck tk ltac:(lia)) (Hck (S (S tk)) ltac:(lia)))
      as (lines1 & ->).
    destruct (IH (mkComparator (star_db_path c) (snowflake_db_path c)
                    (results c
                     ++ [mkResultEntry (query_name q)
                           ((ck (S tk) - ck tk) * (1000 # 1))
                           ((ck (S (S (S tk))) - ck (S (S tk))) * (1000 # 1))
                           (firstn 5 rows1) (firstn 5 rows2)]))
                (4 + tk)%nat (out ++ lines1))
      as (new & lines2 & Hrun & Hnew).
    { intros n Hn. apply Hck. lia. }
    rewrite Hrun. cbn [star_db_path snowflake_db_path results].
    eexists (_ :: new), (lines1 ++ lines2). split.
    + rewrite <- !app_assoc. cbn [app length].
      replace (4 * S (length qs) + tk)%nat with (4 * length qs + (4 + tk))%nat
        by lia.
      reflexivity.
    + constructor; [|exact Hnew]. unfold measured. cbn.
      split; [reflexivity|].
      split; [apply elapsed_pos, Hck; lia|].
      split; [apply elapsed_pos, Hck; lia|].
      split; [exists rows1|exists rows2]; split; trivial.
Qed.

(** The two connections and their closing around a body. *)
Lemma connects_run {A} (k : nat -> nat -> Prog Comparator A) (c : Comparator)
    (tk : nat) (out : list output) :
  (let+ star_conn := PerformanceComparator.connect_to_db StarFile in
   let+ snowflake_conn := PerformanceComparator.connect_to_db SnowflakeFile in
   k star_conn snowflake_conn) (state_of c cs tk out)
  = k (length cs) (S (length cs)) (running c tk out).
Proof.
  unfold PerformanceComparator.connect_to_db, sqlite3_connect, and_then, on_world,
    state_of, running, fallible.
  cbn [world faults connections self set_connections star_db snowflake_db
       data_dir clock ticks stdout fst snd].
  rewrite length_app, <- app_assoc. cbn [length app].
  rewrite Nat.add_1_r. reflexivity.
Qed.

Lemma closes_run {A} (k : Prog Comparator A) (c : Comparator) (tk : nat)
    (out : list output) :
  (connection_close (length cs) ;; connection_close (S (length cs)) ;; k)
    (running c tk out)
  = k (state_of c
         (cs ++ [mkConnection StarFile false; mkConnection SnowflakeFile false])
         tk out).
Proof.
  unfold connection_close, and_then, on_world, running, state_of.
  cbn [world connections self set_connections star_db snowflake_db data_dir
       clock ticks faults stdout fst snd].
  rewrite alter_first_of_two, alter_second_of_two. reflexivity.
Qed.

(** *** The detailed report *)

Lemma print_detail_run (i : Z) (r : ResultEntry) (c : Comparator)
    (conns : list Connection) (tk : nat) (out : list output) :
  (0 < star_time_ms r)%Q -> (0 < snowflake_time_ms r)%Q ->
  exists lines,
    PerformanceComparator.print_detail i r (state_of c conns tk out)
    = (Ok tt, state_of c conns tk (out ++ lines)).
Proof.
  intros Ha Hb. unfold PerformanceComparator.print_detail.
  rewrite (Qlt_b_true _ _ Ha). unfold and_then at 1.
  rewrite (divide_ok _ _ _ Ha).
  unfold and_then at 1. rewrite state_print.
  unfold and_then at 1. rewrite state_print.
  unfold and_then at 1. rewrite state_print.
  unfold and_then at 1. rewrite state_print.
  destruct (Qlt_b 1 (snowflake_time_ms r / star_time_ms r)).
  - rewrite state_print. rewrite <- !app_assoc. eauto.
  - unfold and_then. rewrite (divide_ok _ _ _ (Qdiv_pos _ _ Hb Ha)).
    rewrite state_print. rewrite <- !app_assoc. eauto.
Qed.

Lemma print_details_run (entries : list (Z * ResultEntry)) (c : Comparator)
    (conns : list Connection) (tk : nat) (out : list output) :
  Forall (fun '(_, r) => (0 < star_time_ms r)%Q /\ (0 < snowflake_time_ms r)%Q)
         entries ->
  exists lines,
    for_in entries (fun '(i, result) => PerformanceComparator.print_detail i result)
      (state_of c conns tk out)
    = (Ok tt, state_of c conns tk (out ++ lines)).
Proof.
  intros Hall. revert out.
  induction Hall as [|[i r] entries [Ha Hb] _ IH]; intros out.
  - exists []. cbn. now rewrite app_nil_r.
  - cbn [for_in]. unfold and_then.
    destruct (print_detail_run i r c conns tk out Ha Hb) as (lines1 & ->).
    destruct (IH (out ++ lines1)) as (lines2 & ->).
    exists (lines1 ++ lines2). now rewrite app_assoc.
Qed.

Lemma enumerate_snd {A} (P : A -> Prop) (xs : list A) (start : Z) :
  Forall P xs -> Forall (fun '(_, x) => P x) (enumerate start xs).
Proof.
  intros Hall. revert start. induction Hall as [|x xs Hx _ IH]; intros start.
  - constructor.
  - cbn. constructor; [exact Hx|apply IH].
Qed.

Lemma print_detailed_results_run (c : Comparator) (conns : list Connection)
    (tk : nat) (out : list output) :
  Forall (fun r => (0 < star_time_ms r)%Q /\ (0 < snowflake_time_ms r)%Q)
         (results c) ->
  exists lines,
    PerformanceComparator.print_detailed_results (state_of c conns tk out)
    = (Ok tt, state_of c conns tk (out ++ lines)).
Proof.
  intros Hall. unfold PerformanceComparator.print_detailed_results.
  unfold and_then at 1. cbn [get_self state_of self].
  fold (state_of c conns tk out).
  unfold and_then at 1. rewrite state_print.
  unfold and_then at 1. rewrite state_print.
  unfold and_then at 1. rewrite state_print.
  unfold and_then at 1.
  match goal with
  | |- context [for_in _ _ (state_of c conns tk ?o)] =>
      destruct (print_details_run (enumerate 1 (results c)) c conns tk o
                  (enumerate_snd _ _ 1 Hall)) as (lines & ->)
  end.
  repeat (unfold and_then at 1; rewrite state_print).
  rewrite state_print. rewrite <- !app_assoc. eauto.
Qed.

Lemma visualization_run (c : Comparator) (conns : list Connection)
    (tk : nat) (out : list output) :
  results c <> [] ->
  PerformanceComparator.create_performance_visualization
    (state_of c conns tk out)
  = (Ok tt,
     mkState c
       (mkWorld star snowflake D (Some (shown_times (results c))) conns ck tk
          [] (out ++ [chart_saved_line]))).
Proof.
  intros Hne.
  unfold PerformanceComparator.create_performance_visualization, and_then at 1.
  cbn [get_self state_of self]. destruct (results c); [contradiction|].
  reflexivity.
Qed.

(** *** The whole run *)

Lemma run_performance_tests_run (c : Comparator) (tk : nat) (out : list output) :
  star_db_path c = StarFile -> snowflake_db_path c = SnowflakeFile ->
  Forall (fun q => exists rows1 rows2,
                     fetch_all (star_query q) star = Ok rows1
                     /\ fetch_all (snowflake_query q) snowflake = Ok rows2)
         get_analytical_queries ->
  (forall n, (tk <= n)%nat -> (ck n < ck (S n))%Q) ->
  exists new lines,
    PerformanceComparator.run_performance_tests (state_of c cs tk out)
    = (Ok (results c ++ new),
       state_of (mkComparator StarFile SnowflakeFile (results c ++ new))
         (cs ++ [mkConnection StarFile false; mkConnection SnowflakeFile false])
         (20 + tk) (out ++ lines))
    /\ Forall2 (measured star snowflake) get_analytical_queries new.
Proof.
  intros Hp1 Hp2 Hqs Hck. unfold PerformanceComparator.run_performance_tests.
  unfold and_then at 1. cbn [get_self state_of self].
  fold (state_of c cs tk out). rewrite Hp1, Hp2.
  rewrite connects_run.
  unfold and_then at 1. rewrite running_print.
  unfold and_then at 1. rewrite running_print.
  unfold and_then at 1.
  destruct (suite_loop_run get_analytical_queries c tk
              ((out ++ [Text "Запуск тестів продуктивності..."])
               ++ [Rule "=" 60]) Hqs Hck)
    as (new & lines & -> & Hnew).
  rewrite Hp1, Hp2.
  rewrite closes_run. unfold and_then, get_self, pure, state_of.
  cbn [self results]. exists new, (([Text "Запуск тестів продуктивності..."]
                                     ++ [Rule "=" 60]) ++ lines).
  split; [|exact Hnew].
  replace (4 * length get_analytical_queries + tk)%nat with (20 + tk)%nat
    by reflexivity.
  rewrite <- !app_assoc. reflexivity.
Qed.

(** Every pair of the suite runs on stores built from one dataset. *)
Lemma suite_runs_on_built_stores (ds : Dataset) (db0 db1 : Database) :
  star_build (Some ds) db0 = Ok star ->
  snowflake_build (Some ds) db1 = Ok snowflake ->
  Forall (fun q => exists rows1 rows2,
                     fetch_all (star_query q) star = Ok rows1
                     /\ fetch_all (snowflake_query q) snowflake = Ok rows2)
         get_analytical_queries.
Proof.
  intros Hstar Hsnow.
  destruct (star_reads ds db0 star Hstar) as (Hsf & Hdt & Hdp & Hdc & Hdsp).
  destruct (snowflake_reads ds db1 snowflake Hsnow)
    as (Nsf & Ndt & Np & Nsub & Ncat & Nc & Nci & Nr & Nsp).
  destruct (fetch_all_suite star) as (S1 & _ & S2 & _ & S3 & _ & S4 & _ & S5 & _).
  destruct (fetch_all_suite snowflake)
    as (_ & N1 & _ & N2 & _ & N3 & _ & N4 & _ & N5).
  unfold get_analytical_queries.
  repeat constructor; cbn [star_query snowflake_query]; eexists; eexists.
  - rewrite S1, N1. unfold q1_star, q1_snowflake.
    rewrite Hsf, Hdc, Nsf, Nc, Nci, Nr. split; reflexivity.
  - rewrite S2, N2. unfold q2_star, q2_snowflake.
    rewrite Hsf, Hdp, Nsf, Np, Nsub, Ncat. split; reflexivity.
  - rewrite S3, N3. unfold q3.
    rewrite Hsf, Hdt, Nsf, Ndt. split; reflexivity.
  - rewrite S4, N4. unfold q4_star, q4_snowflake.
    rewrite Hsf, Hdsp, Nsf, Nsp, Nr. split; reflexivity.
  - rewrite S5, N5. unfold q5_star, q5_snowflake.
    rewrite Hsf, Hdp, Hdc, Hdt, Nsf, Np, Nsub, Ncat, Nc, Nci, Nr, Ndt.
    split; reflexivity.
Qed.

Lemma measured_positive (q : QueryPair) (r : ResultEntry) :
  measured star snowflake q r ->
  (0 < star_time_ms r)%Q /\ (0 < snowflake_time_ms r)%Q.
Proof. intros (_ & Ha & Hb & _). now split. Qed.

Lemma main_run (tk : nat) (out : list output) :
  Forall (fun q => exists rows1 rows2,
                     fetch_all (star_query q) star = Ok rows1
                     /\ fetch_all (snowflake_query q) snowflake = Ok rows2)
         get_analytical_queries ->
  (forall n, (tk <= n)%nat -> (ck n < ck (S n))%Q) ->
  exists rs lines,
    PerformanceComparator.main (mkWorld star snowflake D ch cs ck tk [] out)
    = (Ok rs,
       mkWorld star snowflake D (Some (shown_times rs))
         (cs ++ [mkConnection StarFile false; mkConnection SnowflakeFile false])
         ck (20 + tk) [] (out ++ lines ++ [chart_saved_line]))
    /\ Forall2 (measured star snowflake) get_analytical_queries rs.
Proof.
  intros Hqs Hck. unfold PerformanceComparator.main,
    PerformanceComparator.main_program.
  destruct (run_performance_tests_run (mkComparator StarFile SnowflakeFile [])
              tk out eq_refl eq_refl Hqs Hck) as (new & lines1 & Hrun & Hnew).
  unfold state_of in Hrun. cbn [results app] in Hrun.
  unfold and_then at 1. rewrite Hrun.
  assert (Hpos : Forall (fun r => (0 < star_time_ms r)%Q
                                  /\ (0 < snowflake_time_ms r)%Q) new).
  { clear -Hnew. induction Hnew as [|q r qs rs Hq _ IH]; constructor.
    - exact (measured_positive q r Hq).
    - exact IH. }
  destruct (print_detailed_results_run
              (mkComparator StarFile SnowflakeFile new)
              (cs ++ [mkConnection StarFile false; mkConnection SnowflakeFile false])
              (20 + tk) (out ++ lines1) Hpos) as (lines2 & Hdetail).
  unfold state_of in Hdetail. unfold and_then at 1. rewrite Hdetail.
  assert (Hne : new <> []).
  { intros ->. inversion Hnew. }
  pose proof (visualization_run
                (mkComparator StarFile SnowflakeFile new)
                (cs ++ [mkConnection StarFile false;
                        mkConnection SnowflakeFile false])
                (20 + tk) ((out ++ lines1) ++ lines2) Hne) as Hvis.
  unfold state_of in Hvis. unfold and_then at 1. rewrite Hvis.
  exists new, (lines1 ++ lines2). split; [|exact Hnew].
  cbn [pure world results]. rewrite <- !app_assoc. reflexivity.
Qed.

End ComparatorRun.

(** With no failure from outside, both stores built from one dataset and a
    clock that advances between any two readings, a run of the comparator
    returns normally: five entries, one per pair of the suite in its order,
    each with the name of its pair, two positive times and, for each
    variant, the first five rows of its answer; the two connections it made
    are closed, the clock was read twenty times, the chart of the five
    entries is saved, which the last line printed says, and the stores are
    untouched. *)
Theorem comparator_completes_on_built_stores (w : World) (ds : Dataset)
    (db0 db1 : Database) :
  faults w = [] ->
  star_build (Some ds) db0 = Ok (star_db w) ->
  snowflake_build (Some ds) db1 = Ok (snowflake_db w) ->
  (forall n, (ticks w <= n)%nat -> (clock w n < clock w (S n))%Q) ->
  exists rs lines,
    PerformanceComparator.main w
    = (Ok rs,
       mkWorld (star_db w) (snowflake_db w) (data_dir w)
         (Some (shown_times rs))
         (connections w
          ++ [mkConnection StarFile false; mkConnection SnowflakeFile false])
         (clock w) (20 + ticks w) []
         (stdout w ++ lines ++ [chart_saved_line]))
    /\ Forall2 (measured (star_db w) (snowflake_db w)) get_analytical_queries rs.
Proof.
  intros Hf Hstar Hsnow Hck.
  destruct w as [sdb ndb dd ch cs ck tk fs out].
  cbn [faults star_db snowflake_db data_dir chart connections clock ticks stdout]
    in *.
  subst fs. apply main_run; [|exact Hck].
  exact (suite_runs_on_built_stores sdb ndb ds db0 db1 Hstar Hsnow).
Qed.

Lemma ready_clock_advances (n : nat) :
  (ticks ready_world <= n)%nat ->
  (clock ready_world n < clock ready_world (S n))%Q.
Proof.
  intros _. unfold ready_world. cbn [clock]. unfold Qlt, inject_Z.
  cbn [Qnum Qden]. lia.
Defined.

(** The statement in a world that holds the two stores built from the
    sample dataset. *)
Lemma comparator_completes_on_built_stores_witness :
  exists rs lines,
    PerformanceComparator.main ready_world
    = (Ok rs,
       mkWorld (star_db ready_world) (snowflake_db ready_world)
         (data_dir ready_world) (Some (shown_times rs))
         (connections ready_world
          ++ [mkConnection StarFile false; mkConnection SnowflakeFile false])
         (clock ready_world) (20 + ticks ready_world) []
         (stdout ready_world ++ lines ++ [chart_saved_line]))
    /\ Forall2 (measured (star_db ready_world) (snowflake_db ready_world))
               get_analytical_queries rs.
Proof.
  exact (comparator_completes_on_built_stores ready_world sample_dataset [] []
           eq_refl eq_refl eq_refl ready_clock_advances).
Defined.

(* ===================================================================== *)
(** * 25. A run of the comparator before the stores are built *)
(* ===================================================================== *)

Lemma suite_needs_sales_facts (db : Database) (q : QueryPair) :
  find_table "sales_facts" db = None ->
  In q get_analytical_queries ->
  fetch_all (star_query q) db
  = Raise (OperationalError "no such table: sales_facts")
  /\ fetch_all (snowflake_query q) db
     = Raise (OperationalError "no such table: sales_facts").
Proof.
  intros Hnone Hq.
  destruct (fetch_all_suite db)
    as (S1 & N1 & S2 & N2 & S3 & N3 & S4 & N4 & S5 & N5).
  cbn in Hq. destruct Hq as [<-|[<-|[<-|[<-|[<-|[]]]]]];
    cbn [star_query snowflake_query];
    rewrite ?S1, ?N1, ?S2, ?N2, ?S3, ?N3, ?S4, ?N4, ?S5, ?N5;
    unfold q1_star, q1_snowflake, q2_star, q2_snowflake, q3, q4_star,
      q4_snowflake, q5_star, q5_snowflake, read_table;
    rewrite Hnone; split; reflexivity.
Qed.

(** With no failure from outside, a run of the comparator on a star
    database file without the table [sales_facts] (a file the builder has
    not filled yet) raises [OperationalError] at its first query: it has
    printed its four opening lines and read the clock once, no entry is
    recorded, and the two connections it made are left open. *)
Theorem comparator_fails_without_fact_table (w : World) :
  faults w = [] ->
  find_table "sales_facts" (star_db w) = None ->
  PerformanceComparator.main w
  = (Raise (OperationalError "no such table: sales_facts"),
     mkWorld (star_db w) (snowflake_db w) (data_dir w) (chart w)
       (connections w
        ++ [mkConnection StarFile true; mkConnection SnowflakeFile true])
       (clock w) (S (ticks w)) [] (stdout w ++ first_lines)).
Proof.
  intros Hf Hnone. destruct w as [sdb ndb dd ch cs ck tk fs out].
  cbn [faults star_db snowflake_db data_dir chart connections clock ticks stdout]
    in *.
  subst fs.
  destruct (suite_needs_sales_facts sdb
              (mkQueryPair q1_name q1_star_sql q1_snowflake_sql) Hnone
              ltac:(now left)) as [Hq1 _].
  cbn [star_query] in Hq1.
  unfold PerformanceComparator.main, PerformanceComparator.main_program,
    PerformanceComparator.run_performance_tests.
  unfold and_then at 1. unfold and_then at 1.
  cbn [get_self self star_db_path snowflake_db_path].
  rewrite (connects_run sdb ndb dd ch cs ck).
  unfold and_then at 1. rewrite (running_print sdb ndb dd ch cs ck).
  unfold and_then at 1. rewrite (running_print sdb ndb dd ch cs ck).
  unfold get_analytical_queries. cbn [for_in].
  unfold and_then at 1. unfold and_then at 1.
  unfold PerformanceComparator.run_query_pair.
  unfold and_then at 1. rewrite (running_print sdb ndb dd ch cs ck).
  unfold and_then at 1. rewrite (running_print sdb ndb dd ch cs ck).
  unfold and_then at 1. cbn [query_name star_query].
  rewrite (timing_star_run sdb ndb dd ch cs ck), Hq1.
  cbn [world]. unfold first_lines. rewrite <- !app_assoc. reflexivity.
Qed.

(** The statement in the sample world, where no builder has run. *)
Lemma comparator_fails_without_fact_table_witness :
  PerformanceComparator.main sample_world
  = (Raise (OperationalError "no such table: sales_facts"),
     mkWorld (star_db sample_world) (snowflake_db sample_world)
       (data_dir sample_world) (chart sample_world)
       (connections sample_world
        ++ [mkConnection StarFile true; mkConnection SnowflakeFile true])
       (clock sample_world) (S (ticks sample_world)) []
       (stdout sample_world ++ first_lines)).
Proof.
  exact (comparator_fails_without_fact_table sample_world eq_refl eq_refl).
Defined.

(* ===================================================================== *)
(** * 26. The two reports on one measurement *)
(* ===================================================================== *)

Lemma Qdiv_mult_cancel (a b : Q) : (0 < b)%Q -> (a / b * b == a)%Q.
Proof.
  intros Hb. unfold Qdiv. rewrite <- Qmult_assoc, (Qmult_comm (/ b)).
  rewrite Qmult_inv_r; [ring|]. intros Heq. rewrite Heq in Hb. discriminate.
Qed.

Lemma Qle_div_one (a b : Q) : (0 < b)%Q -> (a / b <= 1)%Q <-> (a <= b)%Q.
Proof.
  intros Hb. rewrite <- (Qmult_le_r (a / b) 1 b Hb).
  rewrite (Qdiv_mult_cancel a b Hb), Qmult_1_l. reflexivity.
Qed.

Lemma Qle_one_div (a b : Q) : (0 < b)%Q -> (1 <= a / b)%Q <-> (b <= a)%Q.
Proof.
  intros Hb. rewrite <- (Qmult_le_r 1 (a / b) b Hb).
  rewrite (Qdiv_mult_cancel a b Hb), Qmult_1_l. reflexivity.
Qed.

Lemma Qle_bool_ext (x y x' y' : Q) :
  ((x <= y)%Q <-> (x' <= y')%Q) -> Qle_bool x y = Qle_bool x' y'.
Proof.
  intros Hiff. destruct (Qle_bool x y) eqn:H1, (Qle_bool x' y') eqn:H2; trivial.
  - apply Qle_bool_iff, Hiff, Qle_bool_iff in H1. congruence.
  - apply Qle_bool_iff, Hiff, Qle_bool_iff in H2. congruence.
Qed.

Lemma Qinv_div (a b : Q) : (0 < a)%Q -> (0 < b)%Q -> (1 / (a / b) == b / a)%Q.
Proof.
  intros Ha Hb. field. split; intros Heq.
  - rewrite Heq in Ha. discriminate.
  - rewrite Heq in Hb. discriminate.
Qed.

(** With no failure from outside and two positive times, the line of the
    per-query loop and the last line of the detailed report name the same
    winner: the star schema when its time is the smaller, the snowflake
    schema otherwise, also on a tie. Each line gives a factor that is not
    below 1. (The two factors are the same quotient reached by two ways,
    [1 / (a / b)] and [b / a]; the code rounds each division, so they can
    differ in their last digit, and the statement does not compare them.) *)
Theorem reports_name_same_winner (i : Z) (r : ResultEntry)
    (st : State Comparator) :
  faults (world st) = [] ->
  (0 < star_time_ms r)%Q -> (0 < snowflake_time_ms r)%Q ->
  exists x y : Q,
    (1 <= x)%Q /\ (1 <= y)%Q
    /\ fst (PerformanceComparator.report_ratio (star_time_ms r)
              (snowflake_time_ms r) st) = Ok tt
    /\ stdout (world (snd (PerformanceComparator.report_ratio (star_time_ms r)
                             (snowflake_time_ms r) st)))
       = stdout (world st)
         ++ [Times (fst (winner_labels (star_time_ms r) (snowflake_time_ms r))) x]
    /\ fst (PerformanceComparator.print_detail i r st) = Ok tt
    /\ stdout (world (snd (PerformanceComparator.print_detail i r st)))
       = stdout (world st)
         ++ [Heading i (entry_query_name r);
             Rule "-" (py_len (entry_query_name r) + 4);
             Millis "Зірка:     " (star_time_ms r);
             Millis "Сніжинка:  " (snowflake_time_ms r);
             Times (snd (winner_labels (star_time_ms r) (snowflake_time_ms r))) y].
Proof.
  intros Hf Ha Hb. destruct st as [c [sdb ndb dd ch cs ck tk fs out]].
  cbn [world faults] in Hf. subst fs.
  set (a := star_time_ms r) in *. set (b := snowflake_time_ms r) in *.
  assert (H1 : Qlt_b (a / b) 1 = Qlt_b a b).
  { unfold Qlt_b. f_equal. apply Qle_bool_ext. now apply Qle_one_div. }
  assert (H2 : Qlt_b 1 (b / a) = Qlt_b a b).
  { unfold Qlt_b. f_equal. apply Qle_bool_ext. now apply Qle_div_one. }
  unfold PerformanceComparator.report_ratio, PerformanceComparator.print_detail.
  fold a b. rewrite (Qlt_b_true _ _ Ha), (Qlt_b_true _ _ Hb).
  unfold and_then. rewrite !(divide_ok _ _ _ Ha), !(divide_ok _ _ _ Hb).
  rewrite H1, H2. unfold winner_labels.
  rewrite !(state_print sdb ndb dd ch ck).
  destruct (Qlt_b a b) eqn:Hab.
  - rewrite (divide_ok _ _ _ (Qdiv_pos _ _ Ha Hb)).
    rewrite !(state_print sdb ndb dd ch ck).
    exists (1 / (a / b))%Q, (b / a)%Q.
    assert (Hx : (1 / (a / b) == b / a)%Q) by now apply Qinv_div.
    assert (Hy : (1 <= b / a)%Q).
    { apply Qle_one_div; [exact Ha|].
      unfold Qlt_b in Hab. apply negb_true_iff in Hab.
      destruct (Qlt_le_dec a b) as [Hlt|Hle]; [now apply Qlt_le_weak|].
      apply Qle_bool_iff in Hle. congruence. }
    split; [now rewrite Hx|]. split; [exact Hy|]. cbn [fst snd world stdout].
    rewrite <- !app_assoc. repeat split; reflexivity.
  - rewrite (divide_ok _ _ _ (Qdiv_pos _ _ Hb Ha)).
    rewrite !(state_print sdb ndb dd ch ck).
    exists (a / b)%Q, (1 / (b / a))%Q.
    assert (Hy : (1 / (b / a) == a / b)%Q) by now apply Qinv_div.
    assert (Hx : (1 <= a / b)%Q).
    { apply Qle_one_div; [exact Hb|].
      unfold Qlt_b in Hab. apply negb_false_iff in Hab.
      now apply Qle_bool_iff. }
    split; [exact Hx|]. split; [now rewrite Hy|]. cbn [fst snd world stdout].
    rewrite <- !app_assoc. repeat split; reflexivity.
Qed.

(** The statement for a star time of 2 ms and a snowflake time of 5 ms. *)
Lemma reports_name_same_winner_witness :
  let r := mkResultEntry q1_name (2 # 1) (5 # 1) [] [] in
  let st := mkState (mkComparator StarFile SnowflakeFile []) ready_world in
  exists x y : Q,
    (1 <= x)%Q /\ (1 <= y)%Q
    /\ fst (PerformanceComparator.report_ratio (star_time_ms r)
              (snowflake_time_ms r) st) = Ok tt
    /\ stdout (world (snd (PerformanceComparator.report_ratio (star_time_ms r)
                             (snowflake_time_ms r) st)))
       = stdout (world st)
         ++ [Times (fst (winner_labels (star_time_ms r) (snowflake_time_ms r))) x]
    /\ fst (PerformanceComparator.print_detail 1 r st) = Ok tt
    /\ stdout (world (snd (PerformanceComparator.print_detail 1 r st)))
       = stdout (world st)
         ++ [Heading 1 (entry_query_name r);
             Rule "-" (py_len (entry_query_name r) + 4);
             Millis "Зірка:     " (star_time_ms r);
             Millis "Сніжинка:  " (snowflake_time_ms r);
             Times (snd (winner_labels (star_time_ms r) (snowflake_time_ms r))) y].
Proof.
  exact (reports_name_same_winner 1
           (mkResultEntry q1_name (2 # 1) (5 # 1) [] [])
           (mkState (mkComparator StarFile SnowflakeFile []) ready_world)
           eq_refl eq_refl eq_refl).
Defined.

(* ===================================================================== *)
(** * 27. The shape of the reports of the suite *)
(* ===================================================================== *)

Section Ordering.
Context {A : Type} (stays_before : A -> A -> bool) (le : A -> A -> Prop).
Hypothesis le_kept : forall y x, stays_before y x = true -> le y x.
Hypothesis le_swapped : forall y x, stays_before y x = false -> le x y.

Lemma insert_sorted_ordered (x : A) (l : list A) :
  ordered le l -> ordered le (insert_sorted stays_before x l).
Proof.
  induction l as [|y rest IH]; intros Hl.
  - cbn. auto.
  - cbn [insert_sorted]. destruct (stays_before y x) eqn:Hyx.
    + destruct Hl as [Hhead Hrest]. specialize (IH Hrest).
      cbn [ordered]. split; [|exact IH].
      destruct rest as [|z rest'].
      * cbn. now apply le_kept.
      * cbn [insert_sorted]. destruct (stays_before z x); [exact Hhead|].
        now apply le_kept.
    + cbn [ordered]. split; [now apply le_swapped|exact Hl].
Qed.

Lemma order_by_ordered (l : list A) : ordered le (order_by stays_before l).
Proof.
  unfold order_by. assert (Hnil : ordered le []) by exact I.
  revert Hnil. generalize (@nil A) as acc.
  induction l as [|x rest IH]; intros acc Hacc; cbn [fold_left].
  - exact Hacc.
  - apply IH. now apply insert_sorted_ordered.
Qed.

Lemma insert_sorted_In (z x : A) (l : list A) :
  In z (insert_sorted stays_before x l) -> z = x \/ In z l.
Proof.
  induction l as [|y rest IH]; cbn [insert_sorted]; intros Hin.
  - destruct Hin as [<-|[]]. now left.
  - destruct (stays_before y x).
    + destruct Hin as [<-|Hin]; [right; now left|].
      destruct (IH Hin) as [->|Hr]; [now left|right; now right].
    + destruct Hin as [<-|Hin]; [now left|now right].
Qed.

Lemma order_by_In (z : A) (l : list A) :
  In z (order_by stays_before l) -> In z l.
Proof.
  unfold order_by.
  assert (Hgen : forall acc, In z (fold_left
            (fun sorted x => insert_sorted stays_before x sorted) l acc) ->
            In z acc \/ In z l).
  { induction l as [|x rest IH]; intros acc Hin; cbn [fold_left] in Hin.
    - now left.
    - destruct (IH _ Hin) as [Hacc|Hrest]; [|right; now right].
      destruct (insert_sorted_In _ _ _ Hacc) as [->|Hacc'];
        [right; now left|now left]. }
  intros Hin. destruct (Hgen [] Hin) as [[]|Hl]. exact Hl.
Qed.

End Ordering.

Lemma ordered_firstn {A} (le : A -> A -> Prop) (n : nat) (l : list A) :
  ordered le l -> ordered le (firstn n l).
Proof.
  revert l. induction n as [|n IH]; intros [|x rest] Hl; cbn; auto.
  destruct Hl as [Hhead Hrest]. split; [|now apply IH].
  destruct n, rest; cbn; auto.
Qed.

Lemma ordered_map {A B} (f : A -> B) (le : B -> B -> Prop) (l : list A) :
  ordered (fun a b => le (f a) (f b)) l -> ordered le (map f l).
Proof.
  induction l as [|x rest IH]; cbn; auto.
  intros [Hhead Hrest]. split; [|now apply IH].
  destruct rest; cbn; auto.
Qed.

Lemma desc_ordered {A} (total : A -> Q) (l : list A) :
  ordered (fun y x => (total x <= total y)%Q) (order_by (desc total) l).
Proof.
  apply order_by_ordered; unfold desc; intros y x Hb.
  - now apply Qle_bool_iff.
  - destruct (Qlt_le_dec (total y) (total x)) as [Hlt|Hle].
    + now apply Qlt_le_weak.
    + apply Qle_bool_iff in Hle. congruence.
Qed.

Lemma firstn_at_most {A} (n : nat) (l : list A) : (length (firstn n l) <= n)%nat.
Proof. revert l. induction n; intros [|x l]; cbn; try lia. specialize (IHn l). lia. Qed.

Lemma ordered_impl {A} (le le' : A -> A -> Prop) (l : list A) :
  (forall a b, le a b -> le' a b) -> ordered le l -> ordered le' l.
Proof.
  intros Himp. induction l as [|x rest IH]; cbn; auto.
  intros [Hhead Hrest]. split; [|now apply IH].
  destruct rest; auto.
Qed.

Lemma ranked_rows {A} (to_row : A -> sql_row) (total : A -> Q) (i : nat)
    (l : list A) :
  (forall a, real_at i (to_row a) = total a) ->
  ordered (fun y x => (total x <= total y)%Q) l ->
  non_increasing i (map to_row l).
Proof.
  intros Heq Hl. unfold non_increasing. apply ordered_map.
  eapply ordered_impl; [|exact Hl]. cbn beta. intros a b Hab.
  rewrite !Heq. exact Hab.
Qed.

Lemma q1_report_ranked (joined : list (string * Q)) :
  non_increasing 1 (q1_report joined).
Proof.
  unfold q1_report.
  apply (ranked_rows _ (fun '(_, total_sales, _, _) => total_sales)).
  - intros [[[? ?] ?] ?]. reflexivity.
  - apply desc_ordered.
Qed.

Lemma q2_report_ranked (joined : list q2_joined_row) :
  non_increasing 2 (q2_report joined) /\ (length (q2_report joined) <= 10)%nat.
Proof.
  unfold q2_report. split.
  - apply (ranked_rows _ (fun '(_, _, total_sales, _) => total_sales)).
    + intros [[[? ?] ?] ?]. reflexivity.
    + apply ordered_firstn, desc_ordered.
  - rewrite length_map. apply firstn_at_most.
Qed.

Lemma q3_report_ranked (joined : list (Z * string * Q)) :
  non_decreasing 0 (q3_report joined).
Proof.
  unfold q3_report, non_decreasing. apply ordered_map.
  eapply ordered_impl; [|apply (order_by_ordered _
    (fun y x : Z * string * Q * Z =>
       let '(my, _, _, _) := y in let '(mx, _, _, _) := x in (my <= mx)%Z))].
  - intros [[[my ?] ?] ?] [[[mx ?] ?] ?] Hle. cbn. now rewrite <- Zle_Qle.
  - intros [[[my ?] ?] ?] [[[mx ?] ?] ?] Hb. now apply Z.leb_le.
  - intros [[[my ?] ?] ?] [[[mx ?] ?] ?] Hb. apply Z.leb_gt in Hb. lia.
Qed.

Lemma q4_report_ranked (joined : list q4_joined_row) :
  non_increasing 2 (q4_report joined) /\ (length (q4_report joined) <= 20)%nat.
Proof.
  unfold q4_report. split.
  - apply (ranked_rows _ (fun '(_, _, total_sales, _, _) => total_sales)).
    + intros [[[[? ?] ?] ?] ?]. reflexivity.
    + apply ordered_firstn, desc_ordered.
  - rewrite length_map. apply firstn_at_most.
Qed.

Lemma q5_report_ranked (joined : list q5_joined_row) :
  non_increasing 4 (q5_report joined)
  /\ Forall (fun row => (10000 # 1 < real_at 4 row)%Q) (q5_report joined).
Proof.
  unfold q5_report. split.
  - apply (ranked_rows _
      (fun '(_, _, _, _, total_sales, _, _, _) => total_sales)).
    + intros [[[[[[[? ?] ?] ?] ?] ?] ?] ?]. reflexivity.
    + apply desc_ordered.
  - apply List.Forall_forall. intros row Hrow.
    apply in_map_iff in Hrow. destruct Hrow as (r & <- & Hr).
    apply order_by_In in Hr. apply List.filter_In in Hr.
    destruct Hr as [_ Hkeep].
    destruct r as [[[[[[[? ?] ?] ?] total_sales] ?] ?] ?].
    cbn. apply negb_true_iff in Hkeep.
    destruct (Qlt_le_dec (10000 # 1) total_sales) as [Hlt|Hle]; [exact Hlt|].
    apply Qle_bool_iff in Hle. congruence.
Qed.

Ltac read_tables :=
  repeat match goal with
         | |- context [read_table ?n ?s ?d] =>
             destruct (read_table n s d); cbn [result_bind]
         end.

(** Whatever the database holds, the rows that a statement of the suite
    returns from it come in the order its text asks for and within its
    bounds: sales by region, the top products, the salespeople and the
    complex analysis by total sales, largest first; the months of 2023 by
    month number, smallest first; at most 10 products and at most 20
    salespeople; and in the complex analysis only groups whose total sales
    exceed 10000. *)
Theorem suite_reports_are_ranked (db : Database) :
  Forall (on_rows db (non_increasing 1)) [q1_star_sql; q1_snowflake_sql]
  /\ Forall (on_rows db (fun rows =>
               non_increasing 2 rows /\ (length rows <= 10)%nat))
       [q2_star_sql; q2_snowflake_sql]
  /\ Forall (on_rows db (non_decreasing 0)) [q3_star_sql; q3_snowflake_sql]
  /\ Forall (on_rows db (fun rows =>
               non_increasing 2 rows /\ (length rows <= 20)%nat))
       [q4_star_sql; q4_snowflake_sql]
  /\ Forall (on_rows db (fun rows =>
               non_increasing 4 rows
               /\ Forall (fun row => (10000 # 1 < real_at 4 row)%Q) rows))
       [q5_star_sql; q5_snowflake_sql].
Proof.
  destruct (fetch_all_suite db)
    as (S1 & N1 & S2 & N2 & S3 & N3 & S4 & N4 & S5 & N5).
  repeat split; repeat constructor; unfold on_rows;
    rewrite ?S1, ?N1, ?S2, ?N2, ?S3, ?N3, ?S4, ?N4, ?S5, ?N5;
    unfold q1_star, q1_snowflake, q2_star, q2_snowflake, q3, q4_star,
      q4_snowflake, q5_star, q5_snowflake;
    read_tables; try exact I.
  - apply q1_report_ranked.
  - apply q1_report_ranked.
  - apply q2_report_ranked.
  - apply q2_report_ranked.
  - apply q3_report_ranked.
  - apply q3_report_ranked.
  - apply q4_report_ranked.
  - apply q4_report_ranked.
  - apply q5_report_ranked.
  - apply q5_report_ranked.
Qed.
